(* ===== verification/_CoqProject ===== *)
-Q . S2P
Prelude.v
Model.v
Lifecycle.v
Accounts.v
Seed.v
Chat.v
Ledger.v
Client.v
Cards.v
CardSession.v
Feed.v
Routes.v
Forms.v
Details.v
PointsField.v
Distance.v
Upload.v
Geocode.v
Picker.v
FormSession.v
CreatePage.v
MapView.v
LocationPicker.v
ChatPanel.v
ProfilePage.v
TaskChat.v
