(* ===== verification/Prelude.v ===== *)
(** * VolunteerHub: a verification development of the task marketplace

    The repository is a browser application (React) in which users post help
    requests ("tasks"), volunteers claim and fulfil them and a points economy
    pays for completed work.  All persistence goes through one module,
    [src/Volonter-Hub-main/src/services/mockApi.js], which stores four JSON
    collections in [localStorage] and exposes an asynchronous API
    ([login], [register], [getTasks], [getUsers], [createTask],
    [updateTaskStatus], [abandonTask], [updateUser], [getChatMessages],
    [sendChatMessage]) together with a seeding routine [seedData] that runs
    at module load.  React contexts ([src/src/contexts/TaskContext.jsx],
    [src/src/contexts/AuthContext.jsx]) call the API and keep client-side
    copies of the task list and of the signed-in user; the views
    ([TaskCard.jsx], [AdminDashboard.jsx], [UserDashboard.jsx],
    [ChatSidebar.jsx]) decide which API calls a user can trigger.

    ** How the program is modelled

    Every API function reads its collections from storage, mutates the
    decoded objects and writes whole collections back.  The development
    models the storage as a record of decoded collections ([Model.store])
    and each API function as a computation in a small state-and-error monad
    ([M], below): [get]/[put] are the [localStorage.getItem]/[setItem] pairs,
    [throw] is [throw new Error(...)], and the error carries the store as it
    was at the throw, so that "a failed call writes nothing" is a theorem and
    not a modelling convention.  Mutation of an object found with
    [Array.prototype.find] is modelled by the index of the first match
    (stdpp's [list_find]) and an in-place update of the array at that index
    (stdpp's list insert [<[i:=x]>]), which is what the aliasing in the
    source amounts to.  JavaScript truthiness ([x || 0], [if (userId)])
    is written out by the helpers below; numbers that the code treats as
    integers (points, timestamps) are [Z].

    ** Files, in dependency order, and what their theorems show
    - [Prelude]: this header, the monad [M] with its notation scope
      [api_scope], the hint databases [vh] and [api_simpl], the tactics,
      the reflexive-transitive closure [star] with its induction principle
      for invariants, and the lemmas on [list_find] and list update shared
      by all components.
    - [Model]: the data of [mockApi.js] (users, tasks, reports, chat
      messages, the statuses and roles), the store, the API errors, the
      storage primitives and the identifiers built from [Date.now()].
    - [Lifecycle] (Module [Lifecycle]): [createTask], [updateTaskStatus]
      (claim check, report, payout), [abandonTask] (penalty, debit, credit
      looked up in the debited array).  Theorems: the result and the
      stored state on every branch, errors included; claim exclusion;
      atomicity of a failed call; the double payout.
    - [Accounts] (Module [Accounts]): [login], [register], [getTasks],
      [getUsers], [updateUser].  Theorems: credential check, the
      password-free result, the register/login round trip, duplicates.
    - [Seed] (Module [Seed]): [seedData], run at every page load: the
      migration of Russian city names, the [Object.assign] merge of the
      default users, the default tasks.  Theorems: seeding is idempotent;
      it restores the default accounts' fields, balances included; it moves
      every task out of the migrated cities and keeps its identity.
    - [Chat] (Module [Chat]): [getChatMessages] (filter and a stable sort
      by timestamp), [sendChatMessage], and the views ChatSidebar.jsx
      ([userTasks], [getOtherUser], [loadChats], [loadMessages], its
      [handleSendMessage]) and Chat.jsx ([otherUserId], [loadChat], its
      [handleSendMessage]).  Theorems: the result is sorted, a permutation
      of the task's messages and stable; every stable sort gives the same
      list; send-then-get round trip; the sidebar's cache stays equal to
      the server's chats; sent texts are trimmed and non-empty; the two
      views agree on the other party.  A concrete run shows the chat list,
      reloaded only when the number of chat tasks changes, missing a task.
    - [Ledger]: every API call, chat calls and page loads included, as
      one step relation [api_step], restricted to the calls whose task
      points are not negative and that do not write points ([safe_call]);
      the non-negative-balance invariant over every store reachable by such
      calls (rule induction on [star]) and the exact change of the total of
      all balances made by each operation.  The API checks none of this
      itself, and the creation page can break it ([FormSession]).
    - [Client] (Module [Client]): AuthContext and TaskContext over the store
      and the client state, the session restored at page load included;
      their task cache stays equal to the stored tasks (coherence) after
      each of their operations, a sign-in survives a page load, and a
      profile update keeps the session equal to the stored user.
    - [Cards] (Module [Cards]): the buttons of TaskCard.jsx, which of them
      each role sees ([offered]) and what each does ([perform]).  Theorems:
      every successful button refines a transition of the spec's abstract
      lifecycle ([spec_step]); the spec's assignment invariant holds on
      every state reachable through the user interface; the administrator's
      "reject report" button always fails.
    - [CardSession] (Module [CardSession]): one mounted TaskCard.jsx with
      CompleteTaskModal.jsx as a transition system: its [useState]s
      ([isModalOpen], [isDetailsModalOpen], [loading], the modal's
      [description] and [imageUrl]), the world of [Client], and the
      handlers waiting on their [await] ([cd_pending]); a click runs a
      handler up to its [await] ([click]), [CRespond i] lets the [i]-th
      call return ([respond]: [Cards.perform], then the code after the
      [await]).  Theorems: the card's conditions, written with the status
      and its label, are exactly [Cards.offered]; [loading] is up exactly
      while one report or abandonment is in flight, never two; the report
      typed into the modal is the one stored and shown; two clicks on
      Confirm before the answer pay the volunteer twice.
    - [Feed] (Module [Feed]): UserDashboard.jsx (the three lists, the
      sorts by distance, points and date, the tabs, badges and map
      preview), AdminDashboard.jsx (moderation lists, counters, handlers)
      and the role switch of Dashboard.jsx.  Theorems: every task of the
      feed is one the task card lets the user take; a task under review is
      invisible on its volunteer's dashboard; the sort by points is
      descending and stable; the preview's counters add up; the
      administrator's counters are bounded by the number of tasks.
    - [Routes] (Module [Routes]): the routes of App.jsx with the
      [PrivateRoute] guard and the redirections, the error boundary,
      Navbar.jsx, ThemeContext.jsx and ChatContext.jsx.  Theorems: every
      location reaches a screen within three redirections (the fuel of
      [resolve]); private pages are shown only to a signed-in user; a
      visitor lands on the login form; the stored theme survives a reload.
    - [Forms] (Module [Forms]): LoginForm.jsx (fields, quick sign-in
      buttons, submit), Register.jsx (submit through the contexts), the
      fields of Profile.jsx, and the messages of the thrown errors.
      Theorems: each quick sign-in button works after any page load; wrong
      credentials leave the session unchanged.
    - [Details] (Module [Details]): TaskDetailsModal.jsx (the users it
      loads, who sees which contacts) and CreateTaskForm.jsx (the object it
      sends, with [parseInt] on the points field).  Theorems: contacts are
      shown only to the people the modal's rule allows; [parseInt] reads
      back every integer [String] prints.
    - [PointsField] (Module [PointsField]): the points input of
      CreateTaskForm.jsx as the browser checks it ([parse_float], HTML's
      grammar of a valid floating-point number, its exact rational value
      [float_value], and [points_accepted]: [min="1"], [max], step 1).
      Theorems: an accepted text has no minus sign and [parseInt] reads its
      integer digits, or [NaN] when it starts with ["."]; so every
      submission through the form's own checks is a step of [Ledger]'s
      [api_step] and keeps the non-negative ledger.  Concrete texts show
      ".5e1" and "0.5e1" accepted and sent as [NaN] and 0 points.
    - [Upload] (Module [Upload]): ImageUpload.jsx as a transition system
      whose events are the user's drags, drops, choices and removals and
      the completions of the [FileReader]s it starts ([step], [run]).
      Also what it renders ([view]: the drop zone's highlight, the hint,
      the grid of previews) and its calls of [onImagesChange] ([notify]).
      Theorem: when files are added only while no reader is pending, the
      loaded photos never exceed [maxImages] (an invariant proved by
      induction on the run); a concrete run shows the limit broken by two
      quick drops.
    - [Geocode] (Module [Geocode]): how MapPicker.jsx and LocationPicker.jsx
      read Nominatim's answers ([reverseGeocode], [geocode]); the network
      answer is the argument.  Theorems: the address built piece by piece
      is the ", "-join of its non-empty components; the search result is
      the first item the Kazakhstan test accepts, else the first.
    - [Picker] (Modules [Picker], [Wheel]): MapPicker.jsx with its parent
      CreateTaskForm.jsx as a transition system whose events are the
      user's gestures, the form's keystrokes and Nominatim's answers to a
      queue of pending requests ([step], [respond], [mount]; the network is
      a Section variable).  Enter in the address field runs both
      [handleAddressSubmit] and, because MapPicker's form is nested in the
      creation form and the submit event bubbles, the creation form's
      [handleSubmit] ([addressEnter]).  Theorems: answered in order, every
      gesture that chooses a point (the search through the "Найти" button)
      settles with the form holding the map's point and its
      address ([gesture_settles]); the form's missing-location error is
      unreachable; the zoom stays in [4, 18]; an answer keeps a city that
      was typed before its request.  Concrete runs show the answers out of
      order, a typed city overwritten, a request per keystroke, and the
      stale wheel listener taking the zoom to 19.
    - [FormSession] (Module [FormSession]): the pattern LoginForm.jsx,
      Register.jsx and CreateTaskForm.jsx share, as a typeclass [AsyncForm]
      (the edits, the browser's [required] checks, the error and loading
      setters, the early return, the awaited context call and the catch's
      message) with its three instances ([login_async], [register_async],
      [create_async]), and one session ([step]: edits, a submission that
      the button's [disabled={loading}] and the browser's checks guard, the
      submit event of a nested form ([SNested]: Enter in MapPicker's
      address field, which reaches [handleSubmit] with neither guard), the
      answer of the call in flight) proved once against the class.
      Theorems: in a form with no nested form (login, registration),
      [loading] is up exactly while one submission waits; a submission
      answered at once is the one-call model of [Forms] and [Details]; on
      the creation page, Enter in the address field stores a task with
      negative points whatever the form's state, which breaks the
      non-negative ledger ([enter_stores_negative]), and can start a second
      call while one is in flight.
    - [CreatePage] (Module [CreatePage]): the creation page as the
      product of two transition systems, the form's session over
      [create_async] and ImageUpload.jsx's [Upload.step], joined by
      [onImagesChange={setImages}] ([page_step]).  Theorems: the form's
      images agree with the pictures the grid shows after every event (an
      agreement relation preserved by each step), so a submission sends
      the photos on the screen; a concrete run shows two quick drops
      sending ten photos.
    - [MapView] (Module [MapView]): the points UserDashboard.jsx gives the
      feed's tasks ([taskCoords]: the task's own, its city's or Almaty's)
      and MapView.jsx's bounding box, padding and markers ([view]).
      Theorem: every marker, the user's included, lies inside the box.
    - [Distance] (Module [Distance]): the two haversine distances,
      UserDashboard.jsx's [calculateDistance] and geolocation.js's
      [getDistanceFromLatLonInKm] (with [deg2rad], the truthiness test and
      [toFixed(1)]), [getUserLocation] and the dashboard's location effect,
      on the real numbers of the Standard Library ([Math.atan2] as
      [atan2]).  Theorems: the haversine term lies in [[0, 1]] (a
      Cauchy-Schwarz argument on the unit circle), so the distance is 0
      from a point to itself, symmetric and at most [π R]; the two copies
      agree up to the rounding of [toFixed(1)] (0.05 km), except that
      geolocation.js answers [null] for a coordinate 0.  Also the
      distance the dashboard attaches to a task and its label under the
      task ([label_of]: metres by [Math.round] below 1 km, [toFixed(1)] km
      above); theorem: the label's bounds and precision, with a distance
      of 0 unlabelled and "1000 м" shown just under 1 km.
    - [LocationPicker] (Module [LocPicker]): LocationPicker.jsx, imported
      nowhere, as a transition system ([step] = [handle] then [render])
      over its five [useState]s, the armed 500 ms autosuggest timeout, the
      requests in flight (answered in any order) and the calls its parent's
      callbacks receive; [initialLocation] is any JavaScript value
      ([jsval]).  Theorems: a typing invariant (the coordinates are always
      a pair of numbers when the prop has the expected shape); the spinner
      stops once no search is in flight; answered in order, the point shown
      is the one the parent last received; choosing a suggestion re-arms
      the autosuggest.  Concrete runs show the list coming back after a
      choice, answers out of order, and the props the only [Array.isArray]
      check lets through.
    - [ChatPanel] (Module [Panel]): the chat window of ChatSidebar.jsx as a
      concurrent system over the sidebar's state, the drafts, the 3-second
      polling interval, the calls in flight and the store.  Theorems: when
      the mock API answers in call order and the clock is not behind the
      stored messages, the cached chats always equal the server's (an
      invariant over the queue of calls in flight); a second press of the
      send button sends the text again; the draft is emptied when a send
      returns; a list entry's preview has at most [n + 3] characters.
    - [TaskChat] (Module [TaskChat]): Chat.jsx, the chat of the route
      [/chat/:taskId], as a transition system over its state, its calls in
      flight and the store ([mount], [step], [respond]) and its three
      screens ([chat_screen]), and what the chat screen shows ([view]: the
      other party's name, the loading or empty text, the bubbles, the send
      button).  Theorems: its loading computes what the one-call
      [Chat.loadChat] computes ([load_refines], a refinement); a signed-in
      user who takes no part in a task sees its chat form and can store
      messages in its chat ([outsider_posts]); a message sent comes back as
      the user's own last bubble and disables the button ([sent_shown]).
    - [ProfilePage] (Module [ProfilePage]): Profile.jsx as a transition
      system over its form, the contexts' world and the save in flight
      ([step], [save_start], [save_finish]) and what it shows ([view]).
      Theorems: whatever happens while a save is on its way, its answer
      leaves the form, the session and the store with the submitted values
      (so "Отмена" does not cancel a save); for a user missing from the
      store the save shows the API's message and changes nothing.

    Every definition is structurally recursive.  Two functions take fuel:
    [Routes.resolve], the following of redirections, whose fuel 3 is
    proved enough for every location ([resolve_total]), and
    [Picker.drain], the answers to the pending requests in order, whose
    fuel [gesture_fuel] (6, or twice the length of a drag plus 6) is proved
    enough to answer every request a gesture causes, those the form's
    re-renders add included ([gesture_settles], by a measure that
    decreases at each answer).  Every other theorem about a result is
    about a total function.

    ** Not modelled
    The rounding errors of floating-point arithmetic ([Distance] computes
    on real numbers; the distance sort of [Feed] takes its key as a
    parameter), the browser's location API (its answer is a parameter),
    the map's projection arithmetic and rendering (a
    gesture's coordinates are the argument of its event), the network
    itself (Nominatim's answers are parameters), the decoding of the image
    files (a reader's result is taken as given), the URL text of the map
    frames, the DOM side of the theme and the styling configuration are
    not modelled: they are presentation or browser I/O.  The sidebar's open
    flag, the chat views' dates and avatars (the avatar is the first
    UTF-16 unit of a name, which byte strings do not have), Chat.jsx's
    scrolling effect, LocationPicker.jsx's coordinates text
    ([toFixed(6)]) and map links, the sidebar's chat count header, and
    the [console.log] and [alert] calls of TaskCard.jsx are not modelled
    either.

    ** Assumptions of the model
    - A JavaScript object used as a lookup table (the city table of
      [seedData], the dashboard's [cityCoordinates]) is read at the city
      names the data holds; the keys every object inherits from
      [Object.prototype] (such as "constructor") are not modelled.
    - An absent balance is [None] and is never enough for an escrow
      ([undefined >= x] is false); a stored [null], which [null >= x] would
      read as 0, is not modelled, since no operation of the program writes
      [null] points.
    - The JSON round trip through [localStorage] is the identity on the
      records modelled (the fields modelled are strings, integers, lists
      and [null]); [NaN] and absent numbers become [None].
    - [Date.now()] is an argument of the operations that read the clock;
      the ISO timestamps of chat messages ([new Date().toISOString()]) are
      modelled by the milliseconds they denote, which the comparator
      [new Date(a.timestamp) - new Date(b.timestamp)] compares.
    - [String.prototype.trim] and the white space skipped by [parseInt]
      are modelled on the ASCII white space characters; other Unicode
      spaces are treated as text.
    - The asynchronous [delay] before every call is not modelled in the
      API's own files: one tab runs the calls one after another;
      interleavings of two tabs are sequences of whole calls, which is
      exact for this code because every call reads and writes storage
      without an [await] in between.  Where a view lets the user act while
      a call is on its way ([CardSession], [FormSession], [Upload], [Picker],
      [LocationPicker], [ChatPanel], [TaskChat], [ProfilePage]) the call
      in flight is a request and its answer a separate event; the answer
      runs the whole context function, whose awaits after the API call
      ([refreshUser]) only read the store.
    - The browser's validation of [<input type="number">] follows HTML's
      definitions (the value is kept only when it is a valid floating-point
      number; range and step checks on its exact value); that of an
      [<input type="url">] is a parameter
      ([valid_url] of [CardSession]), and that of an [<input type="email">]
      is the parameter [valid_email] of [register_async]; the maximum of
      the points input is read at the submission; [window.confirm]'s answer is part of
      the click event. *)

From stdpp Require Export base list strings option decidable numbers.

(** * The state-and-error monad of the API *)

(** The result of running an API call on a store [S]: a value and the final
    store, or an error of type [E] and the store at the time of the throw. *)
Inductive outcome (S E A : Type) : Type :=
| Ok (a : A) (s : S)
| Err (e : E) (s : S).
Arguments Ok {S E A} a s.
Arguments Err {S E A} e s.

Definition M (S E A : Type) : Type := S -> outcome S E A.

Section Monad.
Context {S E : Type}.

Definition ret {A} (a : A) : M S E A := fun s => Ok a s.

Definition bind {A B} (m : M S E A) (k : A -> M S E B) : M S E B :=
  fun s => match m s with
           | Ok a s' => k a s'
           | Err e s' => Err e s'
           end.

Definition throw {A} (e : E) : M S E A := fun s => Err e s.

Definition gets {A} (f : S -> A) : M S E A := fun s => Ok (f s) s.

Definition modify (f : S -> S) : M S E unit := fun s => Ok tt (f s).

(** The store after a run, whatever its result. *)
Definition final_store {A} (o : outcome S E A) : S :=
  match o with Ok _ s => s | Err _ s => s end.

Definition is_ok {A} (o : outcome S E A) : bool :=
  match o with Ok _ _ => true | Err _ _ => false end.
End Monad.

Declare Scope api_scope.
Delimit Scope api_scope with api.
Notation "x <- m ;; k" := (bind m (fun x => k))
  (at level 100, m at next level, right associativity) : api_scope.
Notation "m ;;; k" := (bind m (fun _ => k))
  (at level 100, right associativity) : api_scope.

(** * JavaScript values the code tests for truthiness *)

(** [if (id)] on a string id that may be [null]: the empty string is falsy. *)
Definition truthy_id (o : option string) : bool :=
  match o with Some s => bool_decide (s ≠ "") | None => false end.

(** [a || b] on ids. *)
Definition or_id (a b : option string) : option string :=
  if truthy_id a then a else b.

(** [x || 0] on a number that may be [undefined], [null] or [NaN] ([None]). *)
Definition or_zero (o : option Z) : Z := default 0%Z o.

(** [if (x)] on such a number: [0] and [NaN] are falsy. *)
Definition truthy_num (o : option Z) : bool :=
  match o with Some z => bool_decide (z ≠ 0%Z) | None => false end.

(** * Automation *)

Create HintDb vh discriminated.
Create Rewrite HintDb api_simpl.

Lemma bind_ret_l {S E A B} (a : A) (k : A -> M S E B) s :
  bind (ret a) k s = k a s.
Proof. reflexivity. Qed.

Lemma bind_throw {S E A B} (e : E) (k : A -> M S E B) s :
  bind (throw e) k s = Err e s.
Proof. reflexivity. Qed.

Lemma bind_assoc {S E A B C} (m : M S E A) (k : A -> M S E B)
      (k' : B -> M S E C) s :
  bind (bind m k) k' s = bind m (fun a => bind (k a) k') s.
Proof. unfold bind. by destruct (m s). Qed.

(** A computation followed by [ret tt] succeeds when the computation does. *)
Lemma bind_ret_unit_ok {S E A} (m : M S E A) s s' :
  bind m (fun _ => ret tt) s = Ok tt s' -> ∃ a, m s = Ok a s'.
Proof. unfold bind, ret. destruct (m s); [intros [= ->]; eauto|done]. Qed.

#[export] Hint Rewrite @bind_ret_l @bind_throw @bind_assoc : api_simpl.

(** Unfold one layer of monadic plumbing. *)
Ltac api_unfold :=
  unfold bind, ret, throw, gets, modify in *; simpl in *.

(** Split boolean conjunctions and [bool_decide]s in the hypotheses. *)
Ltac bools :=
  repeat match goal with
  | H : _ && _ = true |- _ => apply andb_prop in H as [? ?]
  | H : bool_decide _ = true |- _ => apply bool_decide_eq_true_1 in H
  | H : negb _ = true |- _ => apply negb_true_iff in H
  end.

(** Prove a decidable proposition about concrete data by evaluation. *)
Ltac decide_prop :=
  match goal with |- ?P => apply (bool_decide_eq_true_1 P); vm_compute; reflexivity end.

(** Case analysis on a [list_find] in the goal, keeping its equation. *)
Ltac case_find :=
  match goal with
  | |- context [list_find ?P ?l] =>
      let E := fresh "Hfind" in destruct (list_find P l) as [[? ?]|] eqn:E
  end.

(** * Sequences of steps *)

(** Zero or more steps of a transition relation. *)
Inductive star {A} (R : A -> A -> Prop) : A -> A -> Prop :=
| star_refl a : star R a a
| star_step a b c : star R a b -> R b c -> star R a c.

(** An invariant of every step holds along every sequence of steps. *)
Lemma star_invariant {A} (R : A -> A -> Prop) (P : A -> Prop) a b :
  (∀ x y, P x -> R x y -> P y) -> P a -> star R a b -> P b.
Proof. intros Hstep Ha Hs. induction Hs; eauto. Qed.

Lemma star_one {A} (R : A -> A -> Prop) a b : R a b -> star R a b.
Proof. intros H. eapply star_step; [apply star_refl|exact H]. Qed.

Lemma star_cons {A} (R : A -> A -> Prop) a b c : R a b -> star R b c -> star R a c.
Proof.
  intros Hab Hbc. revert Hab. induction Hbc as [b|b c d _ IH Hcd]; intros Hab.
  - by apply star_one.
  - eapply star_step; [exact (IH Hab)|exact Hcd].
Qed.

(** * Generic lemmas on [list_find] and in-place update *)

Section ListFind.
Context {A : Type} (P : A -> Prop) `{HP : ∀ x, Decision (P x)}.

Lemma list_find_lookup l i x :
  list_find P l = Some (i, x) -> l !! i = Some x.
Proof. intros H. by apply list_find_Some in H as [? _]. Qed.

Lemma list_find_holds l i x :
  list_find P l = Some (i, x) -> P x.
Proof. intros H. by apply list_find_Some in H as [_ [? _]]. Qed.

Lemma list_find_in l i x :
  list_find P l = Some (i, x) -> x ∈ l.
Proof.
  intros H. apply list_find_lookup in H. by eapply list_elem_of_lookup_2.
Qed.

Lemma list_find_lt l i x :
  list_find P l = Some (i, x) -> (i < length l)%nat.
Proof. intros H. apply list_find_lookup in H. by eapply lookup_lt_Some. Qed.

Lemma list_find_none_not l x :
  list_find P l = None -> x ∈ l -> ¬ P x.
Proof.
  intros H Hx. apply list_find_None in H.
  by eapply Forall_forall in H; [|apply list_elem_of_In].
Qed.

Lemma list_find_none_of l :
  Forall (fun x => ¬ P x) l -> list_find P l = None.
Proof. apply list_find_None. Qed.

(** Updating the found element: the array then holds the new object at the
    index and everything else unchanged. *)
Lemma insert_found_lookup l i x y :
  list_find P l = Some (i, x) -> <[i:=y]> l !! i = Some y.
Proof.
  intros H. apply list_lookup_insert_eq. by eapply list_find_lt.
Qed.

(** Overwriting another position with an element that does not satisfy
    [P], where nothing before the first match satisfied [P], keeps the
    first match. *)
Lemma list_find_insert_other l i x j y :
  list_find P l = Some (i, x) -> j ≠ i -> ¬ P y ->
  (∀ z, l !! j = Some z -> (j < i)%nat -> ¬ P z) ->
  list_find P (<[j:=y]> l) = Some (i, x).
Proof.
  intros Hf Hne Hy Hbef. apply list_find_insert_Some.
  destruct (decide (i < j)%nat); [by left|].
  right; right; left. split_and!; [lia|done|done|]. intros z Hz. apply (Hbef z Hz). lia.
Qed.

(** Replacing the found element by one that still satisfies the predicate
    keeps the result of the search at the same index. *)
Lemma list_find_insert_same l i x y :
  list_find P l = Some (i, x) -> P y -> list_find P (<[i:=y]> l) = Some (i, y).
Proof.
  intros H Hy. apply list_find_Some in H as (Hl & Hp & Hbef).
  apply list_find_Some. split_and!.
  - apply list_lookup_insert_eq. by eapply lookup_lt_Some.
  - done.
  - intros j z Hj Hlt. rewrite list_lookup_insert_ne in Hj by lia.
    by eapply Hbef.
Qed.

Lemma insert_found_in l i x y :
  list_find P l = Some (i, x) -> y ∈ <[i:=y]> l.
Proof.
  intros H. eapply list_elem_of_lookup_2. by eapply insert_found_lookup.
Qed.
End ListFind.

Lemma elem_of_insert_inv {A} (l : list A) i (y z : A) :
  z ∈ <[i:=y]> l -> z = y ∨ z ∈ l.
Proof.
  intros Hz. apply list_elem_of_lookup in Hz as [j Hj].
  destruct (decide (i = j)) as [->|Hne].
  - destruct (decide (j < length l)%nat).
    + rewrite list_lookup_insert_eq in Hj by done. left. congruence.
    + rewrite list_insert_ge in Hj by lia. right. by eapply list_elem_of_lookup_2.
  - rewrite list_lookup_insert_ne in Hj by done. right.
    by eapply list_elem_of_lookup_2.
Qed.

#[export] Hint Resolve list_find_in list_find_lookup insert_found_in : vh.

(** * Removing one element of a list by index *)

(** [l.splice(i, 1)], or the answer to the [i]-th request in flight: what
    does not satisfy [P] can be removed without losing a witness of [P]. *)
Lemma Exists_delete {A} (P : A -> Prop) (l : list A) i r :
  l !! i = Some r -> ¬ P r -> Exists P l -> Exists P (delete i l).
Proof.
  intros Hi HP. rewrite <-(take_drop_middle l i r Hi) at 1.
  rewrite delete_take_drop, !Exists_app, Exists_cons.
  intros [Ht|[Hr|Hd]]; [by left|done|by right].
Qed.

Lemma Forall_delete {A} (P : A -> Prop) (l : list A) i :
  Forall P l -> Forall P (delete i l).
Proof.
  intros Hl. rewrite delete_take_drop. apply Forall_app; split.
  - by apply Forall_take. - by apply Forall_drop.
Qed.

(** Counting the elements a test selects, before and after one is removed. *)
Lemma filter_length_delete {A} (f : A -> bool) (l : list A) i r :
  l !! i = Some r ->
  length (List.filter f l) = length (List.filter f (delete i l)) + (if f r then 1 else 0).
Proof.
  intros Hi. rewrite <-(take_drop_middle l i r Hi) at 1.
  rewrite delete_take_drop, !List.filter_app, !length_app. simpl. destruct (f r); simpl; lia.
Qed.

Lemma filter_length_snoc {A} (f : A -> bool) (l : list A) r :
  length (List.filter f (l ++ [r])) = length (List.filter f l) + (if f r then 1 else 0).
Proof. rewrite List.filter_app, length_app. simpl. by destruct (f r). Qed.

(** * Strings *)

(** stdpp makes [String.append] opaque to [simpl]: its two equations. *)
Lemma str_app_nil_l (b : string) : "" +:+ b = b.
Proof. reflexivity. Qed.

Lemma str_app_cons x (a b : string) : String x a +:+ b = String x (a +:+ b).
Proof. reflexivity. Qed.

Lemma str_app_assoc (a b c : string) : (a +:+ b) +:+ c = a +:+ (b +:+ c).
Proof. induction a as [|x a IH]; [done|]. by rewrite !str_app_cons, IH. Qed.

Lemma str_app_nonempty_l (a b : string) : a ≠ "" -> a +:+ b ≠ "".
Proof. destruct a; [done|]. rewrite str_app_cons. discriminate. Qed.

Lemma str_length_app (a b : string) :
  String.length (a +:+ b) = (String.length a + String.length b)%nat.
Proof. induction a as [|x a IH]; [done|]. rewrite str_app_cons. cbn. by rewrite IH. Qed.

(** [s.substring(0, n)] of a string of at least [n] characters has [n]. *)
Lemma str_length_prefix n (s : string) :
  (n <= String.length s)%nat -> String.length (String.substring 0 n s) = n.
Proof.
  revert s. induction n as [|n IH]; intros [|x s] Hn; cbn in *; [done|done|lia|].
  f_equal. apply IH. lia.
Qed.
