(* ===== verification/Model.v ===== *)
(** * Model: the data of [mockApi.js] and the storage it persists

    The records below are the JSON objects that
    [src/Volonter-Hub-main/src/services/mockApi.js] keeps in [localStorage]
    under the keys [STORAGE_KEYS.USERS], [TASKS] and [CHAT_MESSAGES]
    (lines 3-8).  A field that the code may leave [undefined] or [null] is an
    [option]; the fields of a task that the API only copies from the
    creation form are grouped in [task_content].  The store is the record
    of the three decoded collections; [read_*]/[write_*] are the
    [JSON.parse(localStorage.getItem(KEY) || '[]')] and
    [localStorage.setItem(KEY, JSON.stringify(...))] pairs of the source. *)

From S2P Require Import Prelude.
From Stdlib Require Import QArith.
From stdpp Require Import pretty.

(** Coordinates are only copied by the API; rationals represent the decimal
    literals of the source exactly. *)
#[export] Instance Q_eq_dec : EqDecision Q.
Proof.
  intros [a b] [c d]. unfold Decision. decide equality; apply decide; apply _.
Defined.

(** * Enumerations *)

(** [role: 'ADMIN' | 'USER'] (mockApi.js lines 32, 39, 194). *)
Inductive role := ADMIN | USER.

(** The task statuses used by the code (mockApi.js, TaskCard.jsx lines 8-15). *)
Inductive status := PENDING | OPEN | IN_PROGRESS | REVIEW | DONE | REJECTED.

#[export] Instance role_eq_dec : EqDecision role.
Proof. solve_decision. Defined.
#[export] Instance status_eq_dec : EqDecision status.
Proof. solve_decision. Defined.

(** * Users *)

(** A stored user (mockApi.js lines 27-53 and 191-196). *)
Record user := mkUser {
  u_id : string;
  u_login : string;
  u_password : string;
  u_role : role;
  u_name : string;
  u_email : option string;
  u_phone : option string;
  u_contactInfo : option string;
  u_points : option Z
}.

#[export] Instance user_eq_dec : EqDecision user.
Proof. solve_decision. Defined.

(** What the API returns: [const { password: _, ...userWithoutPassword } = user]. *)
Record public_user := mkPublicUser {
  pu_id : string;
  pu_login : string;
  pu_role : role;
  pu_name : string;
  pu_email : option string;
  pu_phone : option string;
  pu_contactInfo : option string;
  pu_points : option Z
}.

#[export] Instance public_user_eq_dec : EqDecision public_user.
Proof. solve_decision. Defined.

Definition strip_password (u : user) : public_user :=
  mkPublicUser (u_id u) (u_login u) (u_role u) (u_name u) (u_email u)
    (u_phone u) (u_contactInfo u) (u_points u).

(** [user.points = p]: the only field the lifecycle writes. *)
Definition set_points (p : Z) (u : user) : user :=
  mkUser (u_id u) (u_login u) (u_password u) (u_role u) (u_name u)
    (u_email u) (u_phone u) (u_contactInfo u) (Some p).

(** * Tasks *)

(** The completion report sent by CompleteTaskModal.jsx ([{ description, imageUrl }]). *)
Record report := mkReport { r_description : string; r_imageUrl : string }.

(** The fields of a task that the API copies from the creation form. *)
Record task_content := mkContent {
  c_title : string;
  c_description : string;
  c_city : string;
  c_phone : option string;
  c_contactInfo : option string;
  c_address : option string;
  c_imageUrl : option string;
  c_images : option (list string);
  c_latitude : option Q;
  c_longitude : option Q
}.

(** A stored task (mockApi.js lines 56-113 and 232-245). *)
Record task := mkTask {
  t_id : string;
  t_content : task_content;
  t_status : status;
  t_createdBy : string;
  t_assignedTo : option string;
  t_createdAt : Z;
  t_completedAt : option Z;
  t_points : option Z;
  t_report : option report
}.

#[export] Instance report_eq_dec : EqDecision report.
Proof. solve_decision. Defined.
#[export] Instance content_eq_dec : EqDecision task_content.
Proof. solve_decision. Defined.
#[export] Instance task_eq_dec : EqDecision task.
Proof. solve_decision. Defined.

(** [task.status = status] *)
Definition set_status (st : status) (t : task) : task :=
  mkTask (t_id t) (t_content t) st (t_createdBy t) (t_assignedTo t)
    (t_createdAt t) (t_completedAt t) (t_points t) (t_report t).

(** [task.assignedTo = a] *)
Definition set_assignedTo (a : option string) (t : task) : task :=
  mkTask (t_id t) (t_content t) (t_status t) (t_createdBy t) a
    (t_createdAt t) (t_completedAt t) (t_points t) (t_report t).

(** [task.report = r] *)
Definition set_report (r : report) (t : task) : task :=
  mkTask (t_id t) (t_content t) (t_status t) (t_createdBy t) (t_assignedTo t)
    (t_createdAt t) (t_completedAt t) (t_points t) (Some r).

(** * Chat messages *)

(** A message ([{ id, taskId, senderId, text, timestamp }], Chat.jsx lines
    56-61, mockApi.js lines 354-357); the ISO timestamp is kept as the
    milliseconds that [new Date(timestamp)] yields. *)
Record message := mkMessage {
  m_id : string;
  m_taskId : string;
  m_senderId : string;
  m_text : string;
  m_timestamp : Z
}.

#[export] Instance message_eq_dec : EqDecision message.
Proof. solve_decision. Defined.

(** * The store and the API *)

Record store := mkStore {
  st_users : list user;
  st_tasks : list task;
  st_messages : list message
}.

(** The errors the API throws, by the message of the source:
    'Неверный логин или пароль' (line 176), 'Пользователь с таким логином
    уже существует' (188), 'Задание не найдено' (258), 'Задание уже взято
    другим волонтером' (265), 'Пользователь не найден' (330). *)
Inductive api_error :=
| InvalidCredentials
| LoginTaken
| TaskNotFound
| AlreadyClaimed
| UserNotFound.

#[export] Instance api_error_eq_dec : EqDecision api_error.
Proof. solve_decision. Defined.

Abbreviation Api := (M store api_error).

Definition read_users : Api (list user) := gets st_users.
Definition read_tasks : Api (list task) := gets st_tasks.
Definition read_messages : Api (list message) := gets st_messages.

Definition write_users (us : list user) : Api unit :=
  modify (fun s => mkStore us (st_tasks s) (st_messages s)).
Definition write_tasks (ts : list task) : Api unit :=
  modify (fun s => mkStore (st_users s) ts (st_messages s)).
Definition write_messages (ms : list message) : Api unit :=
  modify (fun s => mkStore (st_users s) (st_tasks s) ms).

(** Unfold the storage primitives together with the monad. *)
Ltac store_unfold :=
  unfold read_users, read_tasks, read_messages,
    write_users, write_tasks, write_messages in *; api_unfold.

(** [String(Date.now())]: the identifiers of new users, tasks and messages. *)
Definition id_of_time (now : Z) : string := pretty now.

(** [users.find(u => u.id === id)] and [tasks.find(t => t.id === id)], with
    the index of the object found. *)
Definition find_user (id : string) (us : list user) : option (nat * user) :=
  list_find (fun u => u_id u = id) us.
Definition find_task (id : string) (ts : list task) : option (nat * task) :=
  list_find (fun t => t_id t = id) ts.

(** The balance the code reads with [(user.points || 0)]. *)
Definition balance (u : user) : Z := or_zero (u_points u).

(** * Lemmas on the data *)

Lemma id_of_time_inj n m : id_of_time n = id_of_time m -> n = m.
Proof. apply pretty_Z_inj. Qed.

Lemma set_points_id u p : u_id (set_points p u) = u_id u.
Proof. reflexivity. Qed.

Lemma balance_set_points u p : balance (set_points p u) = p.
Proof. reflexivity. Qed.

Lemma find_user_some id us i u :
  find_user id us = Some (i, u) -> us !! i = Some u ∧ u_id u = id.
Proof.
  intros H. apply list_find_Some in H as (? & ? & _). done.
Qed.

Lemma find_task_some id ts i t :
  find_task id ts = Some (i, t) -> ts !! i = Some t ∧ t_id t = id.
Proof.
  intros H. apply list_find_Some in H as (? & ? & _). done.
Qed.

(** Setting the points of the user found keeps every id where it was, so a
    second [find] by id finds the same index: the aliasing of the source. *)
Lemma find_user_insert_set_points id us i u p :
  find_user id us = Some (i, u) ->
  find_user id (<[i:=set_points p u]> us) = Some (i, set_points p u).
Proof.
  intros H. eapply list_find_insert_same; [exact H|].
  by apply list_find_holds in H.
Qed.

Lemma find_user_insert_other id us i u p j v :
  find_user id us = Some (i, u) -> i ≠ j ->
  find_user (u_id v) us = Some (j, v) ->
  find_user (u_id v) (<[i:=set_points p u]> us) = Some (j, v).
Proof.
  unfold find_user. intros Hi Hne Hj.
  apply list_find_Some in Hi as (Hli & Hpi & Hbi).
  apply list_find_Some in Hj as (Hlj & Hpj & Hbj).
  apply list_find_Some. split_and!.
  - by rewrite list_lookup_insert_ne.
  - done.
  - intros k y Hk Hlt. destruct (decide (i = k)) as [<-|Hik].
    + rewrite list_lookup_insert_eq in Hk by (eapply lookup_lt_Some; eauto).
      injection Hk as <-. exact (Hbj i u Hli Hlt).
    + rewrite list_lookup_insert_ne in Hk by done. by eapply Hbj.
Qed.

#[export] Hint Resolve find_user_some find_task_some : vh.

(** * A store for concrete runs

    In the shape of the seed of [mockApi.js]: an administrator without a
    balance, two users, and tasks in several states. *)
Module ModelExamples.

Definition mk_user (id lg : string) (r : role) (p : option Z) : user :=
  mkUser id lg "123" r lg None None None p.

Definition mk_task (id : string) (st : status) (by_ : string)
    (a : option string) (p : Z) : task :=
  mkTask id (mkContent "t" "d" "Almaty" None None None None None None None)
    st by_ a 0 None (Some p) None.

Definition demo : store :=
  mkStore [mk_user "1" "admin" ADMIN None; mk_user "2" "user1" USER (Some 10%Z);
           mk_user "3" "user2" USER (Some 200%Z)]
          [mk_task "1" OPEN "3" None 50; mk_task "2" IN_PROGRESS "3" (Some "2") 30;
           mk_task "3" REVIEW "3" (Some "2") 75]
          [].

End ModelExamples.
