(* ===== verification/Lifecycle.v ===== *)
(** * Lifecycle: creating, moving and abandoning tasks

    The three operations of [mockApi.js] that change tasks, with their
    points side effects: [createTask] (lines 217-251), [updateTaskStatus]
    (lines 253-287) and [abandonTask] (lines 289-322).  Each is a
    computation of the API monad over the store; the theorems give the
    result and the final store on every branch of the code. *)

From S2P Require Import Prelude Model.
From Stdlib Require Import QArith.
Local Open Scope api_scope.

(** The object [createTask] receives: the form of CreateTaskForm.jsx
    (lines 36-48) with [createdBy: user.id] added by TaskContext.jsx
    (line 114). *)
Record task_input := mkInput {
  in_title : string;
  in_description : string;
  in_city : string;
  in_phone : option string;
  in_contactInfo : option string;
  in_address : option string;
  in_imageUrl : option string;
  in_images : option (list string);
  in_points : option Z;
  in_latitude : option Q;
  in_longitude : option Q;
  in_createdBy : string
}.

Module Lifecycle.

(** [const newTask = { id: String(Date.now()), ...taskData, status:
    'PENDING', assignedTo: null, createdAt, latitude, longitude, address:
    taskData.address || taskData.city || '', images: taskData.images ||
    (taskData.imageUrl ? [taskData.imageUrl] : []) }] *)
Definition newTask (d : task_input) (now : Z) : task :=
  mkTask (id_of_time now)
    (mkContent (in_title d) (in_description d) (in_city d) (in_phone d)
       (in_contactInfo d)
       (Some (default "" (or_id (in_address d) (Some (in_city d)))))
       (in_imageUrl d)
       (Some (match in_images d with
              | Some imgs => imgs
              | None => if truthy_id (in_imageUrl d)
                        then [default "" (in_imageUrl d)] else []
              end))
       (in_latitude d) (in_longitude d))
    PENDING (in_createdBy d) None now None (in_points d) None.

(** [if (creator.points >= pointsToDeduct)]: an [undefined] balance
    compares false. *)
Definition can_deduct (u : user) (amount : Z) : bool :=
  match u_points u with
  | Some b => bool_decide (amount <= b)%Z
  | None => false
  end.

(** [createTask(taskData)] with [Date.now() = now]. *)
Definition createTask (d : task_input) (now : Z) : Api task :=
  tasks <- read_tasks ;;
  users <- read_users ;;
  match find_user (in_createdBy d) users with
  | Some (i, creator) =>
      let pointsToDeduct := or_zero (in_points d) in
      if can_deduct creator pointsToDeduct
      then write_users (<[i := set_points (balance creator - pointsToDeduct)
                                 creator]> users)
      else ret tt
  | None => ret tt
  end ;;;
  let t := newTask d now in
  write_tasks (tasks ++ [t]) ;;;
  ret t.

(** The claim check of lines 262-268: [if (status === 'IN_PROGRESS' &&
    userId)] then fail when the task is held by someone else, else
    assign it to [userId]. *)
Definition claim (st : status) (userId : option string) (t : task) : Api task :=
  if bool_decide (st = IN_PROGRESS) && truthy_id userId then
    if truthy_id (t_assignedTo t) && bool_decide (t_assignedTo t ≠ userId)
    then throw AlreadyClaimed
    else ret (set_assignedTo userId t)
  else ret t.

(** Lines 270-272: [if (status === 'REVIEW' && reportData) task.report = reportData]. *)
Definition attach_report (st : status) (reportData : option report) (t : task) : task :=
  match reportData with
  | Some r => if bool_decide (st = REVIEW) then set_report r t else t
  | None => t
  end.

(** Lines 274-283: on [DONE], credit [task.points] to
    [task.assignedTo || userId] when that user exists and the points are
    truthy. *)
Definition payout (st : status) (userId : option string) (t : task) : Api unit :=
  if bool_decide (st = DONE) then
    users <- read_users ;;
    match or_id (t_assignedTo t) userId with
    | Some volunteerId =>
        match find_user volunteerId users with
        | Some (j, volunteer) =>
            if truthy_num (t_points t)
            then write_users (<[j := set_points (balance volunteer + or_zero (t_points t))
                                       volunteer]> users)
            else ret tt
        | None => ret tt
        end
    | None => ret tt
    end
  else ret tt.

(** [updateTaskStatus(taskId, status, userId = null, reportData = null)]. *)
Definition updateTaskStatus (taskId : string) (st : status)
    (userId : option string) (reportData : option report) : Api task :=
  tasks <- read_tasks ;;
  match find_task taskId tasks with
  | None => throw TaskNotFound
  | Some (i, task) =>
      task1 <- claim st userId (set_status st task) ;;
      let task2 := attach_report st reportData task1 in
      payout st userId task2 ;;;
      write_tasks (<[i := task2]> tasks) ;;;
      ret task2
  end.

(** [Math.floor((task.points || 0) * 0.5)]. *)
Definition penalty (t : task) : Z := (or_zero (t_points t) `div` 2)%Z.

(** Lines 304-306: [volunteer.points = Math.max(0, (volunteer.points || 0) - penalty)]. *)
Definition debit_volunteer (volunteerId : string) (pen : Z) (users : list user) : list user :=
  match find_user volunteerId users with
  | Some (j, v) => <[j := set_points (Z.max 0 (balance v - pen)) v]> users
  | None => users
  end.

(** Lines 309-311: [creator.points = (creator.points || 0) + penalty].  The
    creator is looked up in the array the volunteer's debit already
    updated: when both are the same user the source mutates one object
    twice. *)
Definition credit_creator (creatorId : string) (pen : Z) (users : list user) : list user :=
  match find_user creatorId users with
  | Some (k, c) => <[k := set_points (balance c + pen) c]> users
  | None => users
  end.

(** [abandonTask(taskId, volunteerId)]: the result is the [task] field of
    the returned object, [undefined] ([None]) when no task has the id. *)
Definition abandonTask (taskId : string) (volunteerId : option string) : Api (option task) :=
  tasks <- read_tasks ;;
  users <- read_users ;;
  match find_task taskId tasks with
  | Some (i, task) =>
      match volunteerId with
      | Some vid =>
          if truthy_id volunteerId then
            let pen := penalty task in
            let users' := credit_creator (t_createdBy task) pen
                            (debit_volunteer vid pen users) in
            let task' := set_assignedTo None (set_status OPEN task) in
            write_tasks (<[i := task']> tasks) ;;;
            write_users users' ;;;
            ret (Some task')
          else ret (Some task)
      | None => ret (Some task)
      end
  | None => ret None
  end.

(** * Shape of each operation *)

Lemma claim_store st u t s : final_store (claim st u t s) = s.
Proof.
  unfold claim. repeat case_match; reflexivity.
Qed.

Lemma claim_result st u t s :
  claim st u t s = Err AlreadyClaimed s ∨ ∃ t', claim st u t s = Ok t' s.
Proof.
  unfold claim, throw, ret. repeat case_match; eauto.
Qed.

(** The payout never fails and writes nothing but users. *)
Lemma payout_ok st u t s :
  ∃ us, payout st u t s = Ok tt (mkStore us (st_tasks s) (st_messages s)).
Proof.
  unfold payout. store_unfold. destruct s as [us ts ms].
  repeat case_match; simpl; eauto.
Qed.

Lemma payout_not_done st u t s : st ≠ DONE -> payout st u t s = Ok tt s.
Proof. intros H. unfold payout. by rewrite bool_decide_false. Qed.

(** On a found task, [updateTaskStatus] is the claim check, then the
    report, the payout and the write of the task at its index. *)
Lemma updateTaskStatus_found taskId st userId r s i t :
  find_task taskId (st_tasks s) = Some (i, t) ->
  updateTaskStatus taskId st userId r s =
    match claim st userId (set_status st t) s with
    | Err e s1 => Err e s1
    | Ok t1 s1 =>
        match payout st userId (attach_report st r t1) s1 with
        | Err e s2 => Err e s2
        | Ok _ s2 => Ok (attach_report st r t1)
                        (mkStore (st_users s2)
                           (<[i := attach_report st r t1]> (st_tasks s))
                           (st_messages s2))
        end
    end.
Proof.
  intros Hf. unfold updateTaskStatus. store_unfold. rewrite Hf.
  destruct (claim st userId (set_status st t) s) as [t1 s1|] eqn:Hc; [|done].
  pose proof (claim_store st userId (set_status st t) s) as Hs.
  rewrite Hc in Hs. simpl in Hs. subst s1.
  destruct (payout_ok st userId (attach_report st r t1) s) as [us Hp].
  by rewrite Hp.
Qed.

(** A report on a found task: the status becomes [REVIEW] and the report
    is attached, whoever sends it; users and messages are untouched. *)
Lemma review_report_ok taskId s i t u r :
  find_task taskId (st_tasks s) = Some (i, t) ->
  updateTaskStatus taskId REVIEW u (Some r) s =
    Ok (set_report r (set_status REVIEW t))
       (mkStore (st_users s) (<[i := set_report r (set_status REVIEW t)]> (st_tasks s))
          (st_messages s)).
Proof.
  intros Hf. rewrite (updateTaskStatus_found _ _ _ _ _ _ _ Hf).
  unfold claim. rewrite bool_decide_false by done. by simpl.
Qed.

Lemma find_task_insert_same taskId ts i t t' :
  find_task taskId ts = Some (i, t) -> t_id t' = t_id t ->
  find_task taskId (<[i:=t']> ts) = Some (i, t').
Proof.
  intros H Hid. eapply list_find_insert_same; [exact H|].
  apply list_find_holds in H. simpl in *. congruence.
Qed.

(** The whole effect of [createTask] on the store. *)
Lemma createTask_run d now s :
  createTask d now s =
    Ok (newTask d now)
       (mkStore
          (match find_user (in_createdBy d) (st_users s) with
           | Some (i, c) =>
               if can_deduct c (or_zero (in_points d))
               then <[i := set_points (balance c - or_zero (in_points d)) c]> (st_users s)
               else st_users s
           | None => st_users s
           end)
          (st_tasks s ++ [newTask d now]) (st_messages s)).
Proof.
  destruct s as [us ts ms]. unfold createTask. store_unfold.
  destruct (find_user _ us) as [[i c]|]; [destruct (can_deduct _ _)|];
    reflexivity.
Qed.

(** * createTask *)

(** [createTask] never fails; it appends one task, with the id
    [String(Date.now())], in status PENDING, unassigned, with the points
    of the form, and leaves the other tasks and the messages alone. *)
Theorem createTask_appends_pending d now s :
  ∃ s', createTask d now s = Ok (newTask d now) s' ∧
    st_tasks s' = st_tasks s ++ [newTask d now] ∧
    st_messages s' = st_messages s ∧
    t_id (newTask d now) = id_of_time now ∧
    t_status (newTask d now) = PENDING ∧
    t_assignedTo (newTask d now) = None ∧
    t_points (newTask d now) = in_points d.
Proof. rewrite createTask_run. eexists. split_and!; reflexivity. Qed.

(** C5: the escrow: when the creator exists with a balance of at least the
    task's points, exactly those points are deducted from the creator and
    no other user changes. *)
Theorem createTask_escrow d now s i c b :
  find_user (in_createdBy d) (st_users s) = Some (i, c) ->
  u_points c = Some b ->
  (or_zero (in_points d) <= b)%Z ->
  ∃ s', createTask d now s = Ok (newTask d now) s' ∧
    st_users s' = <[i := set_points (b - or_zero (in_points d)) c]> (st_users s).
Proof.
  intros Hf Hb Hle. rewrite createTask_run, Hf. eexists. split; [reflexivity|].
  simpl. unfold can_deduct, balance. rewrite Hb. simpl.
  by rewrite bool_decide_true.
Qed.

(** The silent skip: when the creator's balance is below the points (or
    [undefined]), the task is created all the same and no balance changes. *)
Theorem createTask_insufficient_skips d now s i c :
  find_user (in_createdBy d) (st_users s) = Some (i, c) ->
  can_deduct c (or_zero (in_points d)) = false ->
  createTask d now s =
    Ok (newTask d now) (mkStore (st_users s) (st_tasks s ++ [newTask d now]) (st_messages s)).
Proof. intros Hf Hc. by rewrite createTask_run, Hf, Hc. Qed.

(** * updateTaskStatus *)

(** [updateTaskStatus] on an unknown id. *)
Lemma updateTaskStatus_missing taskId st u r s :
  find_task taskId (st_tasks s) = None ->
  updateTaskStatus taskId st u r s = Err TaskNotFound s.
Proof. intros H. unfold updateTaskStatus. store_unfold. by rewrite H. Qed.

(** A task id that is not stored fails with [TaskNotFound] and writes
    nothing. *)
Theorem updateTaskStatus_not_found taskId st u r s :
  find_task taskId (st_tasks s) = None ->
  updateTaskStatus taskId st u r s = Err TaskNotFound s.
Proof. apply updateTaskStatus_missing. Qed.

(** Claiming a free task, or one the caller holds, stores it claimed. *)
Lemma claim_free_ok taskId s i t u :
  find_task taskId (st_tasks s) = Some (i, t) ->
  truthy_id u = true ->
  (truthy_id (t_assignedTo t) = false ∨ t_assignedTo t = u) ->
  updateTaskStatus taskId IN_PROGRESS u None s =
    Ok (set_assignedTo u (set_status IN_PROGRESS t))
       (mkStore (st_users s)
          (<[i := set_assignedTo u (set_status IN_PROGRESS t)]> (st_tasks s))
          (st_messages s)).
Proof.
  intros Hf Hu Hfree. rewrite (updateTaskStatus_found _ _ _ _ _ _ _ Hf).
  unfold claim. rewrite bool_decide_true by done. rewrite Hu. simpl.
  destruct Hfree as [Hfree|Hsame]; rewrite ?Hfree, ?Hsame;
    rewrite ?bool_decide_false, ?andb_false_r by congruence; simpl; by destruct s.
Qed.

(** C2: a claim ([IN_PROGRESS] by a signed-in user) of a task that nobody
    holds, or that the same user holds, succeeds: the task is stored at its
    index with the new status and the claimant as [assignedTo]; users and
    messages are untouched. *)
Theorem claim_succeeds taskId s i t u :
  find_task taskId (st_tasks s) = Some (i, t) ->
  truthy_id u = true ->
  (truthy_id (t_assignedTo t) = false ∨ t_assignedTo t = u) ->
  updateTaskStatus taskId IN_PROGRESS u None s =
    Ok (set_assignedTo u (set_status IN_PROGRESS t))
       (mkStore (st_users s)
          (<[i := set_assignedTo u (set_status IN_PROGRESS t)]> (st_tasks s))
          (st_messages s)).
Proof. apply claim_free_ok. Qed.

(** Claiming a task another user holds throws [AlreadyClaimed] before any write. *)
Lemma claim_taken_err taskId s i t a u r :
  find_task taskId (st_tasks s) = Some (i, t) ->
  t_assignedTo t = Some a -> a ≠ "" ->
  truthy_id u = true -> Some a ≠ u ->
  updateTaskStatus taskId IN_PROGRESS u r s = Err AlreadyClaimed s.
Proof.
  intros Hf Ha Hne Hu Hdiff. rewrite (updateTaskStatus_found _ _ _ _ _ _ _ Hf).
  unfold claim. rewrite bool_decide_true by done. rewrite Hu. simpl.
  rewrite Ha. simpl. rewrite !bool_decide_true by done. reflexivity.
Qed.

(** C1: a claim of a task held by another user fails with [AlreadyClaimed]
    and writes nothing (the status set in memory before the check is never
    persisted). *)
Theorem claim_conflict taskId s i t a u r :
  find_task taskId (st_tasks s) = Some (i, t) ->
  t_assignedTo t = Some a -> a ≠ "" ->
  truthy_id u = true -> Some a ≠ u ->
  updateTaskStatus taskId IN_PROGRESS u r s = Err AlreadyClaimed s.
Proof. apply claim_taken_err. Qed.

(** Claim exclusion as a sequence of calls: after [a] claims a free
    task, a claim by any other signed-in user [b] fails with
    [AlreadyClaimed] on the store the first call left. *)
Theorem second_claim_fails taskId s i t a b :
  find_task taskId (st_tasks s) = Some (i, t) ->
  t_assignedTo t = None -> a ≠ "" -> b ≠ "" -> a ≠ b ->
  ∃ t1 s1,
    updateTaskStatus taskId IN_PROGRESS (Some a) None s = Ok t1 s1 ∧
    t_assignedTo t1 = Some a ∧
    updateTaskStatus taskId IN_PROGRESS (Some b) None s1 = Err AlreadyClaimed s1.
Proof.
  intros Hf Hfree Ha Hb Hab.
  assert (Hu : truthy_id (Some a) = true) by (simpl; by rewrite bool_decide_true).
  rewrite (claim_free_ok _ _ _ _ _ Hf Hu) by (left; by rewrite Hfree).
  eexists _, _. split; [reflexivity|]. split; [reflexivity|].
  eapply claim_taken_err;
    [by eapply find_task_insert_same|reflexivity|done
    |simpl; by rewrite bool_decide_true|congruence].
Qed.

(** The payout of [DONE] on the stored user of the assignee. *)
Lemma done_pays_assignee taskId s i t a j v p u :
  find_task taskId (st_tasks s) = Some (i, t) ->
  t_assignedTo t = Some a -> a ≠ "" ->
  find_user a (st_users s) = Some (j, v) ->
  t_points t = Some p -> p ≠ 0%Z ->
  ∃ s', updateTaskStatus taskId DONE u None s = Ok (set_status DONE t) s' ∧
    st_users s' = <[j := set_points (balance v + p) v]> (st_users s) ∧
    st_tasks s' = <[i := set_status DONE t]> (st_tasks s).
Proof.
  intros Hf Ha Hne Hu Hp Hp0. rewrite (updateTaskStatus_found _ _ _ _ _ _ _ Hf).
  unfold claim. rewrite bool_decide_false by done. simpl.
  unfold payout. rewrite bool_decide_true by done. store_unfold.
  unfold or_id. rewrite Ha. simpl. rewrite bool_decide_true by done.
  rewrite Hu, Hp. simpl. rewrite bool_decide_true by done. eauto.
Qed.

(** C3: approving a task ([DONE]) credits exactly the task's points to the
    assignee: the assignee's balance after is the balance before plus the
    points, and no other user changes. *)
Theorem done_credits_assignee taskId s i t a j v p u :
  find_task taskId (st_tasks s) = Some (i, t) ->
  t_assignedTo t = Some a -> a ≠ "" ->
  find_user a (st_users s) = Some (j, v) ->
  t_points t = Some p -> p ≠ 0%Z ->
  ∃ s', updateTaskStatus taskId DONE u None s = Ok (set_status DONE t) s' ∧
    st_users s' = <[j := set_points (balance v + p) v]> (st_users s) ∧
    st_tasks s' = <[i := set_status DONE t]> (st_tasks s).
Proof. apply done_pays_assignee. Qed.

(** Two approvals in a row, by any two users: both succeed and the
    assignee is paid twice. *)
Lemma done_twice_run taskId s i t a j v p u1 u2 :
  find_task taskId (st_tasks s) = Some (i, t) ->
  t_assignedTo t = Some a -> a ≠ "" ->
  find_user a (st_users s) = Some (j, v) ->
  t_points t = Some p -> p ≠ 0%Z ->
  ∃ t1 s1 t2 s2,
    updateTaskStatus taskId DONE u1 None s = Ok t1 s1 ∧
    updateTaskStatus taskId DONE u2 None s1 = Ok t2 s2 ∧
    st_users s2 !! j = Some (set_points (balance v + 2 * p) v).
Proof.
  intros Hf Ha Hne Hu Hp Hp0.
  destruct (done_pays_assignee _ _ _ _ _ _ _ _ u1 Hf Ha Hne Hu Hp Hp0)
    as (s1 & Hrun1 & Hus1 & Hts1).
  assert (Hf1 : find_task taskId (st_tasks s1) = Some (i, set_status DONE t)).
  { rewrite Hts1. by eapply find_task_insert_same. }
  assert (Hu1 : find_user a (st_users s1) = Some (j, set_points (balance v + p) v)).
  { rewrite Hus1. by apply find_user_insert_set_points. }
  destruct (done_pays_assignee _ _ _ _ _ _ _ _ u2 Hf1 Ha Hne Hu1 Hp Hp0)
    as (s2 & Hrun2 & Hus2 & _).
  do 4 eexists. split; [exact Hrun1|]. split; [exact Hrun2|]. rewrite Hus2.
  rewrite list_lookup_insert_eq.
  - rewrite balance_set_points.
    by replace (balance v + p + p)%Z with (balance v + 2 * p)%Z by lia.
  - rewrite Hus1, length_insert. apply find_user_some in Hu as [Hl _].
    by eapply lookup_lt_Some.
Qed.

(** Nothing stops a second approval: applying [DONE] twice to the same
    task pays its points twice. *)
Theorem done_twice_pays_twice taskId s i t a j v p u :
  find_task taskId (st_tasks s) = Some (i, t) ->
  t_assignedTo t = Some a -> a ≠ "" ->
  find_user a (st_users s) = Some (j, v) ->
  t_points t = Some p -> p ≠ 0%Z ->
  ∃ t2 s2,
    (t1 <- updateTaskStatus taskId DONE u None ;;
     updateTaskStatus taskId DONE u None) s = Ok t2 s2 ∧
    st_users s2 !! j = Some (set_points (balance v + 2 * p) v).
Proof.
  intros Hf Ha Hne Hu Hp Hp0.
  destruct (done_twice_run _ _ _ _ _ _ _ _ u u Hf Ha Hne Hu Hp Hp0)
    as (t1 & s1 & t2 & s2 & Hrun1 & Hrun2 & Hj).
  unfold bind at 1. rewrite Hrun1. eauto.
Qed.

(** A failed [updateTaskStatus] carries the store it started from. *)
Lemma updateTaskStatus_err_store taskId st u r s e s' :
  updateTaskStatus taskId st u r s = Err e s' -> s' = s.
Proof.
  destruct (find_task taskId (st_tasks s)) as [[i t]|] eqn:Hf.
  - rewrite (updateTaskStatus_found _ _ _ _ _ _ _ Hf).
    destruct (claim_result st u (set_status st t) s) as [->|[t1 ->]];
      [by inversion 1|].
    destruct (payout_ok st u (attach_report st r t1) s) as [us ->].
    discriminate.
  - rewrite updateTaskStatus_missing by done. by inversion 1.
Qed.

(** Failure atomicity of [updateTaskStatus]: whenever it throws, the
    store is the one it started from. *)
Theorem updateTaskStatus_error_atomic taskId st u r s e s' :
  updateTaskStatus taskId st u r s = Err e s' -> s' = s.
Proof. apply updateTaskStatus_err_store. Qed.

(** * abandonTask *)

(** The whole effect of [abandonTask] on a found task. *)
Lemma abandonTask_found taskId vid s i t :
  find_task taskId (st_tasks s) = Some (i, t) -> vid ≠ "" ->
  abandonTask taskId (Some vid) s =
    Ok (Some (set_assignedTo None (set_status OPEN t)))
       (mkStore (credit_creator (t_createdBy t) (penalty t)
                   (debit_volunteer vid (penalty t) (st_users s)))
                (<[i := set_assignedTo None (set_status OPEN t)]> (st_tasks s))
                (st_messages s)).
Proof.
  intros Hf Hv. destruct s as [us ts ms]. unfold abandonTask. store_unfold.
  rewrite Hf. simpl. by rewrite bool_decide_true.
Qed.

(** C4: abandoning costs the caller half the task's points, rounded
    down, with the balance clamped at zero, and credits the creator with
    the full half whatever the caller could pay; the task goes back to
    OPEN with nobody assigned.  The caller is not checked against
    [assignedTo]. *)
Theorem abandon_penalty taskId vid s i t j v k c :
  find_task taskId (st_tasks s) = Some (i, t) -> vid ≠ "" ->
  find_user vid (st_users s) = Some (j, v) ->
  find_user (t_createdBy t) (st_users s) = Some (k, c) -> j ≠ k ->
  ∃ s', abandonTask taskId (Some vid) s =
          Ok (Some (set_assignedTo None (set_status OPEN t))) s' ∧
    st_users s' !! j = Some (set_points (Z.max 0 (balance v - penalty t)) v) ∧
    st_users s' !! k = Some (set_points (balance c + penalty t) c) ∧
    st_tasks s' = <[i := set_assignedTo None (set_status OPEN t)]> (st_tasks s).
Proof.
  intros Hf Hv Hj Hk Hjk. rewrite (abandonTask_found _ _ _ _ _ Hf Hv).
  eexists. split; [reflexivity|]. simpl.
  unfold credit_creator, debit_volunteer. rewrite Hj.
  pose proof Hk as Hk'. apply find_user_some in Hk' as [Hkl Hkid].
  pose proof Hj as Hj'. apply find_user_some in Hj' as [Hjl _].
  rewrite <- Hkid in Hk |- *.
  rewrite (find_user_insert_other _ _ _ _ _ _ _ Hj Hjk Hk).
  split_and!; [| |reflexivity].
  - rewrite list_lookup_insert_ne by done.
    rewrite list_lookup_insert_eq; [done|]. by eapply lookup_lt_Some.
  - rewrite list_lookup_insert_eq; [done|].
    rewrite length_insert. by eapply lookup_lt_Some.
Qed.

(** [abandonTask] on an unknown id. *)
Lemma abandonTask_missing taskId vid s :
  find_task taskId (st_tasks s) = None ->
  abandonTask taskId vid s = Ok None s.
Proof.
  intros Hf. destruct s. unfold abandonTask. store_unfold. by rewrite Hf.
Qed.

(** Abandoning an id that no task has does not fail: it returns no
    task and writes nothing. *)
Theorem abandon_missing_task taskId vid s :
  find_task taskId (st_tasks s) = None ->
  abandonTask taskId vid s = Ok None s.
Proof. apply abandonTask_missing. Qed.

(** * Where a successful call writes *)

Lemma claim_id st u t s t' s' : claim st u t s = Ok t' s' -> t_id t' = t_id t.
Proof. unfold claim. api_unfold. repeat case_match; by intros [= <- _]. Qed.

Lemma attach_report_id st r t : t_id (attach_report st r t) = t_id t.
Proof. unfold attach_report. by repeat case_match. Qed.

Lemma attach_report_status st r t : t_status (attach_report st r t) = t_status t.
Proof. unfold attach_report. by repeat case_match. Qed.

Lemma attach_report_assignedTo st r t :
  t_assignedTo (attach_report st r t) = t_assignedTo t.
Proof. unfold attach_report. by repeat case_match. Qed.

(** A successful [updateTaskStatus] writes the returned task over the first
    task with the id, and nothing else of the task list. *)
Lemma updateTaskStatus_ok_shape taskId st u r s t s' :
  updateTaskStatus taskId st u r s = Ok t s' ->
  ∃ i x, find_task taskId (st_tasks s) = Some (i, x) ∧
         st_tasks s' = <[i := t]> (st_tasks s) ∧ t_id t = taskId ∧
         st_messages s' = st_messages s.
Proof.
  destruct (find_task taskId (st_tasks s)) as [[i x]|] eqn:Hf;
    [|by rewrite updateTaskStatus_missing].
  rewrite (updateTaskStatus_found _ _ _ _ _ _ _ Hf).
  destruct (claim_result st u (set_status st x) s) as [->|[t1 Hc]]; [done|].
  rewrite Hc. destruct (payout_ok st u (attach_report st r t1) s) as [us ->].
  intros [= <- <-]. exists i, x. split_and!; try done.
  rewrite attach_report_id. apply claim_id in Hc. rewrite Hc.
  by apply find_task_some in Hf as [_ ?].
Qed.

(** A call of [abandonTask] that returns a task writes it over the first
    task with the id (possibly the same object, when no caller id is given). *)
Lemma abandonTask_ok_shape taskId v s t s' :
  abandonTask taskId v s = Ok (Some t) s' ->
  ∃ i x, find_task taskId (st_tasks s) = Some (i, x) ∧
         st_tasks s' = <[i := t]> (st_tasks s) ∧ t_id t = taskId ∧
         st_messages s' = st_messages s.
Proof.
  unfold abandonTask. store_unfold. intros H.
  destruct (find_task taskId (st_tasks s)) as [[i x]|] eqn:Hf; [|done].
  pose proof Hf as [Hl Hid]%find_task_some.
  exists i, x. destruct v as [vid|]; [destruct (truthy_id (Some vid))|];
    injection H as <- <-; simpl; split_and!; try done;
    by rewrite list_insert_id.
Qed.

End Lifecycle.

(** * Concrete runs on the store [ModelExamples.demo] *)
Module LifecycleExamples.
Import Lifecycle ModelExamples.

Definition form (p : Z) (by_ : string) : task_input :=
  mkInput "t" "d" "Almaty" None None None None None (Some p) None None by_.

(** the round trip of the spec (section 8): a creator with 200 points
    posts a task worth 50 and keeps 150; a volunteer with 10 points claims
    it and abandons it: the penalty of 25 leaves the volunteer at 0 and
    brings the creator to 175, so 15 points appear from nothing. *)
Example spec_round_trip :
  let s0 := mkStore [mk_user "2" "user1" USER (Some 10%Z);
                     mk_user "3" "user2" USER (Some 200%Z)] [] [] in
  match createTask (form 50 "3") 1000 s0 with
  | Ok t s1 =>
      map balance (st_users s1) = [10%Z; 150%Z] ∧
      match (updateTaskStatus (t_id t) IN_PROGRESS (Some "2") None ;;;
             abandonTask (t_id t) (Some "2")) s1 with
      | Ok (Some t') s3 =>
          map balance (st_users s3) = [0%Z; 175%Z] ∧
          t_status t' = OPEN ∧ t_assignedTo t' = None
      | _ => False
      end
  | Err _ _ => False
  end.
Proof. vm_compute. auto. Qed.

Lemma createTask_escrow_witness :
  ∃ s', createTask (form 50 "3") 1000 demo = Ok (newTask (form 50 "3") 1000) s' ∧
    st_users s' = <[2%nat := set_points (200 - 50) (mk_user "3" "user2" USER (Some 200%Z))]>
                    (st_users demo).
Proof.
  apply (createTask_escrow (form 50 "3") 1000 demo 2%nat
           (mk_user "3" "user2" USER (Some 200%Z)) 200);
    [reflexivity|reflexivity|simpl; lia].
Defined.

Lemma createTask_insufficient_skips_witness :
  createTask (form 50 "2") 1000 demo =
    Ok (newTask (form 50 "2") 1000)
       (mkStore (st_users demo) (st_tasks demo ++ [newTask (form 50 "2") 1000])
          (st_messages demo)).
Proof. apply (createTask_insufficient_skips _ _ _ 1%nat (mk_user "2" "user1" USER (Some 10%Z))); reflexivity. Defined.

Lemma updateTaskStatus_not_found_witness :
  updateTaskStatus "9" DONE (Some "1") None demo = Err TaskNotFound demo.
Proof. apply updateTaskStatus_not_found. reflexivity. Defined.

Lemma claim_succeeds_witness :
  updateTaskStatus "1" IN_PROGRESS (Some "2") None demo =
    Ok (set_assignedTo (Some "2") (set_status IN_PROGRESS (mk_task "1" OPEN "3" None 50)))
       (mkStore (st_users demo)
          (<[0%nat := set_assignedTo (Some "2") (set_status IN_PROGRESS (mk_task "1" OPEN "3" None 50))]>
             (st_tasks demo)) (st_messages demo)).
Proof. apply claim_succeeds; [reflexivity|reflexivity|left; reflexivity]. Defined.

Lemma claim_conflict_witness :
  updateTaskStatus "2" IN_PROGRESS (Some "3") None demo = Err AlreadyClaimed demo.
Proof.
  apply (claim_conflict _ _ 1%nat (mk_task "2" IN_PROGRESS "3" (Some "2") 30) "2");
    [reflexivity|reflexivity|done|reflexivity|congruence].
Defined.

Lemma second_claim_fails_witness :
  ∃ t1 s1,
    updateTaskStatus "1" IN_PROGRESS (Some "2") None demo = Ok t1 s1 ∧
    t_assignedTo t1 = Some "2" ∧
    updateTaskStatus "1" IN_PROGRESS (Some "3") None s1 = Err AlreadyClaimed s1.
Proof.
  apply (second_claim_fails _ _ 0%nat (mk_task "1" OPEN "3" None 50));
    [reflexivity|reflexivity|done|done|done].
Defined.

Lemma done_credits_assignee_witness :
  ∃ s', updateTaskStatus "3" DONE (Some "1") None demo =
          Ok (set_status DONE (mk_task "3" REVIEW "3" (Some "2") 75)) s' ∧
    st_users s' = <[1%nat := set_points (10 + 75) (mk_user "2" "user1" USER (Some 10%Z))]>
                    (st_users demo) ∧
    st_tasks s' = <[2%nat := set_status DONE (mk_task "3" REVIEW "3" (Some "2") 75)]>
                    (st_tasks demo).
Proof.
  apply (done_credits_assignee _ _ _ _ "2"); [reflexivity|reflexivity|done|reflexivity
    |reflexivity|done].
Defined.

Lemma done_twice_pays_twice_witness :
  ∃ t2 s2,
    (t1 <- updateTaskStatus "3" DONE (Some "1") None ;;
     updateTaskStatus "3" DONE (Some "1") None)%api demo = Ok t2 s2 ∧
    st_users s2 !! 1%nat = Some (set_points (10 + 2 * 75) (mk_user "2" "user1" USER (Some 10%Z))).
Proof.
  apply (done_twice_pays_twice _ _ 2%nat (mk_task "3" REVIEW "3" (Some "2") 75) "2");
    [reflexivity|reflexivity|done|reflexivity|reflexivity|done].
Defined.

Lemma updateTaskStatus_error_atomic_witness :
  updateTaskStatus "2" IN_PROGRESS (Some "3") None demo = Err AlreadyClaimed demo ∧
  demo = demo.
Proof.
  split; [reflexivity|].
  apply (updateTaskStatus_error_atomic "2" IN_PROGRESS (Some "3") None demo AlreadyClaimed).
  reflexivity.
Defined.

Lemma abandon_penalty_witness :
  ∃ s', abandonTask "2" (Some "2") demo =
          Ok (Some (set_assignedTo None (set_status OPEN (mk_task "2" IN_PROGRESS "3" (Some "2") 30)))) s' ∧
    st_users s' !! 1%nat = Some (set_points (Z.max 0 (10 - 15)) (mk_user "2" "user1" USER (Some 10%Z))) ∧
    st_users s' !! 2%nat = Some (set_points (200 + 15) (mk_user "3" "user2" USER (Some 200%Z))) ∧
    st_tasks s' = <[1%nat := set_assignedTo None (set_status OPEN (mk_task "2" IN_PROGRESS "3" (Some "2") 30))]>
                    (st_tasks demo).
Proof.
  apply (abandon_penalty "2" "2" demo 1%nat (mk_task "2" IN_PROGRESS "3" (Some "2") 30)
           1%nat (mk_user "2" "user1" USER (Some 10%Z))
           2%nat (mk_user "3" "user2" USER (Some 200%Z)));
    [reflexivity|done|reflexivity|reflexivity|done].
Defined.

Lemma abandon_missing_task_witness : abandonTask "9" (Some "2") demo = Ok None demo.
Proof. apply abandon_missing_task. reflexivity. Defined.

End LifecycleExamples.
