(* ===== verification/Accounts.v ===== *)
(** * Accounts: sign-in, registration and profile updates

    [login] (mockApi.js lines 170-181), [register] (183-203), [getUsers]
    (211-215), [getTasks] (205-209) and [updateUser] (324-341).  The
    theorems state what each returns and writes, that no result carries a
    password, and the round trip from [register] to [login]. *)

From S2P Require Import Prelude Model.
Local Open Scope api_scope.

(** The form of Register.jsx (lines 8-13): [{ login, password, name, email }]. *)
Record register_input := mkRegister {
  reg_login : string;
  reg_password : string;
  reg_name : string;
  reg_email : string
}.

(** The object Profile.jsx passes to [updateUser] may carry any field of a
    user but its id; a field that is present ([Some]) overrides the stored
    one ([{ ...users[userIndex], ...userData }]). *)
Record user_patch := mkPatch {
  pa_login : option string;
  pa_password : option string;
  pa_role : option role;
  pa_name : option string;
  pa_email : option string;
  pa_phone : option string;
  pa_contactInfo : option string;
  pa_points : option Z
}.

Module Accounts.

(** [(u.login === login || u.email === login) && u.password === password] *)
Definition credentials_match (lg pw : string) (u : user) : Prop :=
  (u_login u = lg ∨ u_email u = Some lg) ∧ u_password u = pw.

#[export] Instance credentials_match_dec lg pw u : Decision (credentials_match lg pw u).
Proof. unfold credentials_match. apply _. Defined.

Definition login (lg pw : string) : Api public_user :=
  users <- read_users ;;
  match list_find (credentials_match lg pw) users with
  | None => throw InvalidCredentials
  | Some (_, u) => ret (strip_password u)
  end.

(** [const newUser = { id: String(Date.now()), ...userData, role: 'USER', points: 200 }] *)
Definition newUser (d : register_input) (now : Z) : user :=
  mkUser (id_of_time now) (reg_login d) (reg_password d) USER (reg_name d)
    (Some (reg_email d)) None None (Some 200%Z).

Definition register (d : register_input) (now : Z) : Api public_user :=
  users <- read_users ;;
  match list_find (fun u => u_login u = reg_login d) users with
  | Some _ => throw LoginTaken
  | None =>
      let u := newUser d now in
      write_users (users ++ [u]) ;;;
      ret (strip_password u)
  end.

(** [getTasks(userId, role)] ignores both arguments. *)
Definition getTasks (userId : string) (r : role) : Api (list task) := read_tasks.

Definition getUsers : Api (list public_user) :=
  users <- read_users ;;
  ret (map strip_password users).

Definition apply_patch (pa : user_patch) (u : user) : user :=
  mkUser (u_id u)
    (default (u_login u) (pa_login pa))
    (default (u_password u) (pa_password pa))
    (default (u_role u) (pa_role pa))
    (default (u_name u) (pa_name pa))
    (match pa_email pa with Some e => Some e | None => u_email u end)
    (match pa_phone pa with Some e => Some e | None => u_phone u end)
    (match pa_contactInfo pa with Some e => Some e | None => u_contactInfo u end)
    (match pa_points pa with Some p => Some p | None => u_points u end).

Definition updateUser (userId : string) (pa : user_patch) : Api public_user :=
  users <- read_users ;;
  match find_user userId users with
  | None => throw UserNotFound
  | Some (i, u) =>
      let u' := apply_patch pa u in
      write_users (<[i := u']> users) ;;;
      ret (strip_password u')
  end.

(** * Sign-in *)

(** With no stored user whose login or email and password match, [login]
    fails with [InvalidCredentials]; it never writes. *)
Theorem login_invalid lg pw s :
  Forall (fun u => ¬ credentials_match lg pw u) (st_users s) ->
  login lg pw s = Err InvalidCredentials s.
Proof.
  intros H. unfold login. store_unfold.
  by rewrite list_find_none_of.
Qed.

(** [login] with credentials some stored user matches. *)
Lemma login_matching lg pw s u :
  u ∈ st_users s -> credentials_match lg pw u ->
  ∃ u', u' ∈ st_users s ∧ credentials_match lg pw u' ∧
        login lg pw s = Ok (strip_password u') s.
Proof.
  intros Hin Hm. unfold login. store_unfold.
  destruct (list_find_elem_of _ _ _ Hin Hm) as [[i u'] Hf]. rewrite Hf.
  exists u'. split_and!; [by eapply list_find_in|by eapply list_find_holds|done].
Qed.

(** With a stored user whose credentials match, [login] returns the stored
    record of the first matching user, stripped of its password, and
    writes nothing. *)
Theorem login_valid lg pw s u :
  u ∈ st_users s -> credentials_match lg pw u ->
  ∃ u', u' ∈ st_users s ∧ credentials_match lg pw u' ∧
        login lg pw s = Ok (strip_password u') s.
Proof. apply login_matching. Qed.

(** * Registration *)

(** Registration refuses a login that a stored user already has, with
    [LoginTaken], and writes nothing; the email is not checked. *)
Theorem register_duplicate d now s u :
  u ∈ st_users s -> u_login u = reg_login d ->
  register d now s = Err LoginTaken s.
Proof.
  intros Hin Hl. unfold register. store_unfold.
  destruct (list_find_elem_of (fun u => u_login u = reg_login d) _ _ Hin Hl)
    as [[i u'] ->]. done.
Qed.

Lemma register_fresh d now s :
  Forall (fun u => u_login u ≠ reg_login d) (st_users s) ->
  register d now s =
    Ok (strip_password (newUser d now))
       (mkStore (st_users s ++ [newUser d now]) (st_tasks s) (st_messages s)).
Proof.
  intros H. unfold register. store_unfold.
  by rewrite list_find_none_of.
Qed.

(** What a successful [register] stores and returns. *)
Lemma register_ok_shape d now s pu s' :
  register d now s = Ok pu s' ->
  st_users s' = st_users s ++ [newUser d now] ∧
  pu = strip_password (newUser d now) ∧
  pu_id pu = id_of_time now ∧ pu_role pu = USER ∧ pu_points pu = Some 200%Z.
Proof.
  unfold register. store_unfold.
  destruct (list_find _ (st_users s)) as [[i u]|]; [discriminate|].
  intros [= <- <-]. simpl. split_and!; reflexivity.
Qed.

(** A successful registration appends one user with the id
    [String(Date.now())], the role USER and 200 points, and returns it
    without its password. *)
Theorem register_new_user d now s pu s' :
  register d now s = Ok pu s' ->
  st_users s' = st_users s ++ [newUser d now] ∧
  pu = strip_password (newUser d now) ∧
  pu_id pu = id_of_time now ∧ pu_role pu = USER ∧ pu_points pu = Some 200%Z.
Proof. apply register_ok_shape. Qed.

(** C23: Round trip: after a successful registration, signing in with the login
    and password just registered succeeds. *)
Theorem register_then_login d now s pu s' :
  register d now s = Ok pu s' ->
  ∃ pu', login (reg_login d) (reg_password d) s' = Ok pu' s'.
Proof.
  intros Hr. destruct (register_ok_shape _ _ _ _ _ Hr) as (Hus & _).
  destruct (login_matching (reg_login d) (reg_password d) s' (newUser d now))
    as (u' & _ & _ & Hl).
  - rewrite Hus. apply list_elem_of_In, in_or_app. right. by left.
  - split; [left|]; reflexivity.
  - eauto.
Qed.

(** Round trip, exact form: when no user stored before matched these
    credentials (through its email), the login returns the very record
    [register] returned. *)
Theorem register_then_login_same d now s pu s' :
  Forall (fun u => ¬ credentials_match (reg_login d) (reg_password d) u) (st_users s) ->
  register d now s = Ok pu s' ->
  login (reg_login d) (reg_password d) s' = Ok pu s'.
Proof.
  intros Hnone Hr. destruct (register_ok_shape _ _ _ _ _ Hr) as (Hus & -> & _).
  unfold login. store_unfold. rewrite Hus.
  rewrite list_find_app_r.
  - simpl. rewrite decide_True; [done|]. split; [left|]; reflexivity.
  - by apply list_find_none_of.
Qed.

(** * Profile updates *)

Theorem updateUser_not_found userId pa s :
  find_user userId (st_users s) = None ->
  updateUser userId pa s = Err UserNotFound s.
Proof. intros H. unfold updateUser. store_unfold. by rewrite H. Qed.

(** [updateUser] merges any field into the stored user, the balance
    included: the API does not protect the points ledger from the client. *)
Theorem updateUser_sets_points userId pa s i u p :
  find_user userId (st_users s) = Some (i, u) -> pa_points pa = Some p ->
  ∃ s', updateUser userId pa s = Ok (strip_password (apply_patch pa u)) s' ∧
        st_users s' = <[i := apply_patch pa u]> (st_users s) ∧
        balance (apply_patch pa u) = p.
Proof.
  intros Hf Hp. unfold updateUser. store_unfold. rewrite Hf.
  eexists. split_and!; [reflexivity|reflexivity|]. unfold balance, apply_patch.
  simpl. by rewrite Hp.
Qed.

End Accounts.

(** * Concrete runs *)

Module AccountsExamples.
Import Accounts ModelExamples.

Definition alice : register_input := mkRegister "alice" "pw" "Alice" "alice@mail.kz".

Lemma login_invalid_witness : login "user1" "wrong" demo = Err InvalidCredentials demo.
Proof.
  apply login_invalid. repeat constructor; unfold credentials_match; simpl;
    intros [_ H]; discriminate.
Defined.

Lemma login_valid_witness :
  ∃ u', u' ∈ st_users demo ∧ credentials_match "user1" "123" u' ∧
        login "user1" "123" demo = Ok (strip_password u') demo.
Proof.
  apply (login_valid _ _ _ (mk_user "2" "user1" USER (Some 10%Z))).
  - right. left.
  - split; [left|]; reflexivity.
Defined.

Lemma register_duplicate_witness :
  register (mkRegister "user1" "x" "X" "x@mail.kz") 1000 demo = Err LoginTaken demo.
Proof.
  apply (register_duplicate _ _ _ (mk_user "2" "user1" USER (Some 10%Z))).
  - right. left.
  - reflexivity.
Defined.

Lemma register_new_user_witness :
  register alice 1000 demo =
    Ok (strip_password (newUser alice 1000))
       (mkStore (st_users demo ++ [newUser alice 1000]) (st_tasks demo) (st_messages demo)) ∧
  (st_users (mkStore (st_users demo ++ [newUser alice 1000]) (st_tasks demo) (st_messages demo))
     = st_users demo ++ [newUser alice 1000] ∧
   strip_password (newUser alice 1000) = strip_password (newUser alice 1000) ∧
   pu_id (strip_password (newUser alice 1000)) = id_of_time 1000 ∧
   pu_role (strip_password (newUser alice 1000)) = USER ∧
   pu_points (strip_password (newUser alice 1000)) = Some 200%Z).
Proof.
  assert (H : register alice 1000 demo =
    Ok (strip_password (newUser alice 1000))
       (mkStore (st_users demo ++ [newUser alice 1000]) (st_tasks demo) (st_messages demo)))
    by reflexivity.
  split; [exact H|]. exact (register_new_user _ _ _ _ _ H).
Defined.

Lemma register_then_login_witness :
  ∃ pu', login "alice" "pw"
           (mkStore (st_users demo ++ [newUser alice 1000]) (st_tasks demo) (st_messages demo)) =
         Ok pu' (mkStore (st_users demo ++ [newUser alice 1000]) (st_tasks demo) (st_messages demo)).
Proof.
  apply (register_then_login alice 1000 demo (strip_password (newUser alice 1000))).
  reflexivity.
Defined.

Lemma register_then_login_same_witness :
  login "alice" "pw"
    (mkStore (st_users demo ++ [newUser alice 1000]) (st_tasks demo) (st_messages demo)) =
  Ok (strip_password (newUser alice 1000))
    (mkStore (st_users demo ++ [newUser alice 1000]) (st_tasks demo) (st_messages demo)).
Proof.
  apply (register_then_login_same alice 1000 demo).
  - repeat constructor; unfold credentials_match; simpl; intros [[H|H] _]; discriminate.
  - reflexivity.
Defined.

Lemma updateUser_not_found_witness :
  updateUser "9" (mkPatch None None None (Some "N") None None None None) demo =
    Err UserNotFound demo.
Proof. apply updateUser_not_found. reflexivity. Defined.

Lemma updateUser_sets_points_witness :
  let pa := mkPatch None None None None None None None (Some 1000000%Z) in
  ∃ s', updateUser "2" pa demo =
          Ok (strip_password (apply_patch pa (mk_user "2" "user1" USER (Some 10%Z)))) s' ∧
        st_users s' = <[1%nat := apply_patch pa (mk_user "2" "user1" USER (Some 10%Z))]> (st_users demo) ∧
        balance (apply_patch pa (mk_user "2" "user1" USER (Some 10%Z))) = 1000000%Z.
Proof. apply updateUser_sets_points; reflexivity. Defined.

End AccountsExamples.
