(* ===== verification/Seed.v ===== *)
(** * Seed: the initial data written at every load of the API module

    [seedData] (mockApi.js lines 25-165) runs each time the module is
    loaded, that is at every page load.  It renames the Russian cities of
    stored tasks to Kazakh ones (with their coordinates and the address),
    merges three default users into the stored users with [Object.assign]
    (overwriting every field the default has: the balance of [user1] and
    [user2] and all three passwords included), and stores four default
    tasks when there is no task.  Strings are the UTF-8 bytes of the
    source's literals; [String.prototype.replace] with a string pattern
    replaces the first occurrence, which is the same on bytes as on
    UTF-16 code units. *)

From S2P Require Import Prelude Model.
From Stdlib Require Import QArith.
Local Open Scope api_scope.

Module Seed.

(** ** The default users (lines 26-54)

    The defaults are object literals: [points] is absent from the
    administrator, and [Object.assign] copies only the keys a default has. *)
Record default_user := mkDefaultUser {
  du_id : string; du_login : string; du_password : string; du_role : role;
  du_name : string; du_email : string; du_points : option Z
}.

Definition defaultUsers : list default_user :=
  [mkDefaultUser "1" "admin" "admin" ADMIN "Администратор" "admin@platform.ru" None;
   mkDefaultUser "2" "user1" "123" USER "Иван Петров" "user1@platform.ru" (Some 200%Z);
   mkDefaultUser "3" "user2" "123" USER "Мария Иванова" "user2@platform.ru" (Some 200%Z)].

(** The default pushed as it is. *)
Definition as_user (d : default_user) : user :=
  mkUser (du_id d) (du_login d) (du_password d) (du_role d) (du_name d)
    (Some (du_email d)) None None (du_points d).

(** [Object.assign(existingUser, defaultUser)]. *)
Definition assign_default (d : default_user) (e : user) : user :=
  mkUser (du_id d) (du_login d) (du_password d) (du_role d) (du_name d)
    (Some (du_email d)) (u_phone e) (u_contactInfo e)
    (match du_points d with Some p => Some p | None => u_points e end).

(** [u.id === defaultUser.id || u.login === defaultUser.login] *)
Definition matches_default (d : default_user) (u : user) : Prop :=
  u_id u = du_id d ∨ u_login u = du_login d.

(** One iteration of [defaultUsers.forEach] (lines 149-156): the found user
    is updated in place, otherwise the default is pushed. *)
Definition merge_user (users : list user) (d : default_user) : list user :=
  match list_find (matches_default d) users with
  | Some (i, e) => <[i := assign_default d e]> users
  | None => users ++ [as_user d]
  end.

Definition merge_users (users : list user) : list user :=
  foldl merge_user users defaultUsers.

(** ** Cities (lines 10-23 and 119-127) *)

(** [cityCoordinates], the decimal literals as exact rationals. *)
Definition cityCoordinates (c : string) : option (Q * Q) :=
  if bool_decide (c = "Алматы") then Some (432220 # 10000, 768512 # 10000)%Q
  else if bool_decide (c = "Астана") then Some (511694 # 10000, 714491 # 10000)%Q
  else if bool_decide (c = "Шымкент") then Some (423419 # 10000, 695901 # 10000)%Q
  else if bool_decide (c = "Актобе") then Some (502833 # 10000, 571667 # 10000)%Q
  else if bool_decide (c = "Караганда") then Some (498014 # 10000, 731059 # 10000)%Q
  else if bool_decide (c = "Тараз") then Some (429000 # 10000, 713667 # 10000)%Q
  else if bool_decide (c = "Павлодар") then Some (523000 # 10000, 769500 # 10000)%Q
  else if bool_decide (c = "Усть-Каменогорск") then Some (499500 # 10000, 826167 # 10000)%Q
  else if bool_decide (c = "Семей") then Some (504111 # 10000, 802275 # 10000)%Q
  else if bool_decide (c = "Костанай") then Some (532167 # 10000, 636333 # 10000)%Q
  else if bool_decide (c = "Кызылорда") then Some (448500 # 10000, 655167 # 10000)%Q
  else if bool_decide (c = "Петропавловск") then Some (548667 # 10000, 691500 # 10000)%Q
  else None.

(** [cityMap]: Russian city to the Kazakh one that replaces it. *)
Definition cityMap (c : string) : option string :=
  if bool_decide (c = "Москва") then Some "Алматы"
  else if bool_decide (c = "Санкт-Петербург") then Some "Астана"
  else if bool_decide (c = "Казань") then Some "Шымкент"
  else if bool_decide (c = "Новосибирск") then Some "Караганда"
  else if bool_decide (c = "Екатеринбург") then Some "Актобе"
  else if bool_decide (c = "Нижний Новгород") then Some "Павлодар"
  else if bool_decide (c = "Краснодар") then Some "Тараз"
  else None.

(** [s.replace(pat, rep)] with a string pattern: the first occurrence. *)
Fixpoint replace_first (pat rep s : string) : string :=
  if String.prefix pat s then String.append rep (String.substring (String.length pat) (String.length s) s)
  else match s with
       | EmptyString => EmptyString
       | String c s' => String c (replace_first pat rep s')
       end.

(** The body of [tasks.map] (lines 130-145). *)
Definition migrate_task (t : task) : task :=
  let c := t_content t in
  match cityMap (c_city c) with
  | Some newCity =>
      let '(lat, lng) := default (432220 # 10000, 768512 # 10000)%Q (cityCoordinates newCity) in
      let address := if truthy_id (c_address c)
                     then option_map (replace_first (c_city c) newCity) (c_address c)
                     else Some newCity in
      mkTask (t_id t)
        (mkContent (c_title c) (c_description c) newCity (c_phone c) (c_contactInfo c)
           address (c_imageUrl c) (c_images c) (Some lat) (Some lng))
        (t_status t) (t_createdBy t) (t_assignedTo t) (t_createdAt t)
        (t_completedAt t) (t_points t) (t_report t)
  | None => t
  end.

(** ** The default tasks (lines 56-113), dated from [Date.now()] *)
Definition day : Z := 86400000.

Definition default_task (id title description city image : string) (st : status)
    (assigned : option string) (createdAt : Z) (completedAt : option Z) (points : Z)
    (lat lng : Q) : task :=
  mkTask id (mkContent title description city None None None (Some image) None
               (Some lat) (Some lng))
    st "3" assigned createdAt completedAt (Some points) None.

Definition defaultTasks (now : Z) : list task :=
  [default_task "1" "Помощь в уборке квартиры"
     "Нужна помощь в уборке квартиры пожилой женщине. Требуется помощь с генеральной уборкой."
     "Алматы" "https://images.unsplash.com/photo-1581578731548-c64695cc6952?w=400"
     OPEN None (now - day * 2) None 50 (432220 # 10000) (768512 # 10000);
   default_task "2" "Доставка продуктов"
     "Нужна помощь с доставкой продуктов из магазина. Живу на 3 этаже, лифт не работает."
     "Астана" "https://images.unsplash.com/photo-1556912172-45b7abe8b7e1?w=400"
     PENDING None (now - day) None 30 (511694 # 10000) (714491 # 10000);
   default_task "3" "Помощь в ремонте"
     "Требуется помощь с мелким ремонтом в квартире. Нужно повесить полки и починить кран."
     "Шымкент" "https://images.unsplash.com/photo-1503387762-592deb58ef4e?w=400"
     DONE (Some "2") (now - day * 5) (Some (now - day * 1)) 75 (423419 # 10000) (695901 # 10000);
   default_task "4" "Прогулка с собакой"
     "Нужна помощь с выгулом собаки. Не могу выйти из дома по состоянию здоровья."
     "Алматы" "https://images.unsplash.com/photo-1551717743-49959800b1f6?w=400"
     OPEN None (now - 3600000) None 25 (432220 # 10000) (768512 # 10000)]%Z.

(** ** [seedData] (lines 25-165) *)
Definition seedData (now : Z) : Api unit :=
  users <- read_users ;;
  tasks <- read_tasks ;;
  tasks <- (if bool_decide (0 < length tasks)%nat
            then let tasks' := map migrate_task tasks in
                 write_tasks tasks' ;;; ret tasks'
            else ret tasks) ;;
  let users := merge_users users in
  let tasks := if bool_decide (length tasks = 0)%nat then defaultTasks now else tasks in
  write_users users ;;;
  write_tasks tasks.

(** ** Facts about the merge *)

(** Two defaults that share neither id nor login. *)
Definition disjoint (d d' : default_user) : Prop :=
  du_id d ≠ du_id d' ∧ du_login d ≠ du_login d'.

(** The first user matching [d] already carries every field of [d]. *)
Definition merged (us : list user) (d : default_user) : Prop :=
  ∃ i u, list_find (matches_default d) us = Some (i, u) ∧ assign_default d u = u.

Lemma assign_default_idem d e : assign_default d (assign_default d e) = assign_default d e.
Proof. by destruct d as [? ? ? ? ? ? []]. Qed.

Lemma as_user_fixed d : assign_default d (as_user d) = as_user d.
Proof. by destruct d as [? ? ? ? ? ? []]. Qed.

Lemma fixed_no_match d d' u :
  assign_default d u = u -> disjoint d d' -> ¬ matches_default d' u.
Proof. intros <- [Hi Hl] [H|H]; simpl in H; congruence. Qed.

Lemma merge_user_merged us d : merged (merge_user us d) d.
Proof.
  unfold merge_user. destruct (list_find _ us) as [[i e]|] eqn:Hf.
  - exists i, (assign_default d e). split; [|apply assign_default_idem].
    eapply list_find_insert_same; [exact Hf|by left].
  - exists (length us), (as_user d). split; [|apply as_user_fixed].
    rewrite list_find_app_r by done. cbn. rewrite decide_True by (by left).
    done.
Qed.

Lemma merge_user_keeps us d d' :
  merged us d -> disjoint d d' -> merged (merge_user us d') d.
Proof.
  intros (i & u & Hf & Hu) Hdis. exists i, u. split; [|done]. unfold merge_user.
  destruct (list_find (matches_default d') us) as [[j e]|] eqn:Hf'.
  - apply list_find_insert_other; [done| | |].
    + intros ->. apply (fixed_no_match d d' u Hu Hdis).
      pose proof Hf' as Hm. apply list_find_holds in Hm.
      apply list_find_lookup in Hf, Hf'. assert (u = e) as -> by congruence. done.
    + apply (fixed_no_match d' d); [apply assign_default_idem|].
      destruct Hdis. split; congruence.
    + intros z Hz Hlt. apply list_find_Some in Hf as (_ & _ & Hbef). by eapply Hbef.
  - by apply list_find_app_l.
Qed.

Lemma merge_user_fixed us d : merged us d -> merge_user us d = us.
Proof.
  intros (i & u & Hf & Hu). unfold merge_user. rewrite Hf, Hu.
  apply list_insert_id. by eapply list_find_lookup.
Qed.

Lemma merge_fold_keeps ds us d :
  merged us d -> Forall (disjoint d) ds -> merged (foldl merge_user us ds) d.
Proof.
  revert us. induction ds as [|d' ds IH]; intros us Hm Hall; [done|].
  inversion Hall; subst. simpl. apply IH; [|done]. by apply merge_user_keeps.
Qed.

Lemma merge_fold_merged ds us :
  NoDup (map du_id ds) -> NoDup (map du_login ds) ->
  Forall (merged (foldl merge_user us ds)) ds.
Proof.
  revert us. induction ds as [|d ds IH]; intros us Hid Hlg; [constructor|].
  simpl in *. apply list.NoDup_cons in Hid as [Hid Hid'].
  apply list.NoDup_cons in Hlg as [Hlg Hlg'].
  constructor; [|by apply IH].
  apply merge_fold_keeps; [apply merge_user_merged|].
  apply list.Forall_forall. intros d' Hd'. split; intros Heq.
  - apply Hid. rewrite Heq. by apply list_elem_of_fmap_2.
  - apply Hlg. rewrite Heq. by apply list_elem_of_fmap_2.
Qed.

Lemma merge_fold_id ds us : Forall (merged us) ds -> foldl merge_user us ds = us.
Proof.
  induction ds as [|d ds IH]; intros Hall; [done|]. inversion Hall; subst.
  simpl. rewrite merge_user_fixed by done. by apply IH.
Qed.

Lemma defaults_merged us : Forall (merged (merge_users us)) defaultUsers.
Proof. apply merge_fold_merged; decide_prop. Qed.

Lemma merge_users_idem us : merge_users (merge_users us) = merge_users us.
Proof. apply merge_fold_id, defaults_merged. Qed.

(** ** Facts about the migration of cities *)

Lemma cityMap_target c nc : cityMap c = Some nc -> cityMap nc = None.
Proof.
  unfold cityMap at 1. repeat case_bool_decide; intros Hc; try discriminate;
    injection Hc as <-; reflexivity.
Qed.

Lemma migrate_task_none t : cityMap (c_city (t_content t)) = None -> migrate_task t = t.
Proof. intros H. unfold migrate_task. by rewrite H. Qed.

Lemma migrate_task_city t : cityMap (c_city (t_content (migrate_task t))) = None.
Proof.
  destruct (cityMap (c_city (t_content t))) as [nc|] eqn:Hc.
  - unfold migrate_task. rewrite Hc. destruct (default _ _) as [lat lng].
    simpl. by apply (cityMap_target _ _ Hc).
  - by rewrite migrate_task_none.
Qed.

Lemma seedData_run now s :
  seedData now s =
  Ok tt (mkStore (merge_users (st_users s))
           (if bool_decide (length (st_tasks s) = 0)%nat then defaultTasks now
            else map migrate_task (st_tasks s))
           (st_messages s)).
Proof.
  unfold seedData. store_unfold. destruct (st_tasks s) as [|t ts]; [done|].
  done.
Qed.

Lemma migrate_task_keeps t :
  t_id (migrate_task t) = t_id t ∧ t_status (migrate_task t) = t_status t ∧
  t_createdBy (migrate_task t) = t_createdBy t ∧
  t_assignedTo (migrate_task t) = t_assignedTo t ∧ t_points (migrate_task t) = t_points t.
Proof.
  unfold migrate_task. destruct (cityMap _); [destruct (default _ _)|]; done.
Qed.

(** ** Properties of [seedData] *)

(** Seeding is idempotent: loading the page again, at any later time,
    writes back exactly the store the previous load left. *)
Theorem seed_idempotent n1 n2 s :
  final_store (seedData n2 (final_store (seedData n1 s))) = final_store (seedData n1 s).
Proof.
  rewrite !seedData_run. cbn [final_store st_users st_tasks st_messages].
  rewrite merge_users_idem. f_equal.
  destruct (decide (length (st_tasks s) = 0)%nat) as [H0|H0].
  - rewrite (bool_decide_true _ H0), bool_decide_false by (cbn; lia). reflexivity.
  - rewrite (bool_decide_false _ H0), bool_decide_false by (by rewrite length_map).
    rewrite map_map. apply map_ext. intros t. apply migrate_task_none, migrate_task_city.
Qed.

(** C21: after every load, the first stored user that has the id or the
    login of a default account carries that account's id, login, password,
    role, and (for [user1] and [user2]) a balance of 200 points, whatever
    the user had earned, spent or edited before. *)
Theorem seed_restores_defaults now s :
  Forall (fun d => ∃ i u,
            list_find (matches_default d) (st_users (final_store (seedData now s))) = Some (i, u) ∧
            u_id u = du_id d ∧ u_login u = du_login d ∧ u_password u = du_password d ∧
            u_role u = du_role d ∧ u_name u = du_name d ∧
            ∀ p, du_points d = Some p -> u_points u = Some p)
         defaultUsers.
Proof.
  rewrite seedData_run. cbn [final_store st_users].
  apply list.Forall_forall. intros d Hd.
  destruct (proj1 (list.Forall_forall _ _) (defaults_merged (st_users s)) d Hd)
    as (i & u & Hf & Hu).
  exists i, u. split; [done|]. rewrite <- Hu. cbn. split_and!; try done.
  intros p ->. done.
Qed.

(** After every load no task has a city of [cityMap], and every task
    stored before is still stored with its id, status, creator, assignee and
    points: the migration only moves tasks to Kazakh cities. *)
Theorem seed_migrates_cities now s :
  Forall (fun t => cityMap (c_city (t_content t)) = None)
         (st_tasks (final_store (seedData now s))) ∧
  ∀ t, t ∈ st_tasks s -> ∃ t', t' ∈ st_tasks (final_store (seedData now s)) ∧
         t_id t' = t_id t ∧ t_status t' = t_status t ∧ t_createdBy t' = t_createdBy t ∧
         t_assignedTo t' = t_assignedTo t ∧ t_points t' = t_points t.
Proof.
  rewrite seedData_run. cbn [final_store st_tasks]. case_bool_decide as Hlen.
  - apply nil_length_inv in Hlen. rewrite Hlen. split; [repeat constructor|].
    intros t Ht. by apply list.not_elem_of_nil in Ht.
  - split.
    + apply Forall_fmap, list.Forall_forall. intros t _. apply migrate_task_city.
    + intros t Ht. exists (migrate_task t). split; [by apply list_elem_of_fmap_2|].
      apply migrate_task_keeps.
Qed.

End Seed.

(** * Concrete runs *)
Module SeedExamples.
Import Seed ModelExamples.

(** A page load on the example store: the balance of 10 points that user
    "2" had left is back to 200, and the administrator gains the default
    password. *)
Example seed_resets_demo_balance :
  option_map (fun p => (u_points p.2, u_password p.2))
    (find_user "2" (st_users (final_store (seedData 0 demo)))) = Some (Some 200%Z, "123").
Proof. reflexivity. Qed.

(** The first load on an empty browser: three users and four tasks. *)
Example seed_fresh :
  length (st_users (final_store (seedData 0 (mkStore [] [] [])))) = 3%nat ∧
  length (st_tasks (final_store (seedData 0 (mkStore [] [] [])))) = 4%nat.
Proof. split; reflexivity. Qed.

(** A task posted in Moscow is moved to Almaty with its address. *)
Definition moscow_task : task :=
  mkTask "9" (mkContent "t" "d" "Москва" None None (Some "Москва, ул. Ленина 1") None None None None)
    OPEN "3" None 0 None (Some 10%Z) None.

Example seed_moves_moscow :
  option_map (fun t => (c_city (t_content t), c_address (t_content t)))
    (head (st_tasks (final_store (seedData 0 (mkStore [] [moscow_task] [])))))
  = Some ("Алматы", Some "Алматы, ул. Ленина 1").
Proof. reflexivity. Qed.

Lemma seed_migrates_cities_witness :
  moscow_task ∈ st_tasks (mkStore [] [moscow_task] []) ∧
  ∃ t', t' ∈ st_tasks (final_store (seedData 0 (mkStore [] [moscow_task] []))) ∧
        t_id t' = "9" ∧ t_status t' = OPEN ∧ t_createdBy t' = "3" ∧
        t_assignedTo t' = None ∧ t_points t' = Some 10%Z.
Proof.
  assert (Hin : moscow_task ∈ st_tasks (mkStore [] [moscow_task] [])) by constructor.
  split; [exact Hin|].
  exact (proj2 (seed_migrates_cities 0 (mkStore [] [moscow_task] [])) moscow_task Hin).
Defined.

End SeedExamples.
