(* ===== verification/Chat.v ===== *)
(** * Chat: messages of a task, their order, and the chat views

    [getChatMessages] (mockApi.js lines 343-349) filters the stored messages
    by task and sorts them with [Array.prototype.sort] and the comparator
    [new Date(a.timestamp) - new Date(b.timestamp)]; [sendChatMessage]
    (351-361) appends one.  The language guarantees that this sort is
    stable (ECMAScript 2019), so the model sorts by a stable insertion sort
    on the timestamp, and [getChatMessages_unique] shows that any sort with that
    contract gives the same list.  The views [ChatSidebar.jsx] and
    [Chat.jsx] choose the tasks that have a chat and the other party of a
    chat; those choices are modelled here too. *)

From S2P Require Import Prelude Model Accounts.
From stdpp Require Import gmap.
From Stdlib Require Import Sorting.Sorted Sorting.Permutation.
Local Open Scope api_scope.

(** * A stable sort by an integer key *)

Section StableSort.
Context {A : Type} (key : A -> Z).

(** Insert [x] before the first element whose key is not smaller. *)
Fixpoint insert_by (x : A) (l : list A) : list A :=
  match l with
  | [] => [x]
  | y :: l' => if bool_decide (key x <= key y)%Z then x :: y :: l' else y :: insert_by x l'
  end.

Fixpoint sort_by (l : list A) : list A :=
  match l with
  | [] => []
  | x :: l' => insert_by x (sort_by l')
  end.

Definition key_le (a b : A) : Prop := (key a <= key b)%Z.

(** The elements with key [k], in order. *)
Definition with_key (k : Z) (l : list A) : list A :=
  filter (fun x => key x = k) l.

Lemma insert_by_perm x l : Permutation (insert_by x l) (x :: l).
Proof.
  induction l as [|y l IH]; simpl; [done|]. case_bool_decide; [done|].
  rewrite IH. apply perm_swap.
Qed.

Lemma sort_by_perm l : Permutation (sort_by l) l.
Proof.
  induction l as [|x l IH]; simpl; [done|]. by rewrite insert_by_perm, IH.
Qed.

Lemma insert_by_sorted x l : Sorted key_le l -> Sorted key_le (insert_by x l).
Proof.
  induction 1 as [|y l Hs IH Hhd]; simpl; [repeat constructor|].
  case_bool_decide as Hxy; [by repeat constructor|].
  constructor; [done|]. inversion Hhd as [|z l' Hyz]; subst; simpl.
  - constructor. unfold key_le. lia.
  - case_bool_decide; constructor; unfold key_le in *; lia.
Qed.

Lemma sort_by_sorted l : Sorted key_le (sort_by l).
Proof. induction l; simpl; [constructor|]. by apply insert_by_sorted. Qed.

(** Inserting [x] only passes elements of strictly smaller key, so the
    elements of each key keep their order. *)
Lemma insert_by_with_key k x l :
  with_key k (insert_by x l) = with_key k (x :: l).
Proof.
  unfold with_key. induction l as [|y l IH]; simpl; [done|].
  case_bool_decide as Hxy; [done|].
  rewrite filter_cons, IH, !filter_cons. repeat case_decide; try done; lia.
Qed.

Lemma sort_by_stable k l : with_key k (sort_by l) = with_key k l.
Proof.
  induction l as [|x l IH]; [done|]. cbn [sort_by].
  rewrite insert_by_with_key. unfold with_key in *. rewrite !filter_cons.
  case_decide; by rewrite IH.
Qed.

Lemma key_le_trans : Transitive key_le.
Proof. intros a b c. unfold key_le. lia. Qed.

Lemma in_with_key k x l : x ∈ with_key k l <-> x ∈ l ∧ key x = k.
Proof. unfold with_key. rewrite list_elem_of_filter. tauto. Qed.

(** Two sorted lists with the same elements of every key, in the same order,
    are equal: the contract of a stable sort fixes its result. *)
Lemma sorted_same_keys_eq l1 l2 :
  StronglySorted key_le l1 -> StronglySorted key_le l2 ->
  (∀ k, with_key k l1 = with_key k l2) -> l1 = l2.
Proof.
  revert l2. induction l1 as [|x l1 IH]; intros l2 H1 H2 Hk.
  - destruct l2 as [|y l2]; [done|].
    specialize (Hk (key y)). unfold with_key in Hk.
    by rewrite filter_nil, filter_cons, decide_True in Hk.
  - destruct l2 as [|y l2].
    { specialize (Hk (key x)). unfold with_key in Hk.
      by rewrite filter_nil, filter_cons, decide_True in Hk. }
    apply StronglySorted_inv in H1 as [H1 Hx]. apply StronglySorted_inv in H2 as [H2 Hy].
    assert (Hxy : key x = key y).
    { assert (x ∈ y :: l2) as Hx2.
      { apply (proj1 (in_with_key (key x) x _)). rewrite <- Hk.
        apply in_with_key. split; [left|done]. }
      assert (y ∈ x :: l1) as Hy1.
      { apply (proj1 (in_with_key (key y) y _)). rewrite Hk.
        apply in_with_key. split; [left|done]. }
      apply elem_of_cons in Hx2 as [->|Hx2]; [done|].
      apply elem_of_cons in Hy1 as [<-|Hy1]; [done|].
      eapply list.Forall_forall in Hx; [|exact Hy1].
      eapply list.Forall_forall in Hy; [|exact Hx2].
      unfold key_le in *. lia. }
    pose proof (Hk (key x)) as Hkx. unfold with_key in Hkx.
    rewrite !filter_cons, !decide_True in Hkx by done. injection Hkx as <- Hrest.
    f_equal. apply IH; [done|done|]. intros k.
    specialize (Hk k). unfold with_key in *. rewrite !filter_cons in Hk.
    case_decide; [by injection Hk|done].
Qed.

(** Appending an element whose key is not below any other keeps the sort
    ending with it. *)
Lemma insert_by_app_last x l m :
  (key x <= key m)%Z -> insert_by x (l ++ [m]) = insert_by x l ++ [m] ∨
  (insert_by x (l ++ [m]) = l ++ [x; m] ∧ insert_by x l = l ++ [x]).
Proof.
  intros Hxm. induction l as [|y l IH]; simpl.
  - rewrite bool_decide_true by done. by right.
  - case_bool_decide; [by left|].
    destruct IH as [->|[-> ->]]; [by left|by right].
Qed.

Lemma sort_by_app_last l m :
  Forall (fun y => key y <= key m)%Z l -> sort_by (l ++ [m]) = sort_by l ++ [m].
Proof.
  induction l as [|x l IH]; intros Hall; [done|]. inversion Hall as [|? ? Hx Hl]; subst.
  simpl. rewrite IH by done.
  destruct (insert_by_app_last x (sort_by l) m Hx) as [->|[-> ->]]; [done|].
  by rewrite <- app_assoc.
Qed.

End StableSort.

Module Chat.

(** [messages.filter(m => m.taskId === taskId).sort(by timestamp)] *)
Definition getChatMessages (taskId : string) : Api (list message) :=
  messages <- read_messages ;;
  ret (sort_by m_timestamp (filter (fun m => m_taskId m = taskId) messages)).

(** The object Chat.jsx and ChatSidebar.jsx send. *)
Record message_input := mkMessageInput {
  mi_taskId : string; mi_senderId : string; mi_text : string; mi_timestamp : Z
}.

(** [{ id: String(Date.now()), ...messageData }], pushed and stored. *)
Definition sendChatMessage (d : message_input) (now : Z) : Api message :=
  messages <- read_messages ;;
  let m := mkMessage (id_of_time now) (mi_taskId d) (mi_senderId d) (mi_text d)
             (mi_timestamp d) in
  write_messages (messages ++ [m]) ;;;
  ret m.

(** * The chat views *)

(** ChatSidebar.jsx lines 18-23: the tasks the user takes part in that can
    have a chat. *)
Definition userTasks (uid : string) (ts : list task) : list task :=
  filter (fun t => (t_createdBy t = uid ∨ t_assignedTo t = Some uid) ∧
                   t_status t ≠ PENDING ∧ t_status t ≠ REJECTED ∧
                   (truthy_id (t_assignedTo t) = true ∨ t_createdBy t = uid)) ts.

(** ChatSidebar.jsx lines 106-115 ([getOtherUser]): the creator talks to the
    volunteer, anybody else to the creator. *)
Definition getOtherUser (uid : string) (t : task) : option string :=
  if bool_decide (uid = t_createdBy t)
  then (if truthy_id (t_assignedTo t) then t_assignedTo t else None)
  else Some (t_createdBy t).

(** Chat.jsx lines 19-27: the other party, or nobody for an outsider. *)
Definition otherUserId (uid : string) (t : task) : option (option string) :=
  if bool_decide (uid = t_createdBy t) then Some (t_assignedTo t)
  else if bool_decide (Some uid = t_assignedTo t) then Some (Some (t_createdBy t))
  else None.

(** [text.trim()] on the characters JavaScript treats as white space in
    ASCII (tab, line feed, vertical tab, form feed, carriage return, space). *)
Definition is_ws (c : Ascii.ascii) : bool :=
  let n := Ascii.nat_of_ascii c in bool_decide (n = 32 ∨ (9 <= n <= 13))%nat.

Fixpoint drop_ws (l : list Ascii.ascii) : list Ascii.ascii :=
  match l with
  | c :: l' => if is_ws c then drop_ws l' else l
  | [] => []
  end.

Definition trim (s : string) : string :=
  String.string_of_list_ascii (rev (drop_ws (rev (drop_ws (String.list_ascii_of_string s))))).

(** [handleSendMessage] of ChatSidebar.jsx (lines 77-104) and Chat.jsx
    (lines 52-71): nothing is sent for an empty text after trimming;
    otherwise the trimmed text is sent with the sender's id. *)
Definition handleSendMessage (uid taskId text : string) (timestamp now : Z)
    : Api (option message) :=
  if bool_decide (trim text = "") then ret None
  else m <- sendChatMessage (mkMessageInput taskId uid (trim text) timestamp) now ;;
       ret (Some m).

(** * The sidebar (ChatSidebar.jsx) *)

(** An entry of [activeChats]: [{ taskId, task, lastMessage, unreadCount }]
    (the unread count is always 0 in the code and is left out). *)
Record chat_entry := mkChatEntry {
  ce_taskId : string; ce_task : task; ce_lastMessage : option message
}.

(** The sidebar's state: [activeChats], [messages] (an object from task id
    to the loaded messages) and [selectedTaskId]. *)
Record sidebar := mkSidebar {
  sb_activeChats : list chat_entry;
  sb_messages : gmap string (list message);
  sb_selected : option string
}.

(** [loadChats] (lines 26-51): one entry per chat task, its last message the
    last of [getChatMessages]. *)
Fixpoint load_entries (ts : list task) : Api (list chat_entry) :=
  match ts with
  | [] => ret []
  | t :: ts' =>
      msgs <- getChatMessages (t_id t) ;;
      rest <- load_entries ts' ;;
      ret (mkChatEntry (t_id t) t (last msgs) :: rest)
  end.

Definition loadChats (uid : string) (tasks : list task) (sb : sidebar) : Api sidebar :=
  let ts := userTasks uid tasks in
  if bool_decide (length ts = 0) then ret sb
  else entries <- load_entries ts ;;
       ret (mkSidebar entries (sb_messages sb) (sb_selected sb)).

(** [loadMessages] (lines 57-70), run on selection and every 3 seconds. *)
Definition loadMessages (sb : sidebar) : Api sidebar :=
  if truthy_id (sb_selected sb) then
    match sb_selected sb with
    | Some tid => msgs <- getChatMessages tid ;;
                  ret (mkSidebar (sb_activeChats sb) (<[tid := msgs]> (sb_messages sb))
                         (sb_selected sb))
    | None => ret sb
    end
  else ret sb.

(** Lines 89-100, once the message is stored: append it to the local list
    of the task and make it the last message of the task's entry. *)
Definition record_sent (taskId : string) (m : message) (sb : sidebar) : sidebar :=
  mkSidebar
    (map (fun c => if bool_decide (ce_taskId c = taskId)
                   then mkChatEntry (ce_taskId c) (ce_task c) (Some m) else c)
         (sb_activeChats sb))
    (<[taskId := default [] (sb_messages sb !! taskId) ++ [m]]> (sb_messages sb))
    (sb_selected sb).

(** The sidebar's [handleSendMessage] (lines 77-104) as one call: send,
    then [record_sent]. *)
Definition sidebar_send (uid taskId text : string) (timestamp now : Z) (sb : sidebar)
    : Api sidebar :=
  r <- handleSendMessage uid taskId text timestamp now ;;
  match r with
  | None => ret sb
  | Some m => ret (record_sent taskId m sb)
  end.

(** The effect of lines 26-55 runs again only when the user or the number
    of the user's chat tasks ([userTasks.length]) changes: what it does when
    TaskContext's list goes from [old] to [new]. *)
Definition sidebar_tasks_changed (uid : string) (old new : list task) (sb : sidebar)
    : Api sidebar :=
  if bool_decide (length (userTasks uid new) = length (userTasks uid old)) then ret sb
  else loadChats uid new sb.

(** * The chat of a task page (Chat.jsx) *)

(** [loadChat] (lines 13-45): nothing for an outsider; otherwise the other
    party (looked up when the id is truthy) and the task's messages. *)
Definition loadChat (uid taskId : string) (t : task)
    : Api (option (option public_user * list message)) :=
  match otherUserId uid t with
  | None => ret None
  | Some o =>
      other <- (if truthy_id o
                then users <- Accounts.getUsers ;;
                     ret (option_map snd (list_find (fun u => Some (pu_id u) = o) users))
                else ret None) ;;
      msgs <- getChatMessages taskId ;;
      ret (Some (other, msgs))
  end.

(** [handleSendMessage] of Chat.jsx (lines 52-71): append to the list. *)
Definition chat_send (uid taskId text : string) (timestamp now : Z) (msgs : list message)
    : Api (list message) :=
  r <- handleSendMessage uid taskId text timestamp now ;;
  ret (match r with None => msgs | Some m => msgs ++ [m] end).

(** The cached messages of every task are what the server returns. *)
Definition sidebar_coherent (s : store) (sb : sidebar) : Prop :=
  ∀ tid msgs, sb_messages sb !! tid = Some msgs -> getChatMessages tid s = Ok msgs s.

(** ** Running the API *)

Lemma getChatMessages_run tid s :
  getChatMessages tid s =
  Ok (sort_by m_timestamp (filter (fun m => m_taskId m = tid) (st_messages s))) s.
Proof. done. Qed.

Lemma sendChatMessage_run d now s :
  sendChatMessage d now s =
  Ok (mkMessage (id_of_time now) (mi_taskId d) (mi_senderId d) (mi_text d) (mi_timestamp d))
     (mkStore (st_users s) (st_tasks s)
        (st_messages s ++ [mkMessage (id_of_time now) (mi_taskId d) (mi_senderId d)
                              (mi_text d) (mi_timestamp d)])).
Proof. done. Qed.

(** A message of another task does not change what a task's chat shows. *)
Lemma filter_app_other tid (l : list message) m :
  m_taskId m ≠ tid ->
  filter (fun x => m_taskId x = tid) (l ++ [m]) = filter (fun x => m_taskId x = tid) l.
Proof. intros Hne. rewrite filter_app, filter_cons, decide_False by done. apply app_nil_r. Qed.

Lemma filter_app_same tid (l : list message) m :
  m_taskId m = tid ->
  filter (fun x => m_taskId x = tid) (l ++ [m]) = filter (fun x => m_taskId x = tid) l ++ [m].
Proof. intros He. by rewrite filter_app, filter_cons, decide_True, filter_nil. Qed.

Lemma handleSendMessage_run uid taskId text timestamp now s :
  handleSendMessage uid taskId text timestamp now s =
  if bool_decide (trim text = "") then Ok None s
  else Ok (Some (mkMessage (id_of_time now) taskId uid (trim text) timestamp))
          (mkStore (st_users s) (st_tasks s)
             (st_messages s ++ [mkMessage (id_of_time now) taskId uid (trim text) timestamp])).
Proof. unfold handleSendMessage. by case_bool_decide. Qed.

(** [drop_ws] removes a prefix and stops at a character that is not white
    space. *)
Lemma drop_ws_split l :
  ∃ p, l = p ++ drop_ws l ∧
       (drop_ws l = [] ∨ ∃ c t, drop_ws l = c :: t ∧ is_ws c = false).
Proof.
  induction l as [|c l IH]; simpl; [exists []; auto|].
  destruct (is_ws c) eqn:Hc.
  - destruct IH as [p [Hp Hend]]. exists (c :: p). simpl. rewrite <- Hp. auto.
  - exists []. simpl. eauto 6.
Qed.

Lemma drop_ws_stop c t : is_ws c = false -> drop_ws (c :: t) = c :: t.
Proof. simpl. by intros ->. Qed.

Lemma list_ascii_of_string_of_list l :
  String.list_ascii_of_string (String.string_of_list_ascii l) = l.
Proof. apply String.list_ascii_of_string_of_list_ascii. Qed.

Lemma trim_idem s : trim (trim s) = trim s.
Proof.
  unfold trim. rewrite list_ascii_of_string_of_list. f_equal.
  set (a := drop_ws (String.list_ascii_of_string s)).
  set (b := drop_ws (rev a)).
  destruct (drop_ws_split (rev a)) as [p [Hp Hb]]. fold b in Hp, Hb.
  assert (Ha : a = rev b ++ rev p) by (rewrite <- rev_app_distr, <- Hp; by rewrite rev_involutive).
  assert (Hrb : drop_ws (rev b) = rev b).
  { destruct (rev b) as [|c t] eqn:Hr; [done|]. apply drop_ws_stop.
    destruct (drop_ws_split (String.list_ascii_of_string s)) as [q [_ [Hnil|(c' & t' & Hc' & Hws)]]].
    - fold a in Hnil. rewrite Hnil in Ha. rewrite ?Hr in Ha. discriminate Ha.
    - fold a in Hc'. rewrite Ha in Hc'. rewrite ?Hr in Hc'. simpl in Hc'.
      by injection Hc' as -> _. }
  rewrite Hrb, rev_involutive.
  destruct Hb as [-> | (c & t & -> & Hc)]; [done|]. by rewrite drop_ws_stop.
Qed.

(** A message no older than the others of its task goes last in its chat. *)
Lemma get_after_append (l : list message) m :
  Forall (fun x => m_taskId x = m_taskId m -> (m_timestamp x <= m_timestamp m)%Z) l ->
  sort_by m_timestamp (filter (fun x => m_taskId x = m_taskId m) (l ++ [m])) =
  sort_by m_timestamp (filter (fun x => m_taskId x = m_taskId m) l) ++ [m].
Proof.
  intros Hall. rewrite filter_app_same by done. apply sort_by_app_last.
  apply list.Forall_forall. intros x Hx. apply list_elem_of_filter in Hx as [He Hx].
  by apply (proj1 (list.Forall_forall _ _) Hall).
Qed.

(** ** Properties of the chat *)

(** C24: [getChatMessages] returns the messages of the task sorted by
    timestamp, each message exactly once, and messages with the same
    timestamp in the order they were stored (the sort is stable). *)
Theorem getChatMessages_sorted_stable tid s :
  ∃ l, getChatMessages tid s = Ok l s ∧
       Sorted (key_le m_timestamp) l ∧
       Permutation l (filter (fun m => m_taskId m = tid) (st_messages s)) ∧
       ∀ k, with_key m_timestamp k l =
            with_key m_timestamp k (filter (fun m => m_taskId m = tid) (st_messages s)).
Proof.
  eexists. split; [apply getChatMessages_run|].
  split; [apply sort_by_sorted|]. split; [apply sort_by_perm|]. intros k. apply sort_by_stable.
Qed.

(** Any list that is sorted by timestamp and keeps the stored order of
    the messages of each timestamp is what [getChatMessages] returns: the
    insertion sort of the model refines every stable sort, in particular
    the engine's [Array.prototype.sort]. *)
Theorem getChatMessages_unique tid s l :
  StronglySorted (key_le m_timestamp) l ->
  (∀ k, with_key m_timestamp k l =
        with_key m_timestamp k (filter (fun m => m_taskId m = tid) (st_messages s))) ->
  getChatMessages tid s = Ok l s.
Proof.
  intros Hs Hk. rewrite getChatMessages_run. f_equal.
  apply (sorted_same_keys_eq m_timestamp); [|done|].
  - apply Sorted_StronglySorted; [apply key_le_trans|apply sort_by_sorted].
  - intros k. by rewrite sort_by_stable, Hk.
Qed.

(** After [sendChatMessage] with a timestamp no older than the task's
    other messages, [getChatMessages] returns the previous chat followed by
    the new message, which the sidebar then shows as the last message. *)
Theorem send_then_get_last d now s l :
  getChatMessages (mi_taskId d) s = Ok l s ->
  Forall (fun m => m_taskId m = mi_taskId d -> (m_timestamp m <= mi_timestamp d)%Z)
         (st_messages s) ->
  ∃ m s', sendChatMessage d now s = Ok m s' ∧
          m_taskId m = mi_taskId d ∧ m_senderId m = mi_senderId d ∧ m_text m = mi_text d ∧
          getChatMessages (mi_taskId d) s' = Ok (l ++ [m]) s' ∧ last (l ++ [m]) = Some m.
Proof.
  rewrite getChatMessages_run. intros Hl Hall. injection Hl as <-.
  eexists _, _. split; [apply sendChatMessage_run|]. do 3 (split; [done|]).
  split; [|by rewrite last_snoc]. rewrite getChatMessages_run. cbn [st_messages].
  pose proof (get_after_append (st_messages s)
    (mkMessage (id_of_time now) (mi_taskId d) (mi_senderId d) (mi_text d) (mi_timestamp d))
    Hall) as Happ.
  cbn [m_taskId m_timestamp] in Happ. by rewrite Happ.
Qed.

(** Storing a message of a task whose chat is cached, with a timestamp no
    older than the task's other messages, and appending it to the cache
    keeps the cache equal to the server's chats. *)
Lemma record_sent_coherent s sb d now :
  sidebar_coherent s sb ->
  is_Some (sb_messages sb !! mi_taskId d) ->
  Forall (fun m => m_taskId m = mi_taskId d -> (m_timestamp m <= mi_timestamp d)%Z)
         (st_messages s) ->
  ∀ m s', sendChatMessage d now s = Ok m s' ->
  sidebar_coherent s' (record_sent (mi_taskId d) m sb).
Proof.
  intros Hcoh [old Hold] Hall m s' Hsend. rewrite sendChatMessage_run in Hsend.
  injection Hsend as <- <-. intros tid msgs Hlook. cbn [sb_messages record_sent] in Hlook.
  rewrite getChatMessages_run. cbn [st_messages].
  destruct (decide (tid = mi_taskId d)) as [->|Hne].
  - rewrite lookup_insert_eq, Hold in Hlook. injection Hlook as <-.
    apply Hcoh in Hold. rewrite getChatMessages_run in Hold. injection Hold as <-.
    pose proof (get_after_append (st_messages s)
      (mkMessage (id_of_time now) (mi_taskId d) (mi_senderId d) (mi_text d) (mi_timestamp d))
      Hall) as Happ.
    cbn [m_taskId m_timestamp] in Happ. by rewrite Happ.
  - rewrite lookup_insert_ne in Hlook by congruence. apply Hcoh in Hlook.
    rewrite getChatMessages_run in Hlook. injection Hlook as <-.
    by rewrite filter_app_other by (cbn; congruence).
Qed.

(** Sending from the sidebar keeps its cache equal to the server's
    chats, provided the task's chat was loaded and the browser clock is not
    behind the task's other messages; the cached lists of other tasks are
    untouched. *)
Theorem sidebar_send_coherent uid taskId text timestamp now s sb :
  sidebar_coherent s sb ->
  is_Some (sb_messages sb !! taskId) ->
  Forall (fun m => m_taskId m = taskId -> (m_timestamp m <= timestamp)%Z) (st_messages s) ->
  ∃ sb' s', sidebar_send uid taskId text timestamp now sb s = Ok sb' s' ∧
            sidebar_coherent s' sb'.
Proof.
  intros Hcoh Hold Hall. unfold sidebar_send, bind at 1.
  rewrite handleSendMessage_run. case_bool_decide; [by eexists _, _|].
  eexists _, _. split; [reflexivity|].
  apply (record_sent_coherent s sb (mkMessageInput taskId uid (trim text) timestamp) now);
    [done..|apply sendChatMessage_run].
Qed.

(** [handleSendMessage] sends nothing and leaves the store as it was
    when the text is white space only; otherwise it stores one message, sent
    by the signed-in user, whose text is the trimmed text: non-empty and
    unchanged by a second trim. *)
Theorem handleSendMessage_trimmed uid taskId text timestamp now s :
  match handleSendMessage uid taskId text timestamp now s with
  | Ok None s' => trim text = "" ∧ s' = s
  | Ok (Some m) s' =>
      m_text m = trim text ∧ m_text m ≠ "" ∧ trim (m_text m) = m_text m ∧
      m_senderId m = uid ∧ m_taskId m = taskId ∧
      st_messages s' = st_messages s ++ [m] ∧ st_tasks s' = st_tasks s ∧
      st_users s' = st_users s
  | Err _ _ => False
  end.
Proof.
  rewrite handleSendMessage_run. case_bool_decide as Hempty; [done|].
  cbn. repeat split; try done. apply trim_idem.
Qed.

(** For a task of the sidebar's list, the sidebar and the task page
    agree on the other party: Chat.jsx finds one, and whenever its id is
    truthy (the only case in which Chat.jsx looks the user up) the sidebar's
    [getOtherUser] names the same id. *)
Theorem chat_partner_agrees uid ts t :
  t ∈ userTasks uid ts ->
  ∃ o, otherUserId uid t = Some o ∧ (truthy_id o = true -> getOtherUser uid t = o).
Proof.
  unfold userTasks. intros Hin. apply list_elem_of_filter in Hin as [[Hp _] _].
  unfold otherUserId, getOtherUser. case_bool_decide as Hc.
  - eexists. split; [done|]. by intros ->.
  - destruct Hp as [Hp|Hp]; [congruence|].
    rewrite bool_decide_true by done. by eexists.
Qed.

End Chat.

(** * Concrete runs *)
Module ChatExamples.
Import Chat ModelExamples.

(** Three messages of task "2", two of them at the same time, and one of
    task "1". *)
Definition m1 : message := mkMessage "100" "2" "2" "Hi" 1000.
Definition m2 : message := mkMessage "101" "2" "3" "Hello" 1000.
Definition m3 : message := mkMessage "102" "1" "3" "x" 500.
Definition m4 : message := mkMessage "103" "2" "2" "early" 900.

Definition chat_store : store :=
  mkStore (st_users demo) (st_tasks demo) [m1; m2; m3; m4].

(** The sidebar with the chat of task "2" loaded and selected. *)
Definition sb0 : sidebar := mkSidebar [] {[ "2" := [m4; m1; m2] ]} (Some "2").

Definition reply : message_input := mkMessageInput "2" "3" "Thanks" 2000.

(** The sorted chat of task "2": the early message first, then the two
    simultaneous ones in the order they were sent. *)
Example chat_sorted_run : getChatMessages "2" chat_store = Ok [m4; m1; m2] chat_store.
Proof. reflexivity. Qed.

Example trim_run : trim "  hi  " = "hi".
Proof. reflexivity. Qed.

Lemma getChatMessages_unique_witness :
  StronglySorted (key_le m_timestamp) [m4; m1; m2] ∧
  (∀ k, with_key m_timestamp k [m4; m1; m2] =
        with_key m_timestamp k (filter (fun m => m_taskId m = "2") (st_messages chat_store))) ∧
  getChatMessages "2" chat_store = Ok [m4; m1; m2] chat_store.
Proof.
  assert (Hs : StronglySorted (key_le m_timestamp) [m4; m1; m2])
    by (repeat (constructor || (unfold key_le; cbn; lia))).
  assert (Hk : ∀ k, with_key m_timestamp k [m4; m1; m2] =
        with_key m_timestamp k (filter (fun m => m_taskId m = "2") (st_messages chat_store))).
  { intros k. rewrite <- (sort_by_stable m_timestamp k (filter _ (st_messages chat_store))). f_equal. }
  split; [exact Hs|]. split; [exact Hk|]. exact (getChatMessages_unique "2" chat_store _ Hs Hk).
Defined.

Lemma send_then_get_last_witness :
  getChatMessages "2" chat_store = Ok [m4; m1; m2] chat_store ∧
  Forall (fun m => m_taskId m = "2" -> (m_timestamp m <= 2000)%Z) (st_messages chat_store) ∧
  ∃ m s', sendChatMessage reply 5000 chat_store = Ok m s' ∧
          m_taskId m = "2" ∧ m_senderId m = "3" ∧ m_text m = "Thanks" ∧
          getChatMessages "2" s' = Ok ([m4; m1; m2] ++ [m]) s' ∧
          last ([m4; m1; m2] ++ [m]) = Some m.
Proof.
  assert (Hg : getChatMessages "2" chat_store = Ok [m4; m1; m2] chat_store) by reflexivity.
  assert (Hall : Forall (fun m => m_taskId m = "2" -> (m_timestamp m <= 2000)%Z)
                        (st_messages chat_store))
    by (repeat (constructor || (cbn; intros; lia))).
  split; [exact Hg|]. split; [exact Hall|].
  exact (send_then_get_last reply 5000 chat_store _ Hg Hall).
Defined.

Lemma sidebar_send_coherent_witness :
  sidebar_coherent chat_store sb0 ∧ is_Some (sb_messages sb0 !! "2") ∧
  Forall (fun m => m_taskId m = "2" -> (m_timestamp m <= 2000)%Z) (st_messages chat_store) ∧
  ∃ sb' s', sidebar_send "3" "2" " Thanks " 2000 5000 sb0 chat_store = Ok sb' s' ∧
            sidebar_coherent s' sb'.
Proof.
  assert (Hc : sidebar_coherent chat_store sb0).
  { intros tid msgs H. cbn [sb0 sb_messages] in H. apply lookup_singleton_Some in H as [<- <-]. reflexivity. }
  assert (Hl : is_Some (sb_messages sb0 !! "2"))
    by (exists [m4; m1; m2]; cbn [sb0 sb_messages]; by apply lookup_singleton_Some).
  assert (Hall : Forall (fun m => m_taskId m = "2" -> (m_timestamp m <= 2000)%Z)
                        (st_messages chat_store))
    by (repeat (constructor || (cbn; intros; lia))).
  split; [exact Hc|]. split; [exact Hl|]. split; [exact Hall|].
  exact (sidebar_send_coherent "3" "2" " Thanks " 2000 5000 chat_store sb0 Hc Hl Hall).
Defined.

Lemma chat_partner_agrees_witness :
  mk_task "2" IN_PROGRESS "3" (Some "2") 30 ∈ userTasks "2" (st_tasks demo) ∧
  ∃ o, otherUserId "2" (mk_task "2" IN_PROGRESS "3" (Some "2") 30) = Some o ∧
       (truthy_id o = true -> getOtherUser "2" (mk_task "2" IN_PROGRESS "3" (Some "2") 30) = o).
Proof.
  assert (Hin : mk_task "2" IN_PROGRESS "3" (Some "2") 30 ∈ userTasks "2" (st_tasks demo)).
  { change (mk_task "2" IN_PROGRESS "3" (Some "2") 30 ∈
            [mk_task "2" IN_PROGRESS "3" (Some "2") 30; mk_task "3" REVIEW "3" (Some "2") 75]).
    constructor. }
  split; [exact Hin|]. exact (chat_partner_agrees "2" (st_tasks demo) _ Hin).
Defined.

(** A browser clock behind the task's last message: the sidebar appends the
    new message last while the server sorts it first, so the cache and the
    server disagree until the next poll. *)
Example stale_clock_breaks_cache :
  ∃ sb' s', sidebar_send "3" "2" "Late" 100 5000 sb0 chat_store = Ok sb' s' ∧
            ¬ sidebar_coherent s' sb'.
Proof.
  eexists _, _. split; [reflexivity|]. intros Hc.
  specialize (Hc "2" _ (lookup_insert_eq _ _ _)). vm_compute in Hc. congruence.
Qed.

(** Sending before the chat was loaded: the cache holds the new message
    alone. *)
Example unloaded_chat_breaks_cache :
  ∃ sb' s', sidebar_send "3" "2" "Hi again" 2000 5000
              (mkSidebar [] ∅ (Some "2")) chat_store = Ok sb' s' ∧
            ¬ sidebar_coherent s' sb'.
Proof.
  eexists _, _. split; [reflexivity|]. intros Hc.
  specialize (Hc "2" _ (lookup_insert_eq _ _ _)). vm_compute in Hc. congruence.
Qed.

(** User "2" abandons task "2" and takes task "1" between two fetches: the
    number of chat tasks is still two, so the sidebar keeps the chat of
    task "2" and shows none for task "1". *)
Example sidebar_misses_swapped_task :
  let old := st_tasks demo in
  let new := [mk_task "1" IN_PROGRESS "3" (Some "2") 50; mk_task "2" OPEN "3" None 30;
              mk_task "3" REVIEW "3" (Some "2") 75] in
  let sb := mkSidebar [mkChatEntry "2" (mk_task "2" IN_PROGRESS "3" (Some "2") 30) None;
                       mkChatEntry "3" (mk_task "3" REVIEW "3" (Some "2") 75) None] ∅ None in
  map t_id (userTasks "2" new) = ["1"; "3"] ∧
  option_map (fun r => map ce_taskId (sb_activeChats r))
    (match sidebar_tasks_changed "2" old new sb chat_store with Ok r _ => Some r | Err _ _ => None end)
  = Some ["2"; "3"].
Proof. split; reflexivity. Qed.

End ChatExamples.
