(* ===== verification/Ledger.v ===== *)
(** * Ledger: the points economy across all API calls

    The points ledger is not a module of the source: it is the [points]
    field of the users that [createTask], [updateTaskStatus] and
    [abandonTask] (mockApi.js lines 217-322), [register] (183-203),
    [updateUser] (324-341) and [seedData] (25-165, at every page load)
    write.  This file puts every API call, the chat calls and the page load
    included, in one step relation on stores, states the invariant "no balance and no task
    value is negative" and proves it for every store reachable by calls
    whose task points are not negative and that do not write points
    ([safe_call]); FormSession.v shows that the creation page can send
    negative points.  It also accounts for the total amount of points each
    operation creates or destroys. *)

From S2P Require Import Prelude Model Lifecycle Accounts Seed Chat.
Local Open Scope api_scope.

(** * The API as a transition system *)

(** One call of the API, with its arguments. *)
Inductive api_call :=
| CallLogin (lg pw : string)
| CallRegister (d : register_input) (now : Z)
| CallGetTasks (userId : string) (r : role)
| CallGetUsers
| CallCreateTask (d : task_input) (now : Z)
| CallUpdateTaskStatus (taskId : string) (st : status) (userId : option string)
    (r : option report)
| CallAbandonTask (taskId : string) (volunteerId : option string)
| CallUpdateUser (userId : string) (pa : user_patch)
| CallGetChatMessages (taskId : string)
| CallSendChatMessage (d : Chat.message_input) (now : Z)
| CallSeedData (now : Z).

(** The store after a call, whether it returned or threw. *)
Definition run_call (c : api_call) (s : store) : store :=
  match c with
  | CallLogin lg pw => final_store (Accounts.login lg pw s)
  | CallRegister d now => final_store (Accounts.register d now s)
  | CallGetTasks u r => final_store (Accounts.getTasks u r s)
  | CallGetUsers => final_store (Accounts.getUsers s)
  | CallCreateTask d now => final_store (Lifecycle.createTask d now s)
  | CallUpdateTaskStatus id st u r => final_store (Lifecycle.updateTaskStatus id st u r s)
  | CallAbandonTask id v => final_store (Lifecycle.abandonTask id v s)
  | CallUpdateUser id pa => final_store (Accounts.updateUser id pa s)
  | CallGetChatMessages id => final_store (Chat.getChatMessages id s)
  | CallSendChatMessage d now => final_store (Chat.sendChatMessage d now s)
  | CallSeedData now => final_store (Seed.seedData now s)
  end.

(** The calls under which the API keeps the ledger: a [createTask] whose
    points are not negative (a [NaN] reaches the API as [None]) and an
    [updateUser] whose patch has no points.  This is a condition on the
    callers, not something the API checks: Profile.jsx sends only [name],
    [email], [phone] and [contactInfo], and the creation form's points input
    ([min="1"]) lets only such points through its own submit button
    ([PointsField.create_form_keeps_ledger]), but Enter in MapPicker's
    address field submits the creation form without that check
    ([FormSession.enter_stores_negative]). *)
Definition safe_call (c : api_call) : Prop :=
  match c with
  | CallCreateTask d _ => (0 <= or_zero (in_points d))%Z
  | CallUpdateUser _ pa => pa_points pa = None
  | _ => True
  end.

Inductive api_step : store -> store -> Prop :=
| api_step_call c s : safe_call c -> api_step s (run_call c s).


(** * The invariant *)

Definition ledger_ok (s : store) : Prop :=
  Forall (fun u => 0 <= balance u)%Z (st_users s) ∧
  Forall (fun t => 0 <= or_zero (t_points t))%Z (st_tasks s).

(** * Total amount of points *)

Definition total_points (us : list user) : Z :=
  foldr (fun u acc => balance u + acc)%Z 0%Z us.

Lemma total_points_insert us i u u' :
  us !! i = Some u ->
  total_points (<[i := u']> us) = (total_points us - balance u + balance u')%Z.
Proof.
  revert i. induction us as [|x us IH]; intros [|i] H; simpl in *; try done.
  - injection H as ->. lia.
  - rewrite (IH i H). lia.
Qed.

Lemma total_points_app us vs :
  total_points (us ++ vs) = (total_points us + total_points vs)%Z.
Proof. induction us as [|x us IH]; simpl; lia. Qed.

(** * Preservation, operation by operation *)

Definition users_ok (us : list user) : Prop := Forall (fun u => 0 <= balance u)%Z us.

Lemma users_ok_found us id i u :
  users_ok us -> find_user id us = Some (i, u) -> (0 <= balance u)%Z.
Proof.
  intros Hus Hf. apply find_user_some in Hf as [Hl _].
  eapply Forall_lookup_1 in Hus; eauto.
Qed.

Lemma users_ok_insert us i u' :
  users_ok us -> (0 <= balance u')%Z -> users_ok (<[i := u']> us).
Proof. intros. by apply Forall_insert. Qed.

#[export] Hint Resolve users_ok_insert : vh.

Lemma can_deduct_le c d : Lifecycle.can_deduct c d = true -> (d <= balance c)%Z.
Proof.
  unfold Lifecycle.can_deduct, balance. destruct (u_points c); [|done].
  intros H. by apply bool_decide_eq_true in H.
Qed.

Lemma debit_volunteer_ok vid pen us :
  users_ok us -> users_ok (Lifecycle.debit_volunteer vid pen us).
Proof.
  unfold Lifecycle.debit_volunteer. intros Hus.
  destruct (find_user vid us) as [[j v]|]; [|done].
  apply users_ok_insert; [done|]. rewrite balance_set_points. lia.
Qed.

Lemma credit_creator_ok cid pen us :
  (0 <= pen)%Z -> users_ok us -> users_ok (Lifecycle.credit_creator cid pen us).
Proof.
  unfold Lifecycle.credit_creator. intros Hpen Hus.
  destruct (find_user cid us) as [[k c]|] eqn:Hf; [|done].
  apply users_ok_insert; [done|]. rewrite balance_set_points.
  pose proof (users_ok_found _ _ _ _ Hus Hf). lia.
Qed.

Lemma penalty_nonneg t : (0 <= or_zero (t_points t))%Z -> (0 <= Lifecycle.penalty t)%Z.
Proof. unfold Lifecycle.penalty. intros. apply Z.div_pos; lia. Qed.

Lemma claim_points st u t s t' s' :
  Lifecycle.claim st u t s = Ok t' s' -> t_points t' = t_points t.
Proof. unfold Lifecycle.claim. api_unfold. repeat case_match; by intros [= <- _]. Qed.

Lemma attach_report_points st r t :
  t_points (Lifecycle.attach_report st r t) = t_points t.
Proof. unfold Lifecycle.attach_report. by repeat case_match. Qed.

Lemma payout_users_ok st u t s s' :
  users_ok (st_users s) -> (0 <= or_zero (t_points t))%Z ->
  Lifecycle.payout st u t s = Ok tt s' -> users_ok (st_users s').
Proof.
  intros Hus Ht. unfold Lifecycle.payout. store_unfold.
  case_bool_decide; [|by intros [= <-]].
  destruct (or_id _ _) as [vid|]; [|by intros [= <-]].
  destruct (find_user vid _) as [[j v]|] eqn:Hf; [|by intros [= <-]].
  destruct (truthy_num _); [|by intros [= <-]].
  intros [= <-]. simpl. apply users_ok_insert; [done|].
  rewrite balance_set_points. pose proof (users_ok_found _ _ _ _ Hus Hf). lia.
Qed.

(** [seedData] merges defaults whose balances are not negative. *)
Lemma merge_user_ok us d :
  users_ok us -> (0 <= or_zero (Seed.du_points d))%Z -> users_ok (Seed.merge_user us d).
Proof.
  intros Hus Hd. unfold Seed.merge_user.
  destruct (list_find _ us) as [[i e]|] eqn:Hf.
  - apply users_ok_insert; [done|]. unfold balance, Seed.assign_default. simpl.
    destruct (Seed.du_points d); [done|]. apply list_find_lookup in Hf.
    by apply (Forall_lookup_1 _ _ _ _ Hus Hf).
  - apply Forall_app. split; [done|]. by constructor.
Qed.

Lemma merge_fold_ok ds us :
  users_ok us -> Forall (fun d => 0 <= or_zero (Seed.du_points d))%Z ds ->
  users_ok (foldl Seed.merge_user us ds).
Proof.
  revert us. induction ds as [|d ds IH]; intros us Hus Hds; [done|].
  inversion Hds; subst. simpl. apply IH; [by apply merge_user_ok|done].
Qed.

Section Preservation.
Context (s : store) (Hinv : ledger_ok s).

Lemma createTask_keeps_ledger d now :
  (0 <= or_zero (in_points d))%Z ->
  ledger_ok (final_store (Lifecycle.createTask d now s)).
Proof.
  intros Hd. rewrite Lifecycle.createTask_run. destruct Hinv as [Hus Hts].
  split; simpl.
  - destruct (find_user _ _) as [[i c]|]; [|done].
    destruct (Lifecycle.can_deduct c _) eqn:Hc; [|done].
    apply users_ok_insert; [done|]. rewrite balance_set_points.
    apply can_deduct_le in Hc. lia.
  - apply Forall_app. split; [done|]. by constructor.
Qed.

Lemma updateTaskStatus_keeps_ledger taskId st u r :
  ledger_ok (final_store (Lifecycle.updateTaskStatus taskId st u r s)).
Proof.
  destruct (Lifecycle.updateTaskStatus taskId st u r s) as [t' s'|e s'] eqn:Hrun;
    [|by apply Lifecycle.updateTaskStatus_err_store in Hrun as ->].
  destruct Hinv as [Hus Hts].
  destruct (find_task taskId (st_tasks s)) as [[i t]|] eqn:Hf;
    [|by rewrite Lifecycle.updateTaskStatus_missing in Hrun].
  pose proof (nonneg_task := Forall_lookup_1 _ _ _ _ Hts (proj1 (find_task_some _ _ _ _ Hf))).
  rewrite (Lifecycle.updateTaskStatus_found _ _ _ _ _ _ _ Hf) in Hrun.
  destruct (Lifecycle.claim st u (set_status st t) s) as [t1 s1|] eqn:Hc; [|done].
  pose proof (Lifecycle.claim_store st u (set_status st t) s) as Hs1.
  rewrite Hc in Hs1. simpl in Hs1. subst s1.
  assert (Hp : t_points (Lifecycle.attach_report st r t1) = t_points t).
  { rewrite attach_report_points. by apply claim_points in Hc. }
  destruct (Lifecycle.payout st u _ s) as [[] s2|] eqn:Hpay; [|done].
  injection Hrun as <- <-. split; simpl.
  - eapply payout_users_ok; [done| |exact Hpay]. by rewrite Hp.
  - apply Forall_insert; [done|]. by rewrite Hp.
Qed.

Lemma abandonTask_keeps_ledger taskId v :
  ledger_ok (final_store (Lifecycle.abandonTask taskId v s)).
Proof.
  destruct Hinv as [Hus Hts].
  destruct (find_task taskId (st_tasks s)) as [[i t]|] eqn:Hf;
    [|by rewrite Lifecycle.abandonTask_missing].
  pose proof (nonneg_task := Forall_lookup_1 _ _ _ _ Hts (proj1 (find_task_some _ _ _ _ Hf))).
  destruct v as [vid|];
    [|unfold Lifecycle.abandonTask; store_unfold; by rewrite Hf].
  destruct (decide (vid = "")) as [->|Hv];
    [unfold Lifecycle.abandonTask; store_unfold; by rewrite Hf|].
  rewrite (Lifecycle.abandonTask_found _ _ _ _ _ Hf Hv). split; simpl.
  - apply credit_creator_ok; [by apply penalty_nonneg|].
    by apply debit_volunteer_ok.
  - by apply Forall_insert.
Qed.

Lemma register_keeps_ledger d now :
  ledger_ok (final_store (Accounts.register d now s)).
Proof.
  destruct (Accounts.register d now s) as [pu s'|e s'] eqn:Hr; simpl.
  - pose proof (Accounts.register_ok_shape _ _ _ _ _ Hr) as (Hus & _).
    destruct Hinv as [Hu Ht]. split.
    + rewrite Hus. apply Forall_app. split; [done|].
      constructor; [unfold balance, or_zero; simpl; lia|done].
    + revert Hr. unfold Accounts.register. store_unfold.
      destruct (list_find _ _) as [[]|]; [discriminate|]. by intros [= _ <-].
  - revert Hr. unfold Accounts.register. store_unfold.
    destruct (list_find _ _) as [[]|]; [|discriminate]. by intros [= _ <-].
Qed.

Lemma updateUser_keeps_ledger userId pa :
  pa_points pa = None -> ledger_ok (final_store (Accounts.updateUser userId pa s)).
Proof.
  intros Hp. destruct Hinv as [Hus Hts]. unfold Accounts.updateUser. store_unfold.
  destruct (find_user userId _) as [[i u]|] eqn:Hf; [|done].
  split; simpl; [|done]. apply users_ok_insert; [done|].
  unfold balance, Accounts.apply_patch. simpl. rewrite Hp.
  apply (users_ok_found _ _ _ _ Hus Hf).
Qed.

Lemma seedData_keeps_ledger now :
  ledger_ok (final_store (Seed.seedData now s)).
Proof.
  destruct Hinv as [Hus Hts]. rewrite Seed.seedData_run. split; simpl.
  - unfold Seed.merge_users. apply merge_fold_ok; [done|].
    repeat constructor; cbn; lia.
  - case_bool_decide; [repeat constructor; cbn; lia|].
    apply Forall_fmap, list.Forall_forall. intros t Ht. simpl.
    rewrite (proj2 (proj2 (proj2 (proj2 (Seed.migrate_task_keeps t))))).
    by apply (proj1 (list.Forall_forall _ _) Hts).
Qed.

Lemma chat_calls_keep_ledger taskId d now :
  ledger_ok (final_store (Chat.getChatMessages taskId s)) ∧
  ledger_ok (final_store (Chat.sendChatMessage d now s)).
Proof. rewrite Chat.getChatMessages_run, Chat.sendChatMessage_run. by split. Qed.

Lemma read_only_calls_keep_store lg pw u r :
  final_store (Accounts.login lg pw s) = s ∧
  final_store (Accounts.getTasks u r s) = s ∧
  final_store (Accounts.getUsers s) = s.
Proof.
  unfold Accounts.login, Accounts.getTasks, Accounts.getUsers. store_unfold.
  split_and!; [by destruct (list_find _ _) as [[]|]|done|done].
Qed.

End Preservation.

(** Each call satisfying [safe_call] keeps the ledger. *)
Lemma api_step_ledger_ok s s' :
  ledger_ok s -> api_step s s' -> ledger_ok s'.
Proof.
  intros Hinv Hstep. inversion Hstep as [c s1 Hc]; subst.
  destruct c; cbn [run_call safe_call] in *.
  - by rewrite (proj1 (read_only_calls_keep_store _ lg pw "" USER)).
  - by apply register_keeps_ledger.
  - by rewrite (proj1 (proj2 (read_only_calls_keep_store _ "" "" userId r))).
  - by rewrite (proj2 (proj2 (read_only_calls_keep_store _ "" "" "" USER))).
  - by apply createTask_keeps_ledger.
  - by apply updateTaskStatus_keeps_ledger.
  - by apply abandonTask_keeps_ledger.
  - by apply updateUser_keeps_ledger.
  - apply chat_calls_keep_ledger; [done|exact (Chat.mkMessageInput "" "" "" 0)|exact 0%Z].
  - apply (chat_calls_keep_ledger _ Hinv "").
  - by apply seedData_keeps_ledger.
Qed.

(** C6: every API call, the page load's seeding included, keeps the ledger
    invariant (no user balance and no task value is negative) as long as
    the task points it is given are not negative and [updateUser] is not
    asked to write points: the API itself never overdraws a balance (the
    escrow is taken only from a balance that covers it, the penalty of an
    abandonment is clamped at 0). *)
Theorem api_step_keeps_ledger s s' :
  ledger_ok s -> api_step s s' -> ledger_ok s'.
Proof. apply api_step_ledger_ok. Qed.

(** The invariant holds in every store reachable by such calls. *)
Theorem reachable_ledger_ok s0 s :
  ledger_ok s0 -> star api_step s0 s -> ledger_ok s.
Proof. apply star_invariant, api_step_ledger_ok. Qed.

#[export] Instance ledger_ok_dec s : Decision (ledger_ok s).
Proof. unfold ledger_ok. apply _. Defined.

(** * Accounting of the total amount of points *)

(** [DONE] adds exactly the task's points to the total. *)
Theorem done_total taskId s i t a j v p u :
  find_task taskId (st_tasks s) = Some (i, t) ->
  t_assignedTo t = Some a -> a ≠ "" ->
  find_user a (st_users s) = Some (j, v) ->
  t_points t = Some p -> p ≠ 0%Z ->
  total_points (st_users (final_store (Lifecycle.updateTaskStatus taskId DONE u None s))) =
    (total_points (st_users s) + p)%Z.
Proof.
  intros Hf Ha Hne Hu Hp Hp0.
  destruct (Lifecycle.done_pays_assignee _ _ _ _ _ _ _ _ u Hf Ha Hne Hu Hp Hp0)
    as (s' & -> & Hus & _).
  simpl. rewrite Hus. erewrite total_points_insert by (eapply find_user_some; eauto).
  rewrite balance_set_points. lia.
Qed.

(** The change of the total made by [abandonTask]. *)
Lemma abandon_total_change taskId vid s i t j v k c :
  find_task taskId (st_tasks s) = Some (i, t) -> vid ≠ "" ->
  find_user vid (st_users s) = Some (j, v) ->
  find_user (t_createdBy t) (st_users s) = Some (k, c) -> j ≠ k ->
  total_points (st_users (final_store (Lifecycle.abandonTask taskId (Some vid) s))) =
    (total_points (st_users s) + Lifecycle.penalty t
     - (balance v - Z.max 0 (balance v - Lifecycle.penalty t)))%Z.
Proof.
  intros Hf Hv Hj Hk Hjk.
  rewrite (Lifecycle.abandonTask_found _ _ _ _ _ Hf Hv). simpl.
  unfold Lifecycle.credit_creator, Lifecycle.debit_volunteer. rewrite Hj.
  pose proof Hk as Hk'. apply find_user_some in Hk' as [Hkl Hkid].
  pose proof Hj as Hj'. apply find_user_some in Hj' as [Hjl _].
  rewrite <- Hkid in Hk |- *.
  rewrite (find_user_insert_other _ _ _ _ _ _ _ Hj Hjk Hk).
  rewrite (total_points_insert _ k c) by (rewrite list_lookup_insert_ne; done).
  rewrite (total_points_insert _ j v) by done.
  rewrite !balance_set_points. lia.
Qed.

(** Abandoning a task held by a user other than its creator changes the total
    by the penalty credited minus what the volunteer could actually pay. *)
Theorem abandon_total taskId vid s i t j v k c :
  find_task taskId (st_tasks s) = Some (i, t) -> vid ≠ "" ->
  find_user vid (st_users s) = Some (j, v) ->
  find_user (t_createdBy t) (st_users s) = Some (k, c) -> j ≠ k ->
  total_points (st_users (final_store (Lifecycle.abandonTask taskId (Some vid) s))) =
    (total_points (st_users s) + Lifecycle.penalty t
     - (balance v - Z.max 0 (balance v - Lifecycle.penalty t)))%Z.
Proof. apply abandon_total_change. Qed.

(** The inconsistency the spec flags: when the volunteer's balance is below
    the penalty, abandoning creates points: the total grows by the part of
    the penalty the volunteer could not pay. *)
Theorem abandon_creates_points taskId vid s i t j v k c :
  find_task taskId (st_tasks s) = Some (i, t) -> vid ≠ "" ->
  find_user vid (st_users s) = Some (j, v) ->
  find_user (t_createdBy t) (st_users s) = Some (k, c) -> j ≠ k ->
  (0 <= balance v < Lifecycle.penalty t)%Z ->
  total_points (st_users (final_store (Lifecycle.abandonTask taskId (Some vid) s))) =
    (total_points (st_users s) + (Lifecycle.penalty t - balance v))%Z ∧
  (total_points (st_users s) <
   total_points (st_users (final_store (Lifecycle.abandonTask taskId (Some vid) s))))%Z.
Proof.
  intros Hf Hv Hj Hk Hjk Hlt.
  rewrite (abandon_total_change _ _ _ _ _ _ _ _ _ Hf Hv Hj Hk Hjk). lia.
Qed.

(** A creator who abandons a task of their own is debited and credited on
    the same object: with a balance below the penalty the call mints the
    difference. *)
Theorem abandon_own_task taskId s i t j c :
  find_task taskId (st_tasks s) = Some (i, t) -> t_createdBy t ≠ "" ->
  find_user (t_createdBy t) (st_users s) = Some (j, c) ->
  st_users (final_store (Lifecycle.abandonTask taskId (Some (t_createdBy t)) s)) !! j =
    Some (set_points (Z.max 0 (balance c - Lifecycle.penalty t) + Lifecycle.penalty t) c).
Proof.
  intros Hf Hv Hj. rewrite (Lifecycle.abandonTask_found _ _ _ _ _ Hf Hv). simpl.
  unfold Lifecycle.credit_creator, Lifecycle.debit_volunteer. rewrite Hj.
  rewrite (find_user_insert_set_points _ _ _ _ _ Hj).
  apply find_user_some in Hj as [Hl _].
  rewrite list_lookup_insert_eq by (rewrite length_insert; by eapply lookup_lt_Some).
  reflexivity.
Qed.

(** * Concrete runs *)

Module LedgerExamples.
Import ModelExamples LifecycleExamples.

Ltac decide_prop :=
  match goal with |- ?P => apply (bool_decide_eq_true_1 P) end; vm_compute; reflexivity.

(** Without the form's [min="1"], a task with negative points breaks the
    ledger: creating a task worth -6, having a volunteer with 2 points claim
    it and approving it leaves the volunteer at -4. *)
Example negative_points_break_ledger :
  let s0 := mkStore [mk_user "1" "admin" ADMIN None; mk_user "2" "user1" USER (Some 2%Z);
                     mk_user "3" "user2" USER (Some 200%Z)] [] [] in
  let s3 := run_call (CallUpdateTaskStatus "1000" DONE (Some "1") None)
              (run_call (CallUpdateTaskStatus "1000" IN_PROGRESS (Some "2") None)
                 (run_call (CallCreateTask (form (-6) "3") 1000) s0)) in
  ledger_ok s0 ∧ ¬ ledger_ok s3 ∧ map balance (st_users s3) = [0%Z; (-4)%Z; 206%Z].
Proof.
  intros s0 s3. split_and!.
  - decide_prop.
  - intros H. pose proof (bool_decide_eq_true_2 (ledger_ok s3) H) as Hb. vm_compute in Hb.
    discriminate.
  - vm_compute. reflexivity.
Qed.

Lemma api_step_keeps_ledger_witness :
  ledger_ok (run_call (CallCreateTask (form 50 "3") 1000) demo).
Proof.
  apply (api_step_keeps_ledger demo).
  - decide_prop.
  - constructor. simpl. lia.
Defined.

Lemma reachable_ledger_ok_witness :
  ledger_ok (run_call (CallAbandonTask "2" (Some "2")) demo).
Proof.
  apply (reachable_ledger_ok demo).
  - decide_prop.
  - apply star_one. by constructor.
Defined.

Lemma done_total_witness :
  total_points (st_users (final_store (Lifecycle.updateTaskStatus "3" DONE (Some "1") None demo))) =
    (total_points (st_users demo) + 75)%Z.
Proof.
  apply (done_total _ _ 2%nat (mk_task "3" REVIEW "3" (Some "2") 75) "2" 1%nat
           (mk_user "2" "user1" USER (Some 10%Z)));
    [reflexivity|reflexivity|done|reflexivity|reflexivity|done].
Defined.

Lemma abandon_creates_points_witness :
  let s' := final_store (Lifecycle.abandonTask "2" (Some "2") demo) in
  total_points (st_users s') = (total_points (st_users demo) + (Lifecycle.penalty (mk_task "2" IN_PROGRESS "3" (Some "2") 30) - 10))%Z ∧
  (total_points (st_users demo) < total_points (st_users s'))%Z.
Proof.
  apply (abandon_creates_points _ _ _ 1%nat _ 1%nat (mk_user "2" "user1" USER (Some 10%Z))
           2%nat (mk_user "3" "user2" USER (Some 200%Z)));
    [reflexivity|done|reflexivity|reflexivity|done|split; [compute; discriminate|reflexivity]].
Defined.

Lemma abandon_total_witness :
  total_points (st_users (final_store (Lifecycle.abandonTask "2" (Some "2") demo))) =
    (total_points (st_users demo) + Lifecycle.penalty (mk_task "2" IN_PROGRESS "3" (Some "2") 30)
     - (10 - Z.max 0 (10 - Lifecycle.penalty (mk_task "2" IN_PROGRESS "3" (Some "2") 30))))%Z.
Proof.
  apply (abandon_total _ _ _ 1%nat _ 1%nat (mk_user "2" "user1" USER (Some 10%Z))
           2%nat (mk_user "3" "user2" USER (Some 200%Z)));
    [reflexivity|done|reflexivity|reflexivity|done].
Defined.

Lemma abandon_own_task_witness :
  st_users (final_store (Lifecycle.abandonTask "1" (Some "3") demo)) !! 2%nat =
    Some (set_points (Z.max 0 (200 - Lifecycle.penalty (mk_task "1" OPEN "3" None 50))
                      + Lifecycle.penalty (mk_task "1" OPEN "3" None 50))
            (mk_user "3" "user2" USER (Some 200%Z))).
Proof.
  apply (abandon_own_task _ _ 0%nat (mk_task "1" OPEN "3" None 50));
    [reflexivity|done|reflexivity].
Defined.

End LedgerExamples.
