(* ===== verification/Client.v ===== *)
(** * Client: the session state of the React contexts

    [AuthContext.jsx] keeps the signed-in user (and a copy of it under the
    [localStorage] key ['currentUser']); [TaskContext.jsx] keeps a copy of
    the task list and wraps the lifecycle calls of [mockApi.js], passing the
    signed-in user's id.  The world is the API store together with this
    client state; each context function is a computation of the monad [M]
    over the world that runs the API call on the store part
    ([lift_api]).  The main theorem is the coherence of the task cache:
    the context's copy of the tasks stays equal to the stored list. *)

From S2P Require Import Prelude Model Lifecycle Accounts.
Local Open Scope api_scope.

(** The state of the two providers. *)
Record client := mkClient {
  c_user : option public_user;       (** [useState] of AuthProvider *)
  c_currentUser : option public_user; (** [localStorage 'currentUser'] *)
  c_tasks : list task                 (** [useState] of TaskProvider *)
}.

Record world := mkWorld { w_store : store; w_client : client }.

(** The errors a context function throws: those of the API, and
    ['Пользователь не авторизован'] when nobody is signed in. *)
Inductive ctx_error := ApiError (e : api_error) | NotAuthorized.

Abbreviation Ctx := (M world ctx_error).

Module Client.

(** Run an API call on the store part of the world. *)
Definition lift_api {A} (m : Api A) : Ctx A :=
  fun w => match m (w_store w) with
           | Ok a s => Ok a (mkWorld s (w_client w))
           | Err e s => Err (ApiError e) (mkWorld s (w_client w))
           end.

Definition set_user (u : option public_user) : Ctx unit :=
  modify (fun w => mkWorld (w_store w)
                     (mkClient u (c_currentUser (w_client w)) (c_tasks (w_client w)))).

Definition set_currentUser (u : option public_user) : Ctx unit :=
  modify (fun w => mkWorld (w_store w)
                     (mkClient (c_user (w_client w)) u (c_tasks (w_client w)))).

(** [setTasks(f)] *)
Definition set_tasks (f : list task -> list task) : Ctx unit :=
  modify (fun w => mkWorld (w_store w)
                     (mkClient (c_user (w_client w)) (c_currentUser (w_client w))
                        (f (c_tasks (w_client w))))).

(** [if (!user?.id) throw new Error('Пользователь не авторизован')] *)
Definition signed_in_id : Ctx string :=
  w <- gets id ;;
  match c_user (w_client w) with
  | Some u => if bool_decide (pu_id u ≠ "") then ret (pu_id u) else throw NotAuthorized
  | None => throw NotAuthorized
  end.

(** * AuthContext.jsx *)

(** [refreshUser] (lines 49-66): reload the user by id, keep the role of the
    session; errors are caught and ignored. *)
Definition refreshUser : Ctx unit :=
  w <- gets id ;;
  match c_user (w_client w) with
  | Some u =>
      if bool_decide (pu_id u ≠ "") then
        users <- lift_api Accounts.getUsers ;;
        match list_find (fun v => pu_id v = pu_id u) users with
        | Some (_, v) =>
            let v' := mkPublicUser (pu_id v) (pu_login v) (pu_role u) (pu_name v)
                        (pu_email v) (pu_phone v) (pu_contactInfo v) (pu_points v) in
            set_user (Some v') ;;; set_currentUser (Some v')
        | None => ret tt
        end
      else ret tt
  | None => ret tt
  end.

(** [login] (lines 26-35): the API's user becomes the session's. *)
Definition login (lg pw : string) : Ctx public_user :=
  u <- lift_api (Accounts.login lg pw) ;;
  set_user (Some u) ;;; set_currentUser (Some u) ;;; ret u.

(** [register] (lines 37-42). *)
Definition register (d : register_input) (now : Z) : Ctx public_user :=
  u <- lift_api (Accounts.register d now) ;;
  set_user (Some u) ;;; set_currentUser (Some u) ;;; ret u.

(** [logout] (lines 44-47). *)
Definition logout : Ctx unit := set_user None ;;; set_currentUser None.

(** The effect of lines 14-24, run when the page loads: the session is the
    stored ['currentUser'] (the copy, not the user in the store). *)
Definition restoreSession : Ctx unit :=
  w <- gets id ;;
  set_user (c_currentUser (w_client w)).

(** [updateUser] (lines 68-83): the API's user, with the role of the
    session when there is one; API errors are rethrown. *)
Definition updateUser (userId : string) (pa : user_patch) : Ctx public_user :=
  w <- gets id ;;
  u <- lift_api (Accounts.updateUser userId pa) ;;
  let role := match c_user (w_client w) with Some cu => pu_role cu | None => pu_role u end in
  let u' := mkPublicUser (pu_id u) (pu_login u) role (pu_name u) (pu_email u)
              (pu_phone u) (pu_contactInfo u) (pu_points u) in
  set_user (Some u') ;;; set_currentUser (Some u') ;;; ret u'.

(** * TaskContext.jsx *)

(** The effect of lines 15-31: the task list of the signed-in user, or
    nothing when signed out. *)
Definition fetchTasks : Ctx unit :=
  w <- gets id ;;
  match c_user (w_client w) with
  | Some u => ts <- lift_api (Accounts.getTasks (pu_id u) (pu_role u)) ;; set_tasks (fun _ => ts)
  | None => set_tasks (fun _ => [])
  end.

(** [{ ...taskData, createdBy: user.id }] *)
Definition with_creator (d : task_input) (id : string) : task_input :=
  mkInput (in_title d) (in_description d) (in_city d) (in_phone d) (in_contactInfo d)
    (in_address d) (in_imageUrl d) (in_images d) (in_points d) (in_latitude d)
    (in_longitude d) id.

(** [prev.map(t => t.id === taskId ? updatedTask : t)] *)
Definition replace_by_id (taskId : string) (t' : task) (ts : list task) : list task :=
  (fun t => if bool_decide (t_id t = taskId) then t' else t) <$> ts.

(** [createTask] (lines 33-43). *)
Definition createTask (d : task_input) (now : Z) : Ctx task :=
  uid <- signed_in_id ;;
  t <- lift_api (Lifecycle.createTask (with_creator d uid) now) ;;
  set_tasks (fun ts => ts ++ [t]) ;;;
  refreshUser ;;;
  ret t.

(** [updateTaskStatus] (lines 45-56). *)
Definition updateTaskStatus (taskId : string) (st : status) (r : option report) : Ctx task :=
  uid <- signed_in_id ;;
  t <- lift_api (Lifecycle.updateTaskStatus taskId st (Some uid) r) ;;
  set_tasks (replace_by_id taskId t) ;;;
  (if bool_decide (st = DONE) then refreshUser else ret tt) ;;;
  ret t.

(** [abandonTask] (lines 58-66).  When the API returns no task, no cached
    task has the id as long as the cache is coherent, so the [map] changes
    nothing. *)
Definition abandonTask (taskId : string) : Ctx unit :=
  uid <- signed_in_id ;;
  r <- lift_api (Lifecycle.abandonTask taskId (Some uid)) ;;
  match r with
  | Some t => set_tasks (replace_by_id taskId t)
  | None => ret tt
  end ;;;
  refreshUser.

(** * Cache coherence *)

(** The TaskProvider's copy is the stored list, and stored ids are unique. *)
Definition coherent (w : world) : Prop :=
  c_tasks (w_client w) = st_tasks (w_store w) ∧ NoDup (t_id <$> st_tasks (w_store w)).

Lemma ids_unique (ts : list task) i j x z :
  NoDup (t_id <$> ts) -> ts !! i = Some x -> ts !! j = Some z -> t_id x = t_id z -> i = j.
Proof.
  intros Hnd Hi Hj Heq. eapply NoDup_lookup; [exact Hnd| |].
  - by rewrite list_lookup_fmap, Hi.
  - rewrite list_lookup_fmap, Hj. simpl. by rewrite Heq.
Qed.

(** With unique ids, replacing every task with the id is writing at the index
    the API found. *)
Lemma replace_by_id_insert ts taskId i x y :
  NoDup (t_id <$> ts) -> find_task taskId ts = Some (i, x) ->
  replace_by_id taskId y ts = <[i := y]> ts.
Proof.
  intros Hnd Hf. apply find_task_some in Hf as [Hl Hid].
  apply list_eq. intros j. unfold replace_by_id. rewrite list_lookup_fmap.
  destruct (decide (i = j)) as [<-|Hne].
  - rewrite Hl, list_lookup_insert_eq by (by eapply lookup_lt_Some). simpl.
    by rewrite bool_decide_true.
  - rewrite list_lookup_insert_ne by done.
    destruct (ts !! j) as [z|] eqn:Hj; [|done]. simpl. case_bool_decide; [|done].
    exfalso. apply Hne. eapply ids_unique; eauto. congruence.
Qed.

(** Replacing the cached task by a task of the same id leaves it where
    [find] finds it. *)
Lemma find_task_replace taskId ts i x y :
  find_task taskId ts = Some (i, x) -> t_id y = taskId ->
  find_task taskId (replace_by_id taskId y ts) = Some (i, y).
Proof.
  intros Hf Hy. unfold find_task, replace_by_id in *. rewrite list_find_fmap.
  erewrite (list_find_ext _ (λ t, t_id t = taskId) ts).
  - rewrite Hf. simpl. apply list_find_Some in Hf as (_ & Hx & _).
    by rewrite bool_decide_true.
  - intros z. simpl. case_bool_decide; naive_solver.

Qed.

Lemma nodup_insert_same_id (ts : list task) i x y :
  NoDup (t_id <$> ts) -> ts !! i = Some x -> t_id y = t_id x ->
  NoDup (t_id <$> <[i := y]> ts).
Proof.
  intros Hnd Hl Hid. rewrite list_fmap_insert, Hid, list_insert_id; [done|].
  by rewrite list_lookup_fmap, Hl.
Qed.

Lemma refreshUser_keeps w :
  ∃ c, refreshUser w = Ok tt (mkWorld (w_store w) c) ∧ c_tasks c = c_tasks (w_client w).
Proof.
  destruct w as [s [u cu ts]]. unfold refreshUser, lift_api, Accounts.getUsers,
    set_user, set_currentUser. store_unfold.
  destruct u as [u|]; [|eauto].
  case_bool_decide; [|eauto].
  destruct (list_find _ _) as [[? ?]|]; simpl; eauto.
Qed.

Ltac ctx_unfold :=
  unfold signed_in_id, lift_api, set_tasks, set_user, set_currentUser in *;
  store_unfold.

(** [refreshUser] keeps the id and the role of the session's user. *)
Lemma refreshUser_session w u :
  c_user (w_client w) = Some u ->
  ∃ c u', refreshUser w = Ok tt (mkWorld (w_store w) c) ∧ c_tasks c = c_tasks (w_client w) ∧
          c_user c = Some u' ∧ pu_id u' = pu_id u ∧ pu_role u' = pu_role u.
Proof.
  destruct w as [s [u0 cu ts]]. simpl. intros ->.
  unfold refreshUser, lift_api, Accounts.getUsers, set_user, set_currentUser. store_unfold.
  case_bool_decide; [|eauto 7].
  destruct (list_find _ _) as [[? v]|] eqn:Hf; simpl; [|eauto 7].
  apply list_find_Some in Hf as (_ & Hv & _). eauto 7.
Qed.

(** A successful status change of the API is one of the context: the
    cached task is replaced and the session keeps its user. *)
Lemma updateTaskStatus_run taskId st r w u t s' :
  c_user (w_client w) = Some u -> pu_id u ≠ "" ->
  Lifecycle.updateTaskStatus taskId st (Some (pu_id u)) r (w_store w) = Ok t s' ->
  ∃ c u', updateTaskStatus taskId st r w = Ok t (mkWorld s' c) ∧
          c_tasks c = replace_by_id taskId t (c_tasks (w_client w)) ∧
          c_user c = Some u' ∧ pu_id u' = pu_id u ∧ pu_role u' = pu_role u.
Proof.
  destruct w as [s cl]. simpl. intros Hu Hid Hrun. unfold updateTaskStatus. ctx_unfold.
  rewrite Hu, bool_decide_true by done. simpl. rewrite Hrun. simpl.
  case_bool_decide; simpl; [|eauto 7].
  match goal with |- context [refreshUser ?w'] =>
    destruct (refreshUser_session w' u) as (c & u' & -> & Hct & Hcu & ? & ?) end;
    [done|]. simpl in Hct. eauto 7.
Qed.

(** C22: The context's [updateTaskStatus] keeps the cache coherent, whether the
    API call succeeds or throws. *)
Theorem updateTaskStatus_coherent w taskId st r :
  coherent w -> coherent (final_store (updateTaskStatus taskId st r w)).
Proof.
  intros [Hc Hnd]. destruct w as [s cl]. simpl in *.
  unfold updateTaskStatus. ctx_unfold.
  destruct (c_user cl) as [u|]; [|done]. case_bool_decide; [|done]. simpl.
  destruct (Lifecycle.updateTaskStatus taskId st (Some (pu_id u)) r s) as [t s'|e s'] eqn:Hrun;
    simpl; [|apply Lifecycle.updateTaskStatus_err_store in Hrun as ->; done].
  destruct (Lifecycle.updateTaskStatus_ok_shape _ _ _ _ _ _ _ Hrun)
    as (i & x & Hf & Hts & Hid & _).
  pose proof Hf as [Hl Hxid]%find_task_some.
  assert (Hco : coherent (mkWorld s' (mkClient (c_user cl) (c_currentUser cl)
                                        (replace_by_id taskId t (c_tasks cl))))).
  { split; simpl; rewrite Hts; [rewrite Hc; by eapply replace_by_id_insert|].
    eapply nodup_insert_same_id; eauto. congruence. }
  case_bool_decide; simpl; [|done].
  match goal with |- context [refreshUser ?w'] =>
    destruct (refreshUser_keeps w') as (c & -> & Hct) end.
  destruct Hco as [Hco1 Hco2]. split; simpl in *; congruence.
Qed.

(** The context's [abandonTask] keeps the cache coherent. *)
Theorem abandonTask_coherent w taskId :
  coherent w -> coherent (final_store (abandonTask taskId w)).
Proof.
  intros [Hc Hnd]. destruct w as [s cl]. simpl in *.
  unfold abandonTask. ctx_unfold.
  destruct (c_user cl) as [u|]; [|done]. case_bool_decide; [|done]. simpl.
  destruct (Lifecycle.abandonTask taskId (Some (pu_id u)) s) as [[t|] s'|e s'] eqn:Hrun;
    simpl.
  - destruct (Lifecycle.abandonTask_ok_shape _ _ _ _ _ Hrun)
      as (i & x & Hf & Hts & Hid & _).
    pose proof Hf as [Hl Hxid]%find_task_some.
    match goal with |- context [refreshUser ?w'] =>
      destruct (refreshUser_keeps w') as (c & -> & Hct) end.
    split; simpl in *; rewrite ?Hct, Hts; [rewrite Hc; by eapply replace_by_id_insert|].
    eapply nodup_insert_same_id; eauto. congruence.
  - assert (s' = s) as ->.
    { revert Hrun. unfold Lifecycle.abandonTask. store_unfold.
      destruct (find_task _ _) as [[? ?]|]; [|by intros [= <-]].
      by repeat case_match. }
    match goal with |- context [refreshUser ?w'] =>
      destruct (refreshUser_keeps w') as (c & -> & Hct) end.
    split; simpl in *; congruence.
  - revert Hrun. unfold Lifecycle.abandonTask. store_unfold.
    destruct (find_task _ _) as [[? ?]|]; [by repeat case_match|discriminate].
Qed.

(** The context's [createTask] keeps the cache coherent, provided the clock
    gives an id no stored task has ([String(Date.now())] differs from the
    ids of earlier tasks). *)
Theorem createTask_coherent w d now :
  coherent w -> id_of_time now ∉ t_id <$> st_tasks (w_store w) ->
  coherent (final_store (createTask d now w)).
Proof.
  intros [Hc Hnd] Hfresh. destruct w as [s cl]. simpl in *.
  unfold createTask. ctx_unfold.
  destruct (c_user cl) as [u|]; [|done]. case_bool_decide; [|done]. simpl.
  rewrite Lifecycle.createTask_run. simpl.
  match goal with |- context [refreshUser ?w'] =>
    destruct (refreshUser_keeps w') as (c & -> & Hct) end.
  split; simpl in *; rewrite ?Hct, ?Hc; [done|].
  rewrite fmap_app. simpl. apply list.NoDup_app. split_and!; [done| |by apply NoDup_singleton].
  intros y Hy ->%list_elem_of_singleton. done.
Qed.

(** Fetching the tasks of a signed-in user makes the cache the stored list. *)
Theorem fetchTasks_coherent w u :
  c_user (w_client w) = Some u -> NoDup (t_id <$> st_tasks (w_store w)) ->
  coherent (final_store (fetchTasks w)).
Proof.
  intros Hu Hnd. destruct w as [s cl]. simpl in *. unfold fetchTasks, Accounts.getTasks.
  ctx_unfold. rewrite Hu. simpl. by split.
Qed.

(** * The session across page loads *)

(** A page load forgets the context state; only the store and the
    ['currentUser'] copy survive, and the session is restored from it. *)
Definition reload (w : world) : world :=
  mkWorld (w_store w) (mkClient None (c_currentUser (w_client w)) []).

(** After a successful sign-in, a page load restores the same session:
    the user the API returned is the session's user again. *)
Theorem login_survives_reload lg pw w u w' :
  login lg pw w = Ok u w' ->
  c_user (w_client (final_store (restoreSession (reload w')))) = Some u.
Proof.
  unfold login, lift_api, set_user, set_currentUser. api_unfold.
  destruct (Accounts.login lg pw (w_store w)); [|discriminate].
  by intros [= <- <-].
Qed.

(** Updating one's own profile leaves the session and its stored copy equal
    to the updated stored user, without password, with the session's role. *)
Theorem updateUser_session w cu pa u w' :
  c_user (w_client w) = Some cu ->
  updateUser (pu_id cu) pa w = Ok u w' ->
  c_user (w_client w') = Some u ∧ c_currentUser (w_client w') = Some u ∧ pu_role u = pu_role cu ∧
  ∃ i v, find_user (pu_id cu) (st_users (w_store w')) = Some (i, v) ∧
         strip_password v = mkPublicUser (pu_id u) (pu_login u) (u_role v) (pu_name u)
                              (pu_email u) (pu_phone u) (pu_contactInfo u) (pu_points u).
Proof.
  intros Hcu. unfold updateUser, lift_api, set_user, set_currentUser. api_unfold.
  rewrite Hcu. unfold Accounts.updateUser. store_unfold.
  destruct (find_user (pu_id cu) _) as [[i v]|] eqn:Hf; [|discriminate].
  intros [= <- <-]. simpl. split_and!; try done.
  exists i, (Accounts.apply_patch pa v). split; [|done].
  pose proof Hf as Hid. apply find_user_some in Hid as [_ Hid].
  unfold find_user in *. eapply list_find_insert_same; [exact Hf|].
  unfold Accounts.apply_patch. simpl. by rewrite Hid.
Qed.

End Client.

(** * Concrete runs *)

Module ClientExamples.
Import Client ModelExamples.

(** User "2" signed in, with the cache loaded from the store. *)
Definition w_user : world :=
  mkWorld demo (mkClient (Some (strip_password (mk_user "2" "user1" USER (Some 10%Z))))
                 (Some (strip_password (mk_user "2" "user1" USER (Some 10%Z))))
                 (st_tasks demo)).

Lemma coherent_w_user : coherent w_user.
Proof. split; [reflexivity|decide_prop]. Qed.

Lemma updateTaskStatus_coherent_witness :
  coherent (final_store (updateTaskStatus "1" IN_PROGRESS None w_user)).
Proof. apply updateTaskStatus_coherent. split; [reflexivity|decide_prop]. Defined.

Lemma abandonTask_coherent_witness : coherent (final_store (abandonTask "2" w_user)).
Proof. apply abandonTask_coherent. split; [reflexivity|decide_prop]. Defined.

Lemma createTask_coherent_witness :
  coherent (final_store (createTask (LifecycleExamples.form 20 "2") 1000 w_user)).
Proof.
  apply createTask_coherent; [split; [reflexivity|decide_prop]|decide_prop].
Defined.

Lemma fetchTasks_coherent_witness :
  coherent (final_store (fetchTasks (mkWorld demo (mkClient
    (Some (strip_password (mk_user "2" "user1" USER (Some 10%Z)))) None [])))).
Proof. eapply fetchTasks_coherent; [reflexivity|decide_prop]. Defined.

End ClientExamples.
