(* ===== verification/Cards.v ===== *)
(** * Cards: the actions a task card offers, and the lifecycle they drive

    [TaskCard.jsx] decides which buttons a signed-in user sees on a task
    (lines 154-238) and what each button calls through TaskContext (lines
    24-73).  [offered] is the visibility condition of each button and
    [perform] its handler.  The abstract lifecycle of the spec (section 3:
    PENDING to OPEN or REJECTED, OPEN to IN_PROGRESS, IN_PROGRESS to REVIEW
    or back to OPEN on abandonment, REVIEW to DONE or back to IN_PROGRESS)
    is the relation [spec_step]; the theorems show that every button that
    succeeds moves its task along [spec_step] and keeps the spec's
    assignment invariant, and that one of them can never succeed. *)

From S2P Require Import Prelude Model Lifecycle Accounts Client.
Local Open Scope api_scope.

(** The lifecycle of spec section 3, with the abandonment of section 4.1. *)
Inductive spec_step : status -> status -> Prop :=
| spec_approve : spec_step PENDING OPEN
| spec_reject : spec_step PENDING REJECTED
| spec_claim : spec_step OPEN IN_PROGRESS
| spec_submit : spec_step IN_PROGRESS REVIEW
| spec_abandon : spec_step IN_PROGRESS OPEN
| spec_confirm : spec_step REVIEW DONE
| spec_reject_report : spec_step REVIEW IN_PROGRESS.

(** The spec's invariant on a task: [assignedTo] is null exactly outside
    IN_PROGRESS, REVIEW and DONE. *)
Definition assigned_status (st : status) : bool :=
  match st with IN_PROGRESS | REVIEW | DONE => true | _ => false end.

Definition assignment_ok (t : task) : Prop :=
  truthy_id (t_assignedTo t) = assigned_status (t_status t).

Module Cards.

(** [isAdmin()] and [isUser()] of AuthContext.jsx (lines 85-91). *)
Definition isAdmin (u : public_user) : bool := bool_decide (pu_role u = ADMIN).
Definition isUser (u : public_user) : bool := bool_decide (pu_role u = USER).

(** The handlers of TaskCard.jsx. *)
Inductive action :=
| Approve                   (** [handleApprove], line 60 *)
| Reject                    (** [handleReject], line 63 *)
| Confirm                   (** [handleConfirmCompletion], line 73 *)
| RejectReport              (** [handleRejectReport], lines 66-71 *)
| Take                      (** [handleTakeTask], line 24 *)
| SubmitReport (r : report) (** [handleSubmitReport], lines 47-58 *)
| Abandon.                  (** [handleAbandonClick], lines 29-45 *)

(** Which buttons the card renders for user [u] on task [t]. *)
Definition offered (u : public_user) (t : task) (a : action) : bool :=
  match a with
  | Approve | Reject => isAdmin u && bool_decide (t_status t = PENDING)
  | Confirm | RejectReport => isAdmin u && bool_decide (t_status t = REVIEW)
  | Take =>
      isUser u && bool_decide (t_status t = OPEN) &&
      bool_decide (t_createdBy t ≠ pu_id u) && negb (truthy_id (t_assignedTo t))
  | SubmitReport _ | Abandon =>
      isUser u && bool_decide (t_assignedTo t = Some (pu_id u)) &&
      bool_decide (t_status t = IN_PROGRESS)
  end.

(** What the button calls. *)
Definition perform (a : action) (t : task) : Ctx unit :=
  match a with
  | Approve => Client.updateTaskStatus (t_id t) OPEN None ;;; ret tt
  | Reject => Client.updateTaskStatus (t_id t) REJECTED None ;;; ret tt
  | Confirm => Client.updateTaskStatus (t_id t) DONE None ;;; ret tt
  | RejectReport => Client.updateTaskStatus (t_id t) IN_PROGRESS None ;;; ret tt
  | Take => Client.updateTaskStatus (t_id t) IN_PROGRESS None ;;; ret tt
  | SubmitReport r => Client.updateTaskStatus (t_id t) REVIEW (Some r) ;;; ret tt
  | Abandon => Client.abandonTask (t_id t)
  end.

(** * From the context functions to the API *)

Lemma ctx_update_ok taskId st r w t w' :
  Client.updateTaskStatus taskId st r w = Ok t w' ->
  ∃ u, c_user (w_client w) = Some u ∧ pu_id u ≠ "" ∧
       Lifecycle.updateTaskStatus taskId st (Some (pu_id u)) r (w_store w) = Ok t (w_store w').
Proof.
  destruct w as [s cl]. unfold Client.updateTaskStatus. Client.ctx_unfold.
  destruct (c_user cl) as [u|]; [|done]. case_bool_decide; [|done]. simpl.
  destruct (Lifecycle.updateTaskStatus _ _ _ _ s) as [t1 s1|] eqn:Hrun; simpl; [|done].
  case_bool_decide; simpl; [|intros [= <- <-]; eauto].
  match goal with |- context [Client.refreshUser ?w'] =>
    destruct (Client.refreshUser_keeps w') as (c & -> & _) end.
  intros [= <- <-]. eauto.
Qed.

Lemma ctx_update_err taskId st r w e w' :
  Client.updateTaskStatus taskId st r w = Err e w' -> w' = w.
Proof.
  destruct w as [s cl]. unfold Client.updateTaskStatus. Client.ctx_unfold.
  destruct (c_user cl) as [u|]; [|by intros [= _ <-]].
  case_bool_decide; [|by intros [= _ <-]]. simpl.
  destruct (Lifecycle.updateTaskStatus _ _ _ _ s) as [t1 s1|e1 s1] eqn:Hrun; simpl.
  - case_bool_decide; simpl; [|done].
    match goal with |- context [Client.refreshUser ?w'] =>
      destruct (Client.refreshUser_keeps w') as (c & -> & _) end. done.
  - apply Lifecycle.updateTaskStatus_err_store in Hrun as ->. by intros [= _ <-].
Qed.

Lemma ctx_abandon_ok taskId w w' :
  Client.abandonTask taskId w = Ok tt w' ->
  ∃ u r, c_user (w_client w) = Some u ∧ pu_id u ≠ "" ∧
         Lifecycle.abandonTask taskId (Some (pu_id u)) (w_store w) = Ok r (w_store w').
Proof.
  destruct w as [s cl]. unfold Client.abandonTask. Client.ctx_unfold.
  destruct (c_user cl) as [u|]; [|done]. case_bool_decide; [|done]. simpl.
  destruct (Lifecycle.abandonTask _ _ s) as [r s1|] eqn:Hrun; simpl; [|done].
  destruct r as [t|]; simpl;
    match goal with |- context [Client.refreshUser ?w'] =>
      destruct (Client.refreshUser_keeps w') as (c & -> & _) end;
    intros [= <-]; eauto.
Qed.

Lemma ctx_abandon_err taskId w e w' :
  Client.abandonTask taskId w = Err e w' -> w' = w.
Proof.
  destruct w as [s cl]. unfold Client.abandonTask. Client.ctx_unfold.
  destruct (c_user cl) as [u|]; [|by intros [= _ <-]].
  case_bool_decide; [|by intros [= _ <-]]. simpl.
  destruct (Lifecycle.abandonTask _ _ s) as [r s1|e1 s1] eqn:Hrun; simpl.
  - destruct r; simpl;
      match goal with |- context [Client.refreshUser ?w'] =>
        destruct (Client.refreshUser_keeps w') as (c & -> & _) end; done.
  - revert Hrun. unfold Lifecycle.abandonTask. store_unfold.
    destruct (find_task _ _) as [[? ?]|]; [by repeat case_match|discriminate].
Qed.

(** * The task written by a successful call *)

Lemma claim_ok_fields st u t s t' s' :
  Lifecycle.claim st u t s = Ok t' s' ->
  t_status t' = t_status t ∧
  t_assignedTo t' = (if bool_decide (st = IN_PROGRESS) && truthy_id u
                     then u else t_assignedTo t).
Proof.
  unfold Lifecycle.claim. api_unfold.
  destruct (bool_decide (st = IN_PROGRESS) && truthy_id u); simpl;
    [destruct (_ && _); simpl|]; by intros [= <- _].
Qed.

(** A successful [updateTaskStatus] by a signed-in user stores, over the task
    found, a task in the requested status, assigned to the caller when the
    status is IN_PROGRESS and to its former assignee otherwise. *)
Lemma update_written_task taskId st uid r s t s' :
  uid ≠ "" ->
  Lifecycle.updateTaskStatus taskId st (Some uid) r s = Ok t s' ->
  ∃ i x, find_task taskId (st_tasks s) = Some (i, x) ∧
         st_tasks s' = <[i := t]> (st_tasks s) ∧ t_status t = st ∧
         t_assignedTo t = (if bool_decide (st = IN_PROGRESS) then Some uid
                           else t_assignedTo x).
Proof.
  intros Huid Hrun. destruct (Lifecycle.updateTaskStatus_ok_shape _ _ _ _ _ _ _ Hrun)
    as (i & x & Hf & Hts & _). exists i, x. split_and!; [done|done| |].
  all: rewrite (Lifecycle.updateTaskStatus_found _ _ _ _ _ _ _ Hf) in Hrun.
  all: destruct (Lifecycle.claim st (Some uid) (set_status st x) s) as [t1 s1|] eqn:Hc;
         [|done].
  all: destruct (Lifecycle.payout_ok st (Some uid) (Lifecycle.attach_report st r t1) s1)
         as [us Hp]; rewrite Hp in Hrun; injection Hrun as <- _.
  all: apply claim_ok_fields in Hc as [Hst Has].
  - by rewrite Lifecycle.attach_report_status, Hst.
  - rewrite Lifecycle.attach_report_assignedTo, Has.
    destruct (bool_decide (st = IN_PROGRESS)); [|done]. simpl.
    by rewrite bool_decide_true.
Qed.

(** The heart of the refinement: a button shown on a stored task, when its
    call succeeds, overwrites that task with one whose status follows
    [spec_step] and which keeps the assignment invariant. *)
Lemma perform_written a t w w' i u :
  c_user (w_client w) = Some u ->
  find_task (t_id t) (st_tasks (w_store w)) = Some (i, t) ->
  offered u t a = true -> perform a t w = Ok tt w' ->
  ∃ t', st_tasks (w_store w') = <[i := t']> (st_tasks (w_store w)) ∧
        spec_step (t_status t) (t_status t') ∧
        (assignment_ok t -> assignment_ok t').
Proof.
  intros Hu Hf Ho Hp. destruct a; simpl in Hp.
  7: { destruct (ctx_abandon_ok _ _ _ Hp) as (u' & r & Hu' & Hid & Hrun).
       rewrite (Lifecycle.abandonTask_found _ _ _ _ _ Hf Hid) in Hrun.
       injection Hrun as _ <-. eexists. split; [reflexivity|]. simpl.
       unfold offered in Ho. bools. rewrite H0.
       split; [constructor|done]. }
  all: apply bind_ret_unit_ok in Hp as [t0 Hp].
  all: destruct (ctx_update_ok _ _ _ _ _ _ Hp) as (u' & Hu' & Hid & Hrun).
  all: destruct (update_written_task _ _ _ _ _ _ _ Hid Hrun) as (i' & x & Hf' & Hts & Hst & Has).
  all: rewrite Hf in Hf'; injection Hf' as Hi' Hx; subst i' x.
  all: exists t0; split; [done|]; rewrite Hst; unfold offered in Ho; bools.
  all: unfold assignment_ok; rewrite Has; simpl.
  all: repeat match goal with H : t_status ?x = _ |- context [t_status ?x] => rewrite H end.
  all: split; [constructor|]; try done.
  all: intros _; simpl; by rewrite bool_decide_true.
Qed.

(** * The buttons and the abstract lifecycle *)

(** C8: refinement: whenever a button of the task card succeeds on the
    stored task it shows, the task moves along the lifecycle of the spec. *)
Theorem perform_refines_spec a t w w' i u :
  c_user (w_client w) = Some u ->
  find_task (t_id t) (st_tasks (w_store w)) = Some (i, t) ->
  offered u t a = true -> perform a t w = Ok tt w' ->
  ∃ t', st_tasks (w_store w') !! i = Some t' ∧ spec_step (t_status t) (t_status t').
Proof.
  intros Hu Hf Ho Hp.
  destruct (perform_written _ _ _ _ _ _ Hu Hf Ho Hp) as (t' & Hts & Hstep & _).
  exists t'. split; [|done]. rewrite Hts.
  apply list_lookup_insert_eq. apply find_task_some in Hf as [Hl _].
  by eapply lookup_lt_Some.
Qed.

(** C10: the administrator's "reject report" button (REVIEW back to
    IN_PROGRESS) can never succeed on a task held by someone else: the
    context passes the administrator's id as the claimant, the claim check
    of [updateTaskStatus] throws [AlreadyClaimed], and nothing changes. *)
Theorem reject_report_fails w u t i a :
  c_user (w_client w) = Some u -> pu_id u ≠ "" ->
  find_task (t_id t) (st_tasks (w_store w)) = Some (i, t) ->
  offered u t RejectReport = true ->
  t_assignedTo t = Some a -> a ≠ "" -> a ≠ pu_id u ->
  perform RejectReport t w = Err (ApiError AlreadyClaimed) w.
Proof.
  intros Hu Hid Hf Ho Ha Hne Hdiff. destruct w as [s cl]. simpl in *.
  unfold perform, Client.updateTaskStatus. Client.ctx_unfold. rewrite Hu.
  rewrite bool_decide_true by done. simpl.
  rewrite (Lifecycle.claim_taken_err _ _ _ _ a _ _ Hf); [done|done|done| |congruence].
  simpl. by rewrite bool_decide_true.
Qed.

(** * The assignment invariant under the buttons *)

Lemma perform_err a t w e w' : perform a t w = Err e w' -> w' = w.
Proof.
  destruct a; simpl; try (apply ctx_abandon_err);
    unfold bind at 1; intros H;
    match type of H with
    | context [Client.updateTaskStatus ?id ?st ?r w] =>
        destruct (Client.updateTaskStatus id st r w) eqn:Hu; [done|];
        injection H as _ <-; by eapply ctx_update_err
    end.
Qed.

Lemma ctx_create_tasks d now w :
  st_tasks (w_store (final_store (Client.createTask d now w))) = st_tasks (w_store w) ∨
  ∃ uid, st_tasks (w_store (final_store (Client.createTask d now w))) =
           st_tasks (w_store w) ++ [Lifecycle.newTask (Client.with_creator d uid) now].
Proof.
  destruct w as [s cl]. unfold Client.createTask. Client.ctx_unfold.
  destruct (c_user cl) as [u|]; [|by left]. case_bool_decide; [|by left]. simpl.
  rewrite Lifecycle.createTask_run. simpl.
  match goal with |- context [Client.refreshUser ?w'] =>
    destruct (Client.refreshUser_keeps w') as (c & -> & _) end.
  right. eauto.
Qed.

(** The user interface as a transition system: a signed-in user presses a
    button that the card of a stored task shows, or posts a new task. *)
Inductive ui_step : world -> world -> Prop :=
| ui_button w u t i a :
    c_user (w_client w) = Some u ->
    find_task (t_id t) (st_tasks (w_store w)) = Some (i, t) ->
    offered u t a = true ->
    ui_step w (final_store (perform a t w))
| ui_create w d now : ui_step w (final_store (Client.createTask d now w)).

Definition assignments_ok (w : world) : Prop := Forall assignment_ok (st_tasks (w_store w)).

(** Each user-interface step keeps the assignment invariant. *)
Lemma ui_step_assignments w w' :
  assignments_ok w -> ui_step w w' -> assignments_ok w'.
Proof.
  intros Hinv Hstep. inversion Hstep as [w0 u t i a Hu Hf Ho| w0 d now]; subst.
  - destruct (perform a t w) as [[] w1|e w1] eqn:Hp; simpl.
    + destruct (perform_written _ _ _ _ _ _ Hu Hf Ho Hp) as (t' & Hts & _ & Hok).
      unfold assignments_ok. rewrite Hts. apply Forall_insert; [done|].
      apply Hok. apply find_task_some in Hf as [Hl _].
      by eapply Forall_lookup_1 in Hinv.
    + by apply perform_err in Hp as ->.
  - unfold assignments_ok. destruct (ctx_create_tasks d now w) as [->|[uid ->]]; [done|].
    apply Forall_app. split; [done|]. by constructor.
Qed.

(** C9: every step of the user interface keeps the spec's assignment
    invariant on every stored task. *)
Theorem ui_step_keeps_assignments w w' :
  assignments_ok w -> ui_step w w' -> assignments_ok w'.
Proof. apply ui_step_assignments. Qed.

(** The assignment invariant holds after any sequence of button presses and
    task creations, by induction on the sequence. *)
Theorem ui_reachable_assignments w0 w :
  assignments_ok w0 -> star ui_step w0 w -> assignments_ok w.
Proof. apply star_invariant, ui_step_assignments. Qed.

End Cards.

(** * Concrete runs *)

Module CardsExamples.
Import Cards ModelExamples ClientExamples.

Definition w_admin : world :=
  mkWorld demo (mkClient (Some (strip_password (mk_user "1" "admin" ADMIN None)))
                 (Some (strip_password (mk_user "1" "admin" ADMIN None)))
                 (st_tasks demo)).

#[local] Instance assignment_ok_dec t : Decision (assignment_ok t).
Proof. unfold assignment_ok. apply _. Defined.

Lemma perform_refines_spec_witness :
  ∃ t', st_tasks (w_store (final_store (perform Take (mk_task "1" OPEN "3" None 50) w_user)))
          !! 0%nat = Some t' ∧
        spec_step (t_status (mk_task "1" OPEN "3" None 50)) (t_status t').
Proof.
  apply (perform_refines_spec Take (mk_task "1" OPEN "3" None 50) w_user
           (final_store (perform Take (mk_task "1" OPEN "3" None 50) w_user)) 0%nat
           (strip_password (mk_user "2" "user1" USER (Some 10%Z)))); reflexivity.
Defined.

Lemma reject_report_fails_witness :
  perform RejectReport (mk_task "3" REVIEW "3" (Some "2") 75) w_admin =
    Err (ApiError AlreadyClaimed) w_admin.
Proof.
  apply (reject_report_fails _ (strip_password (mk_user "1" "admin" ADMIN None)) _ 2%nat "2");
    [reflexivity|done|reflexivity|reflexivity|reflexivity|done|done].
Defined.

Lemma ui_step_keeps_assignments_witness :
  assignments_ok (final_store (perform Take (mk_task "1" OPEN "3" None 50) w_user)).
Proof.
  apply (ui_step_keeps_assignments w_user).
  - decide_prop.
  - apply (ui_button w_user (strip_password (mk_user "2" "user1" USER (Some 10%Z)))
             (mk_task "1" OPEN "3" None 50) 0%nat Take); reflexivity.
Defined.

Lemma ui_reachable_assignments_witness :
  assignments_ok (final_store (perform Abandon (mk_task "2" IN_PROGRESS "3" (Some "2") 30) w_user)).
Proof.
  apply (ui_reachable_assignments w_user).
  - decide_prop.
  - apply star_one.
    apply (ui_button w_user (strip_password (mk_user "2" "user1" USER (Some 10%Z)))
             (mk_task "2" IN_PROGRESS "3" (Some "2") 30) 1%nat Abandon); reflexivity.
Defined.

End CardsExamples.
