(* ===== verification/CardSession.v ===== *)
(** * CardSession: one task card on screen, its modals and its calls in flight

    [TaskCard.jsx] renders a task of TaskContext's cache for the signed-in
    user.  Its three [useState]s (the report modal, the details modal and
    [loading]) and the two of [CompleteTaskModal.jsx] ([description] and
    [imageUrl], kept while the modal is closed since the component stays
    mounted and only returns [null]) form the record [card], with the world
    of Client.v and the handlers whose [await] has not returned yet.  A
    click runs its handler up to the [await]: the call is put in flight
    with the task the handler closed over.  [CRespond i] lets the [i]-th
    call return: [Cards.perform] runs on the world of that moment, then the
    handler's code after the [await].  The card reads its task from the
    cache at every render, so a button stays on screen until the answer
    that changes the task has returned. *)

From S2P Require Import Prelude Model Lifecycle Accounts Client Cards.
Local Open Scope api_scope.

Module CardSession.
Import Cards.

(** [statusLabels] (lines 8-15), the labels; the colours are not modelled.
    Every status has a label, so the fallback [|| statusLabels.PENDING] of
    line 75 is never taken. *)
Definition statusLabel (s : status) : string :=
  match s with
  | PENDING => "На проверке"
  | OPEN => "Поиск волонтера"
  | IN_PROGRESS => "В работе"
  | REVIEW => "Проверка отчета"
  | DONE => "Выполнено"
  | REJECTED => "Отклонено"
  end.

(** [isAdmin()], [isUser()] and [user?.id] on the session's user. *)
Definition isAdmin (u : option public_user) : bool :=
  match u with Some u => Cards.isAdmin u | None => false end.
Definition isUser (u : option public_user) : bool :=
  match u with Some u => Cards.isUser u | None => false end.
Definition user_id (u : option public_user) : option string := pu_id <$> u.

(** [x === user?.id] for an [assignedTo] that may be [null]: [null] is
    never [===] to a string nor to [undefined]. *)
Definition same_id (x y : option string) : bool :=
  match x, y with Some a, Some b => bool_decide (a = b) | _, _ => false end.

(** What the card shows. *)
Record card_view := mkView {
  v_label : string;             (** line 107 *)
  v_report : option report;     (** the report block, lines 125-141 *)
  v_moderation : bool;          (** Approve and Reject, lines 158-179 *)
  v_review : bool;              (** Confirm and Reject report, lines 180-201 *)
  v_take : bool;                (** lines 214-218 *)
  v_taken : bool;               (** "already taken", lines 219-223 *)
  v_volunteer : bool;           (** Complete and Abandon, lines 225-238 *)
  v_abandon_disabled : bool;    (** line 232 *)
  v_chat : bool;                (** lines 241-251 *)
  v_published : bool            (** lines 253-257 *)
}.

(** Lines 75-81 and the conditions of the JSX. *)
Definition view (u : option public_user) (t : task) (loading : bool) : card_view :=
  let label := statusLabel (t_status t) in
  let isAdminUser := bool_decide (pu_role <$> u = Some ADMIN) || isAdmin u in
  let isPending := bool_decide (t_status t = PENDING) || bool_decide (label = "На проверке") in
  let isReview := bool_decide (t_status t = REVIEW) || bool_decide (label = "Проверка отчета") in
  let uid := user_id u in
  let creator := bool_decide (Some (t_createdBy t) = uid) in
  let assignee := same_id (t_assignedTo t) uid in
  mkView label
    (match t_report t with
     | Some r => if isAdmin u || creator || assignee then Some r else None
     | None => None
     end)
    (isAdminUser && isPending)
    (isAdminUser && isReview)
    (isUser u && bool_decide (t_status t = OPEN) && negb creator &&
       negb (truthy_id (t_assignedTo t)))
    (isUser u && bool_decide (t_status t = OPEN) && truthy_id (t_assignedTo t) &&
       negb assignee)
    (isUser u && assignee && bool_decide (t_status t = IN_PROGRESS))
    loading
    (isUser u && truthy_id (t_assignedTo t) && (creator || assignee))
    (isUser u && creator).

(** The state of a mounted card. *)
Record card := mkCard {
  cd_world : world;
  cd_id : string;                    (** the task the card is rendered for *)
  cd_modal : bool;                   (** [isModalOpen] *)
  cd_details : bool;                 (** [isDetailsModalOpen] *)
  cd_loading : bool;                 (** [loading] *)
  cd_description : string;           (** CompleteTaskModal's [description] *)
  cd_imageUrl : string;              (** CompleteTaskModal's [imageUrl] *)
  cd_pending : list (action * task)  (** handlers waiting on their [await] *)
}.

Definition set_world (w : world) (st : card) : card :=
  mkCard w (cd_id st) (cd_modal st) (cd_details st) (cd_loading st)
    (cd_description st) (cd_imageUrl st) (cd_pending st).
Definition set_modal (b : bool) (st : card) : card :=
  mkCard (cd_world st) (cd_id st) b (cd_details st) (cd_loading st)
    (cd_description st) (cd_imageUrl st) (cd_pending st).
Definition set_details (b : bool) (st : card) : card :=
  mkCard (cd_world st) (cd_id st) (cd_modal st) b (cd_loading st)
    (cd_description st) (cd_imageUrl st) (cd_pending st).
Definition set_loading (b : bool) (st : card) : card :=
  mkCard (cd_world st) (cd_id st) (cd_modal st) (cd_details st) b
    (cd_description st) (cd_imageUrl st) (cd_pending st).
Definition set_description (s : string) (st : card) : card :=
  mkCard (cd_world st) (cd_id st) (cd_modal st) (cd_details st) (cd_loading st)
    s (cd_imageUrl st) (cd_pending st).
Definition set_imageUrl (s : string) (st : card) : card :=
  mkCard (cd_world st) (cd_id st) (cd_modal st) (cd_details st) (cd_loading st)
    (cd_description st) s (cd_pending st).
Definition set_pending (l : list (action * task)) (st : card) : card :=
  mkCard (cd_world st) (cd_id st) (cd_modal st) (cd_details st) (cd_loading st)
    (cd_description st) (cd_imageUrl st) l.

(** The card's task, read from the cache, and the session's user. *)
Definition card_task (st : card) : option task :=
  snd <$> find_task (cd_id st) (c_tasks (w_client (cd_world st))).
Definition card_user (st : card) : option public_user := c_user (w_client (cd_world st)).

(** A handler reaches its [await]. *)
Definition call (a : action) (t : task) (st : card) : card :=
  set_pending (cd_pending st ++ [(a, t)]) st.

(** [handleSubmit] of CompleteTaskModal.jsx (lines 9-12) on an open
    modal (line 7): the report, once the browser has checked that both
    required fields (lines 33 and 47) are filled. *)
Definition complete_submit (isOpen : bool) (description imageUrl : string) : option report :=
  if isOpen && negb (bool_decide (description = "")) && negb (bool_decide (imageUrl = ""))
  then Some (mkReport description imageUrl) else None.

(** The first render: both modals closed, nothing typed, nothing in flight. *)
Definition start (w : world) (id : string) : card := mkCard w id false false false "" "" [].

Inductive cevent :=
| CApprove                        (** line 163 *)
| CReject                         (** line 172 *)
| CConfirm                        (** line 185 *)
| CRejectReport (confirmed : bool) (** line 194, with [window.confirm]'s answer *)
| CTake                           (** line 215 *)
| CComplete                       (** line 227, [onCompleteClick] *)
| CAbandon (confirmed : bool)     (** line 231, with [window.confirm]'s answer *)
| CDescription (s : string)       (** the modal's textarea (line 30) *)
| CImageUrl (s : string)          (** the modal's url input (line 44) *)
| CSubmitReport                   (** the modal's form submitted (line 23) *)
| CCloseModal                     (** the modal's Cancel (line 55) *)
| CDetails                        (** lines 117 and 205 *)
| CCloseDetails                   (** TaskDetailsModal's [onClose] (line 271) *)
| CRespond (i : nat).             (** the [i]-th call in flight returns *)

Section Session.

(** The browser's check of [<input type="url" required>]: a non-empty
    absolute URL.  URL parsing is not modelled. *)
Variable valid_url : string -> bool.

(** The handlers' code after their [await]: [handleSubmitReport] closes the
    modal when the call succeeded (line 51) and clears [loading] either way
    (line 56); [handleAbandonClick] clears [loading] (line 42).  The other
    handlers end with the call. *)
Definition after (a : action) (ok : bool) (st : card) : card :=
  match a with
  | SubmitReport _ => set_loading false (if ok then set_modal false st else st)
  | Abandon => set_loading false st
  | _ => st
  end.

Definition respond (a : action) (t : task) (st : card) : card :=
  match perform a t (cd_world st) with
  | Ok _ w' => after a true (set_world w' st)
  | Err _ w' => after a false (set_world w' st)
  end.

(** A click on what the card shows for task [t]. *)
Definition click (t : task) (st : card) (e : cevent) : option card :=
  let v := view (card_user st) t (cd_loading st) in
  match e with
  | CApprove => if v_moderation v then Some (call Approve t st) else None
  | CReject => if v_moderation v then Some (call Reject t st) else None
  | CConfirm => if v_review v then Some (call Confirm t st) else None
  | CRejectReport ok => if v_review v then Some (if ok then call RejectReport t st else st) else None
  | CTake => if v_take v then Some (call Take t st) else None
  | CComplete => if v_volunteer v then Some (set_modal true st) else None
  | CAbandon ok =>
      if v_volunteer v && negb (v_abandon_disabled v)
      then Some (if ok then call Abandon t (set_loading true st) else st) else None
  | CDescription s => if cd_modal st then Some (set_description s st) else None
  | CImageUrl s => if cd_modal st then Some (set_imageUrl s st) else None
  | CSubmitReport =>
      match complete_submit (cd_modal st) (cd_description st) (cd_imageUrl st) with
      | Some r => if negb (cd_loading st) && valid_url (cd_imageUrl st)
                  then Some (call (SubmitReport r) t (set_loading true st)) else None
      | None => None
      end
  | CCloseModal => if cd_modal st then Some (set_modal false st) else None
  | CDetails => Some (set_details true st)
  | CCloseDetails => if cd_details st then Some (set_details false st) else None
  | CRespond _ => None
  end.

(** One event: an answer, or a click on the card while its task is in the
    cache. *)
Definition step (st : card) (e : cevent) : option card :=
  match e with
  | CRespond i =>
      match cd_pending st !! i with
      | Some (a, t) => Some (respond a t (set_pending (delete i (cd_pending st)) st))
      | None => None
      end
  | _ => match card_task st with Some t => click t st e | None => None end
  end.

Fixpoint run (st : card) (es : list cevent) : option card :=
  match es with
  | [] => Some st
  | e :: es' => match step st e with Some st' => run st' es' | None => None end
  end.

Definition card_step (st st' : card) : Prop := ∃ e, step st e = Some st'.

(** ** The card's buttons *)

Lemma card_same_id_some x b : same_id x (Some b) = bool_decide (x = Some b).
Proof. destruct x as [a|]; simpl; [|done]. repeat case_bool_decide; congruence. Qed.

Lemma admin_user_some u :
  bool_decide (pu_role <$> Some u = Some ADMIN) || isAdmin (Some u) = Cards.isAdmin u.
Proof. cbn [isAdmin fmap option_fmap option_map]. unfold Cards.isAdmin. by destruct (pu_role u). Qed.

Lemma view_moderation u t l : v_moderation (view (Some u) t l) = offered u t Approve.
Proof.
  unfold view. cbn [v_moderation offered]. rewrite admin_user_some.
  by destruct (t_status t).
Qed.

Lemma view_review u t l : v_review (view (Some u) t l) = offered u t Confirm.
Proof.
  unfold view. cbn [v_review offered]. rewrite admin_user_some.
  by destruct (t_status t).
Qed.

Lemma view_take u t l : v_take (view (Some u) t l) = offered u t Take.
Proof.
  unfold view. cbn [v_take offered isUser user_id fmap option_fmap option_map].
  replace (negb (bool_decide (Some (t_createdBy t) = Some (pu_id u))))
    with (bool_decide (t_createdBy t ≠ pu_id u)); [done|].
  repeat case_bool_decide; simpl; congruence.
Qed.

Lemma view_volunteer u t l : v_volunteer (view (Some u) t l) = offered u t Abandon.
Proof.
  unfold view. cbn [v_volunteer offered isUser user_id fmap option_fmap option_map].
  by rewrite card_same_id_some.
Qed.

(** The card's button conditions, written with the status and with
    its label (lines 78-81, 158, 180, 214 and 225), are exactly the
    visibility [Cards.offered] of each handler: the label tests add
    nothing, since only [PENDING] is labelled "На проверке" and only
    [REVIEW] "Проверка отчета". *)
Theorem view_offered u t l :
  v_moderation (view (Some u) t l) = offered u t Approve ∧
  v_review (view (Some u) t l) = offered u t Confirm ∧
  v_take (view (Some u) t l) = offered u t Take ∧
  v_volunteer (view (Some u) t l) = offered u t Abandon.
Proof.
  split_and!; [apply view_moderation|apply view_review|apply view_take|apply view_volunteer].
Qed.

(** ** [loading] and the calls it guards *)

(** The calls whose buttons [loading] disables: the report (line 62 of
    CompleteTaskModal.jsx) and the abandonment (line 232). *)
Definition guarded (c : action * task) : bool :=
  match c.1 with SubmitReport _ | Abandon => true | _ => false end.
Definition in_flight (st : card) : nat := length (List.filter guarded (cd_pending st)).
Definition loading_ok (st : card) : Prop := in_flight st = if cd_loading st then 1 else 0.

Lemma respond_fields a t st :
  cd_pending (respond a t st) = cd_pending st ∧
  cd_loading (respond a t st) = if guarded (a, t) then false else cd_loading st.
Proof. unfold respond. destruct (perform a t (cd_world st)); destruct a; done. Qed.

Lemma click_loading t st e st' :
  click t st e = Some st' -> loading_ok st -> loading_ok st'.
Proof.
  unfold click, loading_ok, in_flight. intros Hc Hinv. revert Hc.
  destruct e; try destruct confirmed; simpl;
    repeat match goal with
    | |- (if ?b then _ else _) = _ -> _ => destruct b eqn:?; [|done]
    | |- (match ?x with Some _ => _ | None => _ end) = _ -> _ => destruct x eqn:?
    | |- Some _ = Some _ -> _ => intros [= <-]
    | |- None = Some _ -> _ => done
    end; bools; simpl in *; rewrite ?filter_length_snoc; simpl;
    repeat match goal with H : cd_loading _ = false |- _ => rewrite H in *; clear H end; lia.
Qed.

Lemma step_loading st e st' : step st e = Some st' -> loading_ok st -> loading_ok st'.
Proof.
  unfold step. destruct e; try (destruct (card_task st); [apply click_loading|done]).
  destruct (cd_pending st !! i) as [[a t]|] eqn:Hi; [|done]. intros [= <-].
  unfold loading_ok, in_flight.
  destruct (respond_fields a t (set_pending (delete i (cd_pending st)) st)) as [-> ->].
  simpl. rewrite (filter_length_delete guarded _ _ _ Hi).
  destruct (guarded (a, t)), (cd_loading st); simpl; lia.
Qed.

Lemma card_run_star st es st' : run st es = Some st' -> star card_step st st'.
Proof.
  revert st. induction es as [|e es IH]; intros st H; cbn in H; [simplify_eq; constructor|].
  destruct (step st e) as [st1|] eqn:E; [|done].
  eapply star_cons; [by exists e|exact (IH _ H)].
Qed.

(** C12: along every run of a card from its first render, [loading] is
    up exactly while one report or abandonment call is in flight, and
    never more than one of them is: the two buttons [loading] disables
    cannot start a second such call before the first has returned. *)
Theorem loading_guards_calls w id st :
  star card_step (start w id) st -> in_flight st = if cd_loading st then 1 else 0.
Proof.
  apply (star_invariant card_step loading_ok); [|done].
  intros x y Hx [e He]. by eapply step_loading.
Qed.

(** ** Runs of the card *)

(** A button whose handler is one status change of the context returns
    after the API's change has been made: the cache holds the new task and
    the session keeps its user. *)
Lemma perform_update_ok a t w u st r t' s' :
  perform a t = (Client.updateTaskStatus (t_id t) st r ;;; ret tt) ->
  c_user (w_client w) = Some u -> pu_id u ≠ "" ->
  Lifecycle.updateTaskStatus (t_id t) st (Some (pu_id u)) r (w_store w) = Ok t' s' ->
  ∃ c u', perform a t w = Ok tt (mkWorld s' c) ∧
          c_tasks c = Client.replace_by_id (t_id t) t' (c_tasks (w_client w)) ∧
          c_user c = Some u' ∧ pu_id u' = pu_id u ∧ pu_role u' = pu_role u.
Proof.
  intros -> Hu Hid Hrun.
  destruct (Client.updateTaskStatus_run _ _ _ _ _ _ _ Hu Hid Hrun) as (c & u' & Hr & ?).
  exists c, u'. unfold bind. rewrite Hr. by split.
Qed.

(** Evaluate a run of the card event by event, rewriting with the
    equations [rw] where the cache, the view and the calls are met. *)
Ltac card_run rw :=
  do 8 (cbn -[find_task view perform]; try unfold card_task, card_user, respond;
        cbn -[find_task view perform]; rw).

(** The volunteer sees the report of the task they hold. *)
Lemma view_report_assignee u t l r :
  t_report t = Some r -> t_assignedTo t = Some (pu_id u) -> v_report (view (Some u) t l) = Some r.
Proof.
  intros Hr Ha. unfold view. cbn [v_report user_id fmap option_fmap option_map].
  rewrite Hr, Ha, card_same_id_some, (bool_decide_true (Some (pu_id u) = _)), orb_true_r by done. done.
Qed.

(** C11: the Confirm button (line 185) has no [loading] guard and stays
    on screen until its call returns: an admin's second click before the
    first answer starts a second [DONE] call, and once both have returned
    the assignee has been paid the task's points twice. *)
Theorem confirm_twice_pays_twice w id i k t u a j v p :
  c_user (w_client w) = Some u -> Cards.isAdmin u = true -> pu_id u ≠ "" ->
  find_task id (c_tasks (w_client w)) = Some (i, t) -> t_status t = REVIEW ->
  find_task id (st_tasks (w_store w)) = Some (k, t) ->
  t_assignedTo t = Some a -> a ≠ "" -> find_user a (st_users (w_store w)) = Some (j, v) ->
  t_points t = Some p -> p ≠ 0%Z ->
  ∃ st, run (start w id) [CConfirm; CConfirm; CRespond 0; CRespond 0] = Some st ∧
        cd_pending st = [] ∧
        st_users (w_store (cd_world st)) !! j = Some (set_points (balance v + 2 * p) v).
Proof.
  intros Hu Ha Hid Hc Hs Hf Hass Hne Hv Hp Hp0.
  pose proof Hc as [_ Htid]%find_task_some.
  destruct (Lifecycle.done_twice_run id (w_store w) k t a j v p (Some (pu_id u)) (Some (pu_id u))
              Hf Hass Hne Hv Hp Hp0) as (t1 & s1 & t2 & s2 & H1 & H2 & Hj).
  rewrite <-Htid in H1, H2.
  destruct (perform_update_ok Confirm t w u DONE None _ _ eq_refl Hu Hid H1)
    as (c1 & u1 & Hp1 & _ & Hu1 & Hid1 & _).
  rewrite <-Hid1 in H2.
  destruct (perform_update_ok Confirm t (mkWorld s1 c1) u1 DONE None _ _ eq_refl Hu1
              ltac:(by rewrite Hid1) H2) as (c2 & u2 & Hp2 & _).
  assert (Hview : v_review (view (Some u) t false) = true).
  { rewrite view_review. unfold offered. by rewrite Ha, Hs. }
  eexists. split.
  { card_run ltac:(rewrite ?Hc, ?Hu, ?Hview, ?Hp1, ?Hp2). reflexivity. }
  split; [reflexivity|exact Hj].
Qed.

(** C15: the report flow of the volunteer holding a task in progress:
    opening the modal (line 227), typing a description and a URL the
    browser accepts,
    submitting, and the answer of the call.  The stored task is then in
    [REVIEW] with exactly the typed report, the card shows it from the
    refreshed cache, the modal is closed and [loading] is down. *)
Theorem report_submitted w id i k t u d url :
  c_user (w_client w) = Some u -> Cards.isUser u = true -> pu_id u ≠ "" ->
  find_task id (c_tasks (w_client w)) = Some (i, t) ->
  find_task id (st_tasks (w_store w)) = Some (k, t) ->
  t_assignedTo t = Some (pu_id u) -> t_status t = IN_PROGRESS ->
  d ≠ "" -> url ≠ "" -> valid_url url = true ->
  ∃ st, run (start w id)
          [CComplete; CDescription d; CImageUrl url; CSubmitReport; CRespond 0] = Some st ∧
    cd_modal st = false ∧ cd_loading st = false ∧
    ∃ t', find_task id (st_tasks (w_store (cd_world st))) = Some (k, t') ∧
          card_task st = Some t' ∧ t_status t' = REVIEW ∧
          t_report t' = Some (mkReport d url) ∧
          v_report (view (card_user st) t' false) = Some (mkReport d url).
Proof.
  intros Hu Huser Hid Hc Hf Hass Hs Hd Hurl0 Hurl.
  pose proof Hc as [_ Htid]%find_task_some.
  pose proof (Lifecycle.review_report_ok id (w_store w) k t (Some (pu_id u)) (mkReport d url) Hf)
    as H1.
  rewrite <-Htid in H1.
  destruct (perform_update_ok (SubmitReport (mkReport d url)) t w u REVIEW _ _ _ eq_refl Hu Hid H1)
    as (c & u' & Hp1 & Hct & Hcu & Hid' & _).
  assert (Hview : v_volunteer (view (Some u) t false) = true).
  { rewrite view_volunteer. unfold offered. rewrite Huser, Hass, Hs.
    by rewrite !bool_decide_true. }
  assert (Hsub : complete_submit true d url = Some (mkReport d url)).
  { unfold complete_submit. by rewrite !bool_decide_false. }
  eexists. split.
  { card_run ltac:(rewrite ?Hc, ?Hu, ?Hview, ?Hsub, ?Hurl, ?Hp1). reflexivity. }
  split; [reflexivity|]. split; [reflexivity|].
  set (t' := set_report (mkReport d url) (set_status REVIEW t)).
  exists t'. cbn -[view find_task]. split; [|split; [|split; [done|split; [done|]]]].
  - by eapply Lifecycle.find_task_insert_same.
  - unfold card_task. cbn. rewrite Hct, Htid. by erewrite Client.find_task_replace.
  - unfold card_user. cbn -[view]. rewrite Hcu. apply view_report_assignee; [done|]. cbn. by rewrite Hass, Hid'.
Qed.

End Session.
End CardSession.

(** * Concrete runs of a card *)

Module CardSessionExamples.
Import Cards CardSession ModelExamples ClientExamples CardsExamples.

(** The browser accepts every URL in these runs. *)
Definition any_url (_ : string) : bool := true.

Lemma confirm_twice_pays_twice_witness :
  ∃ st, run any_url (start w_admin "3") [CConfirm; CConfirm; CRespond 0; CRespond 0] = Some st ∧
        cd_pending st = [] ∧
        st_users (w_store (cd_world st)) !! 1%nat =
          Some (set_points (balance (mk_user "2" "user1" USER (Some 10%Z)) + 2 * 75)
                  (mk_user "2" "user1" USER (Some 10%Z))).
Proof.
  apply (confirm_twice_pays_twice any_url w_admin "3" 2 2 (mk_task "3" REVIEW "3" (Some "2") 75)
           (strip_password (mk_user "1" "admin" ADMIN None)) "2" 1
           (mk_user "2" "user1" USER (Some 10%Z)) 75); try reflexivity; discriminate.
Defined.

Lemma report_submitted_witness :
  ∃ st, run any_url (start w_user "2")
          [CComplete; CDescription "done"; CImageUrl "https://img.example/1"; CSubmitReport;
           CRespond 0] = Some st ∧
    cd_modal st = false ∧ cd_loading st = false ∧
    ∃ t', find_task "2" (st_tasks (w_store (cd_world st))) = Some (1%nat, t') ∧
          card_task st = Some t' ∧ t_status t' = REVIEW ∧
          t_report t' = Some (mkReport "done" "https://img.example/1") ∧
          v_report (view (card_user st) t' false) = Some (mkReport "done" "https://img.example/1").
Proof.
  apply (report_submitted any_url w_user "2" 1 1 (mk_task "2" IN_PROGRESS "3" (Some "2") 30)
           (strip_password (mk_user "2" "user1" USER (Some 10%Z)))); try reflexivity; discriminate.
Defined.

(** The volunteer has sent the report; its call has not returned. *)
Definition reporting : card :=
  default (start w_user "2")
    (run any_url (start w_user "2")
       [CComplete; CDescription "done"; CImageUrl "https://img.example/1"; CSubmitReport]).

Lemma loading_guards_calls_witness :
  in_flight reporting = if cd_loading reporting then 1 else 0.
Proof.
  apply (loading_guards_calls any_url w_user "2").
  apply card_run_star with [CComplete; CDescription "done"; CImageUrl "https://img.example/1";
                       CSubmitReport].
  vm_compute. reflexivity.
Defined.

(** While the report is in flight the Abandon button is disabled, and a
    second submission of the modal is refused. *)
Example abandon_blocked_while_reporting :
  step any_url reporting (CAbandon true) = None ∧ step any_url reporting CSubmitReport = None ∧
  in_flight reporting = 1.
Proof. vm_compute. auto. Qed.

(** The admin's two clicks start two [DONE] calls: both are in flight. *)
Example two_confirm_calls :
  option_map (fun st => length (cd_pending st))
    (run any_url (start w_admin "3") [CConfirm; CConfirm]) = Some 2.
Proof. vm_compute. reflexivity. Qed.

(** Cancelling the modal keeps what was typed: the modal stays mounted and
    only renders [null] (line 7 of CompleteTaskModal.jsx). *)
Example cancel_keeps_text :
  option_map cd_description
    (run any_url (start w_user "2") [CComplete; CDescription "half"; CCloseModal; CComplete]) =
    Some "half".
Proof. vm_compute. reflexivity. Qed.

End CardSessionExamples.
