(* ===== verification/Feed.v ===== *)
(** * Feed: the dashboards

    [Dashboard.jsx] shows [AdminDashboard.jsx] to an administrator and
    [UserDashboard.jsx] to everybody else.  The user's dashboard lists, from
    the TaskContext cache, the tasks the user created, the tasks the user
    works on, and the "feed" of tasks the user can take, sorted by distance,
    by points or by date; the administrator's lists the tasks to moderate.
    The views are modelled by the data they show (lists, counts, the tabs'
    badges, the map preview), not by their markup.

    Distances are computed with floating-point trigonometry
    ([calculateDistance], lines 26-36, modelled on the real numbers in
    Distance.v): the distance sort takes as a parameter [dkey] any integer
    key that orders the tasks as the comparator [a.distance - b.distance]
    does; every theorem holds for every such key. *)

From S2P Require Import Prelude Model Accounts Chat Client Cards.
From Stdlib Require Import Sorting.Sorted Sorting.Permutation.
Local Open Scope api_scope.

Module Feed.

(** [a === user?.id] between ids that may be [null]/[undefined]. *)
Definition same_id (a uid : option string) : bool :=
  match a, uid with
  | Some x, Some y => bool_decide (x = y)
  | _, _ => false
  end.

(** ** The lists of UserDashboard.jsx *)

(** Line 46: [tasks.filter(t => t.createdBy === user?.id)]. *)
Definition myCreatedTasks (uid : option string) (ts : list task) : list task :=
  filter (fun t => same_id (Some (t_createdBy t)) uid = true) ts.

(** Line 49. *)
Definition myInProgressTasks (uid : option string) (ts : list task) : list task :=
  filter (fun t => same_id (t_assignedTo t) uid = true ∧ t_status t = IN_PROGRESS) ts.

(** Lines 72-74: open, not created by the user, not assigned. *)
Definition availableTasksRaw (uid : option string) (ts : list task) : list task :=
  filter (fun t => t_status t = OPEN ∧ same_id (Some (t_createdBy t)) uid = false ∧
                   truthy_id (t_assignedTo t) = false) ts.

(** Lines 121-123 (computed and never shown). *)
Definition allMyTasks (uid : option string) (ts : list task) : list task :=
  filter (fun t => same_id (Some (t_createdBy t)) uid || same_id (t_assignedTo t) uid = true) ts.

(** The three buttons of [setSortBy] (lines 42 and 186-214). *)
Inductive sort_mode := ByDistance | ByPoints | ByNewest.

(** The comparators of lines 106-117 as keys of an ascending stable sort:
    [(b.points || 0) - (a.points || 0)] sorts by [-(points || 0)] and
    [new Date(b.createdAt) - new Date(a.createdAt)] by [-createdAt]. *)
Definition sort_key (dkey : task -> Z) (mode : sort_mode) (t : task) : Z :=
  match mode with
  | ByDistance => dkey t
  | ByPoints => (- or_zero (t_points t))%Z
  | ByNewest => (- t_createdAt t)%Z
  end.

(** Lines 77-118: unsorted until the location is known, then sorted. *)
Definition availableTasks (dkey : task -> Z) (located : bool) (mode : sort_mode)
    (uid : option string) (ts : list task) : list task :=
  let raw := availableTasksRaw uid ts in
  if located then sort_by (sort_key dkey mode) raw else raw.

(** ** The view of UserDashboard.jsx *)

Inductive tab := TabFeed | TabMy | TabInProgress.

(** A tab's badge: the count when it is positive (lines 151, 164, 177). *)
Definition badge (n : nat) : option nat := if bool_decide (0 < n)%nat then Some n else None.

(** The map preview (lines 226-283): the first 3 (mobile) and 6 (desktop)
    tasks, and the "+n more" counters when there are more. *)
Record preview := mkPreview {
  pv_mobile : list task; pv_desktop : list task;
  pv_more_mobile : option nat; pv_more_desktop : option nat
}.

Definition map_preview (l : list task) : preview :=
  mkPreview (take 3 l) (take 6 l)
    (if bool_decide (3 < length l)%nat then Some (length l - 3)%nat else None)
    (if bool_decide (6 < length l)%nat then Some (length l - 6)%nat else None).

(** The content of the active tab (lines 213-328). *)
Inductive panel :=
| FeedEmpty
| FeedList (sort_buttons : bool) (pv : option preview) (cards : list task)
| MyEmpty
| MyList (cards : list task)
| ProgressEmpty
| ProgressList (cards : list task).

Record dashboard := mkDashboard {
  db_inProgress_count : nat; db_created_count : nat;
  db_feed_badge : option nat; db_my_badge : option nat; db_progress_badge : option nat;
  db_panel : panel
}.

(** [UserDashboard] (lines 38-330): nothing but "loading" without a user. *)
Definition render (dkey : task -> Z) (located : bool) (mode : sort_mode) (tb : tab)
    (user : option public_user) (ts : list task) : option dashboard :=
  match user with
  | None => None
  | Some u =>
      let uid := Some (pu_id u) in
      let feed := availableTasks dkey located mode uid ts in
      let mine := myCreatedTasks uid ts in
      let busy := myInProgressTasks uid ts in
      let pnl := match tb with
                 | TabFeed =>
                     if bool_decide (length feed = 0)%nat then FeedEmpty
                     else FeedList true (if located then Some (map_preview feed) else None) feed
                 | TabMy => if bool_decide (length mine = 0)%nat then MyEmpty else MyList mine
                 | TabInProgress =>
                     if bool_decide (length busy = 0)%nat then ProgressEmpty else ProgressList busy
                 end in
      Some (mkDashboard (length busy) (length mine) (badge (length feed))
              (badge (length mine)) (badge (length busy)) pnl)
  end.

(** ** Dashboard.jsx and AdminDashboard.jsx *)

Inductive page := AdminPage | UserPage.

(** [Dashboard] (lines 19-48): nothing without a user, then by role. *)
Definition dashboard_page (user : option public_user) : option page :=
  match user with
  | None => None
  | Some u => Some (if Cards.isAdmin u then AdminPage else UserPage)
  end.

(** Lines 44-46 of AdminDashboard.jsx. *)
Definition pendingTasks (ts : list task) : list task := filter (fun t => t_status t = PENDING) ts.
Definition reviewTasks (ts : list task) : list task := filter (fun t => t_status t = REVIEW) ts.
Definition openTasks (ts : list task) : list task := filter (fun t => t_status t = OPEN) ts.

(** The administrator's view (lines 48-131): the two moderation sections
    when they are not empty, all tasks, and the four counters. *)
Record admin_view := mkAdminView {
  av_pending : option (list task); av_review : option (list task);
  av_all : list task; av_stats : nat * nat * nat * nat
}.

Definition admin_render (loading : bool) (ts : list task) : option admin_view :=
  if loading then None
  else
    let p := pendingTasks ts in
    let r := reviewTasks ts in
    Some (mkAdminView (if bool_decide (0 < length p)%nat then Some p else None)
            (if bool_decide (0 < length r)%nat then Some r else None) ts
            (length ts, length p, length r, length (openTasks ts))).

(** [handleApprove] and [handleReject] (lines 26-42): the context call, the
    error only reported by an alert. *)
Definition admin_setStatus (st : status) (taskId : string) : Ctx unit :=
  fun w => match Client.updateTaskStatus taskId st None w with
           | Ok _ w' => Ok tt w'
           | Err _ w' => Ok tt w'
           end.

(** ** Facts *)

Lemma same_id_some a x : same_id (Some a) (Some x) = false <-> a ≠ x.
Proof. unfold same_id. by rewrite bool_decide_eq_false. Qed.

(** Sorting does not change which tasks the feed shows. *)
Lemma feed_elem dkey located mode uid ts t :
  t ∈ availableTasks dkey located mode uid ts <-> t ∈ availableTasksRaw uid ts.
Proof.
  unfold availableTasks. destruct located; [|done]. rewrite !list_elem_of_In.
  split; apply Permutation_in; [apply sort_by_perm|symmetry; apply sort_by_perm].
Qed.

Lemma availableTasksRaw_elem uid ts t :
  t ∈ availableTasksRaw uid ts <->
  t ∈ ts ∧ t_status t = OPEN ∧ same_id (Some (t_createdBy t)) uid = false ∧
  truthy_id (t_assignedTo t) = false.
Proof. unfold availableTasksRaw. rewrite list_elem_of_filter. tauto. Qed.

Lemma sorted_weaken {A} (R R' : A -> A -> Prop) l :
  (∀ a b, R a b -> R' a b) -> Sorted R l -> Sorted R' l.
Proof.
  intros HR. induction 1 as [|a l Hs IH Hhd]; constructor; [done|].
  destruct Hhd; constructor; auto.
Qed.

(** Three pairwise exclusive filters select at most the whole list. *)
Lemma filter3_le (P Q R : task -> Prop) `{∀ t, Decision (P t)} `{∀ t, Decision (Q t)}
    `{∀ t, Decision (R t)} ts :
  (∀ t, P t -> ¬ Q t ∧ ¬ R t) -> (∀ t, Q t -> ¬ R t) ->
  (length (filter P ts) + length (filter Q ts) + length (filter R ts) <= length ts)%nat.
Proof.
  intros Hpx Hqx. induction ts as [|t ts IH]; [done|]. rewrite !filter_cons.
  repeat case_decide; simpl; try lia; exfalso;
    match goal with
    | Hp : P t |- _ => pose proof (Hpx t Hp); tauto
    | Hq : Q t |- _ => pose proof (Hqx t Hq); tauto
    end.
Qed.

(** ** Properties of the dashboards *)

(** C19: every task in a signed-in user's feed, in whatever order it is
    sorted, is one on which TaskCard offers that user the "take" button:
    the feed's filter is the button's guard. *)
Theorem feed_takeable dkey located mode u ts t :
  Cards.isUser u = true -> t ∈ availableTasks dkey located mode (Some (pu_id u)) ts ->
  Cards.offered u t Cards.Take = true.
Proof.
  intros Hu Hin. apply feed_elem, availableTasksRaw_elem in Hin as (_ & Hst & Hc & Ha).
  apply same_id_some in Hc. unfold Cards.offered.
  rewrite Hu, Ha, bool_decide_true, bool_decide_true by done. reflexivity.
Qed.

(** C20: a task the user works on and has submitted for review (status
    REVIEW) appears in none of the three lists of the user's dashboard: not
    in the feed, not among the created tasks, not among those in progress. *)
Theorem review_invisible dkey located mode u ts t :
  t_status t = REVIEW -> t_assignedTo t = Some (pu_id u) -> t_createdBy t ≠ pu_id u ->
  (t ∉ availableTasks dkey located mode (Some (pu_id u)) ts) ∧
  (t ∉ myCreatedTasks (Some (pu_id u)) ts) ∧ (t ∉ myInProgressTasks (Some (pu_id u)) ts).
Proof.
  intros Hst Ha Hc. split_and!.
  - rewrite feed_elem, availableTasksRaw_elem. intros (_ & Ho & _). congruence.
  - unfold myCreatedTasks. rewrite list_elem_of_filter. intros [Hs _].
    apply Hc. simpl in Hs. by apply bool_decide_eq_true in Hs.
  - unfold myInProgressTasks. rewrite list_elem_of_filter. intros [[_ Hp] _]. congruence.
Qed.

(** Sorting by points shows the largest rewards first, and tasks with equal
    rewards in the cache's order. *)
Theorem feed_points_sorted dkey uid ts :
  Sorted (fun a b => or_zero (t_points b) <= or_zero (t_points a))%Z
         (availableTasks dkey true ByPoints uid ts) ∧
  Permutation (availableTasks dkey true ByPoints uid ts) (availableTasksRaw uid ts) ∧
  ∀ k, with_key (sort_key dkey ByPoints) k (availableTasks dkey true ByPoints uid ts) =
       with_key (sort_key dkey ByPoints) k (availableTasksRaw uid ts).
Proof.
  unfold availableTasks. split_and!; [|apply sort_by_perm|intros k; apply sort_by_stable].
  eapply sorted_weaken; [|apply sort_by_sorted]. intros a b. unfold key_le; simpl. lia.
Qed.

(** The map preview's counters add up: the tasks listed plus the "+n more"
    counter is the number of tasks, on the phone (at most 3 listed) and on
    the desktop (at most 6). *)
Theorem preview_counts l :
  (length (pv_mobile (map_preview l)) + default 0 (pv_more_mobile (map_preview l)) = length l)%nat ∧
  (length (pv_desktop (map_preview l)) + default 0 (pv_more_desktop (map_preview l)) = length l)%nat ∧
  (length (pv_mobile (map_preview l)) <= 3)%nat ∧ (length (pv_desktop (map_preview l)) <= 6)%nat.
Proof.
  unfold map_preview; cbn [pv_mobile pv_desktop pv_more_mobile pv_more_desktop].
  rewrite !length_take. split_and!; try case_bool_decide; cbn [default from_option id]; lia.
Qed.

(** The administrator's counters: the tasks to moderate, the reports and
    the open tasks never add up to more than all tasks. *)
Theorem admin_counts_le ts :
  (length (pendingTasks ts) + length (reviewTasks ts) + length (openTasks ts) <= length ts)%nat.
Proof. apply filter3_le; intros t ->; split || idtac; discriminate. Qed.

End Feed.

(** * Concrete runs *)
Module FeedExamples.
Import Feed ModelExamples.

Definition user1 : public_user := strip_password (mk_user "2" "user1" USER (Some 10%Z)).

(** The demo feed of [user1]: only the open task of [user2]. *)
Example demo_feed :
  availableTasks (fun _ => 0%Z) true ByPoints (Some "2") (st_tasks demo)
  = [mk_task "1" OPEN "3" None 50].
Proof. reflexivity. Qed.

(** The feed tab of [user1] on the demo: one card, no "+n more" counter. *)
Example demo_render :
  option_map db_panel (render (fun _ => 0%Z) true ByPoints TabFeed (Some user1) (st_tasks demo))
  = Some (FeedList true (Some (mkPreview [mk_task "1" OPEN "3" None 50]
                                 [mk_task "1" OPEN "3" None 50] None None))
            [mk_task "1" OPEN "3" None 50]).
Proof. reflexivity. Qed.

(** Sorting by points puts 50 before 30 and keeps the two 30s in order. *)
Example points_order :
  sort_by (sort_key (fun _ => 0%Z) ByPoints)
    [mk_task "a" OPEN "3" None 30; mk_task "b" OPEN "3" None 50; mk_task "c" OPEN "3" None 30]
  = [mk_task "b" OPEN "3" None 50; mk_task "a" OPEN "3" None 30; mk_task "c" OPEN "3" None 30].
Proof. reflexivity. Qed.

Lemma feed_takeable_witness :
  Cards.isUser user1 = true ∧
  mk_task "1" OPEN "3" None 50 ∈ availableTasks (fun _ => 0%Z) true ByPoints (Some (pu_id user1)) (st_tasks demo) ∧
  Cards.offered user1 (mk_task "1" OPEN "3" None 50) Cards.Take = true.
Proof.
  assert (Hu : Cards.isUser user1 = true) by reflexivity.
  assert (Hin : mk_task "1" OPEN "3" None 50 ∈
                availableTasks (fun _ => 0%Z) true ByPoints (Some (pu_id user1)) (st_tasks demo)).
  { change (mk_task "1" OPEN "3" None 50 ∈ [mk_task "1" OPEN "3" None 50]). constructor. }
  split; [exact Hu|]. split; [exact Hin|].
  exact (feed_takeable (fun _ => 0%Z) true ByPoints user1 (st_tasks demo) _ Hu Hin).
Defined.

Lemma review_invisible_witness :
  t_status (mk_task "3" REVIEW "3" (Some "2") 75) = REVIEW ∧
  t_assignedTo (mk_task "3" REVIEW "3" (Some "2") 75) = Some (pu_id user1) ∧
  t_createdBy (mk_task "3" REVIEW "3" (Some "2") 75) ≠ pu_id user1 ∧
  (mk_task "3" REVIEW "3" (Some "2") 75 ∉
     availableTasks (fun _ => 0%Z) true ByPoints (Some (pu_id user1)) (st_tasks demo)) ∧
  (mk_task "3" REVIEW "3" (Some "2") 75 ∉ myCreatedTasks (Some (pu_id user1)) (st_tasks demo)) ∧
  (mk_task "3" REVIEW "3" (Some "2") 75 ∉ myInProgressTasks (Some (pu_id user1)) (st_tasks demo)).
Proof.
  assert (H1 : t_status (mk_task "3" REVIEW "3" (Some "2") 75) = REVIEW) by reflexivity.
  assert (H2 : t_assignedTo (mk_task "3" REVIEW "3" (Some "2") 75) = Some (pu_id user1))
    by reflexivity.
  assert (H3 : t_createdBy (mk_task "3" REVIEW "3" (Some "2") 75) ≠ pu_id user1) by done.
  split; [exact H1|]. split; [exact H2|]. split; [exact H3|].
  exact (review_invisible (fun _ => 0%Z) true ByPoints user1 (st_tasks demo) _ H1 H2 H3).
Defined.

End FeedExamples.
