(* ===== verification/Routes.v ===== *)
(** * Routes: navigation, the navigation bar, theme and chat panel

    [App.jsx] (src/src) maps the location to a screen: the public login and
    register forms, four pages behind [PrivateRoute] (lines 16-28), and two
    redirecting routes ("/" and every unknown path).  [Navbar.jsx] shows
    links and buttons by role; [ThemeContext.jsx] keeps the dark/light
    choice in [localStorage]; [ChatContext.jsx] holds whether the chat panel
    is open.  A location is given by its path segments (react-router splits
    the path at "/" and matches the segments of each route; the matching of
    letter case, which react-router ignores by default, is not modelled). *)

From S2P Require Import Prelude Model Client Cards.
Local Open Scope api_scope.

Module Routes.

(** The routes of [AppContent] (lines 49-89). *)
Inductive route :=
| RLogin | RRegister | RDashboard | RCreateTask | RProfile
| RChat (taskId : string) | RRoot | RNotFound.

(** Which route a location's segments match ([:taskId] is one non-empty
    segment). *)
Definition route_of (segs : list string) : route :=
  match segs with
  | [] => RRoot
  | [s] =>
      if bool_decide (s = "login") then RLogin
      else if bool_decide (s = "register") then RRegister
      else if bool_decide (s = "dashboard") then RDashboard
      else if bool_decide (s = "create-task") then RCreateTask
      else if bool_decide (s = "profile") then RProfile
      else RNotFound
  | [s; id] => if bool_decide (s = "chat" ∧ id ≠ "") then RChat id else RNotFound
  | _ => RNotFound
  end.

(** What is shown, or where [<Navigate>] sends. *)
Inductive screen :=
| SLoading | SLogin | SRegister | SRedirect (to : route)
| SAdminDashboard | SUserDashboard | SCreateTask | SProfile
| SChat (taskId : string) (t : option task).

(** [isAdmin()] of AuthContext.jsx (lines 85-87): [user?.role === 'ADMIN']. *)
Definition is_admin (user : option public_user) : bool :=
  match user with Some u => Cards.isAdmin u | None => false end.

(** [PrivateRoute] (lines 16-28). *)
Definition private_route (loading : bool) (user : option public_user) (s : screen) : screen :=
  if loading then SLoading
  else match user with None => SRedirect RLogin | Some _ => s end.

(** [ChatPage] (lines 30-41): the task of the route in the cached tasks. *)
Definition chat_page (tasks : list task) (taskId : string) : screen :=
  SChat taskId (option_map snd (list_find (fun t => t_id t = taskId) tasks)).

(** [AppContent] (lines 47-92). *)
Definition app_content (loading : bool) (user : option public_user) (tasks : list task)
    (r : route) : screen :=
  if loading then SLoading
  else match r with
       | RLogin => SLogin
       | RRegister => SRegister
       | RDashboard =>
           private_route loading user (if is_admin user then SAdminDashboard else SUserDashboard)
       | RCreateTask => private_route loading user SCreateTask
       | RProfile => private_route loading user SProfile
       | RChat id => private_route loading user (chat_page tasks id)
       | RRoot => SRedirect (match user with Some _ => RDashboard | None => RLogin end)
       | RNotFound => SRedirect RRoot
       end.

(** Following [<Navigate>] until a screen is shown, with at most [fuel]
    redirections. *)
Fixpoint resolve (fuel : nat) (loading : bool) (user : option public_user)
    (tasks : list task) (r : route) : option screen :=
  match fuel with
  | O => None
  | S f =>
      match app_content loading user tasks r with
      | SRedirect r' => resolve f loading user tasks r'
      | s => Some s
      end
  end.

Definition is_private (s : screen) : bool :=
  match s with
  | SAdminDashboard | SUserDashboard | SCreateTask | SProfile | SChat _ _ => true
  | _ => false
  end.

(** ** The error boundary (lines 97-134) *)

(** [this.state.error?.message || 'Неизвестная ошибка']: [None] is no
    error, [Some m] an error whose message is [m] ([None] when absent). *)
Definition error_text (err : option (option string)) : option string :=
  match err with
  | None => None
  | Some m => Some (if truthy_id m then default "" m else "Неизвестная ошибка")
  end.

(** ** ThemeContext.jsx *)

(** The initial state (lines 20-28): dark exactly when the stored value
    is ["dark"]. *)
Definition theme_init (saved : option string) : bool := bool_decide (saved = Some "dark").

(** The effect (lines 31-46): the value written back. *)
Definition theme_saved (isDark : bool) : string := if isDark then "dark" else "light".

(** [toggleTheme] (lines 48-50). *)
Definition toggleTheme (isDark : bool) : bool := negb isDark.

(** ** ChatContext.jsx: the panel is open at first (line 18). *)
Definition chat_open_init : bool := true.

(** ** Navbar.jsx *)

(** What the bar shows (lines 13-141): the feed link (and whether it is
    the current page), the create link, the chat toggle (and whether the
    panel is open), the theme toggle (and whether the theme is dark), the
    profile link, the name and balance, logout; or the login and register
    links for a visitor. *)
Record navbar := mkNavbar {
  nb_feed_link : option bool;
  nb_create_link : bool;
  nb_chat_toggle : option bool;
  nb_theme_toggle : option bool;
  nb_profile : option (string * option (option Z));
  nb_logout : bool;
  nb_visitor_links : bool
}.

Definition navbar_view (user : option public_user) (pathname : string) (isDark isOpen : bool)
    : navbar :=
  match user with
  | None => mkNavbar None false None None None false true
  | Some u =>
      let admin := Cards.isAdmin u in
      mkNavbar (if admin then None else Some (bool_decide (pathname = "/dashboard")))
        (negb admin) (if admin then None else Some isOpen) (Some isDark)
        (Some (pu_name u, if admin then None else Some (pu_points u))) true false
  end.

(** The chat button (lines 56-68): [setIsOpen(!isOpen)]. *)
Definition toggle_chat (isOpen : bool) : bool := negb isOpen.

(** The logout button (lines 116-120): the context's [logout], then the
    login page. *)
Definition navbar_logout : Ctx route := Client.logout ;;; ret RLogin.

(** ** Properties *)

(** The screens reached within [n] redirections are reached within more. *)
Lemma resolve_mono n m loading user tasks r s :
  (n <= m)%nat -> resolve n loading user tasks r = Some s -> resolve m loading user tasks r = Some s.
Proof.
  revert m r. induction n as [|n IH]; intros [|m] r Hle H; try done; [lia|].
  simpl in *. destruct (app_content _ _ _ r); try done. apply IH; [lia|done].
Qed.

(** C17: navigation always ends on a screen: from any location, after at
    most three redirections ("*" to "/", "/" to "/dashboard" or "/login",
    a private page to "/login"), a screen that is not a redirection is
    shown. *)
Theorem resolve_total loading user tasks r :
  ∃ s, resolve 3 loading user tasks r = Some s ∧ ∀ r', s ≠ SRedirect r'.
Proof.
  destruct loading, user as [u|], r; simpl; try destruct (Cards.isAdmin u);
    eexists; (split; [reflexivity|intros ? ?; discriminate]).
Qed.

(** C16: a private page (a dashboard, the creation form, the profile, a
    chat) is only ever shown to a signed-in user, once the session has been
    restored, whatever the location and however many redirections. *)
Theorem private_needs_user n loading user tasks r s :
  resolve n loading user tasks r = Some s -> is_private s = true ->
  loading = false ∧ ∃ u, user = Some u.
Proof.
  revert r. induction n as [|n IH]; intros r H Hp; [done|]. simpl in H.
  destruct loading; [by injection H as <-|]. split; [done|].
  destruct user as [u|]; [by eauto|].
  destruct r; simpl in H; try (by injection H as <-); by apply (IH _ H).
Qed.

(** A visitor lands on the login form from every location except the
    registration form. *)
Theorem visitor_lands_on_login tasks r :
  r ≠ RRegister -> resolve 3 false None tasks r = Some SLogin.
Proof. destruct r; done. Qed.

(** The navigation bar hides the creation form from an administrator, but
    its route does not check the role: typing the address shows it. *)
Theorem admin_reaches_create_form u pathname isDark isOpen tasks :
  Cards.isAdmin u = true ->
  nb_create_link (navbar_view (Some u) pathname isDark isOpen) = false ∧
  resolve 1 false (Some u) tasks RCreateTask = Some SCreateTask.
Proof. intros Ha. simpl. by rewrite Ha. Qed.

(** The stored theme is read back as it was written: a reload keeps the
    theme, and toggling twice changes nothing. *)
Theorem theme_roundtrip b :
  theme_init (Some (theme_saved b)) = b ∧ toggleTheme (toggleTheme b) = b.
Proof. destruct b; split; reflexivity. Qed.

End Routes.

(** * Concrete runs *)
Module RoutesExamples.
Import Routes ModelExamples.

Definition admin : public_user := strip_password (mk_user "1" "admin" ADMIN None).
Definition user1 : public_user := strip_password (mk_user "2" "user1" USER (Some 10%Z)).

Example chat_route : route_of ["chat"; "2"] = RChat "2".
Proof. reflexivity. Qed.

Example unknown_route_user :
  resolve 3 false (Some user1) (st_tasks demo) (route_of ["nowhere"]) = Some SUserDashboard.
Proof. reflexivity. Qed.

Example chat_page_run :
  resolve 1 false (Some user1) (st_tasks demo) (RChat "2")
  = Some (SChat "2" (Some (mk_task "2" IN_PROGRESS "3" (Some "2") 30))).
Proof. reflexivity. Qed.

Lemma private_needs_user_witness :
  resolve 3 false (Some admin) [] RRoot = Some SAdminDashboard ∧
  is_private SAdminDashboard = true ∧
  (false = false ∧ ∃ u, Some admin = Some u).
Proof.
  assert (H1 : resolve 3 false (Some admin) [] RRoot = Some SAdminDashboard) by reflexivity.
  assert (H2 : is_private SAdminDashboard = true) by reflexivity.
  split; [exact H1|]. split; [exact H2|].
  exact (private_needs_user 3 false (Some admin) [] RRoot SAdminDashboard H1 H2).
Defined.

Lemma visitor_lands_on_login_witness :
  RProfile ≠ RRegister ∧ resolve 3 false None [] RProfile = Some SLogin.
Proof.
  assert (H : RProfile ≠ RRegister) by discriminate.
  split; [exact H|]. exact (visitor_lands_on_login [] RProfile H).
Defined.

Lemma admin_reaches_create_form_witness :
  Cards.isAdmin admin = true ∧
  nb_create_link (navbar_view (Some admin) "/dashboard" false true) = false ∧
  resolve 1 false (Some admin) [] RCreateTask = Some SCreateTask.
Proof.
  assert (H : Cards.isAdmin admin = true) by reflexivity.
  split; [exact H|]. exact (admin_reaches_create_form admin "/dashboard" false true [] H).
Defined.

End RoutesExamples.
