(* ===== verification/Forms.v ===== *)
(** * Forms: sign-in, registration and profile pages

    [LoginForm.jsx], [Register.jsx] and [Profile.jsx] (src/src) hold the
    fields the user types and a submit handler that calls the AuthContext
    and shows the thrown error's message.  The profile page's handlers,
    whose save is answered while the page stays usable, are in
    [ProfilePage].  The [required] attributes of
    their inputs keep the browser from submitting an empty field; the
    format check of [type="email"] is not modelled. *)

From S2P Require Import Prelude Model Accounts Seed Client Routes.
Local Open Scope api_scope.

Module Forms.

(** ** The messages of the errors ([err.message]) *)

(** [throw new Error(...)] in mockApi.js lines 176, 188, 258, 265, 330. *)
Definition api_error_message (e : api_error) : string :=
  match e with
  | InvalidCredentials => "Неверный логин или пароль"
  | LoginTaken => "Пользователь с таким логином уже существует"
  | TaskNotFound => "Задание не найдено"
  | AlreadyClaimed => "Задание уже взято другим волонтером"
  | UserNotFound => "Пользователь не найден"
  end.

(** TaskContext.jsx lines 35, 47, 60 add the context's own error. *)
Definition ctx_error_message (e : ctx_error) : string :=
  match e with
  | ApiError e => api_error_message e
  | NotAuthorized => "Пользователь не авторизован"
  end.

(** [err.message || fallback] *)
Definition message_or (e : ctx_error) (fallback : string) : string :=
  let m := ctx_error_message e in if bool_decide (m = "") then fallback else m.

(** ** LoginForm.jsx *)

Record login_form := mkLoginForm {
  lf_login : string; lf_password : string; lf_error : string; lf_loading : bool
}.

(** Lines 6-9. *)
Definition login_form_init : login_form := mkLoginForm "" "" "" false.

(** The three quick sign-in buttons (lines 74-103). *)
Inductive quick := QuickAdmin | QuickUser1 | QuickUser2.

Definition quick_fill (q : quick) (f : login_form) : login_form :=
  match q with
  | QuickAdmin => mkLoginForm "admin" "admin" (lf_error f) (lf_loading f)
  | QuickUser1 => mkLoginForm "user1" "123" (lf_error f) (lf_loading f)
  | QuickUser2 => mkLoginForm "user2" "123" (lf_error f) (lf_loading f)
  end.

(** [handleSubmit] (lines 13-26): sign in and go to the dashboard, or show
    the fixed message; the loading flag is reset in [finally]. *)
Definition login_submit (f : login_form) : Ctx (login_form * option Routes.route) :=
  if bool_decide (lf_login f = "" ∨ lf_password f = "") then ret (f, None)
  else fun w =>
    match Client.login (lf_login f) (lf_password f) w with
    | Ok _ w' => Ok (mkLoginForm (lf_login f) (lf_password f) "" false, Some Routes.RDashboard) w'
    | Err _ w' =>
        Ok (mkLoginForm (lf_login f) (lf_password f) "Неверный логин или пароль" false, None) w'
    end.

(** ** Register.jsx *)

Record register_form := mkRegisterForm {
  rf_data : register_input; rf_error : string; rf_loading : bool
}.

(** [handleSubmit] (lines 24-37). *)
Definition register_submit (f : register_form) (now : Z) : Ctx (register_form * option Routes.route) :=
  let d := rf_data f in
  if bool_decide (reg_login d = "" ∨ reg_password d = "" ∨ reg_name d = "" ∨ reg_email d = "")
  then ret (f, None)
  else fun w =>
    match Client.register d now w with
    | Ok _ w' => Ok (mkRegisterForm d "" false, Some Routes.RDashboard) w'
    | Err e w' => Ok (mkRegisterForm d (message_or e "Ошибка регистрации") false, None) w'
    end.

(** ** Profile.jsx *)

Record profile_form := mkProfileForm {
  pf_name : string; pf_email : string; pf_phone : string; pf_contactInfo : string;
  pf_editing : bool; pf_error : string; pf_loading : bool
}.

(** The effect of lines 20-29: the fields from the user, [|| ''] for the
    missing ones. *)
Definition profile_fill (u : public_user) (f : profile_form) : profile_form :=
  mkProfileForm (pu_name u) (default "" (pu_email u)) (default "" (pu_phone u))
    (default "" (pu_contactInfo u)) (pf_editing f) (pf_error f) (pf_loading f).

(** [formData] as the patch sent to [updateUser]: the four fields only. *)
Definition profile_patch (f : profile_form) : user_patch :=
  mkPatch None None None (Some (pf_name f)) (Some (pf_email f)) (Some (pf_phone f))
    (Some (pf_contactInfo f)) None.

(** ** Facts *)

(** A default account is in the store after every page load, with its
    login and password. *)
Lemma seeded_default_in now s d :
  d ∈ Seed.defaultUsers ->
  ∃ u, u ∈ st_users (final_store (Seed.seedData now s)) ∧
       u_login u = Seed.du_login d ∧ u_password u = Seed.du_password d.
Proof.
  intros Hd. rewrite Seed.seedData_run.
  destruct (proj1 (list.Forall_forall _ _) (Seed.defaults_merged (st_users s)) d Hd)
    as (i & u & Hf & Hu).
  exists u. split; [by eapply list_find_in|]. by rewrite <- Hu.
Qed.

(** Submitting credentials the API accepts signs in and leaves the page. *)
Lemma login_submit_ok f w u :
  lf_login f ≠ "" -> lf_password f ≠ "" ->
  Accounts.login (lf_login f) (lf_password f) (w_store w) = Ok u (w_store w) ->
  ∃ w', login_submit f w = Ok (mkLoginForm (lf_login f) (lf_password f) "" false,
                                 Some Routes.RDashboard) w' ∧
        c_user (w_client w') = Some u.
Proof.
  intros Hl Hp Hok. unfold login_submit. rewrite bool_decide_false by tauto.
  unfold Client.login, Client.lift_api, Client.set_user, Client.set_currentUser.
  api_unfold. rewrite Hok. by eexists.
Qed.

(** Each quick button fills in a default account's login and password. *)
Lemma quick_creds q :
  ∃ d, d ∈ Seed.defaultUsers ∧ Seed.du_login d ≠ "" ∧ Seed.du_password d ≠ "" ∧
       quick_fill q login_form_init = mkLoginForm (Seed.du_login d) (Seed.du_password d) "" false.
Proof.
  unfold Seed.defaultUsers. destruct q;
    [exists (Seed.mkDefaultUser "1" "admin" "admin" ADMIN "Администратор" "admin@platform.ru" None)
    |exists (Seed.mkDefaultUser "2" "user1" "123" USER "Иван Петров" "user1@platform.ru" (Some 200%Z))
    |exists (Seed.mkDefaultUser "3" "user2" "123" USER "Мария Иванова" "user2@platform.ru" (Some 200%Z))];
    split_and!; try done; repeat (apply list_elem_of_here || apply list_elem_of_further).
Qed.

(** ** Properties *)

(** Each of the three quick sign-in buttons of the login form signs in
    after any page load, whatever the store held before: seeding always
    restores the default accounts' logins and passwords. *)
Theorem quick_login_works q now s c :
  ∃ f' w', login_submit (quick_fill q login_form_init)
             (mkWorld (final_store (Seed.seedData now s)) c) = Ok (f', Some Routes.RDashboard) w' ∧
           lf_error f' = "" ∧ ∃ u, c_user (w_client w') = Some u.
Proof.
  assert (Hd : ∀ d, d ∈ Seed.defaultUsers ->
    ∃ u, Accounts.login (Seed.du_login d) (Seed.du_password d) (final_store (Seed.seedData now s))
         = Ok u (final_store (Seed.seedData now s))).
  { intros d Hd. destruct (seeded_default_in now s d Hd) as (u & Hin & Hl & Hp).
    destruct (Accounts.login_matching (Seed.du_login d) (Seed.du_password d) _ u Hin)
      as (u' & _ & _ & Hok); [by split; [left|]|]. by eexists. }
  destruct (quick_creds q) as (d & Hin & Hl & Hp & ->). destruct (Hd d Hin) as [u Hok].
  destruct (login_submit_ok (mkLoginForm (Seed.du_login d) (Seed.du_password d) "" false)
              (mkWorld (final_store (Seed.seedData now s)) c) u Hl Hp Hok) as (w' & Hrun & Hu).
  eexists _, w'. split; [exact Hrun|]. split; [done|]. by eexists.
Qed.

(** Wrong credentials leave the session as it was and show the fixed
    message. *)
Theorem login_submit_rejected f w :
  lf_login f ≠ "" -> lf_password f ≠ "" ->
  (∀ u, u ∈ st_users (w_store w) -> ¬ Accounts.credentials_match (lf_login f) (lf_password f) u) ->
  login_submit f w =
  Ok (mkLoginForm (lf_login f) (lf_password f) "Неверный логин или пароль" false, None) w.
Proof.
  intros Hl Hp Hno. unfold login_submit. rewrite bool_decide_false by tauto.
  unfold Client.login, Client.lift_api. api_unfold. unfold Accounts.login. store_unfold.
  rewrite list_find_none_of; [by destruct w|].
  apply list.Forall_forall. intros u Hu. by apply Hno.
Qed.

End Forms.

(** * Concrete runs *)
Module FormsExamples.
Import Forms ModelExamples.

(** User 1's quick button on the example store: signed in as "2". *)
Example quick_user1_demo :
  option_map (fun p => (snd (fst p), option_map pu_id (c_user (w_client (snd p)))))
    (match login_submit (quick_fill QuickUser1 login_form_init)
             (mkWorld (final_store (Seed.seedData 0 demo)) (mkClient None None [])) with
     | Ok r w => Some (r, w) | Err _ _ => None end)
  = Some (Some Routes.RDashboard, Some "2").
Proof. reflexivity. Qed.

Lemma login_submit_rejected_witness :
  lf_login (mkLoginForm "nobody" "x" "" false) ≠ "" ∧
  lf_password (mkLoginForm "nobody" "x" "" false) ≠ "" ∧
  (∀ u, u ∈ st_users (w_store (mkWorld demo (mkClient None None []))) ->
        ¬ Accounts.credentials_match "nobody" "x" u) ∧
  login_submit (mkLoginForm "nobody" "x" "" false) (mkWorld demo (mkClient None None [])) =
  Ok (mkLoginForm "nobody" "x" "Неверный логин или пароль" false, None)
     (mkWorld demo (mkClient None None [])).
Proof.
  assert (H1 : lf_login (mkLoginForm "nobody" "x" "" false) ≠ "") by done.
  assert (H2 : lf_password (mkLoginForm "nobody" "x" "" false) ≠ "") by done.
  assert (H3 : ∀ u, u ∈ st_users (w_store (mkWorld demo (mkClient None None []))) ->
                    ¬ Accounts.credentials_match "nobody" "x" u).
  { intros u Hu. repeat (apply elem_of_cons in Hu as [->|Hu]; [unfold Accounts.credentials_match; simpl; intros [[?|?] ?]; discriminate|]).
    by apply list.not_elem_of_nil in Hu. }
  split; [exact H1|]. split; [exact H2|]. split; [exact H3|].
  exact (login_submit_rejected _ _ H1 H2 H3).
Defined.

End FormsExamples.
