(* ===== verification/Details.v ===== *)
(** * Details: the task details modal and the task creation form

    [TaskDetailsModal.jsx] loads the creator and the volunteer of a task
    from [getUsers] and shows their contacts only to those allowed to see
    them (lines 35-44).  [CreateTaskForm.jsx] (src/src) builds the object
    given to TaskContext's [createTask] from its fields; the points field
    goes through [parseInt], modelled here on strings of ASCII characters
    (white space, sign, the ["0x"] prefix, digits up to the first one that
    is not a digit of the radix). *)

From S2P Require Import Prelude Model Lifecycle Accounts Chat Client Feed Routes Forms.
From stdpp Require Import pretty.
From Stdlib Require Import Ascii QArith.
Local Open Scope api_scope.

Module Details.

(** ** TaskDetailsModal.jsx *)

(** The contacts shown for a person. *)
Record contacts := mkContacts {
  ct_name : string; ct_phone : option string; ct_contactInfo : option string;
  ct_email : option string
}.

(** What the modal shows besides the task's own fields. *)
Record details := mkDetails {
  dt_image : option string;
  dt_address : option string;
  dt_images : list string;
  dt_creator : option contacts;
  dt_volunteer : option contacts;
  dt_report : option (string * option string);
  dt_loading : bool
}.

(** [x && value]: the value when it is truthy. *)
Definition truthy_opt (o : option string) : option string := if truthy_id o then o else None.

(** The effect of lines 9-31: [users.find(u => u.id === id)] for the
    creator and, when there is one, the volunteer. *)
Definition find_public (id : string) (users : list public_user) : option public_user :=
  option_map snd (list_find (fun u => pu_id u = id) users).

Definition fetchUserInfo (t : task) : Api (option public_user * option public_user) :=
  users <- Accounts.getUsers ;;
  ret (if bool_decide (t_createdBy t ≠ "") then find_public (t_createdBy t) users else None,
       match t_assignedTo t with
       | Some a => if bool_decide (a ≠ "") then find_public a users else None
       | None => None
       end).

(** Lines 39 and 44. *)
Definition canSeeCreatorContacts (isAdmin : bool) (t : task) (uid : option string) : bool :=
  isAdmin || Feed.same_id (t_assignedTo t) uid || Feed.same_id (Some (t_createdBy t)) uid.

Definition canSeeVolunteerContacts (isAdmin : bool) (t : task) (uid : option string) : bool :=
  isAdmin || Feed.same_id (Some (t_createdBy t)) uid.

(** The modal (lines 33-248) for an open modal and a task. *)
Definition details_view (isAdmin : bool) (t : task) (user : option public_user)
    (creatorInfo volunteerInfo : option public_user) (loading : bool) : details :=
  let uid := option_map pu_id user in
  let c := t_content t in
  mkDetails (truthy_opt (c_imageUrl c)) (truthy_opt (c_address c))
    (default [] (c_images c))
    (match creatorInfo with
     | Some cr => if canSeeCreatorContacts isAdmin t uid
                  then Some (mkContacts (pu_name cr) (truthy_opt (c_phone c))
                               (truthy_opt (c_contactInfo c)) (truthy_opt (pu_email cr)))
                  else None
     | None => None
     end)
    (match volunteerInfo with
     | Some v => if canSeeVolunteerContacts isAdmin t uid && truthy_id (t_assignedTo t)
                 then Some (mkContacts (pu_name v) None None (truthy_opt (pu_email v)))
                 else None
     | None => None
     end)
    (option_map (fun r => (r_description r, truthy_opt (Some (r_imageUrl r)))) (t_report t))
    loading.

(** Opening the modal: the users are fetched, then the modal shows them. *)
Definition openDetails (isAdmin : bool) (t : task) (user : option public_user) : Api details :=
  infos <- fetchUserInfo t ;;
  ret (details_view isAdmin t user (fst infos) (snd infos) false).

(** ** [parseInt] *)

(** The value of a digit in bases up to 36. *)
Definition digit_value (c : Ascii.ascii) : option nat :=
  let n := Ascii.nat_of_ascii c in
  if bool_decide (48 <= n <= 57)%nat then Some (n - 48)%nat
  else if bool_decide (97 <= n <= 122)%nat then Some (n - 87)%nat
  else if bool_decide (65 <= n <= 90)%nat then Some (n - 55)%nat
  else None.

(** The longest prefix of digits of the radix, [None] if it is empty. *)
Fixpoint digits_prefix (radix : nat) (l : list Ascii.ascii) (acc : Z) (seen : bool) : option Z :=
  match l with
  | c :: l' =>
      match digit_value c with
      | Some d => if bool_decide (d < radix)%nat
                  then digits_prefix radix l' (acc * Z.of_nat radix + Z.of_nat d)%Z true
                  else if seen then Some acc else None
      | None => if seen then Some acc else None
      end
  | [] => if seen then Some acc else None
  end.

(** An optional sign. *)
Definition split_sign (l : list Ascii.ascii) : Z * list Ascii.ascii :=
  match l with
  | c :: r => if bool_decide (c = "-"%char) then ((-1)%Z, r)
              else if bool_decide (c = "+"%char) then (1%Z, r) else (1%Z, l)
  | [] => (1%Z, l)
  end.

(** The radix: 16 after ["0x"] or ["0X"], 10 otherwise. *)
Definition split_radix (l : list Ascii.ascii) : nat * list Ascii.ascii :=
  match l with
  | z :: x :: r => if bool_decide (z = "0"%char ∧ (x = "x"%char ∨ x = "X"%char))
                   then (16%nat, r) else (10%nat, l)
  | _ => (10%nat, l)
  end.

Definition parseInt (s : string) : option Z :=
  let sl := split_sign (Chat.drop_ws (String.list_ascii_of_string s)) in
  let rl := split_radix (snd sl) in
  option_map (Z.mul (fst sl)) (digits_prefix (fst rl) (snd rl) 0 false).

(** ** CreateTaskForm.jsx *)

Record create_form := mkCreateForm {
  cf_title : string; cf_description : string; cf_city : string; cf_phone : string;
  cf_contactInfo : string; cf_images : list string; cf_points : string;
  cf_location : option (Q * Q); cf_address : string; cf_error : string; cf_loading : bool
}.

(** The initial state (lines 9-19); the points field holds the number 50,
    which [parseInt] reads as the string ["50"]. *)
Definition create_form_init : create_form :=
  mkCreateForm "" "" "" "" "" [] "50" None "" "" false.

Definition default_image : string := "https://images.unsplash.com/photo-1556912172-45b7abe8b7e1?w=400".

(** The object of lines 36-48 (the creator is added by the context). *)
Definition create_payload (f : create_form) (loc : Q * Q) : task_input :=
  mkInput (cf_title f) (cf_description f) (cf_city f) (Some (cf_phone f)) (Some (cf_contactInfo f))
    (Some (if bool_decide (cf_address f = "") then cf_city f else cf_address f))
    (Some (match cf_images f with img :: _ => img | [] => default_image end))
    (Some (cf_images f)) (parseInt (cf_points f)) (Some (fst loc)) (Some (snd loc)) "".

(** [handleSubmit] (lines 24-55): no location is an error of the form;
    otherwise the context's [createTask], then the dashboard. *)
Definition create_submit (f : create_form) (now : Z) : Ctx (create_form * option Routes.route) :=
  match cf_location f with
  | None => ret (mkCreateForm (cf_title f) (cf_description f) (cf_city f) (cf_phone f)
                   (cf_contactInfo f) (cf_images f) (cf_points f) None (cf_address f)
                   "Пожалуйста, выберите местоположение задания" false, None)
  | Some loc =>
      fun w =>
        match Client.createTask (create_payload f loc) now w with
        | Ok _ w' => Ok (mkCreateForm (cf_title f) (cf_description f) (cf_city f) (cf_phone f)
                           (cf_contactInfo f) (cf_images f) (cf_points f) (Some loc)
                           (cf_address f) "" false, Some Routes.RDashboard) w'
        | Err e w' => Ok (mkCreateForm (cf_title f) (cf_description f) (cf_city f) (cf_phone f)
                            (cf_contactInfo f) (cf_images f) (cf_points f) (Some loc)
                            (cf_address f) (Forms.message_or e "Ошибка создания задания") false,
                          None) w'
        end
  end.

(** ** Facts about decimal numbers *)

(** A character that [String] prints for a decimal digit. *)
Definition is_dec_digit (c : Ascii.ascii) : Prop := ∃ d, (d < 10)%N ∧ c = pretty_N_char d.

Lemma dec_digit_cases d : (d < 10)%N ->
  d = 0%N ∨ d = 1%N ∨ d = 2%N ∨ d = 3%N ∨ d = 4%N ∨ d = 5%N ∨ d = 6%N ∨ d = 7%N ∨ d = 8%N ∨ d = 9%N.
Proof. lia. Qed.

(** A printed digit is a digit of value [d], and not white space, a sign
    or the letter of the hexadecimal prefix. *)
Lemma dec_digit_facts d : (d < 10)%N ->
  digit_value (pretty_N_char d) = Some (N.to_nat d) ∧ Chat.is_ws (pretty_N_char d) = false ∧
  pretty_N_char d ≠ "-"%char ∧ pretty_N_char d ≠ "+"%char ∧
  pretty_N_char d ≠ "x"%char ∧ pretty_N_char d ≠ "X"%char.
Proof.
  intros Hd. destruct (dec_digit_cases d Hd) as [->|[->|[->|[->|[->|[->|[->|[->|[->| ->]]]]]]]]];
    vm_compute; split_and!; congruence.
Qed.

Lemma list_ascii_String c s :
  String.list_ascii_of_string (String c s) = c :: String.list_ascii_of_string s.
Proof. done. Qed.

Lemma mod10_digit x : (x `mod` 10 < 10)%N.
Proof. apply N.mod_lt. lia. Qed.

(** Printing a number before [s] only adds digits. *)
Lemma pretty_go_digits x s :
  Forall is_dec_digit (String.list_ascii_of_string s) ->
  Forall is_dec_digit (String.list_ascii_of_string (pretty_N_go x s)).
Proof.
  revert s. induction (N.lt_wf_0 x) as [x _ IH]; intros s Hs.
  destruct (decide (x = 0%N)) as [->|Hx]; [by rewrite pretty_N_go_0|].
  rewrite pretty_N_go_step by lia. apply IH; [apply N.div_lt; lia|].
  rewrite list_ascii_String. constructor; [|done]. exists (x `mod` 10)%N. split; [apply mod10_digit|done].
Qed.

(** A positive number prints as at least one character. *)
Lemma pretty_go_cons x s : (0 < x)%N ->
  ∃ c rest, String.list_ascii_of_string (pretty_N_go x s) = c :: rest.
Proof.
  revert s. induction (N.lt_wf_0 x) as [x _ IH]; intros s Hx.
  rewrite pretty_N_go_step by done.
  destruct (decide (x `div` 10 = 0)%N) as [->|Hq]; [rewrite pretty_N_go_0; by eexists _, _|].
  apply IH; [apply N.div_lt; lia|by apply N.neq_0_lt_0].
Qed.

(** Reading the printed digits of [x] after [acc] gives [acc] shifted by
    their number, plus [x]. *)
Lemma pretty_go_read x s acc b : (0 < x)%N ->
  ∃ k, digits_prefix 10 (String.list_ascii_of_string (pretty_N_go x s)) acc b =
       digits_prefix 10 (String.list_ascii_of_string s) (acc * 10 ^ Z.of_nat k + Z.of_N x)%Z true.
Proof.
  revert s acc b. induction (N.lt_wf_0 x) as [x _ IH]; intros s acc b Hx.
  rewrite pretty_N_go_step by done.
  destruct (dec_digit_facts _ (mod10_digit x)) as [Hv _].
  assert (Hx' : Z.of_N x = (10 * Z.of_N (x `div` 10) + Z.of_N (x `mod` 10))%Z).
  { rewrite (N.div_mod x 10) at 1 by lia. lia. }
  destruct (decide (x `div` 10 = 0)%N) as [Hq|Hq].
  - rewrite Hq, pretty_N_go_0, list_ascii_String. cbn [digits_prefix]. rewrite Hv.
    rewrite bool_decide_true by (pose proof (mod10_digit x); lia).
    exists 1%nat. f_equal. rewrite Hx', Hq, N_nat_Z. change (Z.of_nat 10) with 10%Z. simpl. lia.
  - destruct (IH (x `div` 10)%N (N.div_lt x 10 Hx eq_refl)
                 (String (pretty_N_char (x `mod` 10)) s) acc b) as [k Hk]; [by apply N.neq_0_lt_0|].
    rewrite Hk, list_ascii_String. cbn [digits_prefix]. rewrite Hv.
    rewrite bool_decide_true by (pose proof (mod10_digit x); lia).
    exists (S k). f_equal. rewrite Hx', N_nat_Z, (Nat2Z.inj_succ k), Z.pow_succ_r by lia.
    change (Z.of_nat 10) with 10%Z. ring.
Qed.

(** The digits of a positive number, with no sign, are read back. *)
Lemma read_pretty_go x : (0 < x)%N ->
  let l := String.list_ascii_of_string (pretty_N_go x "") in
  split_radix l = (10%nat, l) ∧ digits_prefix 10 l 0 false = Some (Z.of_N x) ∧
  ∃ c rest, l = c :: rest ∧ is_dec_digit c.
Proof.
  intros Hx l. pose proof (pretty_go_digits x "" (Forall_nil_2 _)) as Hd. fold l in Hd.
  destruct (pretty_go_cons x "" Hx) as (c & rest & Hl). fold l in Hl.
  destruct (pretty_go_read x "" 0 false Hx) as [k Hk]. fold l in Hk.
  rewrite Hl in Hd |- *. inversion Hd as [|? ? Hc Hrest]; subst.
  split_and!; [|by rewrite <- Hl, Hk|by eexists _, _].
  destruct rest as [|c2 r]; [done|]. simpl.
  inversion Hrest as [|? ? (d2 & Hd2 & ->) _]; subst.
  destruct (dec_digit_facts d2 Hd2) as (_ & _ & _ & _ & Hnx & HnX).
  rewrite bool_decide_false by tauto. done.
Qed.

(** ** Properties *)

(** [parseInt] reads back every integer that [String] prints: the
    number a points field holds (the initial 50 included) is the number
    sent. *)
Theorem parseInt_pretty n : parseInt (pretty n) = Some n.
Proof.
  destruct n as [|p|p]; [reflexivity| |].
  - cbv [pretty pretty_Z pretty_positive pretty_N]. rewrite decide_False by done.
    destruct (read_pretty_go (Npos p) ltac:(lia)) as (Hr & Hdig & c & rest & Hl & d & Hd & ->).
    destruct (dec_digit_facts d Hd) as (_ & Hws & Hm & Hp & _).
    unfold parseInt. rewrite Hl. cbn [Chat.drop_ws]. rewrite Hws. unfold split_sign.
    rewrite !bool_decide_false by done. cbn [fst snd]. rewrite <- Hl, Hr. cbn [fst snd].
    rewrite Hdig. done.
  - cbv [pretty pretty_Z pretty_positive pretty_N]. rewrite decide_False by done.
    destruct (read_pretty_go (Npos p) ltac:(lia)) as (Hr & Hdig & _).
    unfold parseInt.
    change ("-" +:+ pretty_N_go (N.pos p) "") with (String "-" (pretty_N_go (N.pos p) "")).
    rewrite list_ascii_String. cbn [Chat.drop_ws].
    replace (Chat.is_ws "-"%char) with false by reflexivity. unfold split_sign.
    rewrite bool_decide_true by done. cbn [fst snd]. rewrite Hr. cbn [fst snd].
    rewrite Hdig. done.
Qed.

(** C18: The contacts of a task's creator are shown only to an administrator,
    to the task's volunteer and to the creator, and the volunteer's only to
    an administrator and the creator. *)
Theorem contacts_private isAdmin t user cr vi loading :
  let v := details_view isAdmin t user cr vi loading in
  (is_Some (dt_creator v) ->
   isAdmin = true ∨ ∃ u, user = Some u ∧ (t_assignedTo t = Some (pu_id u) ∨ t_createdBy t = pu_id u)) ∧
  (is_Some (dt_volunteer v) -> isAdmin = true ∨ ∃ u, user = Some u ∧ t_createdBy t = pu_id u).
Proof.
  simpl. unfold canSeeCreatorContacts, canSeeVolunteerContacts, Feed.same_id.
  destruct isAdmin; [split; intros; by left|]. split.
  - destruct cr; [|by intros []]. destruct user as [u|]; simpl;
      [|destruct (t_assignedTo t); by intros []].
    destruct (t_assignedTo t) as [a|]; repeat case_bool_decide; subst; try (by intros []);
      intros _; right; eauto.
  - destruct vi; [|by intros []]. destruct user as [u|]; simpl; [|by intros []].
    case_bool_decide; [|by intros []]. intros _. right. eauto.
Qed.

End Details.

(** * Concrete runs *)
Module DetailsExamples.
Import Details ModelExamples.

Example parseInt_runs :
  parseInt "  -12abc" = Some (-12)%Z ∧ parseInt "0x1A" = Some 26%Z ∧ parseInt "" = None ∧
  parseInt "+7" = Some 7%Z ∧ parseInt "0x" = None.
Proof. vm_compute. repeat split. Qed.

(** The number input accepts ["1e3"] (a thousand, above its minimum of 1),
    but [parseInt] stops at the ["e"]: the task is posted for 1 point. *)
Example parseInt_exponent : parseInt "1e3" = Some 1%Z.
Proof. reflexivity. Qed.

(** The untouched form sends 50 points. *)
Example default_points :
  in_points (create_payload create_form_init (0, 0)%Q) = Some 50%Z.
Proof. reflexivity. Qed.

(** Without a location the form reports it and calls nothing. *)
Example create_without_location w :
  create_submit create_form_init 0 w =
  Ok (mkCreateForm "" "" "" "" "" [] "50" None ""
        "Пожалуйста, выберите местоположение задания" false, None) w.
Proof. reflexivity. Qed.

(** Task "2" of the example store opened by its volunteer: the creator's
    contacts are shown, the volunteer's own are not. *)
Example volunteer_sees_creator :
  match openDetails false (mk_task "2" IN_PROGRESS "3" (Some "2") 30)
          (Some (strip_password (mk_user "2" "user1" USER (Some 10%Z)))) demo with
  | Ok d _ => (option_map ct_name (dt_creator d), option_map ct_name (dt_volunteer d))
  | Err _ _ => (None, None)
  end = (Some "user2", None).
Proof. reflexivity. Qed.

End DetailsExamples.
