(* ===== verification/PointsField.v ===== *)
(** * PointsField: the points input of CreateTaskForm.jsx and what it lets through

    [<input type="number" min="1" max={user?.points || 1000} required>]
    (CreateTaskForm.jsx, lines 173-181).  The browser keeps the text of a
    number input only when it is a valid floating-point number (HTML's
    grammar; any other text makes the value the empty string), and it
    blocks the submission of the form when the value is missing, below
    [min], above [max], or not a whole number of steps above [min] (the
    default step is 1).  [handleSubmit] then sends [parseInt] of the text
    (line 45, [Details.parseInt]).  The theorems connect the browser's check
    to the ledger: [parseInt] of an accepted text is its integer part, or
    [NaN] when the text starts with ["."], so every submission through the
    form's own checks makes a call [Ledger.safe_call] allows and keeps the
    non-negative ledger (the Enter key of MapPicker's address field skips
    those checks: FormSession.v). *)

From S2P Require Import Prelude Model Lifecycle Accounts Chat Ledger Client Details.
From Stdlib Require Import Ascii QArith.
Local Open Scope api_scope.

Module PointsField.

Definition is_digit (c : ascii) : bool := bool_decide (48 <= nat_of_ascii c <= 57)%nat.

(** The longest prefix of ASCII digits, and the rest. *)
Fixpoint span_digits (l : list ascii) : list ascii * list ascii :=
  match l with
  | c :: r => if is_digit c then let p := span_digits r in (c :: p.1, p.2) else ([], l)
  | [] => ([], [])
  end.

(** A valid floating-point number: an optional ["-"], digits, an optional
    fraction (["."] and at least one digit; digits or a fraction must be
    there), an optional exponent (["e"] or ["E"], an optional sign, at
    least one digit).  An absent exponent is the empty list of digits. *)
Record float_lit := mkFloat {
  fl_neg : bool; fl_int : list ascii; fl_frac : list ascii; fl_eneg : bool; fl_exp : list ascii
}.

Definition parse_exp (l : list ascii) : option (bool * list ascii) :=
  match l with
  | [] => Some (false, [])
  | e :: r =>
      if bool_decide (e = "e"%char ∨ e = "E"%char) then
        let sr := match r with
                  | c :: r' => if bool_decide (c = "-"%char) then (true, r')
                               else if bool_decide (c = "+"%char) then (false, r') else (false, r)
                  | [] => (false, r)
                  end in
        let p := span_digits sr.2 in
        if bool_decide (p.1 ≠ [] ∧ p.2 = []) then Some (sr.1, p.1) else None
      else None
  end.

(** The fraction after the integer digits: the digits after ["."] (at
    least one) and the rest, or nothing. *)
Definition parse_frac (l : list ascii) : option (list ascii * list ascii) :=
  match l with
  | c :: r =>
      if bool_decide (c = "."%char) then
        let q := span_digits r in if bool_decide (q.1 ≠ []) then Some q else None
      else Some ([], l)
  | [] => Some ([], [])
  end.

(** The optional ["-"] in front. *)
Definition split_minus (l : list ascii) : bool * list ascii :=
  match l with
  | c :: r => if bool_decide (c = "-"%char) then (true, r) else (false, l)
  | [] => (false, l)
  end.

Definition parse_float (s : string) : option float_lit :=
  let sl := split_minus (String.list_ascii_of_string s) in
  let p := span_digits sl.2 in
  match parse_frac p.2 with
  | Some (frac, rest) =>
      if bool_decide (p.1 ≠ [] ∨ frac ≠ []) then
        match parse_exp rest with
        | Some (en, ex) => Some (mkFloat sl.1 p.1 frac en ex)
        | None => None
        end
      else None
  | None => None
  end.

(** The number a list of decimal digits denotes. *)
Definition digits_Z (l : list ascii) : Z :=
  fold_left (fun acc c => acc * 10 + (Z.of_nat (nat_of_ascii c) - 48))%Z l 0%Z.

(** The value of a valid floating-point number, exactly. *)
Definition float_value (f : float_lit) : Q :=
  let m := digits_Z (fl_int f ++ fl_frac f) in
  let e := ((if fl_eneg f then - digits_Z (fl_exp f) else digits_Z (fl_exp f))
            - Z.of_nat (length (fl_frac f)))%Z in
  let v := if bool_decide (0 <= e)%Z then inject_Z (m * 10 ^ e) else (m # Z.to_pos (10 ^ (- e))) in
  if fl_neg f then - v else v.

(** [max={user?.points || 1000}] *)
Definition points_max (u : option public_user) : Z :=
  match u with
  | Some u => if truthy_num (pu_points u) then or_zero (pu_points u) else 1000
  | None => 1000
  end.

Definition is_integral (q : Q) : bool := bool_decide (Qden (Qred q) = 1%positive).

(** The browser's constraint validation of the field: a value (the text is
    a valid floating-point number), no underflow of [min="1"], no overflow
    of [max], no step mismatch (step 1 from the base [min]). *)
Definition points_accepted (s : string) (maxv : Z) : bool :=
  match parse_float s with
  | Some f =>
      let v := float_value f in
      Qle_bool 1 v && Qle_bool v (inject_Z maxv) && is_integral (v - 1)
  | None => false
  end.

(** ** The grammar and [parseInt] *)

Lemma is_digit_facts c : is_digit c = true ->
  Details.digit_value c = Some (nat_of_ascii c - 48)%nat ∧ (nat_of_ascii c - 48 < 10)%nat ∧
  (48 <= nat_of_ascii c)%nat ∧ Chat.is_ws c = false ∧
  c ≠ "-"%char ∧ c ≠ "+"%char ∧ c ≠ "x"%char ∧ c ≠ "X"%char.
Proof.
  unfold is_digit, Details.digit_value, Chat.is_ws. intros H%bool_decide_eq_true_1.
  rewrite bool_decide_true by done. rewrite bool_decide_false by lia.
  split_and!; try done; try lia; try (intros ->; vm_compute in H; lia).
Qed.

Lemma span_digits_spec l :
  l = (span_digits l).1 ++ (span_digits l).2 ∧ Forall (λ c, is_digit c = true) (span_digits l).1.
Proof.
  induction l as [|c l IH]; simpl; [done|].
  destruct (is_digit c) eqn:Hc; simpl; [|done].
  destruct IH as [H1 H2]. split; [by f_equal|by constructor].
Qed.

Lemma split_minus_false l :
  (split_minus l).1 = false -> (split_minus l).2 = l ∧ ∀ c r, l = c :: r -> c ≠ "-"%char.
Proof.
  destruct l as [|c r]; simpl; [done|]. case_bool_decide; simpl; [done|].
  intros _. split; [done|]. by intros ? ? [= -> ->].
Qed.

Lemma parse_frac_shape l frac rest :
  parse_frac l = Some (frac, rest) ->
  (frac = [] ∧ rest = l) ∨ (∃ c r, l = "."%char :: c :: r ∧ is_digit c = true ∧ frac ≠ []).
Proof.
  destruct l as [|c r]; simpl; [intros [= <- <-]; by left|].
  case_bool_decide as Hc; [|intros [= <- <-]; by left].
  pose proof (span_digits_spec r) as [Hr Hd].
  case_bool_decide as Hne; [|done]. intros [= Hq]. right. subst c.
  destruct (span_digits r) as [[|d ds] r'] eqn:Hs; simpl in *; [done|].
  injection Hq as <- <-. subst r. inversion Hd. by exists d, (ds ++ r').
Qed.

Lemma parse_exp_head l en ex :
  parse_exp l = Some (en, ex) -> ∀ c r, l = c :: r -> c = "e"%char ∨ c = "E"%char.
Proof.
  destruct l as [|e r]; simpl; [done|]. case_bool_decide; [|done]. by intros _ ? ? [= -> ->].
Qed.

(** What a parsed number without ["-"] is made of: its integer digits,
    then nothing, a fraction or an exponent; no integer digits only before
    a fraction. *)
Lemma parse_float_pos s f :
  parse_float s = Some f -> fl_neg f = false ->
  ∃ r, String.list_ascii_of_string s = fl_int f ++ r ∧
       Forall (λ c, is_digit c = true) (fl_int f) ∧
       (fl_int f ≠ [] ∨ ∃ c r', r = "."%char :: c :: r' ∧ is_digit c = true) ∧
       ∀ c r', r = c :: r' -> c = "."%char ∨ c = "e"%char ∨ c = "E"%char.
Proof.
  unfold parse_float. intros Hp Hneg.
  destruct (split_minus _) as [neg l1] eqn:Hs. simpl in Hp.
  destruct (span_digits l1) as [ip rest1] eqn:Hsp. simpl in Hp.
  destruct (parse_frac rest1) as [[frac rest]|] eqn:Hf; [|done].
  case_bool_decide as Hne; [|done].
  destruct (parse_exp rest) as [[en ex]|] eqn:He; [|done].
  injection Hp as <-. simpl in *. subst neg.
  pose proof (split_minus_false (String.list_ascii_of_string s)) as Hm. rewrite Hs in Hm.
  destruct Hm as [Hl _]; [done|]. simpl in Hl. subst l1.
  pose proof (span_digits_spec (String.list_ascii_of_string s)) as [Hl Hd].
  rewrite Hsp in Hl, Hd. simpl in *. exists rest1. split_and!; [done|done| |].
  - destruct (parse_frac_shape _ _ _ Hf) as [[-> ->]|(c & r & -> & Hc & _)];
      [destruct Hne as [Hne|Hne]; [by left|done]|].
    destruct ip; [right; eauto|by left].
  - intros c r' ->. destruct (parse_frac_shape _ _ _ Hf) as [[-> ->]|(c' & r & [= -> _] & _)];
      [|by left]. right. by eapply parse_exp_head.
Qed.

Lemma split_sign_keep c l :
  c ≠ "-"%char -> c ≠ "+"%char -> Details.split_sign (c :: l) = (1%Z, c :: l).
Proof. intros H1 H2. simpl. by rewrite !bool_decide_false. Qed.

Lemma split_radix_10 l :
  (∀ z x r, l = z :: x :: r -> x ≠ "x"%char ∧ x ≠ "X"%char) -> Details.split_radix l = (10%nat, l).
Proof.
  destruct l as [|z [|x r]]; simpl; try done. intros H. destruct (H z x r eq_refl) as [H1 H2].
  rewrite bool_decide_false; [done|]. by intros [_ [->| ->]].
Qed.

(** The characters that may follow the integer digits stop [parseInt]. *)
Lemma stop_chars c : c = "."%char ∨ c = "e"%char ∨ c = "E"%char ->
  Details.digit_value c = None ∨ ∃ k, Details.digit_value c = Some k ∧ (10 <= k)%nat.
Proof. intros [->|[->| ->]]; vm_compute; eauto with lia. Qed.

Lemma digits_prefix_digits d r acc seen :
  Forall (λ c, is_digit c = true) d ->
  (∀ c r', r = c :: r' ->
     Details.digit_value c = None ∨ ∃ k, Details.digit_value c = Some k ∧ (10 <= k)%nat) ->
  Details.digits_prefix 10 (d ++ r) acc seen =
    if seen || bool_decide (d ≠ []) then
      Some (fold_left (fun a c => a * 10 + (Z.of_nat (nat_of_ascii c) - 48)) d acc)%Z
    else None.
Proof.
  intros Hd Hr. revert acc seen. induction Hd as [|c d Hc Hd IH]; intros acc seen; simpl.
  - destruct r as [|c r']; simpl; [by destruct seen|].
    destruct (Hr c r' eq_refl) as [->|(k & -> & Hk)]; [by destruct seen|].
    rewrite bool_decide_false by lia. by destruct seen.
  - destruct (is_digit_facts c Hc) as (-> & Hlt & Hge & _).
    rewrite bool_decide_true by lia. rewrite IH. simpl.
    rewrite orb_true_r. do 2 f_equal. lia.
Qed.

(** [parseInt] of a number without ["-"]: the value of its integer
    digits, or [NaN] when there are none. *)
Lemma parseInt_float s f :
  parse_float s = Some f -> fl_neg f = false ->
  Details.parseInt s = if bool_decide (fl_int f = []) then None else Some (digits_Z (fl_int f)).
Proof.
  intros Hp Hn. destruct (parse_float_pos s f Hp Hn) as (r & Hl & Hd & Hfirst & Hr).
  unfold Details.parseInt, digits_Z. rewrite Hl.
  destruct (fl_int f) as [|c ip] eqn:Hi.
  - destruct Hfirst as [|(c & r' & -> & _)]; [done|].
    by simpl.
  - inversion Hd as [|? ? Hc Hip]; subst.
    destruct (is_digit_facts c Hc) as (_ & _ & _ & Hws & Hm & Hp' & _).
    rewrite <-app_comm_cons. cbn [Chat.drop_ws]. rewrite Hws, split_sign_keep by done.
    cbn [fst snd]. rewrite split_radix_10.
    2:{ intros z x r0 [= <- Hx]. destruct ip as [|d ip']; simpl in Hx.
        - subst r. by destruct (Hr x r0 eq_refl) as [->|[->| ->]].
        - injection Hx as <- _. inversion Hip as [|? ? Hd' _]; subst.
          by destruct (is_digit_facts d Hd') as (_ & _ & _ & _ & _ & _ & ? & ?). }
    cbn [fst snd]. change (c :: ip ++ r) with ((c :: ip) ++ r). rewrite (digits_prefix_digits (c :: ip) r 0 false Hd).
    2:{ intros c' r' ->. apply stop_chars. by eapply Hr. }
    rewrite (bool_decide_true (c :: ip ≠ [])), (bool_decide_false (c :: ip = [])) by done.
    simpl. by rewrite Z.mul_1_l.
Qed.

(** ** The sign of an accepted value *)

Lemma digits_fold_nonneg l acc :
  Forall (λ c, is_digit c = true) l -> (0 <= acc)%Z ->
  (0 <= fold_left (fun a c => a * 10 + (Z.of_nat (nat_of_ascii c) - 48)) l acc)%Z.
Proof.
  intros Hl. revert acc. induction Hl as [|c l Hc _ IH]; intros acc Hacc; simpl; [done|].
  apply IH. destruct (is_digit_facts c Hc) as (_ & _ & Hge & _). lia.
Qed.

Lemma digits_Z_nonneg l : Forall (λ c, is_digit c = true) l -> (0 <= digits_Z l)%Z.
Proof. intros Hl. by apply digits_fold_nonneg. Qed.

Lemma parse_frac_digits l frac rest :
  parse_frac l = Some (frac, rest) -> Forall (λ c, is_digit c = true) frac.
Proof.
  destruct l as [|c r]; simpl; [by intros [= <- _]|].
  case_bool_decide; [|by intros [= <- _]]. case_bool_decide; [|done].
  intros [= Hq]. pose proof (span_digits_spec r) as [_ Hd]. by rewrite Hq in Hd.
Qed.

Lemma parse_float_digits s f :
  parse_float s = Some f -> Forall (λ c, is_digit c = true) (fl_int f ++ fl_frac f).
Proof.
  unfold parse_float. intros Hp.
  destruct (split_minus _) as [neg l1]. simpl in Hp.
  pose proof (span_digits_spec l1) as [_ Hd].
  destruct (span_digits l1) as [ip rest1]. simpl in *.
  destruct (parse_frac rest1) as [[frac rest]|] eqn:Hf; [|done].
  case_bool_decide; [|done]. destruct (parse_exp rest) as [[en ex]|]; [|done].
  injection Hp as <-. simpl. apply Forall_app. split; [done|]. by eapply parse_frac_digits.
Qed.

(** A number written with ["-"] is at most 0. *)
Lemma float_value_neg f :
  Forall (λ c, is_digit c = true) (fl_int f ++ fl_frac f) -> fl_neg f = true -> float_value f <= 0.
Proof.
  intros Hd Hn. unfold float_value. rewrite Hn. pose proof (digits_Z_nonneg _ Hd) as Hm.
  case_bool_decide as He.
  - match goal with |- context [(?m * 10 ^ ?e)%Z] =>
      assert (0 <= m * 10 ^ e)%Z by (apply Z.mul_nonneg_nonneg; [done|by apply Z.pow_nonneg]) end.
    unfold Qopp, inject_Z, Qle. simpl. lia.
  - unfold Qopp, Qle. simpl. lia.
Qed.

(** What the browser accepts is a parsed number without ["-"]. *)
Lemma accepted_parse s maxv :
  points_accepted s maxv = true ->
  ∃ f, parse_float s = Some f ∧ fl_neg f = false ∧
       Details.parseInt s = (if bool_decide (fl_int f = []) then None
                             else Some (digits_Z (fl_int f))) ∧
       (0 <= digits_Z (fl_int f))%Z.
Proof.
  unfold points_accepted. destruct (parse_float s) as [f|] eqn:Hp; [|done].
  intros [[H1 _]%andb_prop _]%andb_prop. apply Qle_bool_iff in H1.
  pose proof (parse_float_digits s f Hp) as Hd.
  destruct (fl_neg f) eqn:Hn.
  - pose proof (float_value_neg f Hd Hn) as H0.
    assert (Hc : 1 <= 0) by (eapply Qle_trans; eauto). done.
  - exists f. split_and!; [done|done|by apply parseInt_float|].
    apply digits_Z_nonneg. by apply Forall_app in Hd as [? _].
Qed.

(** A points text the browser lets through has no ["-"], and
    [parseInt] reads its integer digits: a non-negative integer, or [NaN]
    when the text starts with ["."] (".5e1", whose value 5 passes every
    check). *)
Theorem accepted_points_parse s maxv :
  points_accepted s maxv = true ->
  ∃ f, parse_float s = Some f ∧ fl_neg f = false ∧
       Details.parseInt s = (if bool_decide (fl_int f = []) then None
                             else Some (digits_Z (fl_int f))) ∧
       (0 <= digits_Z (fl_int f))%Z.
Proof. apply accepted_parse. Qed.

(** ** The creation form and the ledger *)

Lemma accepted_points_nonneg s maxv :
  points_accepted s maxv = true -> (0 <= or_zero (Details.parseInt s))%Z.
Proof.
  intros Ha. destruct (accepted_parse s maxv Ha) as (f & _ & _ & -> & Hn).
  by case_bool_decide.
Qed.

(** The store after the context's [createTask]: unchanged when nobody is
    signed in, else the API's [createTask] for the signed-in creator. *)
Lemma createTask_store d now w :
  w_store (final_store (Client.createTask d now w)) = w_store w ∨
  ∃ uid, w_store (final_store (Client.createTask d now w)) =
         final_store (Lifecycle.createTask (Client.with_creator d uid) now (w_store w)).
Proof.
  destruct w as [s cl]. unfold Client.createTask. Client.ctx_unfold.
  destruct (c_user cl) as [u|]; [|by left]. case_bool_decide; [|by left]. simpl.
  rewrite Lifecycle.createTask_run. simpl.
  match goal with |- context [Client.refreshUser ?w'] =>
    destruct (Client.refreshUser_keeps w') as (c & -> & _) end.
  right. exists (pu_id u). by rewrite Lifecycle.createTask_run.
Qed.

(** A submission of the creation form whose points field the browser
    accepts is a step of [Ledger.api_step], or changes no store. *)
Lemma create_submit_api_step f now w maxv :
  points_accepted (Details.cf_points f) maxv = true ->
  w_store (final_store (Details.create_submit f now w)) = w_store w ∨
  api_step (w_store w) (w_store (final_store (Details.create_submit f now w))).
Proof.
  intros Ha. unfold Details.create_submit. destruct (Details.cf_location f) as [loc|]; [|by left].
  destruct (createTask_store (Details.create_payload f loc) now w) as [Hs|[uid Hs]];
    destruct (Client.createTask (Details.create_payload f loc) now w) as [t w'|e w'];
    simpl in *; try by left.
  all: right; rewrite Hs;
    apply (api_step_call (CallCreateTask (Client.with_creator (Details.create_payload f loc) uid) now));
    simpl; by apply (accepted_points_nonneg _ maxv).
Qed.

(** Every submission of the creation form whose points field the
    browser lets through keeps the non-negative ledger: such a submission
    makes only calls [Ledger.safe_call] allows, whatever the points text
    and the signed-in user. *)
Theorem create_form_keeps_ledger f now w maxv :
  points_accepted (Details.cf_points f) maxv = true -> ledger_ok (w_store w) ->
  ledger_ok (w_store (final_store (Details.create_submit f now w))).
Proof.
  intros Ha Hok. destruct (create_submit_api_step f now w maxv Ha) as [->|Hs]; [done|].
  by eapply api_step_ledger_ok.
Qed.

End PointsField.

(** * Concrete texts of the points field *)

Module PointsFieldExamples.
Import PointsField ModelExamples ClientExamples.

(** The form filled in, with a location, and the given points text. *)
Definition filled (points : string) : Details.create_form :=
  Details.mkCreateForm "Уборка" "Помочь с уборкой" "Алматы" "+7 700 000 00 00" "" [] points
    (Some (43 # 1, 76 # 1)%Q) "" "" false.

Lemma accepted_points_parse_witness :
  points_accepted "50" 1000 = true ∧
  ∃ f, parse_float "50" = Some f ∧ fl_neg f = false ∧
       Details.parseInt "50" = (if bool_decide (fl_int f = []) then None
                                else Some (digits_Z (fl_int f))) ∧
       (0 <= digits_Z (fl_int f))%Z.
Proof. split; [reflexivity|]. apply (accepted_points_parse "50" 1000). reflexivity. Defined.

Lemma create_form_keeps_ledger_witness :
  ledger_ok (w_store (final_store (Details.create_submit (filled ".5e1") 5000 w_user))).
Proof.
  apply (create_form_keeps_ledger (filled ".5e1") 5000 w_user 1000).
  - reflexivity.
  - decide_prop.
Defined.

(** The browser accepts ".5e1" (the value 5) and "0.5e1" (also 5), but
    [parseInt] reads [NaN] and 0: the form creates a task without points,
    or with 0 points. *)
Example fraction_first_accepted :
  points_accepted ".5e1" 1000 = true ∧ Details.parseInt ".5e1" = None ∧
  points_accepted "0.5e1" 1000 = true ∧ Details.parseInt "0.5e1" = Some 0%Z.
Proof. vm_compute. auto. Qed.

Example nan_points_stored :
  option_map t_points
    (rev (st_tasks (w_store (final_store (Details.create_submit (filled ".5e1") 5000 w_user))))
       !! 0%nat) =
    Some None.
Proof. vm_compute. reflexivity. Qed.

(** What the browser refuses: a negative number, a trailing ["."], a
    fraction of a step, a value above [max], a text that is not a number. *)
Example refused_texts :
  points_accepted "-5" 1000 = false ∧ points_accepted "1." 1000 = false ∧
  points_accepted "2.5" 1000 = false ∧ points_accepted "1001" 1000 = false ∧
  points_accepted "5 " 1000 = false.
Proof. vm_compute. auto. Qed.

End PointsFieldExamples.
