(* ===== verification/Distance.v ===== *)
(** * Distance: the two haversine distances of the repository

    [calculateDistance] (UserDashboard.jsx, lines 26-36) gives the distance
    in kilometres that the dashboard's feed sorts by; [geolocation.js]
    (Volonter-Hub-main/src/utils) has a second copy,
    [getDistanceFromLatLonInKm] (lines 5-25), which answers [null] when a
    coordinate is falsy and rounds with [toFixed(1)], and
    [getUserLocation] (lines 28-47), which falls back on [BASE_COORDS].
    JavaScript's numbers are modelled by the real numbers of the Standard
    Library: [Math.sin], [Math.cos], [Math.sqrt] and [Math.PI] by [sin],
    [cos], [sqrt] and [PI], [Math.atan2] by [atan2] below.  The theorems
    hold of the exact computation; rounding errors of floating-point
    arithmetic are not modelled. *)

From S2P Require Import Prelude.
From Stdlib Require Import Reals Lra.
Local Open Scope R_scope.

Module Distance.

(** [const R = 6371] *)
Definition R_earth : R := 6371.

(** [Math.atan2(y, x)] (ECMAScript, 21.3.2.8), signed zeros aside. *)
Definition atan2 (y x : R) : R :=
  if Rlt_dec 0 x then atan (y / x)
  else if Rlt_dec x 0 then (if Rle_dec 0 y then atan (y / x) + PI else atan (y / x) - PI)
  else if Rlt_dec 0 y then PI / 2
  else if Rlt_dec y 0 then - (PI / 2)
  else 0.

(** The haversine term [a] of both functions, on angles in degrees. *)
Definition hav_a (lat1 lng1 lat2 lng2 : R) : R :=
  let dLat := (lat2 - lat1) * PI / 180 in
  let dLng := (lng2 - lng1) * PI / 180 in
  sin (dLat / 2) * sin (dLat / 2) +
  cos (lat1 * PI / 180) * cos (lat2 * PI / 180) * sin (dLng / 2) * sin (dLng / 2).

(** [calculateDistance] (UserDashboard.jsx, lines 26-36). *)
Definition calculateDistance (lat1 lng1 lat2 lng2 : R) : R :=
  let a := hav_a lat1 lng1 lat2 lng2 in
  let c := 2 * atan2 (sqrt a) (sqrt (1 - a)) in
  R_earth * c.

(** [deg2rad] (geolocation.js, lines 5-7). *)
Definition deg2rad (deg : R) : R := deg * (PI / 180).

(** [parseFloat(x.toFixed(1))]: the multiple of 1/10 nearest to [x], the
    larger one on a tie, computed on [|x|] and given the sign of [x]
    (ECMAScript, 21.1.3.3). *)
Definition round_up1 (x : R) : R := IZR (Int_part (x * 10 + / 2)) / 10.

Definition toFixed1 (x : R) : R := if Rlt_dec x 0 then - round_up1 (- x) else round_up1 x.

(** [!x] on a number: [0] is falsy ([NaN] has no counterpart in [R]). *)
Definition falsy (x : R) : bool := if Req_dec_T x 0 then true else false.

(** [getDistanceFromLatLonInKm] (geolocation.js, lines 10-25). *)
Definition getDistanceFromLatLonInKm (lat1 lon1 lat2 lon2 : R) : option R :=
  if falsy lat1 || falsy lon1 || falsy lat2 || falsy lon2 then None
  else
    let dLat := deg2rad (lat2 - lat1) in
    let dLon := deg2rad (lon2 - lon1) in
    let a := sin (dLat / 2) * sin (dLat / 2) +
             cos (deg2rad lat1) * cos (deg2rad lat2) * sin (dLon / 2) * sin (dLon / 2) in
    let c := 2 * atan2 (sqrt a) (sqrt (1 - a)) in
    Some (toFixed1 (R_earth * c)).

(** [BASE_COORDS] (geolocation.js, line 2). *)
Definition BASE_COORDS : R * R := (48, 66).

(** [getUserLocation] (geolocation.js, lines 28-47): the browser's position
    when it has the API and gives one, else [BASE_COORDS]. *)
Definition getUserLocation (hasGeolocation : bool) (position : option (R * R)) : R * R :=
  if hasGeolocation then match position with Some p => p | None => BASE_COORDS end
  else BASE_COORDS.

(** [cityCoordinates['Алматы']] (UserDashboard.jsx, line 11). *)
Definition ALMATY : R * R := (432220 / 10000, 768512 / 10000).

(** The dashboard's location effect (UserDashboard.jsx, lines 52-69): the
    browser's position, or Almaty when it has no geolocation or refuses. *)
Definition dashboard_location (hasGeolocation : bool) (position : option (R * R)) : R * R :=
  if hasGeolocation then match position with Some p => p | None => ALMATY end
  else ALMATY.


(** The distance the dashboard attaches to a task (UserDashboard.jsx lines
    92-101): [calculateDistance] from the user's point when the task's
    point has truthy coordinates, else [null]. *)
Definition task_distance (user coords : R * R) : option R :=
  if falsy (fst coords) || falsy (snd coords) then None
  else Some (calculateDistance (fst user) (snd user) (fst coords) (snd coords)).

(** [Math.round]: the nearest integer, halves upwards. *)
Definition js_round (x : R) : Z := Int_part (x + / 2).

(** The label under a task of the feed (lines 376-382, and the map
    legend's of lines 332-337 and 345-350):
    [task.distance && (task.distance < 1 ? `${Math.round(task.distance * 1000)} м`
    : `${task.distance.toFixed(1)} км`)]. *)
Inductive distance_label := Meters (n : Z) | Km (x : R).

Definition label_of (d : option R) : option distance_label :=
  match d with
  | None => None
  | Some d =>
      if falsy d then None
      else if Rlt_dec d 1 then Some (Meters (js_round (d * 1000)))
      else Some (Km (toFixed1 d))
  end.

(** ** The haversine term *)

Lemma sin_half_sq x : sin (x / 2) * sin (x / 2) = (1 - cos x) / 2.
Proof.
  pose proof (cos_2a_sin (x / 2)) as H. replace (2 * (x / 2)) with x in H by field. lra.
Qed.

(** The term [a] is [(1 - cos d) / 2] for the central angle [d], written
    with the latitudes [φ1], [φ2] and the difference of longitudes [Δλ]. *)
Lemma hav_identity lat1 lng1 lat2 lng2 :
  hav_a lat1 lng1 lat2 lng2 =
  (1 - (sin (lat1 * PI / 180) * sin (lat2 * PI / 180) +
        cos (lat1 * PI / 180) * cos (lat2 * PI / 180) * cos ((lng2 - lng1) * PI / 180))) / 2.
Proof.
  unfold hav_a. rewrite !Rmult_assoc, !sin_half_sq.
  replace ((lat2 - lat1) * PI / 180) with (lat2 * PI / 180 - lat1 * PI / 180) by field.
  rewrite cos_minus. field.
Qed.

(** Cauchy-Schwarz on two points of the unit circle and a cosine. *)
Lemma unit_combination s1 c1 s2 c2 k :
  s1 * s1 + c1 * c1 = 1 -> s2 * s2 + c2 * c2 = 1 -> -1 <= k <= 1 ->
  -1 <= s1 * s2 + c1 * c2 * k <= 1.
Proof.
  intros H1 H2 Hk.
  assert (Hk2 : k * k <= 1) by nra.
  assert (Hc : c1 * c1 * (k * k) <= c1 * c1) by nra.
  assert (Hcs : (s1 * s2 + c1 * c2 * k) * (s1 * s2 + c1 * c2 * k) <= 1).
  { pose proof (Rle_0_sqr (s1 * c2 - c1 * k * s2)) as Hsq. unfold Rsqr in Hsq. nra. }
  nra.
Qed.

Lemma hav_range lat1 lng1 lat2 lng2 : 0 <= hav_a lat1 lng1 lat2 lng2 <= 1.
Proof.
  rewrite hav_identity.
  pose proof (sin2_cos2 (lat1 * PI / 180)) as H1. pose proof (sin2_cos2 (lat2 * PI / 180)) as H2.
  unfold Rsqr in H1, H2.
  pose proof (unit_combination _ _ _ _ _ H1 H2 (COS_bound ((lng2 - lng1) * PI / 180))). lra.
Qed.

Lemma atan2_range y x : 0 <= y -> 0 <= x -> 0 <= atan2 y x <= PI / 2.
Proof.
  intros Hy Hx. pose proof PI_RGT_0. unfold atan2.
  destruct (Rlt_dec 0 x) as [Hx0|Hx0].
  - pose proof (atan_bound (y / x)) as [_ Hb]. split; [|lra].
    destruct (Req_dec y 0) as [->|Hy0].
    + unfold Rdiv. rewrite Rmult_0_l, atan_0. lra.
    + rewrite <- atan_0. left. apply atan_increasing.
      apply Rdiv_lt_0_compat; lra.
  - destruct (Rlt_dec x 0); [lra|].
    destruct (Rlt_dec 0 y); [lra|]. destruct (Rlt_dec y 0); lra.
Qed.

(** ** The distance *)

Lemma hav_same lat lng : hav_a lat lng lat lng = 0.
Proof.
  unfold hav_a. replace ((lat - lat) * PI / 180 / 2) with 0 by field.
  replace ((lng - lng) * PI / 180 / 2) with 0 by field. rewrite sin_0. ring.
Qed.

Lemma hav_sym lat1 lng1 lat2 lng2 : hav_a lat1 lng1 lat2 lng2 = hav_a lat2 lng2 lat1 lng1.
Proof.
  rewrite !hav_identity.
  replace ((lng1 - lng2) * PI / 180) with (- ((lng2 - lng1) * PI / 180)) by field.
  rewrite cos_neg. field.
Qed.

Lemma distance_range lat1 lng1 lat2 lng2 :
  0 <= calculateDistance lat1 lng1 lat2 lng2 <= PI * R_earth.
Proof.
  unfold calculateDistance, R_earth.
  pose proof (atan2_range (sqrt (hav_a lat1 lng1 lat2 lng2)) (sqrt (1 - hav_a lat1 lng1 lat2 lng2))
                (sqrt_pos _) (sqrt_pos _)). lra.
Qed.

Lemma distance_same lat lng : calculateDistance lat lng lat lng = 0.
Proof.
  unfold calculateDistance. rewrite hav_same, Rminus_0_r, sqrt_0, sqrt_1. unfold atan2.
  destruct (Rlt_dec 0 1); [|lra]. unfold Rdiv. rewrite Rmult_0_l, atan_0. ring.
Qed.

(** C29: [calculateDistance], the key of the feed's sort by distance, is 0
    from a point to itself, symmetric, and between 0 and half the
    circumference of the Earth ([π R]), for any coordinates. *)
Theorem calculateDistance_props lat1 lng1 lat2 lng2 :
  calculateDistance lat1 lng1 lat1 lng1 = 0 ∧
  calculateDistance lat1 lng1 lat2 lng2 = calculateDistance lat2 lng2 lat1 lng1 ∧
  0 <= calculateDistance lat1 lng1 lat2 lng2 <= PI * R_earth.
Proof.
  split_and!; [apply distance_same|unfold calculateDistance; by rewrite hav_sym|apply distance_range..].
Qed.

(** ** The copy of geolocation.js *)

Lemma deg2rad_eq x : deg2rad x = x * PI / 180.
Proof. unfold deg2rad. field. Qed.

(** [toFixed(1)] moves a number by at most 0.05. *)
Lemma round_up1_close x : Rabs (round_up1 x - x) <= / 20.
Proof.
  unfold round_up1. destruct (base_Int_part (x * 10 + / 2)) as [H1 H2].
  apply Rabs_le. split; lra.
Qed.

Lemma toFixed1_close x : Rabs (toFixed1 x - x) <= / 20.
Proof.
  unfold toFixed1. destruct (Rlt_dec x 0).
  - pose proof (round_up1_close (- x)) as H.
    replace (- round_up1 (- x) - x) with (- (round_up1 (- x) - - x)) by ring.
    by rewrite Rabs_Ropp.
  - apply round_up1_close.
Qed.

Lemma falsy_iff x : falsy x = true <-> x = 0.
Proof. unfold falsy. destruct (Req_dec_T x 0); split; congruence. Qed.

(** [getDistanceFromLatLonInKm] is [calculateDistance] rounded, behind its
    truthiness test. *)
Lemma getDistance_eq lat1 lon1 lat2 lon2 :
  getDistanceFromLatLonInKm lat1 lon1 lat2 lon2 =
    if falsy lat1 || falsy lon1 || falsy lat2 || falsy lon2 then None
    else Some (toFixed1 (calculateDistance lat1 lon1 lat2 lon2)).
Proof.
  unfold getDistanceFromLatLonInKm, calculateDistance, hav_a.
  destruct (falsy lat1 || falsy lon1 || falsy lat2 || falsy lon2); [done|].
  rewrite !deg2rad_eq. done.
Qed.

(** C30: the two haversine functions of the repository agree:
    [getDistanceFromLatLonInKm] answers [null] exactly when a coordinate
    is 0, and otherwise [calculateDistance] rounded by [toFixed(1)], within
    0.05 km of it. *)
Theorem geolocation_agrees lat1 lon1 lat2 lon2 :
  (getDistanceFromLatLonInKm lat1 lon1 lat2 lon2 = None <->
     lat1 = 0 ∨ lon1 = 0 ∨ lat2 = 0 ∨ lon2 = 0) ∧
  ∀ r, getDistanceFromLatLonInKm lat1 lon1 lat2 lon2 = Some r ->
       r = toFixed1 (calculateDistance lat1 lon1 lat2 lon2) ∧
       Rabs (r - calculateDistance lat1 lon1 lat2 lon2) <= / 20.
Proof.
  rewrite getDistance_eq. split.
  - rewrite <-!falsy_iff. destruct (falsy lat1), (falsy lon1), (falsy lat2), (falsy lon2);
      simpl; intuition congruence.
  - intros r. case_match; [done|]. intros [= <-]. split; [done|apply toFixed1_close].
Qed.

(** [Int_part] is the floor. *)
Lemma Int_part_unique x n : IZR n <= x < IZR n + 1 -> Int_part x = n.
Proof.
  intros [H1 H2]. destruct (base_Int_part x) as [H3 H4].
  assert (Ha : (Int_part x < n + 1)%Z) by (apply lt_IZR; rewrite plus_IZR; lra).
  assert (Hb : (n < Int_part x + 1)%Z) by (apply lt_IZR; rewrite plus_IZR; lra).
  lia.
Qed.

(** C31: the feed's distance labels: a distance of 0 has none (it is
    falsy); below 1 km the label is a whole number of metres between 0 and
    1000, within half a metre of the distance; from 1 km on it is the
    distance within 50 m, in km. *)
Theorem label_bounds d :
  0 <= d ->
  match label_of (Some d) with
  | None => d = 0
  | Some (Meters n) => d < 1 ∧ (0 <= n <= 1000)%Z ∧ Rabs (IZR n / 1000 - d) <= / 2000
  | Some (Km x) => 1 <= d ∧ Rabs (x - d) <= / 20
  end.
Proof.
  intros Hd. simpl. destruct (falsy d) eqn:Hf; [by apply falsy_iff|].
  destruct (Rlt_dec d 1) as [Hlt|Hge]; [|split; [lra|apply toFixed1_close]].
  unfold js_round. destruct (base_Int_part (d * 1000 + / 2)) as [H1 H2].
  split; [done|]. split.
  - assert (Ha : (-1 < Int_part (d * 1000 + / 2))%Z) by (apply lt_IZR; lra).
    assert (Hb : (Int_part (d * 1000 + / 2) < 1001)%Z) by (apply lt_IZR; lra). lia.
  - apply Rabs_le. split; lra.
Qed.

End Distance.

(** * Concrete distances *)

Module DistanceExamples.
Import Distance.

Lemma geolocation_agrees_witness : getDistanceFromLatLonInKm 0 76 43 76 = None.
Proof. apply (proj1 (geolocation_agrees 0 76 43 76)). by left. Defined.

(** A point on the equator or on the prime meridian has no distance in
    geolocation.js, while [calculateDistance] gives one. *)
Example equator_has_no_distance :
  getDistanceFromLatLonInKm 0 76 43 76 = None ∧ 0 <= calculateDistance 0 76 43 76.
Proof.
  split; [|apply distance_range]. unfold getDistanceFromLatLonInKm, falsy.
  by destruct (Req_dec_T 0 0).
Qed.

(** Without geolocation the two functions fall back on different points:
    the dashboard on Almaty, geolocation.js on the centre of the country. *)
Example fallbacks_differ :
  dashboard_location false None ≠ getUserLocation false None.
Proof. unfold dashboard_location, getUserLocation, ALMATY, BASE_COORDS. intros [= H _]. lra. Qed.

Lemma label_bounds_witness :
  0 <= 2 ∧ match label_of (Some 2) with
           | None => 2 = 0
           | Some (Meters n) => 2 < 1 ∧ (0 <= n <= 1000)%Z ∧ Rabs (IZR n / 1000 - 2) <= / 2000
           | Some (Km x) => 1 <= 2 ∧ Rabs (x - 2) <= / 20
           end.
Proof. split; [lra|]. apply (label_bounds 2). lra. Defined.

(** A task 999.6 m away is labelled "1000 м", not "1.0 км"; a task at
    the user's very point gets no label. *)
Example thousand_meters :
  label_of (Some (9996 / 10000)) = Some (Meters 1000) ∧ label_of (Some 0) = None.
Proof.
  split.
  - unfold label_of, falsy. destruct (Req_dec_T _ 0); [lra|].
    destruct (Rlt_dec (9996 / 10000) 1); [|lra]. unfold js_round.
    rewrite (Int_part_unique _ 1000); [done|]. lra.
  - unfold label_of, falsy. by destruct (Req_dec_T 0 0).
Qed.

(** A task whose point is the user's own gets no label: its distance is 0. *)
Example own_point_unlabelled lat lng : label_of (task_distance (lat, lng) (lat, lng)) = None.
Proof.
  unfold task_distance. simpl. destruct (falsy lat || falsy lng); [done|].
  rewrite distance_same. unfold label_of, falsy. by destruct (Req_dec_T 0 0).
Qed.

End DistanceExamples.
