(* ===== verification/Upload.v ===== *)
(** * Upload: the photo picker and the completion report

    [ImageUpload.jsx] (src/src) keeps the chosen photos and reports their
    previews to the creation form.  [handleFiles] (lines 8-24) keeps the
    image files, cut to the room left ([maxImages - images.length]), and
    starts one [FileReader] per file; each reader, when it finishes, appends
    its photo.  Readers finish later and in any order, so the component is
    a transition system whose events are the user's actions and the
    readers' completions. *)

From S2P Require Import Prelude Model.
From stdpp Require Import pretty.
Local Open Scope api_scope.

Module Upload.

(** A chosen file: its MIME type and what [readAsDataURL] yields. *)
Record file := mkFile { f_type : string; f_preview : string }.

(** The state: the loaded photos ([images]), the files whose reader has
    not finished, and the drag highlight ([dragActive]). *)
Record upload := mkUpload {
  up_images : list file; up_pending : list file; up_drag : bool
}.

Definition upload_init : upload := mkUpload [] [] false.

(** [file.type.startsWith('image/')] *)
Definition is_image (f : file) : bool := String.prefix "image/" (f_type f).

(** [l.slice(0, n)]: a negative end counts from the end of the list. *)
Definition js_slice0 {A} (n : Z) (l : list A) : list A :=
  if bool_decide (0 <= n)%Z then take (Z.to_nat n) l
  else take (length l - Z.to_nat (- n)) l.

(** [handleFiles] (lines 8-24): the readers started. *)
Definition handleFiles (maxImages : Z) (files : list file) (st : upload) : upload :=
  let accepted := js_slice0 (maxImages - Z.of_nat (length (up_images st)))
                    (filter (fun f => is_image f = true) files) in
  mkUpload (up_images st) (up_pending st ++ accepted) (up_drag st).

(** The events. *)
Inductive event :=
| EChange (files : list file)   (** the file input (lines 46-50) *)
| EDrop (files : list file)     (** [handleDrop] (lines 36-44) *)
| EDragEnter | EDragOver | EDragLeave  (** [handleDrag] (lines 26-34) *)
| ELoad (i : nat)               (** the [i]-th pending reader finishes (lines 15-21) *)
| ERemove (i : nat).            (** [removeImage] (lines 52-58) *)

(** One event; [None] when no such reader is pending. *)
Definition step (maxImages : Z) (st : upload) (e : event) : option upload :=
  match e with
  | EChange fs => Some (if bool_decide (length fs = 0)%nat then st else handleFiles maxImages fs st)
  | EDrop fs =>
      let st' := mkUpload (up_images st) (up_pending st) false in
      Some (if bool_decide (length fs = 0)%nat then st' else handleFiles maxImages fs st')
  | EDragEnter | EDragOver => Some (mkUpload (up_images st) (up_pending st) true)
  | EDragLeave => Some (mkUpload (up_images st) (up_pending st) false)
  | ELoad i =>
      match up_pending st !! i with
      | Some f => Some (mkUpload (up_images st ++ [f]) (delete i (up_pending st)) (up_drag st))
      | None => None
      end
  | ERemove i => Some (mkUpload (delete i (up_images st)) (up_pending st) (up_drag st))
  end.

(** What [onImagesChange] gives the parent form. *)
Definition previews (st : upload) : list string := map f_preview (up_images st).

(** The call [onImagesChange(newImages.map(img => img.preview))] made
    inside the state updaters of [reader.onload] (line 18) and
    [removeImage] (line 55): the previews after the event; the other
    handlers do not call the parent. *)
Definition notify (e : event) (st' : upload) : option (list string) :=
  match e with
  | ELoad _ | ERemove _ => Some (previews st')
  | _ => None
  end.

(** What the component renders (lines 60-135): the drop zone's highlight
    ([dragActive] in its class), the hint with [maxImages], and, when there
    is a photo, the grid of previews with their [alt] texts; the [i]-th
    preview's button sends [ERemove i]. *)
Record upload_view := mkUploadView {
  uv_highlight : bool;
  uv_hint : string;
  uv_grid : option (list (string * string))
}.

Definition view (maxImages : Z) (st : upload) : upload_view :=
  mkUploadView (up_drag st)
    ("Можно загрузить до " +:+ pretty maxImages +:+ " фото (только изображения)")
    (if bool_decide (length (up_images st) = 0%nat) then None
     else Some (imap (fun i f => (f_preview f, "Preview " +:+ pretty (S i))) (up_images st))).

(** The pictures the grid shows, in order. *)
Definition shown (v : upload_view) : list string :=
  match uv_grid v with Some g => map fst g | None => [] end.

(** A run of events from a state. *)
Fixpoint run (maxImages : Z) (st : upload) (es : list event) : option upload :=
  match es with
  | [] => Some st
  | e :: es' => match step maxImages st e with Some st' => run maxImages st' es' | None => None end
  end.

(** A run in which the user adds files only when no reader is pending. *)
Definition waits (st : upload) (e : event) : Prop :=
  match e with EChange _ | EDrop _ => up_pending st = [] | _ => True end.

Inductive patient (maxImages : Z) : upload -> upload -> Prop :=
| patient_refl st : patient maxImages st st
| patient_step st st' st'' e :
    waits st e -> step maxImages st e = Some st' -> patient maxImages st' st'' ->
    patient maxImages st st''.

(** ** Properties *)

Lemma js_slice0_len {A} (n : Z) (l : list A) :
  (0 <= n)%Z -> (length (js_slice0 n l) <= Z.to_nat n)%nat.
Proof. intros Hn. unfold js_slice0. rewrite bool_decide_true by done. rewrite length_take. lia. Qed.

(** What the bound counts: loaded photos and running readers. *)
Definition within (maxImages : Z) (st : upload) : Prop :=
  (Z.of_nat (length (up_images st) + length (up_pending st)) <= maxImages)%Z.

Lemma handleFiles_within maxImages fs st :
  up_pending st = [] -> within maxImages st -> within maxImages (handleFiles maxImages fs st).
Proof.
  unfold within, handleFiles. simpl. intros Hp Hw. rewrite Hp in Hw |- *. simpl in *.
  pose proof (js_slice0_len (maxImages - Z.of_nat (length (up_images st)))
                (filter (fun f => is_image f = true) fs) ltac:(lia)). lia.
Qed.

Lemma step_within maxImages st e st' :
  waits st e -> within maxImages st -> step maxImages st e = Some st' -> within maxImages st'.
Proof.
  intros Hw Hin. destruct e; simpl in *; intros Hs.
  - injection Hs as <-. case_bool_decide; [done|]. by apply handleFiles_within.
  - injection Hs as <-. case_bool_decide; [unfold within in *; done|].
    apply handleFiles_within; [done|unfold within in *; done].
  - injection Hs as <-. unfold within in *. done.
  - injection Hs as <-. unfold within in *. done.
  - injection Hs as <-. unfold within in *. done.
  - destruct (up_pending st !! i) as [f|] eqn:Hf; [|done]. injection Hs as <-.
    unfold within in *. simpl. rewrite length_app, length_delete by done. simpl.
    apply lookup_lt_Some in Hf. lia.
  - injection Hs as <-. unfold within in *. simpl.
    destruct (decide (i < length (up_images st))%nat) as [Hi|Hi].
    + destruct (lookup_lt_is_Some_2 _ _ Hi) as [x Hx]. rewrite length_delete by done. lia.
    + rewrite delete_take_drop, take_ge, drop_ge, app_nil_r by lia. done.
Qed.

(** The grid shows the previews the parent receives. *)
Lemma shown_view maxImages st : shown (view maxImages st) = previews st.
Proof.
  unfold shown, view, previews. simpl. case_bool_decide as Hl.
  - by destruct (up_images st).
  - generalize (up_images st) as l. intros l. clear.
    assert (∀ (g : nat -> file -> string * string), (∀ i f, (g i f).1 = f_preview f) ->
      map fst (imap g l) = map f_preview l) as H; [|by apply H].
    induction l as [|x l IH]; intros g Hg; [done|]. simpl. f_equal; [apply Hg|].
    apply IH. intros. apply Hg.
Qed.

(** A handler that does not call the parent keeps the loaded photos. *)
Lemma step_quiet maxImages st e st' :
  step maxImages st e = Some st' -> notify e st' = None -> up_images st' = up_images st.
Proof.
  destruct e; simpl; intros Hs Hn; try done.
  - injection Hs as <-. by case_bool_decide.
  - injection Hs as <-. by case_bool_decide.
  - by injection Hs as <-.
  - by injection Hs as <-.
  - by injection Hs as <-.
Qed.

(** C25: a user who adds files only while no photo is loading never gets
    more than [maxImages] photos: the invariant "loaded photos plus running
    readers fit in [maxImages]" holds along every such run. *)
Theorem patient_bounded maxImages st st' :
  within maxImages st -> patient maxImages st st' ->
  (Z.of_nat (length (up_images st')) <= maxImages)%Z.
Proof.
  intros Hin Hp. induction Hp as [st|st st1 st2 e Hw Hs Hp IH].
  - unfold within in Hin. lia.
  - apply IH. exact (step_within _ _ _ _ Hw Hin Hs).
Qed.

End Upload.

(** * Concrete runs *)
Module UploadExamples.
Import Upload.

Definition photo (n : string) : file := mkFile "image/png" n.
Definition five (p : string) : list file :=
  [photo (p ++ "1"); photo (p ++ "2"); photo (p ++ "3"); photo (p ++ "4"); photo (p ++ "5")]%string.

(** Dropping five photos twice before the readers finish: the room left is
    computed from the loaded photos only, so ten photos are kept although
    the form allows five. *)
Example drop_twice_race :
  option_map (fun st => length (up_images st))
    (run 5 upload_init [EDrop (five "a"); EDrop (five "b");
                        ELoad 0; ELoad 0; ELoad 0; ELoad 0; ELoad 0;
                        ELoad 0; ELoad 0; ELoad 0; ELoad 0; ELoad 0]) = Some 10%nat.
Proof. reflexivity. Qed.

(** Files that are not images are ignored. *)
Example non_images_ignored :
  option_map up_pending (run 5 upload_init [EChange [mkFile "text/plain" "t"; photo "p"]])
  = Some [photo "p"].
Proof. reflexivity. Qed.

Lemma patient_bounded_witness :
  within 5 upload_init ∧
  patient 5 upload_init (mkUpload [photo "p"] [] false) ∧
  (Z.of_nat (length (up_images (mkUpload [photo "p"] [] false))) <= 5)%Z.
Proof.
  assert (H1 : within 5 upload_init) by (unfold within; simpl; lia).
  assert (H2 : patient 5 upload_init (mkUpload [photo "p"] [] false)).
  { apply (patient_step _ _ (mkUpload [] [photo "p"] false) _ (EChange [photo "p"]));
      [done|reflexivity|].
    apply (patient_step _ _ (mkUpload [photo "p"] [] false) _ (ELoad 0)); [done|reflexivity|].
    apply patient_refl. }
  split; [exact H1|]. split; [exact H2|]. exact (patient_bounded 5 _ _ H1 H2).
Defined.

End UploadExamples.
