(* ===== verification/Geocode.v ===== *)
(** * Geocode: the Nominatim answers and how the pickers read them

    [MapPicker.jsx] (src/src, lines 10-88) and [LocationPicker.jsx]
    (src/src, lines 4-57) ask OpenStreetMap's Nominatim service for the
    address of a point ([reverseGeocode]) and for the point of an address
    ([geocode], [geocodeAddress]).  The network is not modelled: an answer
    is the decoded JSON, [None] when [fetch] or [response.json()] throws or
    the body is [null].  What is modelled is how the code turns an answer
    into the text and city the forms show.  Coordinates are kept as the
    rationals [parseFloat] read ([Q]); [toFixed(6)] is the text
    [coords_text] the caller gives. *)

From S2P Require Import Prelude Model.
From Stdlib Require Import QArith.

Module Geocode.

(** ** The data of an answer *)

(** [data.address] of a reverse answer: the fields the code reads. *)
Record naddr := mkAddr {
  a_road : option string; a_house_number : option string; a_house : option string;
  a_city : option string; a_town : option string; a_village : option string;
  a_municipality : option string; a_county : option string;
  a_state : option string; a_region : option string
}.

(** A reverse answer: [data.display_name] and [data.address]. *)
Record reverse_data := mkReverse {
  rd_display_name : option string; rd_address : option naddr
}.

(** What [reverseGeocode] resolves to. *)
Record reverse_result := mkResult {
  rr_displayName : string; rr_city : string; rr_address : string
}.

(** One item of a search answer, with [parseFloat] of its [lat] and [lon]. *)
Record place := mkPlace {
  p_display_name : string; p_lat : Q; p_lon : Q; p_country_code : option string
}.

(** ** MapPicker's [reverseGeocode] (lines 10-55) *)

(** [if (s)] on a string. *)
Definition nonempty (s : string) : bool := bool_decide (s ≠ "").

(** [a || b || ... || '']: the first truthy string. *)
Fixpoint first_truthy (l : list (option string)) : string :=
  match l with
  | [] => ""
  | o :: l' => if truthy_id o then default "" o else first_truthy l'
  end.

(** [if (x) parts.push(x)] *)
Definition push_if (o : option string) (parts : list string) : list string :=
  if truthy_id o then parts ++ [default "" o] else parts.

(** Lines 24-27: road, house number, or else the house name. *)
Definition address_parts (a : naddr) : list string :=
  let p := push_if (a_house_number a) (push_if (a_road a) []) in
  if bool_decide (length p = 0%nat) then push_if (a_house a) p else p.

(** Line 29. *)
Definition city_of (a : naddr) : string :=
  first_truthy [a_city a; a_town a; a_village a; a_municipality a].

(** Line 30. *)
Definition region_of (a : naddr) : string := first_truthy [a_state a; a_region a].

(** [address += (address ? ', ' : '') + part] *)
Definition sep_append (address part : string) : string :=
  address +:+ (if nonempty address then ", " else "") +:+ part.

(** Lines 32-34. *)
Definition format_address (a : naddr) : string :=
  let address := String.concat ", " (address_parts a) in
  let city := city_of a in
  let region := region_of a in
  let address := if nonempty city then sep_append address city else address in
  if nonempty region && negb (bool_decide (region = city)) then sep_append address region
  else address.

(** Lines 10-55: the result for an answer, [coords_text] being
    [`${lat.toFixed(6)}, ${lng.toFixed(6)}`]. *)
Definition mp_reverseGeocode (coords_text : string) (resp : option reverse_data) : reverse_result :=
  match resp with
  | Some d =>
      match rd_address d with
      | Some a =>
          let address := format_address a in
          let shown := if nonempty address then address
                       else if truthy_id (rd_display_name d) then default "" (rd_display_name d)
                       else coords_text in
          mkResult shown (city_of a) shown
      | None => mkResult coords_text "" coords_text
      end
  | None => mkResult coords_text "" coords_text
  end.

(** ** LocationPicker's [reverseGeocode] (lines 36-57) *)

Definition lp_reverseGeocode (resp : option reverse_data) : option reverse_result :=
  match resp with
  | Some d =>
      if truthy_id (rd_display_name d) then
        let dn := default "" (rd_display_name d) in
        let city := match rd_address d with
                    | Some a => first_truthy [a_city a; a_town a; a_village a; a_county a]
                    | None => ""
                    end in
        Some (mkResult dn city dn)
      else None
  | None => None
  end.

(** ** [geocode] (MapPicker lines 58-88, LocationPicker lines 4-33) *)

(** [s.includes(sub)] *)
Definition includes (s sub : string) : bool :=
  match String.index 0 sub s with Some _ => true | None => false end.

(** The test of lines 72-75; [toLowerCase] is the browser's Unicode case
    mapping, a parameter of the model. *)
Definition is_kz (toLowerCase : string -> string) (p : place) : bool :=
  includes (toLowerCase (p_display_name p)) "казахстан"
  || includes (toLowerCase (p_display_name p)) "kazakhstan"
  || bool_decide (p_country_code p = Some "kz").

(** [data.find(isKz) || data[0]], for a non-empty answer. *)
Definition pick_place (toLowerCase : string -> string) (data : list place) : option place :=
  match data with
  | [] => None
  | d0 :: _ => Some (from_option snd d0 (list_find (fun p => is_kz toLowerCase p = true) data))
  end.

(** The coordinates and name [geocode] resolves to. *)
Definition geocode (toLowerCase : string -> string) (resp : option (list place))
    : option (Q * Q * string) :=
  match resp with
  | Some data => option_map (fun p => (p_lat p, p_lon p, p_display_name p))
                   (pick_place toLowerCase data)
  | None => None
  end.

(** ** Strings *)

(** Joining one more string. *)
Lemma concat_snoc sep l x :
  String.concat sep (l ++ [x]) = if bool_decide (l = []) then x else String.concat sep l +:+ sep +:+ x.
Proof.
  induction l as [|y l IH]; [done|]. rewrite bool_decide_false by done.
  destruct l as [|z l]; [done|]. rewrite bool_decide_false in IH by done.
  change (String.concat sep ((y :: z :: l) ++ [x]))
    with (y +:+ sep +:+ String.concat sep ((z :: l) ++ [x])).
  change (String.concat sep (y :: z :: l)) with (y +:+ sep +:+ String.concat sep (z :: l)).
  rewrite IH. by rewrite !str_app_assoc.
Qed.

(** A join of non-empty strings is empty only when there is nothing to join. *)
Lemma concat_empty sep l :
  Forall (fun s => s ≠ "") l -> String.concat sep l = "" -> l = [].
Proof.
  intros Hl. destruct l as [|x [|y l]]; [done| |]; inversion Hl; subst; simpl.
  - done.
  - intros H. by apply str_app_nonempty_l in H.
Qed.

(** [sep_append] on a join of non-empty strings is the join of one more. *)
Lemma sep_append_concat l p :
  Forall (fun s => s ≠ "") l ->
  sep_append (String.concat ", " l) p = String.concat ", " (l ++ [p]).
Proof.
  intros Hl. unfold sep_append, nonempty. rewrite concat_snoc.
  destruct (decide (l = [])) as [->|Hne].
  - rewrite (bool_decide_true (@nil string = [])), (bool_decide_false ("" ≠ "")) by tauto.
    done.
  - rewrite (bool_decide_false (l = [])) by done.
    rewrite bool_decide_true by (intros H; by apply Hne, (concat_empty ", ")). done.
Qed.

Lemma push_if_nonempty o parts :
  Forall (fun s => s ≠ "") parts -> Forall (fun s => s ≠ "") (push_if o parts).
Proof.
  intros H. unfold push_if. destruct o as [s|]; simpl; [|done].
  case_bool_decide; [|done]. apply Forall_app. split; [done|]. by constructor.
Qed.

Lemma address_parts_nonempty a : Forall (fun s => s ≠ "") (address_parts a).
Proof.
  unfold address_parts. case_bool_decide; repeat apply push_if_nonempty; constructor.
Qed.

Lemma filter_forall (P : string -> Prop) `{∀ x, Decision (P x)} l :
  Forall P l -> filter P l = l.
Proof.
  induction 1; [done|]. rewrite list.filter_cons_True by done. by f_equal.
Qed.

Lemma first_truthy_cases l : first_truthy l = "" ∨ first_truthy l ≠ "".
Proof. destruct (decide (first_truthy l = "")); auto. Qed.

(** ** Properties *)

(** The address [reverseGeocode] builds step by step is the join with
    ", " of its non-empty components: road and house number (or the house
    name), city, and region when it differs from the city.  No separator
    is doubled, leading or trailing. *)
Theorem format_address_join a :
  format_address a =
  String.concat ", " (filter (fun s => s ≠ "")
    (address_parts a ++ [city_of a; if bool_decide (region_of a = city_of a) then "" else region_of a])).
Proof.
  pose proof (address_parts_nonempty a) as Hp. unfold format_address, nonempty.
  rewrite list.filter_app, (filter_forall _ _ Hp), !list.filter_cons, list.filter_nil.
  repeat (case_bool_decide || case_decide); simpl in *; try tauto; try congruence;
    rewrite ?app_nil_r; try done;
    repeat rewrite sep_append_concat by (rewrite ?Forall_app; repeat split; by repeat constructor);
    by rewrite <- ?app_assoc.
Qed.

(** Whatever Nominatim answers, [reverseGeocode] resolves to a non-empty
    name when the coordinates' text is non-empty, and its [address] is its
    [displayName]. *)
Lemma mp_reverse_shown coords_text resp :
  coords_text ≠ "" ->
  rr_displayName (mp_reverseGeocode coords_text resp) ≠ "" ∧
  rr_address (mp_reverseGeocode coords_text resp) = rr_displayName (mp_reverseGeocode coords_text resp).
Proof.
  intros Hc. destruct resp as [[dn [a|]]|]; simpl; [|done|done].
  unfold nonempty. case_bool_decide; [done|].
  destruct dn as [d|]; simpl; [|done]. case_bool_decide; done.
Qed.

(** [geocode] picks the first item the Kazakhstan test accepts, and the
    first item when it accepts none; an empty answer gives nothing. *)
Theorem pick_place_spec toLowerCase data :
  (data = [] -> pick_place toLowerCase data = None) ∧
  (∀ i p, list_find (fun p => is_kz toLowerCase p = true) data = Some (i, p) ->
          pick_place toLowerCase data = Some p) ∧
  (∀ d0 rest, data = d0 :: rest -> Forall (fun p => is_kz toLowerCase p = false) data ->
          pick_place toLowerCase data = Some d0).
Proof.
  split_and!.
  - by intros ->.
  - intros i p Hf. destruct data as [|d0 rest]; [done|]. unfold pick_place. by rewrite Hf.
  - intros d0 rest -> Hno. unfold pick_place. rewrite list_find_none_of; [done|].
    apply list.Forall_forall. intros p Hp. by rewrite (proj1 (list.Forall_forall _ _) Hno p Hp).
Qed.

End Geocode.

(** * Concrete answers *)
Module GeocodeExamples.
Import Geocode.

Definition no_addr : naddr := mkAddr None None None None None None None None None None.

(** A street address in Almaty: road, number, city and region. *)
Definition almaty : naddr :=
  mkAddr (Some "проспект Абая") (Some "10") None (Some "Алматы") None None None None
         (Some "Алматы") None.

Example almaty_formatted : format_address almaty = "проспект Абая, 10, Алматы".
Proof. reflexivity. Qed.

(** A village with a state and no road. *)
Example village_formatted :
  format_address (mkAddr None None (Some "дом 5") None None (Some "Коктобе") None None
                    (Some "Алматинская область") None)
  = "дом 5, Коктобе, Алматинская область".
Proof. reflexivity. Qed.

(** An answer without address details falls back to the coordinates. *)
Example reverse_fallback :
  mp_reverseGeocode "48.000000, 66.000000" (Some (mkReverse (Some "Kazakhstan") None))
  = mkResult "48.000000, 66.000000" "" "48.000000, 66.000000".
Proof. reflexivity. Qed.

(** An address with nothing the code reads falls back to the display name. *)
Example reverse_display_name :
  rr_displayName (mp_reverseGeocode "0, 0" (Some (mkReverse (Some "Казахстан") (Some no_addr))))
  = "Казахстан".
Proof. reflexivity. Qed.

End GeocodeExamples.
