(* ===== verification/Picker.v ===== *)
(** * Picker: the map location picker of the task creation form

    [MapPicker.jsx] (src/src) shows a map, lets the user choose a point
    (a click in the selection mode, the arrows, a drag, "my location",
    "whole country", an address search) and reports the point to
    [CreateTaskForm.jsx] through [onLocationSelect] and its address and city
    through [onAddressChange].  Every choice sends a request to Nominatim
    and the answer arrives later, so the component is a transition system
    whose events are the user's gestures and the answers; pending requests
    are a queue and [ERespond i] is the answer to the [i]-th.

    React is modelled as follows: the updates of one handler, up to its
    first [await], and those of one answer are one batch, which renders
    once; after a render in which [coords] was set, [hasUserSelected]
    changed or the form re-rendered (the form's [onAddressChange] is a new
    arrow function at each of its renders), the address effect (lines
    122-138) sends one more request when [hasUserSelected] holds.  The
    form re-renders when [setLocation] is called (always a new object) or
    [setAddress]/[setCity] change the value.  The coordinates a click, an
    arrow or a drag computes (floating-point arithmetic on the map's
    projection) are the argument of the event; [mapKey], the drag origin
    and the rendering are not modelled. *)

From S2P Require Import Prelude Model Chat Client Forms Details Geocode.
From Stdlib Require Import QArith.

Module Picker.
Import Geocode.

Definition coords := (Q * Q)%type.

(** [BASE_COORDS] (geolocation.js line 2). *)
Definition BASE_COORDS : coords := (48, 66)%Q.

(** The kind of an address request, that is, what its continuation does. *)
Inductive rkind :=
| KInit            (** mount without a location (lines 162-166): address and city *)
| KInitLoc         (** mount with a location (lines 147-157): also [onAddressChange] *)
| KEffect          (** the address effect (lines 122-138) *)
| KSelect (closes : bool)
    (** a click (which also leaves the selection mode, line 246), an arrow,
        the end of a drag, "my location" or "whole country": also
        [onLocationSelect] *)
| KCity (address : string).  (** the second [await] of [handleAddressSearch] (lines 418-430) *)

(** A request in flight: a reverse geocoding of a point, or a search; the
    form's [city] and the [zoom] are those the continuation closes over
    (CreateTaskForm line 100, MapPicker line 413). *)
Inductive request :=
| RReverse (k : rkind) (c : coords) (seenCity : string)
| RSearch (text : string) (seenCity : string) (seenZoom : Z).

Record picker := mkPicker {
  pk_coords : coords; pk_address : string; pk_city : string;
  pk_selecting : bool; pk_loading : bool; pk_searching : bool;
  pk_zoom : Z; pk_dragging : bool; pk_hasUserSelected : bool;
  pk_pending : list request;
  pk_form : Details.create_form   (** the parent's state *)
}.

(** ** The parent's callbacks (CreateTaskForm.jsx lines 91-103) *)

Definition with_location (c : coords) (f : Details.create_form) : Details.create_form :=
  Details.mkCreateForm (Details.cf_title f) (Details.cf_description f) (Details.cf_city f)
    (Details.cf_phone f) (Details.cf_contactInfo f) (Details.cf_images f) (Details.cf_points f)
    (Some c) (Details.cf_address f) (Details.cf_error f) (Details.cf_loading f).

Definition with_address (a : string) (f : Details.create_form) : Details.create_form :=
  Details.mkCreateForm (Details.cf_title f) (Details.cf_description f) (Details.cf_city f)
    (Details.cf_phone f) (Details.cf_contactInfo f) (Details.cf_images f) (Details.cf_points f)
    (Details.cf_location f) a (Details.cf_error f) (Details.cf_loading f).

Definition with_city (c : string) (f : Details.create_form) : Details.create_form :=
  Details.mkCreateForm (Details.cf_title f) (Details.cf_description f) c
    (Details.cf_phone f) (Details.cf_contactInfo f) (Details.cf_images f) (Details.cf_points f)
    (Details.cf_location f) (Details.cf_address f) (Details.cf_error f) (Details.cf_loading f).

Definition with_title (t : string) (f : Details.create_form) : Details.create_form :=
  Details.mkCreateForm t (Details.cf_description f) (Details.cf_city f)
    (Details.cf_phone f) (Details.cf_contactInfo f) (Details.cf_images f) (Details.cf_points f)
    (Details.cf_location f) (Details.cf_address f) (Details.cf_error f) (Details.cf_loading f).

(** [onAddressChange] (lines 95-103): the address when it is non-empty, the
    city when it is non-empty and the form's city was empty; and whether the
    form's state changed (and so re-renders). *)
Definition onAddressChange (addr city seenCity : string) (f : Details.create_form)
    : Details.create_form * bool :=
  let set_a := nonempty addr in
  let set_c := nonempty city && negb (nonempty seenCity) in
  let f1 := if set_a then with_address addr f else f in
  let f2 := if set_c then with_city city f1 else f1 in
  (f2, (set_a && negb (bool_decide (addr = Details.cf_address f)))
       || (set_c && negb (bool_decide (city = Details.cf_city f)))).

(** ** Updates of the component's state *)

Definition set_pending (l : list request) (st : picker) : picker :=
  mkPicker (pk_coords st) (pk_address st) (pk_city st) (pk_selecting st) (pk_loading st)
    (pk_searching st) (pk_zoom st) (pk_dragging st) (pk_hasUserSelected st) l (pk_form st).

Definition push (r : request) (st : picker) : picker := set_pending (pk_pending st ++ [r]) st.

Definition set_form (f : Details.create_form) (st : picker) : picker :=
  mkPicker (pk_coords st) (pk_address st) (pk_city st) (pk_selecting st) (pk_loading st)
    (pk_searching st) (pk_zoom st) (pk_dragging st) (pk_hasUserSelected st) (pk_pending st) f.

(** [setAddress], [setCity] and [setIsLoadingAddress(false)] of an answer. *)
Definition show_result (address city : string) (loading : bool) (st : picker) : picker :=
  mkPicker (pk_coords st) address city (pk_selecting st) loading
    (pk_searching st) (pk_zoom st) (pk_dragging st) (pk_hasUserSelected st) (pk_pending st) (pk_form st).

Section Network.

(** The text [`${lat.toFixed(6)}, ${lng.toFixed(6)}`] of a point. *)
Variable coords_text : coords -> string.
(** Nominatim's answers: for a point, and for a search text. *)
Variable reverse_answer : coords -> option reverse_data.
Variable search_answer : string -> option (list place).
(** [String.prototype.toLowerCase]. *)
Variable toLowerCase : string -> string.

(** What [reverseGeocode(lat, lng)] resolves to. *)
Definition geo (c : coords) : reverse_result := mp_reverseGeocode (coords_text c) (reverse_answer c).

(** What [geocode(address)] resolves to. *)
Definition search (text : string) : option (coords * string) :=
  match geocode toLowerCase (search_answer text) with
  | Some (lat, lng, name) => Some ((lat, lng), name)
  | None => None
  end.

(** After a batch: the address effect (lines 122-138) when it is [due]. *)
Definition effect (due : bool) (st : picker) : picker :=
  if due && pk_hasUserSelected st
  then push (RReverse KEffect (pk_coords st) (Details.cf_city (pk_form st))) st
  else st.

(** The synchronous part of a handler that moves the map to [c], sets the
    zoom, marks the choice as the user's when [user], and awaits the
    address: lines 211-232 (click), 292-307 (arrows), 442-457 (my
    location), 477-483 (whole country). *)
Definition select_start (closes : bool) (c : coords) (zoom : Z) (user : bool) (st : picker) : picker :=
  effect true
    (mkPicker c (pk_address st) (pk_city st) (pk_selecting st) true (pk_searching st) zoom
       (pk_dragging st) (user || pk_hasUserSelected st)
       (pk_pending st ++ [RReverse (KSelect closes) c (Details.cf_city (pk_form st))]) (pk_form st)).

(** [handleAddressSearch] (lines 402-406), up to its first [await]. *)
Definition handleAddressSearch (text : string) (st : picker) : picker :=
  if bool_decide (Chat.trim text = "") then st
  else
    mkPicker (pk_coords st) (pk_address st) (pk_city st) (pk_selecting st) (pk_loading st) true
      (pk_zoom st) (pk_dragging st) (pk_hasUserSelected st)
      (pk_pending st ++ [RSearch text (Details.cf_city (pk_form st)) (pk_zoom st)])
      (pk_form st).

(** The continuation of a request, on the state it was removed from. *)
Definition respond (r : request) (st : picker) : picker :=
  match r with
  | RReverse k c seen =>
      let res := geo c in
      match k with
      | KInit => show_result (rr_displayName res) (rr_city res) (pk_loading st) st
      | KInitLoc =>
          let '(f, ch) := onAddressChange (rr_displayName res) (rr_city res) seen (pk_form st) in
          effect ch (set_form f (show_result (rr_displayName res) (rr_city res) (pk_loading st) st))
      | KEffect =>
          let '(f, ch) := onAddressChange (rr_displayName res) (rr_city res) seen (pk_form st) in
          effect ch (set_form f (show_result (rr_displayName res) (rr_city res) false st))
      | KSelect closes =>
          let '(f, _) := onAddressChange (rr_displayName res) (rr_city res) seen
                           (with_location c (pk_form st)) in
          let st1 := set_form f (show_result (rr_displayName res) (rr_city res) false st) in
          effect true (if closes then
            mkPicker (pk_coords st1) (pk_address st1) (pk_city st1) false (pk_loading st1)
              (pk_searching st1) (pk_zoom st1) (pk_dragging st1) (pk_hasUserSelected st1)
              (pk_pending st1) (pk_form st1) else st1)
      | KCity name =>
          let '(f, ch) := onAddressChange name (rr_city res) seen (pk_form st) in
          effect ch (mkPicker (pk_coords st) (pk_address st) (rr_city res) (pk_selecting st)
                       (pk_loading st) false (pk_zoom st) (pk_dragging st) (pk_hasUserSelected st)
                       (pk_pending st) f)
      end
  | RSearch text seen zoom =>
      match search text with
      | Some (c, name) =>
          (* lines 408-418: the point, the address, the zoom, onLocationSelect,
             then the request for the city *)
          effect true
            (mkPicker c name (pk_city st) (pk_selecting st) (pk_loading st) (pk_searching st)
               (if bool_decide (zoom < 13)%Z then 13%Z else pk_zoom st) (pk_dragging st) true
               (pk_pending st ++ [RReverse (KCity name) c seen]) (with_location c (pk_form st)))
      | None =>
          (* line 428: an alert, then line 430 *)
          mkPicker (pk_coords st) (pk_address st) (pk_city st) (pk_selecting st) (pk_loading st)
            false (pk_zoom st) (pk_dragging st) (pk_hasUserSelected st) (pk_pending st) (pk_form st)
      end
  end.

(** The events: the user's gestures, the form's edits, the answers. *)
Inductive event :=
| EToggleSelect                        (** the "choose on the map" button (line 526) *)
| EMapClick (onControl : bool) (c : coords)  (** [handleMapClick] (lines 200-247) *)
| EMove (c : coords)                   (** [moveMap] (lines 272-320) *)
| EDragStart                           (** [handleMouseDown] (lines 322-328) *)
| EDragMove (c : coords)               (** [handleMouseMove] (lines 330-349) *)
| EDragEnd                             (** [handleMouseUp] (lines 351-370) *)
| EZoomIn | EZoomOut                   (** [handleZoomIn], [handleZoomOut] (lines 249-261) *)
| EShowAll                             (** [showAllCountry] (lines 476-497) *)
| ECurrentLocation (pos : option coords)  (** [useCurrentLocation] (lines 441-474) *)
| EAddressInput (s : string)           (** the address field (line 570) *)
| EAddressBlur                         (** its [onBlur] (lines 571-575) *)
| EAddressButton                       (** the search button (lines 585-588) *)
| EAddressEnter                        (** Enter in the field: the form's [onSubmit] (line 563),
                                           and the creation form's, which the event bubbles to *)
| EFormTitle (t : string)              (** a keystroke in the form's title *)
| EFormCity (c : string)               (** a keystroke in the form's city *)
| ERespond (i : nat).                  (** the answer to the [i]-th pending request *)

(** [handleAddressSubmit] (lines 433-439); the field is controlled, so its
    [value] is [address]. *)
Definition handleAddressSubmit (st : picker) : picker :=
  if nonempty (pk_address st) then handleAddressSearch (pk_address st) st else st.

(** CreateTaskForm's [handleSubmit] up to its [await] (CreateTaskForm.jsx
    lines 24-35), which Enter in the address field also runs: MapPicker's
    form is nested in the creation form (CreateTaskForm.jsx line 61) and
    [handleAddressSubmit] does not stop the submit event, so React passes
    it on to the outer [onSubmit], without the browser's checks of the
    outer form.  The call it starts and what follows are FormSession's
    [SNested]. *)
Definition parent_submit (f : Details.create_form) : Details.create_form :=
  let '(Details.mkCreateForm t d c p ci im pts loc a _ _) := f in
  match loc with
  | None => Details.mkCreateForm t d c p ci im pts loc a "Пожалуйста, выберите местоположение задания" false
  | Some _ => Details.mkCreateForm t d c p ci im pts loc a "" true
  end.

(** Whether those [setError] and [setLoading] calls change the parent's
    state, and so re-render it with a new [onAddressChange]. *)
Definition parent_submit_changes (f : Details.create_form) : bool :=
  negb (bool_decide (Details.cf_error (parent_submit f) = Details.cf_error f)) ||
  negb (Bool.eqb (Details.cf_loading (parent_submit f)) (Details.cf_loading f)).

(** Enter in the address field: both handlers, then one re-render. *)
Definition addressEnter (st : picker) : picker :=
  let st1 := handleAddressSubmit st in
  effect (parent_submit_changes (pk_form st1)) (set_form (parent_submit (pk_form st1)) st1).

(** The "choose on the map" button (line 526). *)
Definition toggleSelect (st : picker) : picker :=
  mkPicker (pk_coords st) (pk_address st) (pk_city st) (negb (pk_selecting st))
    (pk_loading st) (pk_searching st) (pk_zoom st) (pk_dragging st)
    (pk_hasUserSelected st) (pk_pending st) (pk_form st).

(** [handleMapClick] (lines 200-247): ignored out of the selection mode and
    on the map's controls. *)
Definition handleMapClick (onControl : bool) (c : coords) (st : picker) : picker :=
  if pk_selecting st && negb onControl then select_start true c 15 true st else st.

(** [moveMap] (lines 272-319): the arrows move the point at the current zoom. *)
Definition moveMap (c : coords) (st : picker) : picker := select_start false c (pk_zoom st) true st.

(** [handleMouseDown] (lines 321-327). *)
Definition handleMouseDown (st : picker) : picker :=
  if pk_selecting st then st
  else mkPicker (pk_coords st) (pk_address st) (pk_city st) (pk_selecting st)
         (pk_loading st) (pk_searching st) (pk_zoom st) true
         (pk_hasUserSelected st) (pk_pending st) (pk_form st).

(** [handleMouseMove] (lines 329-350): the point follows the pointer. *)
Definition handleMouseMove (c : coords) (st : picker) : picker :=
  if pk_dragging st && negb (pk_selecting st) then
    effect true (mkPicker c (pk_address st) (pk_city st) (pk_selecting st)
                   (pk_loading st) (pk_searching st) (pk_zoom st) (pk_dragging st)
                   (pk_hasUserSelected st) (pk_pending st) (pk_form st))
  else st.

(** [handleMouseUp] (lines 352-373), up to its [await]. *)
Definition handleMouseUp (st : picker) : picker :=
  if pk_dragging st then
    effect (negb (pk_hasUserSelected st))
      (mkPicker (pk_coords st) (pk_address st) (pk_city st) (pk_selecting st) true
         (pk_searching st) (pk_zoom st) false true
         (pk_pending st ++ [RReverse (KSelect false) (pk_coords st)
                              (Details.cf_city (pk_form st))]) (pk_form st))
  else st.

(** [handleZoomIn] (lines 249-254) and [handleZoomOut] (lines 256-261). *)
Definition handleZoomIn (st : picker) : picker :=
  if bool_decide (pk_zoom st < 18)%Z then
    mkPicker (pk_coords st) (pk_address st) (pk_city st) (pk_selecting st)
      (pk_loading st) (pk_searching st) (pk_zoom st + 1) (pk_dragging st)
      (pk_hasUserSelected st) (pk_pending st) (pk_form st)
  else st.

Definition handleZoomOut (st : picker) : picker :=
  if bool_decide (4 < pk_zoom st)%Z then
    mkPicker (pk_coords st) (pk_address st) (pk_city st) (pk_selecting st)
      (pk_loading st) (pk_searching st) (pk_zoom st - 1) (pk_dragging st)
      (pk_hasUserSelected st) (pk_pending st) (pk_form st)
  else st.

(** [showAllCountry] (lines 477-497), up to its [await]. *)
Definition showAllCountry (st : picker) : picker := select_start false BASE_COORDS 5 false st.

(** [useCurrentLocation] (lines 441-475): the browser's position, if it
    gives one (otherwise an alert). *)
Definition useCurrentLocation (pos : option coords) (st : picker) : picker :=
  match pos with Some c => select_start false c 15 true st | None => st end.

(** The address field: [onChange] (line 570) and [onBlur] (lines 571-575). *)
Definition setAddressInput (a : string) (st : picker) : picker :=
  mkPicker (pk_coords st) a (pk_city st) (pk_selecting st) (pk_loading st)
    (pk_searching st) (pk_zoom st) (pk_dragging st) (pk_hasUserSelected st)
    (pk_pending st) (pk_form st).

Definition addressBlur (st : picker) : picker :=
  if nonempty (pk_address st) then handleAddressSearch (pk_address st) st else st.

(** One event, through the bindings of the render (lines 519-668); [None]
    when no such request is pending. *)
Definition step (st : picker) (e : event) : option picker :=
  match e with
  | EToggleSelect => Some (toggleSelect st)
  | EMapClick onControl c => Some (handleMapClick onControl c st)
  | EMove c => Some (moveMap c st)
  | EDragStart => Some (handleMouseDown st)
  | EDragMove c => Some (handleMouseMove c st)
  | EDragEnd => Some (handleMouseUp st)
  | EZoomIn => Some (handleZoomIn st)
  | EZoomOut => Some (handleZoomOut st)
  | EShowAll => Some (showAllCountry st)
  | ECurrentLocation pos => Some (useCurrentLocation pos st)
  | EAddressInput a => Some (setAddressInput a st)
  | EAddressBlur => Some (addressBlur st)
  | EAddressButton =>
      Some (if pk_searching st || pk_loading st then st else handleAddressSubmit st)
  | EAddressEnter => Some (addressEnter st)
  | EFormTitle t =>
      Some (effect (negb (bool_decide (t = Details.cf_title (pk_form st))))
              (set_form (with_title t (pk_form st)) st))
  | EFormCity c =>
      Some (effect (negb (bool_decide (c = Details.cf_city (pk_form st))))
              (set_form (with_city c (pk_form st)) st))
  | ERespond i =>
      match pk_pending st !! i with
      | Some r => Some (respond r (set_pending (delete i (pk_pending st)) st))
      | None => None
      end
  end.

(** Unfold the handlers an event runs. *)
Ltac unfold_handlers :=
  unfold toggleSelect, handleMapClick, moveMap, handleMouseDown, handleMouseMove, handleMouseUp,
    handleZoomIn, handleZoomOut, showAllCountry, useCurrentLocation, setAddressInput, addressBlur.

(** The mount effect (lines 142-174) on the first state (lines 97-106). *)
Definition mount (initialLocation : option coords) (initialAddress : string)
    (f : Details.create_form) : picker :=
  let st := mkPicker (default BASE_COORDS initialLocation) initialAddress "" false false false
              13 false false [] f in
  match initialLocation with
  | Some c =>
      mkPicker c (pk_address st) "" false false false 15 false false
        [RReverse KInitLoc c (Details.cf_city f)] f
  | None =>
      if nonempty initialAddress then handleAddressSearch initialAddress st
      else mkPicker BASE_COORDS initialAddress "" false false false 13 false false
             [RReverse KInit BASE_COORDS (Details.cf_city f)] (with_location BASE_COORDS f)
  end.

(** The answers arriving in the order the requests were sent, at most [n]. *)
Fixpoint drain (n : nat) (st : picker) : picker :=
  match n with
  | O => st
  | S n' =>
      match pk_pending st with
      | [] => st
      | r :: rest => drain n' (respond r (set_pending rest st))
      end
  end.

(** A run of events. *)
Fixpoint run (st : picker) (es : list event) : option picker :=
  match es with
  | [] => Some st
  | e :: es' => match step st e with Some st' => run st' es' | None => None end
  end.

(** ** What the updates leave alone *)

Lemma effect_fields due st :
  pk_form (effect due st) = pk_form st ∧ pk_coords (effect due st) = pk_coords st ∧
  pk_zoom (effect due st) = pk_zoom st ∧ pk_address (effect due st) = pk_address st ∧
  pk_hasUserSelected (effect due st) = pk_hasUserSelected st ∧
  pk_dragging (effect due st) = pk_dragging st.
Proof. unfold effect. by destruct (due && pk_hasUserSelected st). Qed.

Lemma effect_pending due st :
  pk_pending (effect due st) =
  pk_pending st ++ (if due && pk_hasUserSelected st
                    then [RReverse KEffect (pk_coords st) (Details.cf_city (pk_form st))] else []).
Proof. unfold effect. destruct (due && pk_hasUserSelected st); simpl; by rewrite ?app_nil_r. Qed.

Lemma onAddressChange_location a c seen f :
  Details.cf_location (fst (onAddressChange a c seen f)) = Details.cf_location f.
Proof. unfold onAddressChange. by destruct (nonempty a), (nonempty c && _). Qed.

(** Every answer leaves a location in the form once one is there. *)
Lemma respond_location r st c :
  Details.cf_location (pk_form st) = Some c ->
  ∃ c', Details.cf_location (pk_form (respond r st)) = Some c'.
Proof.
  intros Hc. destruct r as [k c0 seen|text seen z]; cbn [respond].
  - destruct k as [| | |closes|name]; [by eexists| | | |];
      match goal with |- context [onAddressChange ?a ?b ?d ?f] =>
        pose proof (onAddressChange_location a b d f) as HL;
        destruct (onAddressChange a b d f) as [f' ch]; simpl in HL end;
      [| |destruct closes|]; cbv zeta; rewrite (proj1 (effect_fields _ _)); simpl; rewrite HL; simpl; eauto.
  - destruct (search text) as [[c1 name]|]; simpl; eauto.
Qed.

Lemma handleAddressSubmit_fields st :
  pk_form (handleAddressSubmit st) = pk_form st ∧ pk_zoom (handleAddressSubmit st) = pk_zoom st.
Proof. unfold handleAddressSubmit, handleAddressSearch. by repeat (case_match || case_bool_decide). Qed.

Lemma parent_submit_location f : Details.cf_location (parent_submit f) = Details.cf_location f.
Proof. destruct f as [t d c p ci im pts [loc|] a e b]; done. Qed.

Lemma addressEnter_fields st :
  Details.cf_location (pk_form (addressEnter st)) = Details.cf_location (pk_form st) ∧
  pk_zoom (addressEnter st) = pk_zoom st.
Proof.
  unfold addressEnter. rewrite (proj1 (effect_fields _ _)), (proj1 (proj2 (proj2 (effect_fields _ _)))).
  destruct (handleAddressSubmit_fields st) as [Hf Hz]. simpl.
  by rewrite parent_submit_location, Hf, Hz.
Qed.

Lemma step_location st e st' c :
  Details.cf_location (pk_form st) = Some c -> step st e = Some st' ->
  ∃ c', Details.cf_location (pk_form st') = Some c'.
Proof.
  intros Hc Hs. destruct e; simpl in Hs;
    try (destruct (pk_pending st !! i) as [r|]; [|done]; injection Hs as <-;
         by apply (respond_location r _ c));
    try destruct pos; injection Hs as <-;
    rewrite ?(proj1 (addressEnter_fields _)); try (by eauto);
    unfold_handlers; unfold select_start, handleAddressSubmit, handleAddressSearch;
    repeat (case_match || case_bool_decide); simpl;
    rewrite ?(proj1 (effect_fields _ _)); simpl; eauto.
Qed.

(** ** Invariants of every run *)

(** One step of the component, on any event. *)
Definition picker_step (st st' : picker) : Prop := ∃ e, step st e = Some st'.

Definition zoom_ok (st : picker) : Prop := (4 <= pk_zoom st <= 18)%Z.

Lemma respond_zoom r st : zoom_ok st -> zoom_ok (respond r st).
Proof.
  unfold zoom_ok. intros Hz. destruct r as [k c0 seen|text seen z]; cbn [respond].
  - destruct k as [| | |closes|name]; [done| | | |];
      match goal with |- context [onAddressChange ?a ?b ?d ?f] =>
        destruct (onAddressChange a b d f) as [f' ch] end;
      [| |destruct closes|]; cbv zeta; rewrite (proj1 (proj2 (proj2 (effect_fields _ _)))); done.
  - destruct (search text) as [[c1 name]|]; [|done].
    rewrite (proj1 (proj2 (proj2 (effect_fields _ _)))). simpl. case_bool_decide; lia.
Qed.

Lemma step_zoom st e st' : zoom_ok st -> step st e = Some st' -> zoom_ok st'.
Proof.
  unfold zoom_ok. intros Hz Hs. destruct e; simpl in Hs;
    try (destruct (pk_pending st !! i) as [r|]; [|done]; injection Hs as <-;
         by apply (respond_zoom r));
    try destruct pos; injection Hs as <-;
    rewrite ?(proj2 (addressEnter_fields _)); try lia;
    unfold_handlers; unfold select_start, handleAddressSubmit, handleAddressSearch;
    repeat (case_match || case_bool_decide); simpl;
    rewrite ?(proj1 (proj2 (proj2 (effect_fields _ _)))); simpl; lia.
Qed.

(** ** Answers in order *)

Hypothesis coords_text_nonempty : ∀ c, coords_text c ≠ "".

Lemma geo_shown c : rr_displayName (geo c) ≠ "".
Proof. apply mp_reverse_shown, coords_text_nonempty. Qed.

(** The form holds the map's point and the address Nominatim gives for it. *)
Definition aligned (st : picker) : Prop :=
  Details.cf_location (pk_form st) = Some (pk_coords st) ∧
  Details.cf_address (pk_form st) = rr_displayName (geo (pk_coords st)).

(** [onAddressChange] with a non-empty address. *)
Lemma onAddressChange_spec a city seen f :
  a ≠ "" ->
  Details.cf_address (fst (onAddressChange a city seen f)) = a ∧
  Details.cf_location (fst (onAddressChange a city seen f)) = Details.cf_location f ∧
  Details.cf_city (fst (onAddressChange a city seen f)) =
    (if nonempty city && negb (nonempty seen) then city else Details.cf_city f) ∧
  snd (onAddressChange a city seen f) =
    negb (bool_decide (a = Details.cf_address f))
    || (nonempty city && negb (nonempty seen) && negb (bool_decide (city = Details.cf_city f))).
Proof.
  intros Ha. assert (Hn : nonempty a = true) by (unfold nonempty; by rewrite bool_decide_true).
  unfold onAddressChange. rewrite Hn. simpl.
  destruct (nonempty city && negb (nonempty seen)); simpl; auto.
Qed.

(** What remains to be answered when only address effects for [c] are
    pending: the requests, plus one for the address and one for the city
    while the form does not hold Nominatim's. *)
Definition effects_measure (c : coords) (st : picker) : nat :=
  length (pk_pending st)
  + (if bool_decide (Details.cf_address (pk_form st) = rr_displayName (geo c)) then 0 else 1)
  + (if nonempty (rr_city (geo c)) && negb (bool_decide (Details.cf_city (pk_form st) = rr_city (geo c)))
     then 1 else 0).

Definition effects_only (c : coords) (l : list request) : Prop :=
  Forall (fun r => ∃ seen, r = RReverse KEffect c seen) l.

Lemma drain_nil n st : pk_pending st = [] -> drain n st = st.
Proof. destruct n; simpl; [done|]. by intros ->. Qed.

(** The answer to an address effect for any point [c']: the form takes its
    address, keeps its location, and at most one effect for the map's
    point is sent again. *)
Lemma respond_effect c' seen st rest :
  let st1 := respond (RReverse KEffect c' seen) (set_pending rest st) in
  pk_coords st1 = pk_coords st ∧ pk_hasUserSelected st1 = pk_hasUserSelected st ∧
  pk_dragging st1 = pk_dragging st ∧
  Details.cf_location (pk_form st1) = Details.cf_location (pk_form st) ∧
  Details.cf_address (pk_form st1) = rr_displayName (geo c') ∧
  Details.cf_city (pk_form st1) =
    (if nonempty (rr_city (geo c')) && negb (nonempty seen) then rr_city (geo c')
     else Details.cf_city (pk_form st)) ∧
  pk_pending st1 = rest ++
    (if snd (onAddressChange (rr_displayName (geo c')) (rr_city (geo c')) seen (pk_form st))
        && pk_hasUserSelected st
     then [RReverse KEffect (pk_coords st) (Details.cf_city (pk_form st1))] else []).
Proof.
  unfold respond. cbv beta iota zeta. change (pk_form (set_pending rest st)) with (pk_form st).
  pose proof (onAddressChange_spec _ (rr_city (geo c')) seen (pk_form st) (geo_shown c'))
    as (Ha & Hl & Hc & Hch).
  destruct (onAddressChange _ _ seen (pk_form st)) as [f ch]. simpl in *.
  destruct (effect_fields ch (set_form f (show_result (rr_displayName (geo c')) (rr_city (geo c'))
              false (set_pending rest st)))) as (Hf & Hco & _ & _ & Hu & Hd).
  rewrite Hf, Hco, Hu, Hd, effect_pending. simpl. auto 10.
Qed.

(** Draining answers to address effects for the map's point ends with
    nothing pending and the form aligned with the map, within the measure. *)
Lemma drain_effects n st :
  Details.cf_location (pk_form st) = Some (pk_coords st) ->
  effects_only (pk_coords st) (pk_pending st) ->
  pk_pending st ≠ [] ∨ Details.cf_address (pk_form st) = rr_displayName (geo (pk_coords st)) ->
  (effects_measure (pk_coords st) st <= n)%nat ->
  pk_pending (drain n st) = [] ∧ aligned (drain n st).
Proof.
  revert st. induction n as [|n IH]; intros st Hl Hall Hne Hm.
  - unfold effects_measure in Hm. destruct (pk_pending st) eqn:Hp; simpl in Hm; [|lia].
    destruct Hne as [?|Ha]; [done|]. by repeat split.
  - destruct (pk_pending st) as [|r rest] eqn:Hp.
    { rewrite drain_nil by done. destruct Hne as [?|Ha]; [done|]. by repeat split. }
    simpl. rewrite Hp. inversion Hall as [|? ? [seen ->] Hrest]; subst.
    destruct (respond_effect (pk_coords st) seen st rest)
      as (Hco & _ & _ & Hl1 & Ha1 & Hc1 & Hp1).
    set (st1 := respond _ (set_pending rest st)) in *.
    apply IH; rewrite Hco.
    + by rewrite Hl1.
    + rewrite Hp1. apply Forall_app. split; [done|]. case_match; [|done].
      constructor; [by eexists|constructor].
    + by right.
    + unfold effects_measure in *. rewrite Hp1, Ha1, Hc1, length_app. rewrite Hp in Hm.
      pose proof (onAddressChange_spec (rr_displayName (geo (pk_coords st))) (rr_city (geo (pk_coords st)))
                    seen (pk_form st) (geo_shown _)) as (_ & _ & _ & Hch).
      rewrite Hch. simpl in Hm |- *.
      destruct (nonempty (rr_city _)), (nonempty seen), (pk_hasUserSelected st); simpl in *;
        repeat case_bool_decide; simpl in *; try congruence; lia.
Qed.

Lemma drain_cons n st r rest :
  pk_pending st = r :: rest -> drain (S n) st = drain n (respond r (set_pending rest st)).
Proof. intros Hp. simpl. by rewrite Hp. Qed.

Lemma drain_add m n st : drain (m + n) st = drain n (drain m st).
Proof.
  revert st. induction m as [|m IH]; intros st; [done|]. simpl.
  destruct (pk_pending st) eqn:Hp; [by rewrite drain_nil|]. apply IH.
Qed.

(** The answer to a selection for the map's point: the form takes the
    point and its address, and one effect is sent again. *)
Lemma respond_select b seen st rest :
  let st1 := respond (RReverse (KSelect b) (pk_coords st) seen) (set_pending rest st) in
  pk_coords st1 = pk_coords st ∧
  Details.cf_location (pk_form st1) = Some (pk_coords st) ∧
  Details.cf_address (pk_form st1) = rr_displayName (geo (pk_coords st)) ∧
  ∃ E, pk_pending st1 = rest ++ E ∧ effects_only (pk_coords st) E ∧ (length E <= 1)%nat.
Proof.
  unfold respond. cbv beta iota zeta. change (pk_form (set_pending rest st)) with (pk_form st).
  pose proof (onAddressChange_spec _ (rr_city (geo (pk_coords st))) seen
                (with_location (pk_coords st) (pk_form st)) (geo_shown (pk_coords st)))
    as (Ha & Hl & _ & _).
  destruct (onAddressChange _ _ seen _) as [f ch]. simpl in *.
  destruct b; rewrite (proj1 (effect_fields _ _)), (proj1 (proj2 (effect_fields _ _))), effect_pending;
    simpl; split_and!; try done;
    (eexists; split; [reflexivity|]); case_match; simpl;
    (split; [repeat constructor; by eexists|lia]).
Qed.

(** A selection for the map's point followed by effects for it settles. *)
Lemma settle_select n b seen st rest :
  pk_pending st = RReverse (KSelect b) (pk_coords st) seen :: rest ->
  effects_only (pk_coords st) rest -> (length rest + 3 <= n)%nat ->
  pk_pending (drain n st) = [] ∧ aligned (drain n st).
Proof.
  intros Hp Hr Hn. destruct n as [|n]; [lia|]. simpl. rewrite Hp.
  destruct (respond_select b seen st rest) as (Hco & Hl & Ha & E & HE & HallE & Hlen).
  set (st1 := respond _ (set_pending rest st)) in *.
  apply drain_effects; rewrite Hco.
  - done.
  - rewrite HE. by apply Forall_app.
  - by right.
  - unfold effects_measure. rewrite HE, Ha, length_app, bool_decide_true by done.
    destruct (_ && _); lia.
Qed.

(** A handler that selects a point, from a settled state, settles. *)
Lemma select_start_settles n b c z u st :
  pk_pending st = [] -> (6 <= n)%nat ->
  pk_pending (drain n (select_start b c z u st)) = [] ∧ aligned (drain n (select_start b c z u st)).
Proof.
  intros Hp Hn. unfold select_start.
  eapply settle_select; [rewrite effect_pending, (proj1 (proj2 (effect_fields _ _))); simpl;
                         rewrite Hp; reflexivity| |].
  - rewrite (proj1 (proj2 (effect_fields _ _))). simpl. case_match; repeat constructor; by eexists.
  - case_match; simpl; lia.
Qed.

Lemma respond_effect_pending c' seen st rest :
  ∃ X, pk_pending (respond (RReverse KEffect c' seen) (set_pending rest st)) = rest ++ X ∧
       effects_only (pk_coords st) X ∧ (length X <= 1)%nat.
Proof.
  destruct (respond_effect c' seen st rest) as (_ & _ & _ & _ & _ & _ & Hp).
  rewrite Hp. eexists. split; [reflexivity|]. case_match; simpl.
  - split; [repeat constructor; by eexists|lia].
  - split; [apply Forall_nil|lia].
Qed.

(** Address effects sent for earlier points of a drag. *)
Definition old_effects (l : list request) : Prop :=
  Forall (fun r => ∃ c seen, r = RReverse KEffect c seen) l.

(** Their answers leave the map's point and the form's location, and send
    at most one effect each for the map's point. *)
Lemma drain_old olds rest st :
  pk_pending st = olds ++ rest -> old_effects olds ->
  pk_coords (drain (length olds) st) = pk_coords st ∧
  Details.cf_location (pk_form (drain (length olds) st)) = Details.cf_location (pk_form st) ∧
  ∃ E, pk_pending (drain (length olds) st) = rest ++ E ∧ effects_only (pk_coords st) E ∧
       (length E <= length olds)%nat.
Proof.
  revert st rest. induction olds as [|o olds IH]; intros st rest Hp Ho.
  - simpl. split; [done|]. split; [done|]. exists []. rewrite app_nil_r.
    split; [done|]. split; [apply Forall_nil|simpl; lia].
  - inversion Ho as [|? ? (c' & seen & ->) Ho']; subst.
    change (length (RReverse KEffect c' seen :: olds)) with (S (length olds)).
    cbn [drain]. rewrite Hp. cbn [app].
    destruct (respond_effect c' seen st (olds ++ rest)) as (Hco & _ & _ & Hl & _).
    destruct (respond_effect_pending c' seen st (olds ++ rest)) as (X & HX & HallX & HlenX).
    set (st1 := respond _ (set_pending (olds ++ rest) st)) in *.
    destruct (IH st1 (rest ++ X)) as (Hco' & Hl' & E & HE & HallE & Hlen);
      [by rewrite HX, app_assoc|done|].
    rewrite Hco in Hco', HallE. split; [congruence|]. split; [congruence|].
    exists (X ++ E). rewrite HE, <- app_assoc. split; [reflexivity|]. split.
    + by apply Forall_app.
    + rewrite length_app. lia.
Qed.

(** The answer to the search's request for the city: the map's point and
    the form's location stay, at most one effect is sent again. *)
Lemma respond_city name c seen st rest :
  let st1 := respond (RReverse (KCity name) c seen) (set_pending rest st) in
  pk_coords st1 = pk_coords st ∧
  Details.cf_location (pk_form st1) = Details.cf_location (pk_form st) ∧
  ∃ E, pk_pending st1 = rest ++ E ∧ effects_only (pk_coords st) E ∧ (length E <= 1)%nat.
Proof.
  unfold respond. cbv beta iota zeta. change (pk_form (set_pending rest st)) with (pk_form st).
  pose proof (onAddressChange_location name (rr_city (geo c)) seen (pk_form st)) as Hl.
  destruct (onAddressChange _ _ seen _) as [f ch]. simpl in *.
  rewrite (proj1 (effect_fields _ _)), (proj1 (proj2 (effect_fields _ _))), effect_pending.
  simpl. split_and!; [done|done|]. eexists. split; [reflexivity|].
  case_match; simpl; (split; [repeat constructor; by eexists|lia]).
Qed.

Lemma run_app st es1 es2 :
  run st (es1 ++ es2) = match run st es1 with Some st' => run st' es2 | None => None end.
Proof.
  revert st. induction es1 as [|e es1 IH]; intros st; [done|]. simpl.
  destruct (step st e); [apply IH|done].
Qed.

Lemma effect_selecting due st : pk_selecting (effect due st) = pk_selecting st.
Proof. unfold effect. by destruct (due && pk_hasUserSelected st). Qed.

(** The moves of a drag: each one sets the point and, once the user has
    chosen a point, sends an address effect. *)
Lemma run_drag_moves path st :
  pk_dragging st = true -> pk_selecting st = false ->
  ∃ st' olds, run st (map EDragMove path) = Some st' ∧
    pk_pending st' = pk_pending st ++ olds ∧ old_effects olds ∧ (length olds <= length path)%nat ∧
    pk_dragging st' = true ∧ pk_selecting st' = false ∧ pk_form st' = pk_form st ∧
    pk_hasUserSelected st' = pk_hasUserSelected st.
Proof.
  revert st. induction path as [|c path IH]; intros st Hd Hs.
  - exists st, []. rewrite app_nil_r. split_and!; first [done|apply Forall_nil|simpl; lia].
  - cbn [map run step]. unfold_handlers. rewrite Hd, Hs. cbn [andb negb].
    set (st0 := mkPicker c _ _ _ _ _ _ _ _ _ _).
    destruct (effect_fields true st0) as (Hf & Hco & _ & _ & Hu & Hd0).
    destruct (IH (effect true st0)) as (st' & olds & Hrun & Hp & Ho & Hlen & Hd' & Hs' & Hf' & Hu');
      [by rewrite Hd0|by rewrite effect_selecting|].
    rewrite effect_pending in Hp. simpl in Hp.
    exists st', ((if pk_hasUserSelected st then [RReverse KEffect c (Details.cf_city (pk_form st))]
                  else []) ++ olds).
    rewrite Hrun, Hp, <- app_assoc. split_and!; try done.
    + apply Forall_app. split; [|done]. case_match; repeat constructor; by do 2 eexists.
    + rewrite length_app. simpl. case_match; simpl; lia.
    + by rewrite Hf' , Hf.
    + by rewrite Hu', Hu.
Qed.

(** A drag from a settled state settles. *)
Lemma drag_settles path st :
  pk_pending st = [] -> pk_dragging st = false -> pk_selecting st = false ->
  ∃ st1, run st (EDragStart :: map EDragMove path ++ [EDragEnd]) = Some st1 ∧
    pk_pending (drain (2 * length path + 6) st1) = [] ∧ aligned (drain (2 * length path + 6) st1).
Proof.
  intros Hp Hd Hs. cbn [run step]. unfold_handlers. rewrite Hs. cbn [run].
  set (st0 := mkPicker _ _ _ _ _ _ _ true _ _ _).
  destruct (run_drag_moves path st0) as (st' & olds & Hrun & Hp' & Ho & Hlen & Hd' & Hs' & _ & _);
    [done|done|].
  rewrite run_app, Hrun. cbn [run step]. unfold_handlers. rewrite Hd'. eexists. split; [reflexivity|].
  set (st2 := effect _ (mkPicker _ _ _ _ _ _ _ _ _ _ _)).
  assert (Hco : pk_coords st2 = pk_coords st')
    by (unfold st2; rewrite (proj1 (proj2 (effect_fields _ _))); reflexivity).
  assert (Hp2 : ∃ E0, pk_pending st2 =
            olds ++ RReverse (KSelect false) (pk_coords st2) (Details.cf_city (pk_form st')) :: E0 ∧
            effects_only (pk_coords st2) E0 ∧ (length E0 <= 1)%nat).
  { unfold st2. rewrite effect_pending, (proj1 (proj2 (effect_fields _ _))). simpl.
    rewrite Hp'. unfold st0. simpl. rewrite Hp, <- app_assoc. simpl. eexists. split; [reflexivity|].
    case_match; simpl; (split; [repeat constructor; by eexists|lia]). }
  destruct Hp2 as (E0 & HE0 & HallE0 & HlenE0).
  replace (2 * length path + 6)%nat with (length olds + (2 * length path + 6 - length olds))%nat by lia.
  rewrite drain_add.
  destruct (drain_old olds _ st2 HE0 Ho) as (Hco3 & _ & E & HE & HallE & HlenE).
  eapply settle_select; [rewrite HE, Hco3; reflexivity| |].
  - rewrite Hco3. by apply Forall_app.
  - rewrite length_app. lia.
Qed.

(** A successful address search from a settled state settles. *)
Lemma search_settles text st c name :
  pk_pending st = [] -> Chat.trim text ≠ "" -> search text = Some (c, name) ->
  pk_searching st = false -> pk_loading st = false ->
  ∃ st1, run st [EAddressInput text; EAddressButton] = Some st1 ∧
    pk_pending (drain 6 st1) = [] ∧ aligned (drain 6 st1).
Proof.
  intros Hp Ht Hs Hse Hlo. cbn [run step]. unfold_handlers. cbn [pk_searching pk_loading].
  rewrite Hse, Hlo. cbn [orb]. unfold handleAddressSubmit, handleAddressSearch, nonempty.
  cbn [pk_address pk_form pk_pending pk_zoom].
  rewrite bool_decide_true by (intros ->; done). rewrite bool_decide_false by done.
  eexists. split; [reflexivity|].
  set (seen := Details.cf_city (pk_form st)).
  rewrite (drain_cons 5 _ (RSearch text seen (pk_zoom st)) []) by (simpl; by rewrite Hp).
  cbn [respond]. rewrite Hs.
  set (st2 := effect true _).
  assert (Hp2 : pk_pending st2 = [RReverse (KCity name) c seen;
                                  RReverse KEffect c (Details.cf_city (with_location c (pk_form st)))])
    by done.
  assert (Hc2 : pk_coords st2 = c) by done.
  assert (Hl2 : Details.cf_location (pk_form st2) = Some c) by done.
  rewrite (drain_cons 4 _ _ _ Hp2).
  destruct (respond_city name c seen st2
              [RReverse KEffect c (Details.cf_city (with_location c (pk_form st)))])
    as (Hco & Hl & E & HE & HallE & HlenE).
  apply drain_effects; rewrite Hco, ?Hc2.
  - by rewrite Hl, Hl2.
  - rewrite HE. apply Forall_app. split; [repeat constructor; by eexists|by rewrite <- Hc2].
  - left. by rewrite HE.
  - unfold effects_measure. rewrite HE, length_app. simpl.
    repeat match goal with |- context [if ?b then 0%nat else 1%nat] => destruct b
                         | |- context [if ?b then 1%nat else 0%nat] => destruct b end; lia.
Qed.

(** ** Properties *)

(** The gestures that choose a point. *)
Inductive gesture :=
| GClick (c : coords) | GMove (c : coords) | GDrag (path : list coords)
| GShowAll | GCurrent (c : coords) | GSearch (text : string).

Definition gesture_events (g : gesture) : list event :=
  match g with
  | GClick c => [EMapClick false c]
  | GMove c => [EMove c]
  | GDrag path => EDragStart :: map EDragMove path ++ [EDragEnd]
  | GShowAll => [EShowAll]
  | GCurrent c => [ECurrentLocation (Some c)]
  | GSearch text => [EAddressInput text; EAddressButton]
  end.

(** How many answers a gesture waits for at most. *)
Definition gesture_fuel (g : gesture) : nat :=
  match g with GDrag path => 2 * length path + 6 | _ => 6 end.

(** When a gesture chooses a point: a click in the selection mode, a drag
    outside it, a search that finds something with the button enabled. *)
Definition gesture_enabled (st : picker) (g : gesture) : Prop :=
  match g with
  | GClick _ => pk_selecting st = true
  | GDrag _ => pk_selecting st = false
  | GSearch text => Chat.trim text ≠ "" ∧ is_Some (search text) ∧
                    pk_searching st = false ∧ pk_loading st = false
  | _ => True
  end.

(** C26: when Nominatim answers in the order the requests were sent, every
    gesture that chooses a point, made when no answer is awaited (the
    search through the "Найти" button: Enter in the field would also
    submit the creation form), is
    followed by a bounded number of answers after which nothing is awaited
    and the form holds the map's point and the address Nominatim gives
    for it: the chain of requests the form's re-renders start ends. *)
Theorem gesture_settles st g :
  pk_pending st = [] -> pk_dragging st = false -> gesture_enabled st g ->
  ∃ st1, run st (gesture_events g) = Some st1 ∧
    pk_pending (drain (gesture_fuel g) st1) = [] ∧ aligned (drain (gesture_fuel g) st1).
Proof.
  intros Hp Hd Hg. destruct g as [c|c|path| |c|text]; cbn [gesture_enabled] in Hg.
  - cbn [gesture_events run step]. unfold_handlers. rewrite Hg. eexists. split; [reflexivity|].
    by apply select_start_settles.
  - eexists. split; [reflexivity|]. by apply select_start_settles.
  - by apply drag_settles.
  - eexists. split; [reflexivity|]. by apply select_start_settles.
  - eexists. split; [reflexivity|]. by apply select_start_settles.
  - destruct Hg as (Ht & [[c name] Hs] & Hse & Hlo). by apply (search_settles _ _ c name).
Qed.

(** Every state reached from the picker CreateTaskForm mounts (no location,
    no address yet) holds a location in the form. *)
Lemma mount_location_invariant f st :
  star picker_step (mount None "" f) st -> ∃ c, Details.cf_location (pk_form st) = Some c.
Proof.
  intros Hr. apply (star_invariant picker_step
                      (fun st => ∃ c, Details.cf_location (pk_form st) = Some c)
                      (mount None "" f) st); [|simpl; eauto|exact Hr].
  intros x y [c Hc] [e He]. by apply (step_location x e y c).
Qed.

(** C27: the form's error "Пожалуйста, выберите местоположение задания"
    (CreateTaskForm lines 29-33) is never shown: the picker reports
    [BASE_COORDS] when it mounts (line 169), although its comment says it
    does not, so a task is posted at the centre of Kazakhstan when the user
    never chooses a point. *)
Theorem location_error_unreachable f st now w r w' :
  star picker_step (mount None "" f) st ->
  Details.create_submit (pk_form st) now w = Ok r w' ->
  Details.cf_error (fst r) ≠ "Пожалуйста, выберите местоположение задания".
Proof.
  intros Hr. destruct (mount_location_invariant f st Hr) as [c Hc].
  unfold Details.create_submit. rewrite Hc.
  destruct (Client.createTask _ now w) as [? w1|e w1]; intros [= <- _]; simpl; [discriminate|].
  unfold Forms.message_or. case_bool_decide; [discriminate|].
  destruct e as [e|]; [destruct e|]; discriminate.
Qed.

(** The map's zoom stays between 4 and 18 in every run of the picker,
    whatever it was mounted with: the buttons check the bounds and every
    other update sets 5, 13 or 15. *)
Theorem zoom_in_range loc addr f st :
  star picker_step (mount loc addr f) st -> (4 <= pk_zoom st <= 18)%Z.
Proof.
  intros Hr. apply (star_invariant picker_step zoom_ok (mount loc addr f) st);
    [|unfold mount, zoom_ok|exact Hr].
  - intros x y Hx [e He]. by apply (step_zoom x e y).
  - destruct loc; simpl; [lia|]. unfold handleAddressSearch.
    repeat case_match; simpl; lia.
Qed.

(** Once a point has been chosen, every keystroke that changes the
    form's title sends one more reverse geocoding request: the form's
    [onAddressChange] is a new function at each render. *)
Theorem keystroke_requests st t :
  pk_hasUserSelected st = true -> t ≠ Details.cf_title (pk_form st) ->
  step st (EFormTitle t) =
  Some (push (RReverse KEffect (pk_coords st) (Details.cf_city (pk_form st)))
          (set_form (with_title t (pk_form st)) st)).
Proof. intros Hu Ht. simpl. rewrite bool_decide_false by done. unfold effect. simpl. by rewrite Hu. Qed.

(** The form's city a request's continuation closes over. *)
Definition seen_city (r : request) : string :=
  match r with RReverse _ _ seen => seen | RSearch _ seen _ => seen end.

(** An answer changes the form's city only if the city was empty when
    its request was sent. *)
Theorem answer_keeps_typed_city r st :
  seen_city r ≠ "" -> Details.cf_city (pk_form (respond r st)) = Details.cf_city (pk_form st).
Proof.
  intros Hs. assert (Hn : nonempty (seen_city r) = true) by (unfold nonempty; by rewrite bool_decide_true).
  destruct r as [k c seen|text seen z]; simpl in Hn; unfold respond; cbv beta iota zeta.
  - destruct k as [| | |closes|name]; [done| | | |];
      unfold onAddressChange; rewrite Hn, andb_false_r; cbv beta iota zeta;
      [| |destruct closes|]; rewrite (proj1 (effect_fields _ _)); simpl;
      repeat case_match; reflexivity.
  - destruct (search text) as [[c1 name]|]; [|done].
    rewrite (proj1 (effect_fields _ _)). done.
Qed.

End Network.

End Picker.

(** * The wheel listener

    [handleWheel] (lines 263-270) is a [useCallback] over [zoom] whose
    [handleZoomIn]/[handleZoomOut] check the zoom of the render that
    created them, while the update itself is [prev => prev ± 1]; the
    listener is registered on the map by an effect (lines 386-394), so it
    is replaced only after the render that follows a zoom.  React queues
    the updates of a handler until it renders.  The state is the rendered
    zoom, the queued increments and the zoom the registered listener
    closes over. *)
Module Wheel.

Record wheel := mkWheel { w_zoom : Z; w_queue : list Z; w_listener : Z }.

Inductive wevent := WheelUp | WheelDown | Render | Reregister.

Definition wstep (st : wheel) (e : wevent) : wheel :=
  match e with
  | WheelUp =>
      if bool_decide (w_listener st < 18)%Z
      then mkWheel (w_zoom st) (w_queue st ++ [1%Z]) (w_listener st) else st
  | WheelDown =>
      if bool_decide (4 < w_listener st)%Z
      then mkWheel (w_zoom st) (w_queue st ++ [(-1)%Z]) (w_listener st) else st
  | Render => mkWheel (foldl Z.add (w_zoom st) (w_queue st)) [] (w_listener st)
  | Reregister => mkWheel (w_zoom st) (w_queue st) (w_zoom st)
  end.

Definition wrun (st : wheel) (es : list wevent) : wheel := foldl wstep st es.

(** One wheel event that React renders and whose listener is replaced
    before the next one. *)
Definition wsync (st : wheel) (up : bool) : wheel :=
  wrun st [if up then WheelUp else WheelDown; Render; Reregister].

Definition wheel_fresh (st : wheel) : Prop :=
  w_queue st = [] ∧ w_listener st = w_zoom st ∧ (4 <= w_zoom st <= 18)%Z.

Lemma wsync_fresh st up : wheel_fresh st -> wheel_fresh (wsync st up).
Proof.
  destruct st as [z q l]. intros (Hq & Hl & Hz). simpl in *. subst.
  unfold wsync, wrun, wheel_fresh. destruct up; simpl; case_bool_decide; simpl; split_and!; (done || lia).
Qed.

(** When each wheel event is rendered and its listener replaced before
    the next one, the zoom stays between 4 and 18. *)
Theorem wheel_sync_in_range st ups :
  wheel_fresh st -> (4 <= w_zoom (foldl wsync st ups) <= 18)%Z.
Proof.
  intros H. cut (wheel_fresh (foldl wsync st ups)); [by intros (_ & _ & ?)|].
  revert st H. induction ups as [|u ups IH]; intros st H; [done|]. simpl. by apply IH, wsync_fresh.
Qed.

End Wheel.

(** * Concrete runs *)
Module PickerExamples.
Import Geocode Picker Wheel.

Definition ct (c : coords) : string := "0.000000, 0.000000".

(** Nominatim puts the point of latitude 1 on Abai avenue and every other
    one on Satpayev street, in Almaty. *)
Definition ra (c : coords) : option reverse_data :=
  Some (mkReverse None (Some (mkAddr (Some (if Qeq_bool (fst c) 1 then "Абая" else "Сатпаева"))
          None None (Some "Алматы") None None None None None None))).

Definition sa (text : string) : option (list place) :=
  Some [mkPlace "Алматы, Казахстан" 3 0 (Some "kz")].

Definition c1 : coords := (1, 0)%Q.
Definition c2 : coords := (2, 0)%Q.

Lemma ct_nonempty : ∀ c, ct c ≠ "".
Proof. intros c. discriminate. Qed.

(** The picker as CreateTaskForm mounts it reports the centre of
    Kazakhstan to the form at once. *)
Example mount_reports_base :
  Details.cf_location (pk_form (mount None "" Details.create_form_init)) = Some BASE_COORDS.
Proof. reflexivity. Qed.

(** A state where a point was chosen and every answer has arrived. *)
Definition settled : picker :=
  mkPicker c1 "Абая, Алматы" "Алматы" true false false 15 false true []
    (with_address "Абая, Алматы" (with_location c1 Details.create_form_init)).

Definition summary (o : option picker) : option (option coords * string * coords) :=
  option_map (fun st => (Details.cf_location (pk_form st), Details.cf_address (pk_form st),
                         pk_coords st)) o.

(** Two arrow clicks and the answers out of order: the form keeps the
    first point while the map shows the second, with the second's
    address. *)
Example out_of_order_mismatch :
  summary (run ct ra sa id settled
             [EMove c1; EMove c2; ERespond 2; ERespond 0;
              ERespond 0; ERespond 0; ERespond 0; ERespond 0])
  = Some (Some c1, "Сатпаева, Алматы", c2).
Proof. vm_compute. reflexivity. Qed.

(** The same answers in order end aligned on the second point. *)
Example in_order_aligned :
  summary (option_map (drain ct ra sa id 12) (run ct ra sa id settled [EMove c1; EMove c2]))
  = Some (Some c2, "Сатпаева, Алматы", c2).
Proof. vm_compute. reflexivity. Qed.

(** A city typed while an answer is awaited is replaced by Nominatim's,
    when the form's city was empty as the request was sent. *)
Example typed_city_overwritten :
  option_map (fun st => Details.cf_city (pk_form st))
    (run ct ra sa id (set_form (with_city "" (pk_form settled)) settled)
       [EMove c2; EFormCity "Астана"; ERespond 0])
  = Some "Алматы".
Proof. vm_compute. reflexivity. Qed.

(** Three keystrokes in the title: three more requests. *)
Example keystrokes_three_requests :
  option_map (fun st => length (pk_pending st))
    (run ct ra sa id settled [EFormTitle "П"; EFormTitle "По"; EFormTitle "Пом"]) = Some 3%nat.
Proof. vm_compute. reflexivity. Qed.

(** Two quick wheel turns from 17 before React renders: zoom 19. *)
Example wheel_two_turns :
  w_zoom (wrun (mkWheel 17 [] 17) [WheelUp; WheelUp; Render]) = 19%Z.
Proof. reflexivity. Qed.

(** A turn between the render and the listener's replacement: zoom 19. *)
Example wheel_stale_listener :
  w_zoom (wrun (mkWheel 17 [] 17) [WheelUp; Render; WheelUp; Render]) = 19%Z.
Proof. reflexivity. Qed.

Lemma gesture_settles_witness :
  (∀ c, ct c ≠ "") ∧ pk_pending settled = [] ∧ pk_dragging settled = false ∧
  gesture_enabled sa id settled (GClick c2) ∧
  ∃ st1, run ct ra sa id settled (gesture_events (GClick c2)) = Some st1 ∧
    pk_pending (drain ct ra sa id (gesture_fuel (GClick c2)) st1) = [] ∧
    aligned ct ra (drain ct ra sa id (gesture_fuel (GClick c2)) st1).
Proof.
  assert (H2 : pk_pending settled = []) by reflexivity.
  assert (H3 : pk_dragging settled = false) by reflexivity.
  assert (H4 : gesture_enabled sa id settled (GClick c2)) by reflexivity.
  split; [exact ct_nonempty|]. split; [exact H2|]. split; [exact H3|]. split; [exact H4|].
  exact (gesture_settles ct ra sa id ct_nonempty settled (GClick c2) H2 H3 H4).
Defined.

Lemma location_error_unreachable_witness :
  star (picker_step ct ra sa id) (mount None "" Details.create_form_init)
       (mount None "" Details.create_form_init) ∧
  ∃ r w', Details.create_submit (pk_form (mount None "" Details.create_form_init)) 0
            (mkWorld ModelExamples.demo (mkClient None None [])) = Ok r w' ∧
          Details.cf_error (fst r) ≠ "Пожалуйста, выберите местоположение задания".
Proof.
  assert (Hs : star (picker_step ct ra sa id) (mount None "" Details.create_form_init)
                 (mount None "" Details.create_form_init)) by apply star_refl.
  split; [exact Hs|].
  destruct (Details.create_submit (pk_form (mount None "" Details.create_form_init)) 0
              (mkWorld ModelExamples.demo (mkClient None None []))) as [r w'|e w'] eqn:E.
  - exists r, w'. split; [reflexivity|].
    exact (location_error_unreachable ct ra sa id Details.create_form_init _ 0 _ r w' Hs E).
  - vm_compute in E. discriminate.
Defined.

Lemma zoom_in_range_witness :
  star (picker_step ct ra sa id) (mount None "" Details.create_form_init)
       (mount None "" Details.create_form_init) ∧
  (4 <= pk_zoom (mount None "" Details.create_form_init) <= 18)%Z.
Proof.
  assert (Hs : star (picker_step ct ra sa id) (mount None "" Details.create_form_init)
                 (mount None "" Details.create_form_init)) by apply star_refl.
  split; [exact Hs|]. exact (zoom_in_range ct ra sa id None "" _ _ Hs).
Defined.

Lemma keystroke_requests_witness :
  pk_hasUserSelected settled = true ∧ "П" ≠ Details.cf_title (pk_form settled) ∧
  step ct ra sa id settled (EFormTitle "П") =
  Some (push (RReverse KEffect (pk_coords settled) (Details.cf_city (pk_form settled)))
          (set_form (with_title "П" (pk_form settled)) settled)).
Proof.
  assert (H1 : pk_hasUserSelected settled = true) by reflexivity.
  assert (H2 : "П" ≠ Details.cf_title (pk_form settled)) by discriminate.
  split; [exact H1|]. split; [exact H2|].
  exact (keystroke_requests ct ra sa id settled "П" H1 H2).
Defined.

Lemma answer_keeps_typed_city_witness :
  seen_city (RReverse KEffect c2 "Астана") ≠ "" ∧
  Details.cf_city (pk_form (respond ct ra sa id (RReverse KEffect c2 "Астана") settled)) =
  Details.cf_city (pk_form settled).
Proof.
  assert (H : seen_city (RReverse KEffect c2 "Астана") ≠ "") by discriminate.
  split; [exact H|]. exact (answer_keeps_typed_city ct ra sa id _ settled H).
Defined.

Lemma wheel_sync_in_range_witness :
  wheel_fresh (mkWheel 17 [] 17) ∧
  (4 <= w_zoom (foldl wsync (mkWheel 17 [] 17) [true; true; false]) <= 18)%Z.
Proof.
  assert (H : wheel_fresh (mkWheel 17 [] 17)) by (unfold wheel_fresh; simpl; split_and!; (done || lia)).
  split; [exact H|]. exact (wheel_sync_in_range _ [true; true; false] H).
Defined.

(** Enter in the address field also runs the creation form's
    [handleSubmit]: the form is set loading, with no check of its fields,
    and its re-render sends one more address request. *)
Example enter_submits_form :
  option_map (fun st => (Details.cf_loading (pk_form st), length (pk_pending st)))
    (step ct ra sa id settled EAddressEnter) = Some (true, 2%nat).
Proof. reflexivity. Qed.

End PickerExamples.
