(* ===== verification/FormSession.v ===== *)
(** * FormSession: the forms that submit through a context call, while it runs

    LoginForm.jsx, Register.jsx and CreateTaskForm.jsx (src/src) follow one
    pattern: controlled fields; a [handleSubmit] that clears the error, sets
    [loading], may return early with a message (CreateTaskForm's missing
    location), awaits a context function, then navigates to the dashboard
    or shows the caught error's message, and clears [loading] in
    [finally]; a submit button [disabled={loading}]; inputs that stay
    editable while the call runs.  The class [AsyncForm] states what a form
    provides to this pattern (its edits, the browser's [required] checks,
    the error and loading fields, the early return, the call, the
    message, whether a nested form's submit event bubbles to it); the
    session ([session], [step]) is written once against it, and its
    theorems are proved once: without a nested form, [loading] is up
    exactly while the one call is in flight, and a submission answered at
    once computes the one-shot model of Forms.v and Details.v
    ([Forms.login_submit], [Forms.register_submit],
    [Details.create_submit]).  CreateTaskForm contains MapPicker, whose
    address field sits in a form of its own (MapPicker.jsx line 563): Enter
    there submits that form, and the event reaches CreateTaskForm's
    [handleSubmit] too, past the points input's checks and the disabled
    button ([SNested], [enter_stores_negative]). *)

From S2P Require Import Prelude Model Lifecycle Accounts Client Ledger Routes Forms Details PointsField Geocode Picker.
From Stdlib Require Import QArith.
Local Close Scope Q_scope.
Local Open Scope api_scope.

Module FormSession.
Import Geocode PointsField.

Class AsyncForm (F E : Type) := {
  af_apply : E -> F -> F;              (** an input's [onChange] or a button that fills fields *)
  af_ready : F -> bool;                (** the browser's checks of the [required] fields *)
  af_error : F -> string;
  af_loading : F -> bool;
  af_set : string -> bool -> F -> F;   (** [setError(e)] and [setLoading(b)] *)
  af_pre : F -> option string;         (** an early [return] after [setError(msg)] *)
  af_call : F -> Z -> Ctx unit;        (** the awaited context function *)
  af_fail : ctx_error -> string;       (** what the [catch] shows *)
  af_nested : bool;                    (** a nested form whose submit bubbles to [onSubmit] *)
  af_loading_set e b f : af_loading (af_set e b f) = b;
  af_error_set e b f : af_error (af_set e b f) = e;
  af_set_set e b e' b' f : af_set e b (af_set e' b' f) = af_set e b f;
  af_ready_set e b f : af_ready (af_set e b f) = af_ready f;
  af_loading_apply x f : af_loading (af_apply x f) = af_loading f
}.

Section Session.
Context {F E : Type} `{!AsyncForm F E}.

(** The page: its fields, where it navigated, the submissions waiting on
    their [await] (with the fields they read and the clock), the world. *)
Record session := mkSession {
  se_form : F; se_route : option Routes.route; se_pending : list (F * Z); se_world : world
}.

Definition start (f : F) (w : world) : session := mkSession f None [] w.

(** [SNested]: Enter in the only input of a form nested in this one; its
    submit event bubbles (React does not stop it) to [onSubmit], with
    neither the browser's checks of this form nor its disabled button. *)
Inductive sevent := SEdit (x : E) | SSubmit (now : Z) | SNested (now : Z) | SRespond (i : nat).

(** [handleSubmit] up to its [await]. *)
Definition submit (now : Z) (st : session) : session :=
  let f1 := af_set "" true (se_form st) in
  match af_pre f1 with
  | Some msg => mkSession (af_set msg false f1) (se_route st) (se_pending st) (se_world st)
  | None => mkSession f1 (se_route st) (se_pending st ++ [(f1, now)]) (se_world st)
  end.

(** The code after the [await]: [navigate('/dashboard')] or [setError],
    then [setLoading(false)]. *)
Definition respond (f0 : F) (now : Z) (st : session) : session :=
  match af_call f0 now (se_world st) with
  | Ok _ w' => mkSession (af_set (af_error (se_form st)) false (se_form st)) (Some Routes.RDashboard)
                 (se_pending st) w'
  | Err e w' => mkSession (af_set (af_fail e) false (se_form st)) (se_route st) (se_pending st) w'
  end.

(** One event; the submit button is disabled while [loading], and the
    browser blocks a form whose required fields are not filled. *)
Definition step (st : session) (e : sevent) : option session :=
  match e with
  | SEdit x => Some (mkSession (af_apply x (se_form st)) (se_route st) (se_pending st) (se_world st))
  | SSubmit now =>
      if af_ready (se_form st) && negb (af_loading (se_form st)) then Some (submit now st) else None
  | SNested now => if af_nested then Some (submit now st) else None
  | SRespond i =>
      match se_pending st !! i with
      | Some (f0, now) =>
          Some (respond f0 now (mkSession (se_form st) (se_route st) (delete i (se_pending st))
                                  (se_world st)))
      | None => None
      end
  end.

Fixpoint run (st : session) (es : list sevent) : option session :=
  match es with
  | [] => Some st
  | e :: es' => match step st e with Some st' => run st' es' | None => None end
  end.

Definition session_step (st st' : session) : Prop := ∃ e, step st e = Some st'.

(** The answer to the oldest submission, if one is waiting. *)
Definition answer (st : session) : session :=
  match step st (SRespond 0) with Some st' => st' | None => st end.

(** The one-shot model: the submission and its answer as one call. *)
Definition oneshot (f : F) (now : Z) : Ctx (F * option Routes.route) := fun w =>
  let f1 := af_set "" true f in
  match af_pre f1 with
  | Some msg => Ok (af_set msg false f1, None) w
  | None =>
      match af_call f1 now w with
      | Ok _ w' => Ok (af_set "" false f1, Some Routes.RDashboard) w'
      | Err e w' => Ok (af_set (af_fail e) false f1, None) w'
      end
  end.

(** ** The session's invariant *)

(** [loading] is up exactly while one submission waits, and every waiting
    submission read fields the browser let through. *)
Definition session_ok (st : session) : Prop :=
  length (se_pending st) = (if af_loading (se_form st) then 1 else 0) ∧
  Forall (λ p, af_ready p.1 = true) (se_pending st).

Lemma respond_form f0 now st :
  se_form (respond f0 now st) = af_set (match af_call f0 now (se_world st) with
                                       | Ok _ _ => af_error (se_form st)
                                       | Err e _ => af_fail e end) false (se_form st) ∧
  se_pending (respond f0 now st) = se_pending st ∧
  se_world (respond f0 now st) = final_store (af_call f0 now (se_world st)).
Proof. unfold respond. by destruct (af_call f0 now (se_world st)). Qed.

Lemma single_pending (l : list (F * Z)) i p :
  length l = 1 -> l !! i = Some p -> l = [p] ∧ delete i l = [].
Proof. destruct l as [|q [|]]; try done. destruct i as [|[]]; naive_solver. Qed.

Lemma step_ok st e st' :
  af_nested = false -> session_ok st -> step st e = Some st' -> session_ok st'.
Proof.
  intros Hn [Hlen Hready] Hs. destruct e as [x|now|now|i]; simpl in Hs.
  - simplify_eq. split; [simpl; by rewrite af_loading_apply|done].
  - destruct (af_ready (se_form st)) eqn:Hr, (af_loading (se_form st)) eqn:Hl; simplify_eq/=.
    destruct st as [fm r [|] wd]; [|done]. unfold submit; simpl in *.
    destruct (af_pre _); split; simpl; rewrite ?af_loading_set; try done.
    constructor; [simpl; by rewrite af_ready_set|done].
  - rewrite ?Hn in Hs. done.
  - destruct (se_pending st !! i) as [[f0 now]|] eqn:Hi; simplify_eq.
    destruct (af_loading (se_form st)); [|by destruct (se_pending st)].
    destruct (single_pending _ _ _ Hlen Hi) as [_ Hd].
    unfold session_ok. destruct (respond_form f0 now (mkSession (se_form st) (se_route st) (delete i (se_pending st))
                                     (se_world st))) as (-> & -> & _).
    rewrite af_loading_set; simpl; by rewrite Hd.
Qed.

Lemma pending_ready st f0 now i :
  session_ok st -> se_pending st !! i = Some (f0, now) -> af_ready f0 = true.
Proof. intros [_ H] Hi. by apply (Forall_lookup_1 _ _ _ _ H Hi). Qed.

Lemma start_ok f w : af_loading f = false -> session_ok (start f w).
Proof. intros Hl. split; [simpl; by rewrite Hl|constructor]. Qed.

Lemma session_run_star st es st' : run st es = Some st' -> star session_step st st'.
Proof.
  revert st. induction es as [|e es IH]; intros st H; cbn in H; [simplify_eq; constructor|].
  destruct (step st e) as [st1|] eqn:Hst; [|done].
  eapply star_cons; [by exists e|exact (IH _ H)].
Qed.

(** C13: in a form with no nested form (LoginForm and Register), the
    [loading] flag is up exactly while the one submission it guards waits
    for its answer: the disabled submit button never lets a second call
    start. *)
Theorem session_loading_guard (f : F) w st :
  af_nested = false -> af_loading f = false -> star session_step (start f w) st ->
  length (se_pending st) = if af_loading (se_form st) then 1 else 0.
Proof.
  intros Hn Hl Hs. apply (star_invariant session_step session_ok (start f w)); try done.
  - intros x y Hx [e He]. by eapply step_ok.
  - by apply start_ok.
Qed.

(** A submission answered before any other event is the one-shot model. *)
Lemma submit_answer f now w :
  af_ready f = true -> af_loading f = false ->
  ∃ st, step (start f w) (SSubmit now) = Some st ∧
        oneshot f now w = Ok (se_form (answer st), se_route (answer st)) (se_world (answer st)).
Proof.
  intros Hr Hl. eexists. split; [simpl; by rewrite Hr, Hl|].
  unfold oneshot, answer, submit. simpl. destruct (af_pre _) as [msg|]; [done|].
  unfold respond; simpl. destruct (af_call _ now w); by rewrite ?af_error_set.
Qed.

End Session.

(** ** LoginForm.jsx *)

(** The login input (line 44), the password input (line 54), and the
    three quick sign-in buttons (lines 74-103). *)
Inductive login_edit := EditLogin (s : string) | EditPassword (s : string) | Quick (q : Forms.quick).

Definition login_apply (x : login_edit) (f : Forms.login_form) : Forms.login_form :=
  match x with
  | EditLogin s => Forms.mkLoginForm s (Forms.lf_password f) (Forms.lf_error f) (Forms.lf_loading f)
  | EditPassword s => Forms.mkLoginForm (Forms.lf_login f) s (Forms.lf_error f) (Forms.lf_loading f)
  | Quick q => Forms.quick_fill q f
  end.

(** The two inputs are [required] (lines 45 and 55). *)
Definition login_ready (f : Forms.login_form) : bool :=
  nonempty (Forms.lf_login f) && nonempty (Forms.lf_password f).

Definition login_set (e : string) (b : bool) (f : Forms.login_form) : Forms.login_form :=
  Forms.mkLoginForm (Forms.lf_login f) (Forms.lf_password f) e b.

(** [await login(loginData, password)] (line 19). *)
Definition login_call (f : Forms.login_form) (_ : Z) : Ctx unit :=
  Client.login (Forms.lf_login f) (Forms.lf_password f) ;;; ret tt.

#[export] Instance login_async : AsyncForm Forms.login_form login_edit.
Proof.
  refine {| af_apply := login_apply; af_ready := login_ready; af_error := Forms.lf_error;
            af_loading := Forms.lf_loading; af_set := login_set; af_pre _ := None;
            af_call := login_call; af_fail _ := "Неверный логин или пароль";
            af_nested := false |};
    try reflexivity.
  intros [| |[]] []; reflexivity.
Defined.

(** ** Register.jsx *)

(** [handleChange] (lines 17-22) writes the field named by the input. *)
Inductive reg_field := FLogin | FPassword | FName | FEmail.

Definition register_apply (x : reg_field * string) (f : Forms.register_form) : Forms.register_form :=
  let d := Forms.rf_data f in
  let d' := match x.1 with
            | FLogin => mkRegister x.2 (reg_password d) (reg_name d) (reg_email d)
            | FPassword => mkRegister (reg_login d) x.2 (reg_name d) (reg_email d)
            | FName => mkRegister (reg_login d) (reg_password d) x.2 (reg_email d)
            | FEmail => mkRegister (reg_login d) (reg_password d) (reg_name d) x.2
            end in
  Forms.mkRegisterForm d' (Forms.rf_error f) (Forms.rf_loading f).

(** The four inputs are [required] (lines 58, 70, 82 and 94); the format
    of the [type="email"] input is the browser's check [valid_email]. *)
Definition register_ready (valid_email : string -> bool) (f : Forms.register_form) : bool :=
  let d := Forms.rf_data f in
  nonempty (reg_name d) && nonempty (reg_email d) && valid_email (reg_email d) &&
  nonempty (reg_login d) && nonempty (reg_password d).

Definition register_set (e : string) (b : bool) (f : Forms.register_form) : Forms.register_form :=
  Forms.mkRegisterForm (Forms.rf_data f) e b.

(** [await register(formData)] (line 30). *)
Definition register_call (f : Forms.register_form) (now : Z) : Ctx unit :=
  Client.register (Forms.rf_data f) now ;;; ret tt.

Definition register_async (valid_email : string -> bool) :
  AsyncForm Forms.register_form (reg_field * string).
Proof.
  refine {| af_apply := register_apply; af_ready := register_ready valid_email;
            af_error := Forms.rf_error; af_loading := Forms.rf_loading; af_set := register_set;
            af_pre _ := None; af_call := register_call;
            af_fail e := Forms.message_or e "Ошибка регистрации"; af_nested := false |};
    try reflexivity.
Defined.

(** ** CreateTaskForm.jsx *)

(** The inputs (lines 69, 82, 117, 130, 145, 176), the images of
    [ImageUpload] (line 156) and the map picker's two callbacks
    (lines 92-103). *)
Inductive create_edit :=
| ETitle (s : string) | EDescription (s : string) | ECity (s : string) | EPhone (s : string)
| EContactInfo (s : string) | EImages (l : list string) | EPoints (s : string)
| ELocation (c : Picker.coords) | EAddress (addr city : string).

Definition create_apply (x : create_edit) (f : Details.create_form) : Details.create_form :=
  let '(Details.mkCreateForm t d c p ci im pts loc a e b) := f in
  match x with
  | ETitle s => Picker.with_title s f
  | EDescription s => Details.mkCreateForm t s c p ci im pts loc a e b
  | ECity s => Picker.with_city s f
  | EPhone s => Details.mkCreateForm t d c s ci im pts loc a e b
  | EContactInfo s => Details.mkCreateForm t d c p s im pts loc a e b
  | EImages l => Details.mkCreateForm t d c p ci l pts loc a e b
  | EPoints s => Details.mkCreateForm t d c p ci im s loc a e b
  | ELocation co => Picker.with_location co f
  | EAddress addr city => (Picker.onAddressChange addr city c f).1
  end.

(** The [required] inputs (lines 71, 85, 119, 132) and the points input's
    [min="1"], [max] and step (lines 177-180), whose maximum [maxv] is
    [user?.points || 1000] at the time of the submission. *)
Definition create_ready (maxv : Z) (f : Details.create_form) : bool :=
  nonempty (Details.cf_title f) && nonempty (Details.cf_description f) &&
  nonempty (Details.cf_city f) && nonempty (Details.cf_phone f) &&
  points_accepted (Details.cf_points f) maxv.

Definition create_set (e : string) (b : bool) (f : Details.create_form) : Details.create_form :=
  let '(Details.mkCreateForm t d c p ci im pts loc a _ _) := f in
  Details.mkCreateForm t d c p ci im pts loc a e b.

(** The early return of lines 29-33. *)
Definition create_pre (f : Details.create_form) : option string :=
  match Details.cf_location f with
  | None => Some "Пожалуйста, выберите местоположение задания"
  | Some _ => None
  end.

(** [await createTask({...})] (lines 36-48). *)
Definition create_call (f : Details.create_form) (now : Z) : Ctx unit :=
  match Details.cf_location f with
  | Some loc => Client.createTask (Details.create_payload f loc) now ;;; ret tt
  | None => ret tt
  end.

Definition create_async (maxv : Z) : AsyncForm Details.create_form create_edit.
Proof.
  refine {| af_apply := create_apply; af_ready := create_ready maxv;
            af_error := Details.cf_error; af_loading := Details.cf_loading; af_set := create_set;
            af_pre := create_pre; af_call := create_call;
            af_fail e := Forms.message_or e "Ошибка создания задания";
            af_nested := true |};
    try (intros; repeat match goal with f : Details.create_form |- _ => destruct f end; reflexivity).
  intros [] []; try reflexivity.
  unfold Picker.onAddressChange; cbn. repeat case_match; reflexivity.
Defined.

(** ** The one-shot models of Forms.v and Details.v are the sessions' submissions *)

Lemma login_oneshot f now w :
  login_ready f = true -> oneshot f now w = Forms.login_submit f w.
Proof.
  unfold login_ready, nonempty. intros Hr. apply andb_prop in Hr as [H1 H2].
  apply bool_decide_eq_true_1 in H1, H2. unfold oneshot, Forms.login_submit.
  rewrite bool_decide_false by tauto.
  simpl. unfold login_call, bind, ret. by destruct (Client.login _ _ w).
Qed.

Lemma register_oneshot valid_email f now w :
  register_ready valid_email f = true ->
  @oneshot _ _ (register_async valid_email) f now w = Forms.register_submit f now w.
Proof.
  unfold register_ready, nonempty. intros Hr.
  apply andb_prop in Hr as [Hr H4]. apply andb_prop in Hr as [Hr H3].
  apply andb_prop in Hr as [Hr _]. apply andb_prop in Hr as [H1 H2].
  apply bool_decide_eq_true_1 in H1, H2, H3, H4. unfold oneshot, Forms.register_submit.
  rewrite bool_decide_false by tauto.
  simpl. unfold register_call, bind, ret. by destruct (Client.register _ _ w).
Qed.

Lemma create_oneshot mx f now w :
  @oneshot _ _ (create_async mx) f now w = Details.create_submit f now w.
Proof.
  destruct f as [t d c p ci im pts [loc|] a e b]; unfold oneshot, Details.create_submit; simpl;
    [|done]. unfold create_call, Details.create_payload, bind, ret; simpl.
  by destruct (Client.createTask _ _ w).
Qed.

(** [createTask] for a signed-in user: the store gets the API's new task. *)
Lemma create_call_signed f now w u loc :
  Details.cf_location f = Some loc -> c_user (w_client w) = Some u -> pu_id u ≠ "" ->
  ∃ w', create_call f now w = Ok tt w' ∧
        w_store w' = final_store (Lifecycle.createTask
                       (Client.with_creator (Details.create_payload f loc) (pu_id u)) now (w_store w)).
Proof.
  intros Hloc Hu Hid. unfold create_call. rewrite Hloc. destruct w as [s cl]. simpl in Hu.
  unfold bind, ret, Client.createTask. Client.ctx_unfold. rewrite Hu, bool_decide_true by done.
  simpl. rewrite Lifecycle.createTask_run. simpl.
  match goal with |- context [Client.refreshUser ?w'] =>
    destruct (Client.refreshUser_keeps w') as (c & -> & _) end.
  eexists. split; [reflexivity|]. simpl. reflexivity.
Qed.

(** ** The session of the creation form *)

Section CreateSession.
Variable maxv : Z.
#[local] Instance create_here : AsyncForm Details.create_form create_edit := create_async maxv.

(** A submission answered before any other event leaves the page, the
    route and the world as the one-call model [Details.create_submit]
    computes them. *)
Theorem create_session_refines f now w :
  create_ready maxv f = true -> Details.cf_loading f = false ->
  ∃ st, step (start f w) (SSubmit now) = Some st ∧
        Details.create_submit f now w =
        Ok (se_form (answer st), se_route (answer st)) (se_world (answer st)).
Proof.
  intros Hr Hl. destruct (@submit_answer _ _ create_here f now w Hr Hl) as (st & Hs & Ho).
  exists st. split; [done|]. by rewrite <- (create_oneshot maxv).
Qed.

(** C7: Enter in MapPicker's address field submits MapPicker's own form
    (MapPicker.jsx line 563), nested in the creation form (line 61), and
    its submit event bubbles to the creation form's [handleSubmit] with
    neither the points input's checks nor the disabled button: whatever
    the page's state, a points text that [parseInt] reads as a negative
    number is stored as the task's points, and the store loses the
    non-negative ledger. *)
Theorem enter_stores_negative f now w u loc p :
  Details.cf_location f = Some loc -> Details.parseInt (Details.cf_points f) = Some p -> (p < 0)%Z ->
  c_user (w_client w) = Some u -> pu_id u ≠ "" ->
  ∃ st, run (start f w) [SNested now; SRespond 0] = Some st ∧
        (∃ t, t ∈ st_tasks (w_store (se_world st)) ∧ t_points t = Some p) ∧
        ¬ ledger_ok (w_store (se_world st)).
Proof.
  intros Hloc Hpts Hp Hu Hid.
  set (f1 := create_set "" true f).
  assert (Hloc1 : Details.cf_location f1 = Some loc) by (unfold f1; by destruct f).
  assert (Hpts1 : Details.cf_points f1 = Details.cf_points f) by (unfold f1; by destruct f).
  destruct (create_call_signed f1 now w u loc Hloc1 Hu Hid) as (w' & Hc & Hs).
  destruct (Lifecycle.createTask_appends_pending
              (Client.with_creator (Details.create_payload f1 loc) (pu_id u)) now (w_store w))
    as (s' & Hct & Hts & _ & _ & _ & _ & Hpt).
  assert (Hpre : create_pre f1 = None) by (unfold create_pre; by rewrite Hloc1).
  eexists. split.
  { cbn [run step af_nested create_here create_async]. unfold submit. simpl.
    change (create_set "" true f) with f1. rewrite Hpre. simpl. unfold respond. simpl.
    change (create_set "" true f) with f1. rewrite Hc. reflexivity. }
  simpl. rewrite Hs, Hct. simpl. rewrite Hts.
  assert (Hnp : t_points (Lifecycle.newTask (Client.with_creator (Details.create_payload f1 loc) (pu_id u)) now)
                = Some p) by (rewrite Hpt; simpl; by rewrite Hpts1).
  split; [eexists; split; [apply elem_of_app; right; by constructor|exact Hnp]|].
  intros [_ Hall]. rewrite Hts in Hall. apply Forall_app in Hall as [_ Hlast]. inversion Hlast as [|? ? Hx]; subst.
  rewrite Hnp in Hx. simpl in Hx. lia.
Qed.

End CreateSession.

Arguments session F : clear implicits.
Arguments sevent E : clear implicits.

End FormSession.

(** * Concrete sessions of the three forms *)

Module FormSessionExamples.
Import FormSession ModelExamples ClientExamples PointsField.PointsFieldExamples.

Lemma session_loading_guard_witness :
  ∃ st, run (start Forms.login_form_init w_user)
          [SEdit (Quick Forms.QuickUser1); SSubmit 0; SEdit (EditPassword "1234")] = Some st ∧
        length (se_pending st) = if af_loading (se_form st) then 1 else 0.
Proof.
  eexists. split; [reflexivity|].
  apply (session_loading_guard Forms.login_form_init w_user); [reflexivity|reflexivity|].
  apply (session_run_star _ [SEdit (Quick Forms.QuickUser1); SSubmit 0; SEdit (EditPassword "1234")]).
  reflexivity.
Defined.

Lemma enter_stores_negative_witness :
  Details.cf_location (filled "-5") = Some (43 # 1, 76 # 1)%Q ∧
  Details.parseInt (Details.cf_points (filled "-5")) = Some (-5)%Z ∧ (-5 < 0)%Z ∧
  c_user (w_client w_user) = Some (strip_password (mk_user "2" "user1" USER (Some 10%Z))) ∧
  pu_id (strip_password (mk_user "2" "user1" USER (Some 10%Z))) ≠ "" ∧
  ∃ st, @run _ _ (create_async 1000) (start (filled "-5") w_user) [SNested 5000; SRespond 0] = Some st ∧
        (∃ t, t ∈ st_tasks (w_store (se_world st)) ∧ t_points t = Some (-5)%Z) ∧
        ¬ ledger_ok (w_store (se_world st)).
Proof.
  assert (H1 : Details.cf_location (filled "-5") = Some (43 # 1, 76 # 1)%Q) by reflexivity.
  assert (H2 : Details.parseInt (Details.cf_points (filled "-5")) = Some (-5)%Z) by reflexivity.
  assert (H3 : (-5 < 0)%Z) by lia.
  assert (H4 : c_user (w_client w_user) = Some (strip_password (mk_user "2" "user1" USER (Some 10%Z))))
    by reflexivity.
  assert (H5 : pu_id (strip_password (mk_user "2" "user1" USER (Some 10%Z))) ≠ "") by discriminate.
  split_and!; try assumption.
  exact (enter_stores_negative 1000 (filled "-5") 5000 w_user _ _ _ H1 H2 H3 H4 H5).
Defined.

(** While the first call is in flight, Enter in the address field starts a
    second [createTask]: two tasks are posted. *)
Example enter_while_loading :
  option_map (fun st => length (se_pending st))
    (@run _ _ (create_async 1000) (start (filled "50") w_user) [SSubmit 5000; SNested 5001])
  = Some 2%nat.
Proof. reflexivity. Qed.

(** The login page while its call is in flight: a second submission is
    refused, and a password typed meanwhile stays in the field when the
    answer comes. *)
Example typing_kept_while_waiting :
  ∃ st, run (start Forms.login_form_init w_user)
          [SEdit (Quick Forms.QuickUser1); SSubmit 0; SEdit (EditPassword "1234")] = Some st ∧
        step st (SSubmit 1) = None ∧
        Forms.lf_password (se_form (answer st)) = "1234" ∧
        Forms.lf_loading (se_form (answer st)) = false.
Proof. eexists. split; [reflexivity|]. vm_compute. auto. Qed.

End FormSessionExamples.
