(* ===== verification/CreatePage.v ===== *)
(** * CreatePage: the creation form with its photo picker

    CreateTaskForm.jsx (src/src) mounts [<ImageUpload onImagesChange=
    {setImages} maxImages={5} />] (lines 155-158): the form's [images] state
    is written only by the photo picker's callback.  The page is the
    product of the two transition systems, ImageUpload.jsx's ([Upload.step])
    and the form's session ([FormSession.step] over [create_async]), where
    a picker event that calls [onImagesChange] also edits the form.  The
    theorems relate the two states the way a simulation relates two
    programs: the form's images agree with the photos the grid shows
    after every event ([images_agree]), so every submission sends exactly
    the pictures on the screen. *)

From S2P Require Import Prelude Model Lifecycle Client Details Upload Picker FormSession.
From Stdlib Require Import QArith.
Local Open Scope api_scope.

Module CreatePage.
Import Upload FormSession.

(** [maxImages={5}] (line 157). *)
Definition maxImages : Z := 5.

Record page := mkPage { pg_upload : upload; pg_form : session Details.create_form }.

Definition page_init (f : Details.create_form) (w : world) : page :=
  mkPage upload_init (start f w).

Inductive pevent :=
| PUpload (e : Upload.event)                  (** a gesture on the picker or a reader's completion *)
| PForm (e : sevent create_edit).             (** any other event of the form *)

(** [setImages] is reached only through [onImagesChange]: the form has no
    other input for its images. *)
Definition images_edit (e : sevent create_edit) : bool :=
  match e with SEdit (EImages _) => true | _ => false end.

(** [onImagesChange={setImages}] (line 156). *)
Definition setImages (l : list string) (s : session Details.create_form) : session Details.create_form :=
  mkSession (create_apply (EImages l) (se_form s)) (se_route s) (se_pending s) (se_world s).

Definition page_step (maxv : Z) (p : page) (e : pevent) : option page :=
  match e with
  | PUpload e =>
      match Upload.step maxImages (pg_upload p) e with
      | Some u' =>
          Some (mkPage u' (match notify e u' with
                           | Some l => setImages l (pg_form p)
                           | None => pg_form p
                           end))
      | None => None
      end
  | PForm e =>
      if images_edit e then None
      else match @FormSession.step _ _ (create_async maxv) (pg_form p) e with
           | Some s' => Some (mkPage (pg_upload p) s')
           | None => None
           end
  end.

Definition page_rel (maxv : Z) (p p' : page) : Prop := ∃ e, page_step maxv p e = Some p'.

Fixpoint page_run (maxv : Z) (p : page) (es : list pevent) : option page :=
  match es with
  | [] => Some p
  | e :: es' => match page_step maxv p e with Some p' => page_run maxv p' es' | None => None end
  end.

(** ** The agreement of the two states *)

Definition agree (p : page) : Prop :=
  Details.cf_images (se_form (pg_form p)) = previews (pg_upload p).

Lemma create_apply_images x f :
  (∀ l, x ≠ EImages l) -> Details.cf_images (create_apply x f) = Details.cf_images f.
Proof.
  intros Hx. destruct f; destruct x; try done; [by destruct (Hx l)|].
  unfold Picker.onAddressChange. simpl. by repeat case_match.
Qed.

Lemma submit_images maxv now s :
  Details.cf_images (se_form (@submit _ _ (create_async maxv) now s)) = Details.cf_images (se_form s).
Proof. unfold submit; simpl. destruct (create_pre _); simpl; by destruct (se_form s). Qed.

(** The form's own events keep its images. *)
Lemma form_step_images maxv s e s' :
  images_edit e = false -> @FormSession.step _ _ (create_async maxv) s e = Some s' ->
  Details.cf_images (se_form s') = Details.cf_images (se_form s).
Proof.
  intros He Hs. destruct e as [x|now|now|i]; simpl in Hs.
  - simplify_eq/=. apply create_apply_images. intros l ->. done.
  - destruct (_ && _); simplify_eq. by apply submit_images.
  - simplify_eq. by apply submit_images.
  - destruct (se_pending s !! i) as [[f0 now]|]; simplify_eq.
    unfold respond; simpl. destruct (create_call _ _ _); simpl; by destruct (se_form s).
Qed.

Lemma page_step_agree maxv p e p' : agree p -> page_step maxv p e = Some p' -> agree p'.
Proof.
  unfold agree. intros Ha Hs. destruct e as [e|e]; simpl in Hs.
  - destruct (Upload.step maxImages (pg_upload p) e) as [u'|] eqn:Hu; simplify_eq/=.
    destruct (notify e u') as [l|] eqn:Hn.
    + destruct e; simplify_eq/=; by destruct (se_form (pg_form p)).
    + unfold previews in *. by rewrite (step_quiet _ _ _ _ Hu Hn).
  - destruct (images_edit e) eqn:He; [done|].
    destruct (FormSession.step _ e) as [s'|] eqn:Hs'; simplify_eq/=.
    by rewrite (form_step_images _ _ _ _ He Hs').
Qed.

Lemma page_run_star maxv p es p' : page_run maxv p es = Some p' -> star (page_rel maxv) p p'.
Proof.
  revert p. induction es as [|e es IH]; intros p H; cbn in H; [simplify_eq; constructor|].
  destruct (page_step maxv p e) as [p1|] eqn:Hp; [|done].
  eapply star_cons; [by exists e|exact (IH _ H)].
Qed.

Lemma page_agree maxv f w p :
  Details.cf_images f = [] -> star (page_rel maxv) (page_init f w) p -> agree p.
Proof.
  intros Hf Hs. apply (star_invariant (page_rel maxv) agree (page_init f w)); [|done|done].
  intros x y Hx [e He]. by eapply page_step_agree.
Qed.

(** C14: on the creation page, after any sequence of events (typing,
    drops, readers finishing in any order, removals, submissions and their
    answers), the images the form holds are exactly the pictures the
    picker's grid shows, in order. *)
Theorem images_agree maxv f w p :
  Details.cf_images f = [] -> star (page_rel maxv) (page_init f w) p ->
  Details.cf_images (se_form (pg_form p)) = shown (view maxImages (pg_upload p)).
Proof. intros Hf Hs. rewrite shown_view. exact (page_agree maxv f w p Hf Hs). Qed.

(** A submission of the creation page with a location sends the
    pictures the grid shows as the task's images, and the first of them,
    or the default picture when there is none, as its [imageUrl]. *)
Theorem submission_sends_shown maxv f w p loc :
  Details.cf_images f = [] -> star (page_rel maxv) (page_init f w) p ->
  in_images (Details.create_payload (se_form (pg_form p)) loc) =
    Some (shown (view maxImages (pg_upload p))) ∧
  in_imageUrl (Details.create_payload (se_form (pg_form p)) loc) =
    Some (match shown (view maxImages (pg_upload p)) with
          | src :: _ => src | [] => Details.default_image end).
Proof.
  intros Hf Hs. rewrite shown_view, <- (page_agree maxv f w p Hf Hs). by split.
Qed.

End CreatePage.

(** * Concrete runs of the creation page *)

Module CreatePageExamples.
Import CreatePage Upload FormSession ClientExamples UploadExamples.

(** Two photos dropped, both read, the first removed, a title typed. *)
Definition gestures : list pevent :=
  [PUpload (EDrop [photo "a"; photo "b"]); PUpload (ELoad 1); PUpload (ELoad 0);
   PUpload (ERemove 0); PForm (SEdit (ETitle "Уборка"))].

Lemma images_agree_witness :
  ∃ p, page_run 1000 (page_init Details.create_form_init w_user) gestures = Some p ∧
       Details.cf_images (se_form (pg_form p)) = shown (view maxImages (pg_upload p)).
Proof.
  eexists. split; [reflexivity|].
  apply (images_agree 1000 Details.create_form_init w_user); [reflexivity|].
  apply (page_run_star _ _ gestures). reflexivity.
Defined.

Lemma submission_sends_shown_witness :
  ∃ p, page_run 1000 (page_init Details.create_form_init w_user) gestures = Some p ∧
  in_images (Details.create_payload (se_form (pg_form p)) (43, 76)%Q) =
    Some (shown (view maxImages (pg_upload p))) ∧
  in_imageUrl (Details.create_payload (se_form (pg_form p)) (43, 76)%Q) =
    Some (match shown (view maxImages (pg_upload p)) with
          | src :: _ => src | [] => Details.default_image end).
Proof.
  eexists. split; [reflexivity|].
  apply (submission_sends_shown 1000 Details.create_form_init w_user); [reflexivity|].
  apply (page_run_star _ _ gestures). reflexivity.
Defined.

(** The readers finish in the other order than the files were dropped:
    the grid, and the task's photos, follow the completions. *)
Example completion_order :
  option_map (fun p => Details.cf_images (se_form (pg_form p)))
    (page_run 1000 (page_init Details.create_form_init w_user)
       [PUpload (EDrop [photo "a"; photo "b"]); PUpload (ELoad 1); PUpload (ELoad 0)])
  = Some ["b"; "a"].
Proof. reflexivity. Qed.

(** Two drops of five photos before the readers finish: the form, which
    says "максимум 5", holds ten photos and would send them all. *)
Example ten_photos_sent :
  option_map (fun p => length (Details.cf_images (se_form (pg_form p))))
    (page_run 1000 (page_init Details.create_form_init w_user)
       (PUpload (EDrop (five "a")) :: PUpload (EDrop (five "b")) ::
        repeat (PUpload (ELoad 0)) 10)) = Some 10%nat.
Proof. reflexivity. Qed.

End CreatePageExamples.
