(* ===== verification/MapView.v ===== *)
(** * MapView: the map of the user's feed

    UserDashboard.jsx (lines 78-104) gives every task of the feed the point
    it is shown at ([coordinates]: the task's own latitude and longitude,
    or its city's, or Almaty's), and MapView.jsx draws the feed on an
    OpenStreetMap frame: a bounding box around the user and every task,
    widened by a padding that depends on its size, and one marker per task
    followed by the user's.  Coordinates are rationals; [parseFloat] of a
    number is the number.  The frame's URL is not modelled, only the box
    and the markers it encodes. *)

From S2P Require Import Prelude Model Seed.
From Stdlib Require Import QArith Qminmax Lqa.

Module MapView.

(** [x && y] on a coordinate: [0], [null] and [undefined] are falsy. *)
Definition truthy_q (o : option Q) : bool :=
  match o with Some q => negb (Qeq_bool q 0) | None => false end.

(** [cityCoordinates['Алматы']] *)
Definition ALMATY : Q * Q := (432220 # 10000, 768512 # 10000)%Q.

(** [cityCoordinates[city] || cityCoordinates['Алматы']]: the dashboard's
    table (lines 10-23) has the twelve entries of mockApi's. *)
Definition city_point (city : string) : Q * Q := default ALMATY (Seed.cityCoordinates city).

(** [taskCoords] (UserDashboard lines 82-92); a stored task has no
    [coordinates] field, so the middle branch never applies. *)
Definition taskCoords (t : task) : Q * Q :=
  let c := t_content t in
  if truthy_q (c_latitude c) && truthy_q (c_longitude c)
  then (default 0 (c_latitude c), default 0 (c_longitude c))
  else city_point (c_city c).

(** A task of the feed with the point the dashboard added (line 103). *)
Definition enrich (t : task) : task * option (Q * Q) := (t, Some (taskCoords t)).

(** [t.city && ...]: a non-empty city name. *)
Definition has_city (t : task) : bool := bool_decide (c_city (t_content t) ≠ "").

(** The latitude of [allLats] (MapView lines 17-24). *)
Definition lat_of (user : Q * Q) (t : task) (coords : option (Q * Q)) : Q :=
  let c := t_content t in
  if truthy_q (c_latitude c) && truthy_q (c_longitude c) then default 0 (c_latitude c)
  else if truthy_q (option_map fst coords) then default 0 (option_map fst coords)
  else if has_city t then fst (city_point (c_city c))
  else fst user.

(** The longitude of [allLngs] (lines 26-33). *)
Definition lng_of (user : Q * Q) (t : task) (coords : option (Q * Q)) : Q :=
  let c := t_content t in
  if truthy_q (c_latitude c) && truthy_q (c_longitude c) then default 0 (c_longitude c)
  else if truthy_q (option_map snd coords) then default 0 (option_map snd coords)
  else if has_city t then snd (city_point (c_city c))
  else snd user.

(** A task's marker (lines 58-67), [None] when it has none. *)
Definition marker_of (t : task) (coords : option (Q * Q)) : option (Q * Q) :=
  let c := t_content t in
  if truthy_q (c_latitude c) && truthy_q (c_longitude c)
  then Some (default 0 (c_latitude c), default 0 (c_longitude c))
  else if truthy_q (option_map fst coords) && truthy_q (option_map snd coords) then coords
  else if has_city t then Some (city_point (c_city c))
  else None.

(** [Math.min(...xs)] and [Math.max(...xs)] of a non-empty list. *)
Definition qmin_list (x : Q) (l : list Q) : Q := fold_left Qmin l x.
Definition qmax_list (x : Q) (l : list Q) : Q := fold_left Qmax l x.

(** The padding of lines 46-50. *)
Definition padding (maxDiff : Q) : Q :=
  if Qlt_le_dec maxDiff (1 # 100) then 2 # 1000
  else if Qlt_le_dec maxDiff (5 # 100) then 5 # 1000
  else if Qlt_le_dec maxDiff (1 # 10) then 1 # 100
  else 2 # 100.

(** [bbox]: west, south, east, north. *)
Record bbox := mkBbox { bb_west : Q; bb_south : Q; bb_east : Q; bb_north : Q }.

Definition inside (b : bbox) (p : Q * Q) : Prop :=
  (bb_south b <= fst p <= bb_north b)%Q ∧ (bb_west b <= snd p <= bb_east b)%Q.

(** The box and the markers (lines 12-84); [tasks] are the feed's tasks
    with the points the dashboard gave them, [user] is [userLocation]. *)
Definition view (user : Q * Q) (tasks : list (task * option (Q * Q))) : bbox * list (Q * Q) :=
  match tasks with
  | [] =>
      let p := 1 # 1000 in
      (mkBbox (snd user - p) (fst user - p) (snd user + p) (fst user + p), [user])
  | _ =>
      let lats := (fun tc => lat_of user (fst tc) (snd tc)) <$> tasks in
      let lngs := (fun tc => lng_of user (fst tc) (snd tc)) <$> tasks in
      let minLat := qmin_list (fst user) lats in
      let maxLat := qmax_list (fst user) lats in
      let minLng := qmin_list (snd user) lngs in
      let maxLng := qmax_list (snd user) lngs in
      let p := padding (Qmax (maxLat - minLat) (maxLng - minLng)) in
      (mkBbox (minLng - p) (minLat - p) (maxLng + p) (maxLat + p),
       omap (fun tc => marker_of (fst tc) (snd tc)) tasks ++ [user])
  end.

(** ** Facts *)

Lemma qmin_list_le x l : ∀ y, y ∈ x :: l -> (qmin_list x l <= y)%Q.
Proof.
  revert x. induction l as [|a l IH]; intros x y Hy; simpl.
  - apply list_elem_of_singleton in Hy as ->. apply Qle_refl.
  - assert (Hx : (qmin_list (Qmin x a) l <= Qmin x a)%Q) by (apply IH; left).
    apply elem_of_cons in Hy as [->|Hy]; [eapply Qle_trans; [exact Hx|apply Q.le_min_l]|].
    apply elem_of_cons in Hy as [->|Hy]; [eapply Qle_trans; [exact Hx|apply Q.le_min_r]|].
    apply IH. by right.
Qed.

Lemma qmax_list_ge x l : ∀ y, y ∈ x :: l -> (y <= qmax_list x l)%Q.
Proof.
  revert x. induction l as [|a l IH]; intros x y Hy; simpl.
  - apply list_elem_of_singleton in Hy as ->. apply Qle_refl.
  - assert (Hx : (Qmax x a <= qmax_list (Qmax x a) l)%Q) by (apply IH; left).
    apply elem_of_cons in Hy as [->|Hy]; [eapply Qle_trans; [apply Q.le_max_l|exact Hx]|].
    apply elem_of_cons in Hy as [->|Hy]; [eapply Qle_trans; [apply Q.le_max_r|exact Hx]|].
    apply IH. by right.
Qed.

Lemma padding_nonneg d : (0 <= padding d)%Q.
Proof.
  unfold padding. repeat destruct (Qlt_le_dec _ _); apply Qle_bool_imp_le; reflexivity.
Qed.

(** Every city point, Almaty's included, has non-zero coordinates. *)
Lemma city_point_truthy city :
  truthy_q (Some (fst (city_point city))) = true ∧ truthy_q (Some (snd (city_point city))) = true.
Proof. unfold city_point, Seed.cityCoordinates. repeat case_bool_decide; split; reflexivity. Qed.

(** On a task of the dashboard, the marker is the point the box counts. *)
Lemma enrich_marker user t :
  marker_of t (Some (taskCoords t)) =
  Some (lat_of user t (Some (taskCoords t)), lng_of user t (Some (taskCoords t))).
Proof.
  unfold marker_of, lat_of, lng_of, taskCoords.
  destruct (truthy_q _ && truthy_q _); [done|]. cbn [option_map].
  destruct (city_point_truthy (c_city (t_content t))) as [H1 H2]. rewrite H1, H2.
  by destruct (city_point _).
Qed.

(** A point whose coordinates are among those the box is computed from
    lies in the padded box. *)
Lemma in_box user lats lngs la lo :
  la ∈ fst user :: lats -> lo ∈ snd user :: lngs ->
  let p := padding (Qmax (qmax_list (fst user) lats - qmin_list (fst user) lats)
                         (qmax_list (snd user) lngs - qmin_list (snd user) lngs)) in
  inside (mkBbox (qmin_list (snd user) lngs - p) (qmin_list (fst user) lats - p)
                 (qmax_list (snd user) lngs + p) (qmax_list (fst user) lats + p)) (la, lo).
Proof.
  intros Hla Hlo p. pose proof (padding_nonneg (Qmax (qmax_list (fst user) lats - qmin_list (fst user) lats)
                         (qmax_list (snd user) lngs - qmin_list (snd user) lngs))) as Hp.
  fold p in Hp. unfold inside. simpl.
  pose proof (qmin_list_le _ _ _ Hla). pose proof (qmax_list_ge _ _ _ Hla).
  pose proof (qmin_list_le _ _ _ Hlo). pose proof (qmax_list_ge _ _ _ Hlo).
  split; split; lra.
Qed.

(** ** Properties *)

(** C28: On the dashboard's feed, every marker MapView draws, the user's
    included, lies inside the bounding box of the frame. *)
Theorem markers_in_bbox user ts m :
  m ∈ snd (view user (enrich <$> ts)) -> inside (fst (view user (enrich <$> ts))) m.
Proof.
  destruct ts as [|t ts].
  - simpl. intros Hm. apply list_elem_of_singleton in Hm as ->. unfold inside. simpl.
    split; split; lra.
  - set (tcs := enrich <$> t :: ts).
    assert (Htcs : ∃ a l, tcs = a :: l) by (eexists _, _; reflexivity).
    destruct Htcs as (a & l & Hal).
    unfold view. rewrite Hal. cbv beta iota zeta. rewrite <- Hal. cbn [fst snd].
    intros Hm. destruct m as [la lo]. apply elem_of_app in Hm as [Hm|Hm].
    + apply list_elem_of_omap in Hm as [tc [Htc Hmk]].
      apply list_elem_of_fmap in Htc as [t' [-> Ht']].
      rewrite (enrich_marker user) in Hmk. injection Hmk as <- <-.
      apply in_box; right; apply list_elem_of_fmap; exists (enrich t'); split; try done;
        apply list_elem_of_fmap; by exists t'.
    + apply list_elem_of_singleton in Hm. rewrite Hm. apply in_box; left.
Qed.

End MapView.

(** * Concrete views *)
Module MapViewExamples.
Import MapView ModelExamples.

Definition user : Q * Q := (43, 76)%Q.

Definition astana_task : task :=
  mkTask "7" (mkContent "Помощь" "" "Астана" None None None None None None None)
    OPEN "3" None 0 None (Some 10%Z) None.

(** A task without coordinates is drawn at its city. *)
Example astana_marker :
  snd (view user (enrich <$> [astana_task])) = [(511694 # 10000, 714491 # 10000)%Q; user].
Proof. reflexivity. Qed.

(** The box around Astana and the user, padded by 0.02 degrees. *)
Example astana_box :
  let b := fst (view user (enrich <$> [astana_task])) in
  (Qeq_bool (bb_north b) ((511694 # 10000) + (2 # 100)) && Qeq_bool (bb_south b) (43 - (2 # 100)))%bool = true.
Proof. reflexivity. Qed.

(** Outside the dashboard, a point with a latitude and no longitude is
    counted with its latitude in the box but drawn at its city: the
    marker falls outside the frame. *)
Example half_point_outside :
  let v := view user [(astana_task, Some (45, 0)%Q)] in
  snd v = [(511694 # 10000, 714491 # 10000)%Q; user] ∧
  ¬ inside (fst v) (511694 # 10000, 714491 # 10000)%Q.
Proof.
  split; [reflexivity|]. unfold inside. simpl. intros [[_ H] _].
  apply Qle_bool_iff in H. discriminate H.
Qed.

Lemma markers_in_bbox_witness :
  user ∈ snd (view user (enrich <$> [astana_task])) ∧
  inside (fst (view user (enrich <$> [astana_task]))) user.
Proof.
  assert (H : user ∈ snd (view user (enrich <$> [astana_task])))
    by (rewrite astana_marker; apply list_elem_of_further, list_elem_of_here).
  split; [exact H|]. exact (markers_in_bbox user [astana_task] user H).
Defined.

End MapViewExamples.
