(* ===== verification/LocationPicker.v ===== *)
(** * LocationPicker: the address-and-point picker of LocationPicker.jsx

    [LocationPicker.jsx] (src/src/components) is a second location picker:
    an address field with an autosuggest list, a "find" button, a "my
    location" button and an embedded map of the chosen point.  No file of
    the repository imports it, so its parent is the prop list: the
    callbacks [onLocationSelect] and [onAddressChange] (which may be
    [null]) are recorded as the list of calls they receive, and
    [initialLocation] is any JavaScript value.

    The component is a transition system ([step]) whose events are the
    user's gestures, the 500 ms autosuggest timeout and the answers of
    Nominatim and of the browser's geolocation; requests in flight are a
    list and [ERespond i] answers the [i]-th, in any order.  React is
    modelled as in [Picker]: the updates of a handler up to its first
    [await] are one batch, and so are those of one answer together with
    what the awaiting caller does next; after a batch that changed
    [address] the effect of lines 143-169 clears the armed timeout and
    arms a new one, or clears the suggestions ([address_effect]).
    [address.length] counts the characters of the model's string, which
    stand for JavaScript's UTF-16 code units.  A number is a rational
    ([Q]): [NaN] and the floating-point rounding of [parseFloat] are not
    modelled.  [alert] and [console.error] change no state. *)

From S2P Require Import Prelude Model Chat Geocode.
From Stdlib Require Import QArith.

Module LocPicker.
Import Geocode.
Import Chat.Chat (trim).

(** ** JavaScript values: the [initialLocation] prop and the coordinates *)

#[local] Set Warnings "-register-all".
Inductive jsval :=
| JUndefined | JNull | JBool (b : bool) | JNum (q : Q) | JStr (s : string)
| JArr (l : list jsval) | JObj (fields : list (string * jsval)).

(** [if (v)] *)
Definition truthy (v : jsval) : bool :=
  match v with
  | JUndefined | JNull => false
  | JBool b => b
  | JNum q => negb (Qeq_bool q 0)
  | JStr s => nonempty s
  | JArr _ | JObj _ => true
  end.

(** [v.k] on a value that is not [null] or [undefined]: an object's own
    property, [undefined] for anything else. *)
Definition get (v : jsval) (k : string) : jsval :=
  match v with
  | JObj fs => match list_find (fun kv => kv.1 = k) fs with
               | Some (_, (_, x)) => x
               | None => JUndefined
               end
  | _ => JUndefined
  end.

(** [[43.2220, 76.8512]], Almaty (line 74). *)
Definition ALMATY : list jsval := [JNum (43222 # 1000); JNum (768512 # 10000)].

(** Lines 66-75. *)
Definition getInitialCoords (initialLocation : jsval) : list jsval :=
  if truthy initialLocation then
    match initialLocation with
    | JArr l => l
    | _ => if truthy (get initialLocation "lat") && truthy (get initialLocation "lng")
           then [get initialLocation "lat"; get initialLocation "lng"]
           else ALMATY
    end
  else ALMATY.

(** ** The component's state *)

(** An item of the autosuggest list (lines 156-160). *)
Record suggestion := mkSugg { s_displayName : string; s_lat : Q; s_lng : Q }.

Definition to_suggestion (p : place) : suggestion :=
  mkSugg (p_display_name p) (p_lat p) (p_lon p).

(** A call of one of the parent's callbacks. *)
Inductive parent_call :=
| OnAddressChange (address city : string)
| OnLocationSelect (lat lng : Q).

(** What the caller of [handleLocationSelect] does once it returns. *)
Inductive after :=
| AMyLocation                   (** the geolocation callback (line 114): nothing *)
| ASearch (displayName : string) (** [handleSearchAddress] (line 135): [setAddress] *)
| ASuggestion.                   (** [handleSelectSuggestion] (line 174): clear the list *)

(** A request in flight and the continuation waiting for it. *)
Inductive request :=
| RReverse (k : after) (lat lng : Q) (** [await reverseGeocode] (line 90) *)
| RGeocode (address : string)       (** [await geocodeAddress] (line 132) *)
| RPosition                         (** [getCurrentPosition] (line 110) *)
| RSuggest (address : string).      (** the autosuggest [fetch] (lines 147-160) *)

(** The five [useState]s (lines 64-80), the armed timeout with the address
    its callback closes over, the requests in flight and the parent's calls. *)
Record lp := mkLP {
  lp_address : string; lp_coordinates : list jsval; lp_isSearching : bool;
  lp_suggestions : list suggestion; lp_mapCenter : list jsval;
  lp_timer : option string;
  lp_pending : list request;
  lp_calls : list parent_call
}.

Definition set_address (a : string) (st : lp) : lp :=
  mkLP a (lp_coordinates st) (lp_isSearching st) (lp_suggestions st) (lp_mapCenter st)
    (lp_timer st) (lp_pending st) (lp_calls st).
Definition set_searching (b : bool) (st : lp) : lp :=
  mkLP (lp_address st) (lp_coordinates st) b (lp_suggestions st) (lp_mapCenter st)
    (lp_timer st) (lp_pending st) (lp_calls st).
Definition set_suggestions (l : list suggestion) (st : lp) : lp :=
  mkLP (lp_address st) (lp_coordinates st) (lp_isSearching st) l (lp_mapCenter st)
    (lp_timer st) (lp_pending st) (lp_calls st).
Definition set_point (c : list jsval) (st : lp) : lp :=
  mkLP (lp_address st) c (lp_isSearching st) (lp_suggestions st) c
    (lp_timer st) (lp_pending st) (lp_calls st).
Definition set_timer (t : option string) (st : lp) : lp :=
  mkLP (lp_address st) (lp_coordinates st) (lp_isSearching st) (lp_suggestions st)
    (lp_mapCenter st) t (lp_pending st) (lp_calls st).
Definition set_pending (l : list request) (st : lp) : lp :=
  mkLP (lp_address st) (lp_coordinates st) (lp_isSearching st) (lp_suggestions st)
    (lp_mapCenter st) (lp_timer st) l (lp_calls st).
Definition push (r : request) (st : lp) : lp := set_pending (lp_pending st ++ [r]) st.
Definition call (c : parent_call) (st : lp) : lp :=
  mkLP (lp_address st) (lp_coordinates st) (lp_isSearching st) (lp_suggestions st)
    (lp_mapCenter st) (lp_timer st) (lp_pending st) (lp_calls st ++ [c]).

(** The first render: [address] is empty, so the effect only clears the
    (empty) suggestions. *)
Definition mount (initialLocation : jsval) : lp :=
  let c := getInitialCoords initialLocation in
  mkLP "" c false [] c None [] [].

(** Lines 143-169, after a render in which [address] changed: the cleanup
    clears the armed timeout, and the effect arms a new one for an address
    of more than three characters or clears the list. *)
Definition address_effect (st : lp) : lp :=
  if bool_decide (3 < String.length (lp_address st))%nat
  then set_timer (Some (lp_address st)) st
  else set_suggestions [] (set_timer None st).

(** A render after a batch that started from [prev]. *)
Definition render (prev st : lp) : lp :=
  if bool_decide (lp_address prev = lp_address st) then st else address_effect st.

(** ** Handlers and answers *)

Section Network.

(** Whether the parent passed [onAddressChange] and whether the browser has
    [navigator.geolocation]. *)
Variable hasOnAddressChange hasGeolocation : bool.
(** The decoded answers: of a reverse request for a point, of a search for
    a text (the same URL for [geocodeAddress] and the autosuggest), and the
    position [getCurrentPosition] reports ([None]: its error callback). *)
Variable reverse_answer : Q -> Q -> option reverse_data.
Variable search_answer : string -> option (list place).
Variable position_answer : option (Q * Q).
Variable toLowerCase : string -> string.

(** [handleLocationSelect] up to its [await] (lines 84-90). *)
Definition select_start (k : after) (lat lng : Q) (st : lp) : lp :=
  push (RReverse k lat lng) (set_point [JNum lat; JNum lng] (set_searching true st)).

(** The rest of [handleLocationSelect] (lines 91-103), then the caller's. *)
Definition select_finish (k : after) (lat lng : Q) (st : lp) : lp :=
  let st1 := match lp_reverseGeocode (reverse_answer lat lng) with
             | Some r =>
                 let st' := set_address (rr_displayName r) st in
                 if hasOnAddressChange then call (OnAddressChange (rr_displayName r) (rr_city r)) st'
                 else st'
             | None => st
             end in
  let st2 := set_searching false (call (OnLocationSelect lat lng) st1) in
  match k with
  | AMyLocation => st2
  | ASearch dn => set_address dn st2
  | ASuggestion => set_suggestions [] st2
  end.

(** What the answer to a request does. *)
Definition respond (r : request) (st : lp) : lp :=
  match r with
  | RReverse k lat lng => select_finish k lat lng st
  | RGeocode a =>
      match geocode toLowerCase (search_answer a) with
      | Some (lat, lng, dn) => select_start (ASearch dn) lat lng st
      | None => set_searching false st                       (* lines 136-138 *)
      end
  | RPosition =>
      match position_answer with
      | Some (lat, lng) => select_start AMyLocation lat lng st
      | None => set_searching false st                       (* lines 116-120 *)
      end
  | RSuggest a =>
      match search_answer a with
      | Some data => set_suggestions (map to_suggestion data) st
      | None => st                                           (* line 162 *)
      end
  end.

Inductive event :=
| EType (s : string)   (** the input's [onChange] (line 188) *)
| ESearch              (** the "find" button: [handleSearchAddress] *)
| EMyLocation          (** the "my location" button: [handleGetMyLocation] *)
| ESelect (i : nat)    (** the [i]-th suggestion's button: [handleSelectSuggestion] *)
| ETimeout             (** the armed 500 ms timeout fires *)
| ERespond (i : nat).  (** the answer to the [i]-th request in flight *)

(** [handleSearchAddress] up to its [await] (lines 128-132). *)
Definition handleSearchAddress (st : lp) : lp :=
  if bool_decide (trim (lp_address st) = "") then st
  else push (RGeocode (lp_address st)) (set_searching true st).

(** [handleGetMyLocation] (lines 107-125). *)
Definition handleGetMyLocation (st : lp) : lp :=
  if hasGeolocation then push RPosition (set_searching true st) else st.

(** The batch of updates an event makes; [None] when the event cannot
    happen: a disabled button (lines 196 and 204), a suggestion that is not
    shown, no armed timeout, no such request. *)
Definition handle (st : lp) (e : event) : option lp :=
  match e with
  | EType s => Some (set_address s st)
  | ESearch =>
      if lp_isSearching st || bool_decide (trim (lp_address st) = "") then None
      else Some (handleSearchAddress st)
  | EMyLocation => if lp_isSearching st then None else Some (handleGetMyLocation st)
  | ESelect i =>
      match lp_suggestions st !! i with
      | Some s => Some (select_start ASuggestion (s_lat s) (s_lng s)
                          (set_address (s_displayName s) st))
      | None => None
      end
  | ETimeout =>
      match lp_timer st with
      | Some a => Some (push (RSuggest a) (set_timer None st))
      | None => None
      end
  | ERespond i =>
      match lp_pending st !! i with
      | Some r => Some (respond r (set_pending (delete i (lp_pending st)) st))
      | None => None
      end
  end.

(** One event and the render after it. *)
Definition step (st : lp) (e : event) : option lp := option_map (render st) (handle st e).

Definition lp_step (st st' : lp) : Prop := ∃ e, step st e = Some st'.

Fixpoint run (st : lp) (es : list event) : option lp :=
  match es with
  | [] => Some st
  | e :: es' => match step st e with Some st' => run st' es' | None => None end
  end.

(** ** What each piece of a step changes *)

Ltac lp_cases :=
  repeat (case_match || case_bool_decide); simplify_eq/=.

(** The render after a batch only touches the timeout and the suggestions. *)
Lemma render_frame prev st :
  lp_address (render prev st) = lp_address st ∧
  lp_coordinates (render prev st) = lp_coordinates st ∧
  lp_mapCenter (render prev st) = lp_mapCenter st ∧
  lp_isSearching (render prev st) = lp_isSearching st ∧
  lp_pending (render prev st) = lp_pending st ∧
  lp_calls (render prev st) = lp_calls st.
Proof. unfold render, address_effect. lp_cases; by repeat split. Qed.

Lemma step_render st e st' :
  step st e = Some st' -> ∃ b, handle st e = Some b ∧ st' = render st b.
Proof. unfold step. destruct (handle st e); naive_solver. Qed.

(** The rest of [handleLocationSelect] leaves the point alone. *)
Lemma select_finish_point k lat lng st :
  lp_coordinates (select_finish k lat lng st) = lp_coordinates st ∧
  lp_mapCenter (select_finish k lat lng st) = lp_mapCenter st.
Proof. unfold select_finish. destruct k; lp_cases; by split. Qed.

(** An answer either leaves the point alone or starts a new selection. *)
Lemma respond_point r st :
  (lp_coordinates (respond r st) = lp_coordinates st ∧
   lp_mapCenter (respond r st) = lp_mapCenter st) ∨
  ∃ k lat lng, respond r st = select_start k lat lng st.
Proof.
  destruct r as [k lat lng|a| |a]; cbn [respond].
  - left. apply select_finish_point.
  - destruct (geocode _ _) as [[[lat lng] dn]|]; eauto.
  - destruct position_answer as [[lat lng]|]; eauto.
  - destruct (search_answer a); auto.
Qed.

(** A batch either leaves the point alone or sets it to two numbers. *)
Lemma handle_point st e st' :
  handle st e = Some st' ->
  (lp_coordinates st' = lp_coordinates st ∧ lp_mapCenter st' = lp_mapCenter st) ∨
  ∃ lat lng, lp_coordinates st' = [JNum lat; JNum lng] ∧ lp_mapCenter st' = [JNum lat; JNum lng].
Proof.
  destruct e as [s| | |i| |i]; cbn [handle];
    unfold handleSearchAddress, handleGetMyLocation; intros H; lp_cases; eauto.
  match goal with |- context [respond ?r ?s] => destruct (respond_point r s) as [?|(?&?&?&->)] end;
    cbn in *; eauto.
Qed.

(** ** Types: the coordinates are always a pair of numbers *)

(** What lines 234 and 252 need of [coordinates] and [mapCenter]:
    [coordinates[0].toFixed(6)] and [coordinates[1].toFixed(6)] throw
    unless both are numbers. *)
Inductive coords_ok : list jsval -> Prop :=
| CoordsOk (lat lng : Q) : coords_ok [JNum lat; JNum lng].

Definition typed (st : lp) : Prop := coords_ok (lp_coordinates st) ∧ coords_ok (lp_mapCenter st).

#[local] Hint Constructors coords_ok : core.

Lemma handle_typed st e st' : typed st -> handle st e = Some st' -> typed st'.
Proof.
  unfold typed. intros [Hc Hm] H. destruct (handle_point st e st' H) as [[-> ->]|(lat & lng & -> & ->)];
    split; auto.
Qed.

Lemma step_typed st e st' : typed st -> step st e = Some st' -> typed st'.
Proof.
  intros Ht (b & Hb & ->)%step_render. pose proof (render_frame st b) as (_ & Hc & Hm & _).
  unfold typed. rewrite Hc, Hm. exact (handle_typed st e b Ht Hb).
Qed.

(** What the component expects of [initialLocation] (line 63): nothing (a
    falsy value), a pair [[lat, lng]] of numbers, or an object whose [lat]
    and [lng] are numbers or missing. *)
Definition num_or_missing (v : jsval) : Prop := (∃ q, v = JNum q) ∨ truthy v = false.

Inductive location_prop : jsval -> Prop :=
| LPFalsy v : truthy v = false -> location_prop v
| LPPair lat lng : location_prop (JArr [JNum lat; JNum lng])
| LPObj fs : num_or_missing (get (JObj fs) "lat") -> num_or_missing (get (JObj fs) "lng") ->
    location_prop (JObj fs).

Lemma getInitialCoords_typed v : location_prop v -> coords_ok (getInitialCoords v).
Proof.
  unfold getInitialCoords. destruct 1 as [v Hv|lat lng|fs Hlat Hlng].
  - rewrite Hv. constructor.
  - constructor.
  - destruct Hlat as [[a Ha]|Ha], Hlng as [[b Hb]|Hb]; rewrite Ha, Hb, ?andb_false_r;
      repeat case_match; simplify_eq/=; constructor.
Qed.

(** ** The spinner: [isSearching] is set only while a search is in flight *)

(** The requests whose continuation ends with [setIsSearching(false)]. *)
Definition searching_req (r : request) : bool :=
  match r with RSuggest _ => false | _ => true end.

Definition spinner_ok (st : lp) : Prop :=
  lp_isSearching st = true -> Exists (fun r => searching_req r = true) (lp_pending st).

Lemma push_spinner r st : searching_req r = true -> spinner_ok (push r st).
Proof. intros Hr _. cbn. apply Exists_app. right. by constructor. Qed.

Lemma select_finish_searching k lat lng st :
  lp_isSearching (select_finish k lat lng st) = false.
Proof. unfold select_finish. destruct k; lp_cases; done. Qed.

Lemma respond_spinner r st :
  (searching_req r = false -> spinner_ok st) -> spinner_ok (respond r st).
Proof.
  intros Hs. destruct r as [k lat lng|a| |a]; cbn [respond].
  - intros H. by rewrite select_finish_searching in H.
  - destruct (geocode _ _) as [[[lat lng] dn]|]; [by apply push_spinner|done].
  - destruct position_answer as [[lat lng]|]; [by apply push_spinner|done].
  - destruct (search_answer a); apply Hs; done.
Qed.

Lemma handle_spinner st e st' : spinner_ok st -> handle st e = Some st' -> spinner_ok st'.
Proof.
  intros Hs H. destruct e as [s| | |i| |i]; cbn [handle] in H;
    unfold handleSearchAddress, handleGetMyLocation in H; lp_cases.
  all: try exact Hs; try (unfold select_start; apply push_spinner; done).
  - intros Hsr. apply Exists_app. left. by apply Hs.
  - apply respond_spinner. intros Hr Hsr.
    eapply Exists_delete; [eassumption|by rewrite Hr|by apply Hs].
Qed.

Lemma step_spinner st e st' : spinner_ok st -> step st e = Some st' -> spinner_ok st'.
Proof.
  intros Hs (b & Hb & ->)%step_render. pose proof (render_frame st b) as (_ & _ & _ & Hi & Hp & _).
  unfold spinner_ok. rewrite Hi, Hp. exact (handle_spinner st e b Hs Hb).
Qed.

(** ** The autosuggest timeout closes over the address in the field *)

Definition timer_ok (st : lp) : Prop :=
  ∀ a, lp_timer st = Some a -> a = lp_address st ∧ (3 < String.length a)%nat.

Lemma respond_timer r st : lp_timer (respond r st) = lp_timer st.
Proof.
  destruct r as [k lat lng|a| |a]; cbn [respond]; [unfold select_finish; destruct k|..];
    lp_cases; done.
Qed.

Lemma handle_timer st e b : handle st e = Some b -> lp_timer b = lp_timer st ∨ lp_timer b = None.
Proof.
  destruct e as [s| | |i| |i]; cbn [handle]; unfold handleSearchAddress, handleGetMyLocation;
    intros H; lp_cases; auto. left. by rewrite respond_timer.
Qed.

Lemma step_timer st e st' : timer_ok st -> step st e = Some st' -> timer_ok st'.
Proof.
  intros Ht (b & Hb & ->)%step_render. unfold render. case_bool_decide as Ha.
  - intros a Hta. destruct (handle_timer st e b Hb) as [Hb'|Hb']; rewrite Hb' in Hta;
      [rewrite <-Ha; auto|done].
  - unfold address_effect. case_bool_decide; intros a; cbn; naive_solver.
Qed.

(** ** The parent's point and the picker's point *)

(** The point of the last reverse lookup in flight. *)
Fixpoint last_reverse (l : list request) : option (Q * Q) :=
  match l with
  | [] => None
  | r :: l' =>
      match last_reverse l' with
      | Some p => Some p
      | None => match r with RReverse _ lat lng => Some (lat, lng) | _ => None end
      end
  end.

(** The point of the last [onLocationSelect] call. *)
Fixpoint last_location (cs : list parent_call) : option (Q * Q) :=
  match cs with
  | [] => None
  | c :: cs' =>
      match last_location cs' with
      | Some p => Some p
      | None => match c with OnLocationSelect lat lng => Some (lat, lng) | _ => None end
      end
  end.

Definition point (p : Q * Q) : list jsval := [JNum p.1; JNum p.2].

(** The point shown is that of the last reverse lookup in flight or, when
    there is none, the last one the parent received, or the initial one. *)
Definition agrees (init : list jsval) (st : lp) : Prop :=
  lp_coordinates st = match last_reverse (lp_pending st) with
                      | Some p => point p
                      | None => from_option point init (last_location (lp_calls st))
                      end.

(** Only the oldest request in flight may be answered. *)
Definition in_order (e : event) : bool :=
  match e with ERespond i => bool_decide (i = 0%nat) | _ => true end.

Definition ordered_step (st st' : lp) : Prop := ∃ e, in_order e = true ∧ step st e = Some st'.

Lemma last_reverse_snoc l r :
  last_reverse (l ++ [r]) =
  match r with RReverse _ lat lng => Some (lat, lng) | _ => last_reverse l end.
Proof. induction l as [|r' l IH]; cbn; [by destruct r|]. rewrite IH. by destruct r. Qed.

Lemma last_location_snoc cs c :
  last_location (cs ++ [c]) =
  match c with OnLocationSelect lat lng => Some (lat, lng) | _ => last_location cs end.
Proof. induction cs as [|c' cs IH]; cbn; [by destruct c|]. rewrite IH. by destruct c. Qed.

Lemma agrees_frame init st st' :
  lp_coordinates st' = lp_coordinates st -> lp_calls st' = lp_calls st ->
  last_reverse (lp_pending st') = last_reverse (lp_pending st) -> agrees init st -> agrees init st'.
Proof. unfold agrees. intros -> -> ->. done. Qed.

Lemma select_start_agrees init k lat lng st : agrees init (select_start k lat lng st).
Proof. unfold agrees. cbn. by rewrite last_reverse_snoc. Qed.

(** The rest of [handleLocationSelect] reports its point last. *)
Lemma select_finish_calls k lat lng st :
  lp_pending (select_finish k lat lng st) = lp_pending st ∧
  last_location (lp_calls (select_finish k lat lng st)) = Some (lat, lng).
Proof. unfold select_finish. destruct k; lp_cases; by rewrite ?last_location_snoc. Qed.

Lemma handle_agrees init st e b :
  agrees init st -> in_order e = true -> handle st e = Some b -> agrees init b.
Proof.
  intros Ha Ho H. destruct e as [s| | |i| |i]; cbn [handle in_order] in *;
    unfold handleSearchAddress, handleGetMyLocation in H; lp_cases;
    try (by apply select_start_agrees);
    try (eapply agrees_frame; [..|exact Ha]; cbn; rewrite ?last_reverse_snoc; done).
  destruct (lp_pending st) as [|r0 rest] eqn:Hp; simplify_eq/=.
  unfold agrees in Ha; rewrite Hp in Ha; cbn [last_reverse] in Ha.
  destruct r as [k lat lng|a| |a]; cbn [respond].
  - destruct (select_finish_point k lat lng (set_pending rest st)) as [Hc _].
    destruct (select_finish_calls k lat lng (set_pending rest st)) as [Hp' Hl].
    unfold agrees. rewrite Hc, Hp', Hl. cbn. destruct (last_reverse rest); exact Ha.
  - destruct (geocode _ _) as [[[lat lng] dn]|]; [apply select_start_agrees|].
    unfold agrees. cbn. destruct (last_reverse rest); exact Ha.
  - destruct position_answer as [[lat lng]|]; [apply select_start_agrees|].
    unfold agrees. cbn. destruct (last_reverse rest); exact Ha.
  - unfold agrees. destruct (search_answer a); cbn; destruct (last_reverse rest); exact Ha.
Qed.

Lemma ordered_step_agrees init st st' :
  agrees init st -> ordered_step st st' -> agrees init st'.
Proof.
  intros Ha (e & Ho & (b & Hb & ->)%step_render).
  pose proof (render_frame st b) as (_ & Hc & _ & _ & Hp & Hcs).
  eapply agrees_frame; [exact Hc|exact Hcs|by rewrite Hp|exact (handle_agrees init st e b Ha Ho Hb)].
Qed.

(** A run of events is a sequence of steps; one whose answers all answer
    the oldest request is a sequence of ordered steps. *)
Lemma run_star st es st' : run st es = Some st' -> star lp_step st st'.
Proof.
  revert st. induction es as [|e es IH]; intros st H; cbn in H; [simplify_eq; constructor|].
  destruct (step st e) as [st1|] eqn:E; [|done].
  eapply star_cons; [by exists e|exact (IH _ H)].
Qed.

Lemma run_ordered st es st' :
  forallb in_order es = true -> run st es = Some st' -> star ordered_step st st'.
Proof.
  revert st. induction es as [|e es IH]; intros st Ho H; cbn in H, Ho; [simplify_eq; constructor|].
  apply andb_prop in Ho as [He Ho]. destruct (step st e) as [st1|] eqn:E; [|done].
  eapply star_cons; [by exists e|exact (IH _ Ho H)].
Qed.

(** ** Properties of every run *)

(** C32: whatever the user does and in whatever order the answers arrive,
    when [initialLocation] is nothing, a pair of numbers or an object with
    numeric [lat] and [lng], the coordinates and the map's centre are
    always a pair of numbers, so the [toFixed] calls of line 234 and the
    frame's URL of line 252 never see anything else. *)
Theorem reachable_typed v st :
  location_prop v -> star lp_step (mount v) st -> typed st.
Proof.
  intros Hv. apply star_invariant.
  - intros x y Hx [e He]. exact (step_typed x e y Hx He).
  - pose proof (getInitialCoords_typed v Hv). by split.
Qed.

(** In every run, once no geocoding, position or reverse request is
    in flight, [isSearching] is false: the "find" and "my location" buttons
    are never left disabled. *)
Theorem spinner_stops v st :
  star lp_step (mount v) st ->
  Forall (fun r => searching_req r = false) (lp_pending st) -> lp_isSearching st = false.
Proof.
  intros Hrun Hnone. assert (Hs : spinner_ok st).
  { apply (star_invariant lp_step spinner_ok (mount v) st); [|done|exact Hrun].
    intros x y Hx [e He]. exact (step_spinner x e y Hx He). }
  destruct (lp_isSearching st) eqn:E; [|done].
  apply Exists_exists in Hs as (r & Hr & Hsr); [|done].
  rewrite Forall_forall in Hnone. rewrite (Hnone r Hr) in Hsr. done.
Qed.

(** When the answers arrive in the order the requests were sent,
    every time no reverse lookup is in flight the point the map shows is
    the point of the parent's last [onLocationSelect] call (the initial
    point before any call). *)
Theorem in_order_agrees v st :
  star ordered_step (mount v) st -> last_reverse (lp_pending st) = None ->
  lp_coordinates st = from_option point (getInitialCoords v) (last_location (lp_calls st)).
Proof.
  intros Hrun Hnone.
  assert (Ha : agrees (getInitialCoords v) st).
  { apply (star_invariant ordered_step (agrees (getInitialCoords v)) (mount v) st);
      [|done|exact Hrun].
    intros x y Hx Hxy. exact (ordered_step_agrees _ x y Hx Hxy). }
  unfold agrees in Ha. by rewrite Hnone in Ha.
Qed.

(** Choosing a suggestion writes its name into the field, so when the
    name differs from the typed text and has more than three characters the
    autosuggest timeout is armed again for that name, although the list is
    cleared when the choice completes. *)
Theorem select_rearms_search st i s :
  lp_suggestions st !! i = Some s -> s_displayName s ≠ lp_address st ->
  (3 < String.length (s_displayName s))%nat ->
  ∃ st', step st (ESelect i) = Some st' ∧ lp_timer st' = Some (s_displayName s).
Proof.
  intros Hi Hne Hlen. unfold step. cbn [handle]. rewrite Hi.
  eexists; split; [reflexivity|]. unfold render, address_effect. cbn.
  rewrite bool_decide_false by congruence. by rewrite bool_decide_true by lia.
Qed.

(** A timeout that fires asks for the suggestions of the text in the
    field, never of an older one. *)
Lemma timeout_queries_address v st st' :
  star lp_step (mount v) st -> step st ETimeout = Some st' ->
  lp_pending st' = lp_pending st ++ [RSuggest (lp_address st)] ∧
  (3 < String.length (lp_address st))%nat.
Proof.
  intros Hrun Hs. assert (Ht : timer_ok st).
  { apply (star_invariant lp_step timer_ok (mount v) st); [|by intros ?|exact Hrun].
    intros x y Hx [e He]. exact (step_timer x e y Hx He). }
  unfold step in Hs. cbn [handle] in Hs. destruct (lp_timer st) as [a|] eqn:E; [|done].
  destruct (Ht a E) as [-> Hl]. unfold render in Hs. cbn in Hs.
  rewrite bool_decide_true in Hs by done. by simplify_eq.
Qed.

End Network.

End LocPicker.

(** * Concrete runs of the location picker *)

Module LocPickerExamples.
Import LocPicker Geocode.

(** Nominatim finds two places for every text and has no address for any
    point; the browser has geolocation and the parent passed both callbacks. *)
Definition ex_places : list place :=
  [mkPlace "Almaty, Kazakhstan" 43 77 (Some "kz");
   mkPlace "Almaty Region, Kazakhstan" 44 78 (Some "kz")].

Definition ex_run := run true true (fun _ _ => None) (fun _ => Some ex_places) None (fun s => s).
Definition ex_step := step true true (fun _ _ => None) (fun _ => Some ex_places) None (fun s => s).

(** Typing "Almaty", waiting for the list and choosing its first item. *)
Definition typed_and_loaded : list event := [EType "Almaty"; ETimeout; ERespond 0].
Definition ex_loaded : lp := default (mount JNull) (ex_run (mount JNull) typed_and_loaded).

(** Choosing the first item, its lookup answered. *)
Definition choose_first : list event := typed_and_loaded ++ [ESelect 0; ERespond 0].
Definition ex_chosen : lp := default (mount JNull) (ex_run (mount JNull) choose_first).

Definition obj_location : jsval := JObj [("lat", JNum 43); ("lng", JNum 77)].
Definition ex_obj_chosen : lp :=
  default (mount obj_location) (ex_run (mount obj_location) choose_first).

Lemma reachable_typed_witness : typed ex_obj_chosen.
Proof.
  apply (reachable_typed true true (fun _ _ => None) (fun _ => Some ex_places) None (fun s => s)
           obj_location ex_obj_chosen).
  - apply LPObj; left; eexists; reflexivity.
  - apply run_star with choose_first. vm_compute. reflexivity.
Defined.

Lemma spinner_stops_witness : lp_isSearching ex_chosen = false.
Proof.
  apply (spinner_stops true true (fun _ _ => None) (fun _ => Some ex_places) None (fun s => s)
           JNull ex_chosen).
  - apply run_star with choose_first. vm_compute. reflexivity.
  - vm_compute. constructor.
Defined.

Lemma in_order_agrees_witness :
  lp_coordinates ex_chosen = from_option point (getInitialCoords JNull) (last_location (lp_calls ex_chosen)).
Proof.
  apply (in_order_agrees true true (fun _ _ => None) (fun _ => Some ex_places) None (fun s => s)).
  - apply run_ordered with choose_first; vm_compute; reflexivity.
  - vm_compute. reflexivity.
Defined.

Lemma select_rearms_search_witness :
  ∃ st', ex_step ex_loaded (ESelect 0) = Some st' ∧ lp_timer st' = Some "Almaty, Kazakhstan".
Proof.
  apply (select_rearms_search true true (fun _ _ => None) (fun _ => Some ex_places) None (fun s => s)
           ex_loaded 0 (mkSugg "Almaty, Kazakhstan" 43 77)).
  - vm_compute. reflexivity.
  - vm_compute. discriminate.
  - vm_compute. lia.
Defined.

(** After choosing the first item, the re-armed timeout asks again and the
    list that the choice cleared comes back. *)
Example chosen_list_reappears :
  match ex_run (mount JNull) (typed_and_loaded ++ [ESelect 0; ETimeout; ERespond 0; ERespond 0]) with
  | Some st => lp_pending st = [] ∧ lp_address st = "Almaty, Kazakhstan" ∧
               length (lp_suggestions st) = 2%nat
  | None => False
  end.
Proof. vm_compute. auto. Qed.

(** Two items chosen in a row, the second lookup answered first: the map
    shows the second point while the parent last received the first. *)
Example out_of_order_answers :
  match ex_run (mount JNull) (typed_and_loaded ++ [ESelect 0; ESelect 1; ERespond 1; ERespond 0]) with
  | Some st => lp_pending st = [] ∧ lp_coordinates st = point (44, 78) ∧
               last_location (lp_calls st) = Some (43, 77)
  | None => False
  end.
Proof. vm_compute. auto. Qed.

(** [Array.isArray] is the only check of an array prop: a one-element
    array becomes the coordinates, and [coordinates[1].toFixed] throws. *)
Example array_location_unchecked : ¬ coords_ok (getInitialCoords (JArr [JNum 43])).
Proof. vm_compute. inversion 1. Qed.

(** An object whose latitude is [0] is read as no location. *)
Example zero_latitude_dropped :
  getInitialCoords (JObj [("lat", JNum 0); ("lng", JNum 77)]) = ALMATY.
Proof. reflexivity. Qed.

End LocPickerExamples.
