(* ===== verification/ChatPanel.v ===== *)
(** * ChatPanel: the chat window of ChatSidebar.jsx as a concurrent system

    [Chat] models ChatSidebar's calls one at a time.  Here the chat window
    (src/Volonter-Hub-main/src/components/ChatSidebar.jsx, lines 57-104 and
    150-300) is a transition system over the sidebar's state, the drafts
    [newMessages], the 3-second polling interval, the calls in flight and
    the store the mock API keeps in [localStorage].  Each call of the mock
    API waits ([delay(200)]) and then reads or writes the store at once, so
    a call in flight is a request and [PRespond i now] runs the [i]-th at
    the clock [now].  The signed-in user is fixed (the sidebar renders
    nothing without one); the list of chats is the one [loadChats] built
    and no other writer changes the store.  The text of the list entries is
    [preview]; dates, avatars and styling are not modelled. *)

From S2P Require Import Prelude Model Accounts Chat.
From stdpp Require Import gmap.

Module Panel.
Import Chat.Chat.

(** ** State *)

(** A call of the mock API in flight. *)
Inductive preq :=
| PSend (d : message_input)   (** [await mockApi.sendChatMessage(messageData)] (line 88) *)
| PPoll (taskId : string).    (** [await mockApi.getChatMessages(selectedTaskId)] (line 63) *)

(** [activeChats], [messages] and [selectedTaskId] ([sidebar]), the drafts
    [newMessages] (lines 12-15), the armed interval with the task id its
    [loadMessages] closes over, the calls in flight and the store. *)
Record panel := mkPanel {
  pn_sb : sidebar;
  pn_drafts : gmap string string;
  pn_interval : option string;
  pn_pending : list preq;
  pn_store : store
}.

Definition set_sb (sb : sidebar) (st : panel) : panel :=
  mkPanel sb (pn_drafts st) (pn_interval st) (pn_pending st) (pn_store st).
Definition set_drafts (d : gmap string string) (st : panel) : panel :=
  mkPanel (pn_sb st) d (pn_interval st) (pn_pending st) (pn_store st).
Definition set_interval (i : option string) (st : panel) : panel :=
  mkPanel (pn_sb st) (pn_drafts st) i (pn_pending st) (pn_store st).
Definition set_pending (l : list preq) (st : panel) : panel :=
  mkPanel (pn_sb st) (pn_drafts st) (pn_interval st) l (pn_store st).
Definition set_store (s : store) (st : panel) : panel :=
  mkPanel (pn_sb st) (pn_drafts st) (pn_interval st) (pn_pending st) s.
Definition push (r : preq) (st : panel) : panel := set_pending (pn_pending st ++ [r]) st.

Definition select (o : option string) (sb : sidebar) : sidebar :=
  mkSidebar (sb_activeChats sb) (sb_messages sb) o.

(** ** What the window shows *)

(** [newMessages[selectedTaskId] || ''] (lines 273 and 282). *)
Definition draft (st : panel) : string :=
  match sb_selected (pn_sb st) with
  | Some tid => default "" (pn_drafts st !! tid)
  | None => ""
  end.

(** [selectedChat] (line 117). *)
Definition selectedChat (sb : sidebar) : option chat_entry :=
  match sb_selected sb with
  | Some tid => snd <$> list_find (fun c => ce_taskId c = tid) (sb_activeChats sb)
  | None => None
  end.

(** [selectedTaskId && selectedTask] (line 207): the window is shown. *)
Definition window_shown (sb : sidebar) : bool :=
  truthy_id (sb_selected sb) && bool_decide (is_Some (selectedChat sb)).

(** [messages[selectedTaskId] || []] (line 119). *)
Definition selectedMessages (sb : sidebar) : list message :=
  match sb_selected sb with
  | Some tid => default [] (sb_messages sb !! tid)
  | None => []
  end.

(** [text.length > n ? text.substring(0, n) + '...' : text] (lines 174-185). *)
Definition preview (n : nat) (text : string) : string :=
  if bool_decide (n < String.length text)%nat then String.substring 0 n text +:+ "..." else text.

(** The second line of a list entry, on a small ([n = 20]) or a large
    ([n = 30]) screen. *)
Definition entry_line (n : nat) (c : chat_entry) : string :=
  match ce_lastMessage c with
  | Some m => preview n (m_text m)
  | None => "Нет сообщений"
  end.

(** ** Events *)

(** [setMessages(prev => ({ ...prev, [selectedTaskId]: taskMessages || [] }))]
    (line 64). *)
Definition record_loaded (tid : string) (msgs : list message) (sb : sidebar) : sidebar :=
  mkSidebar (sb_activeChats sb) (<[tid := msgs]> (sb_messages sb)) (sb_selected sb).

(** Lines 58-75, after a render in which [selectedTaskId] changed: the
    cleanup clears the old interval; for a truthy id, [loadMessages] runs
    at once and the interval is armed. *)
Definition selection_effect (st : panel) : panel :=
  let st := set_interval None st in
  match sb_selected (pn_sb st) with
  | Some tid => if truthy_id (Some tid) then set_interval (Some tid) (push (PPoll tid) st) else st
  | None => st
  end.

(** The render after a batch that started from [prev]. *)
Definition render (prev st : panel) : panel :=
  if bool_decide (sb_selected (pn_sb prev) = sb_selected (pn_sb st)) then st
  else selection_effect st.

Inductive pevent :=
| PSelect (taskId : string)    (** a click on an entry of the list (line 159) *)
| PBack                        (** the back arrow of the window (line 213) *)
| PType (s : string)           (** the input's [onChange] (line 283) *)
| PSubmit (timestamp : Z)      (** the form's [onSubmit] (lines 271-274) at that clock *)
| PTick                        (** the interval fires (line 73) *)
| PRespond (i : nat) (now : Z). (** the [i]-th call in flight returns, at [now] *)

Section User.

(** The signed-in user's id. *)
Variable uid : string.

(** What the answer to a call does. *)
Definition respond (r : preq) (now : Z) (st : panel) : panel :=
  match r with
  | PSend d =>
      match sendChatMessage d now (pn_store st) with
      | Ok m s' =>                                                   (* lines 89-100 *)
          set_drafts (<[mi_taskId d := ""]> (pn_drafts st))
            (set_sb (record_sent (mi_taskId d) m (pn_sb st)) (set_store s' st))
      | Err _ _ => st                                                (* line 102 *)
      end
  | PPoll tid =>
      match getChatMessages tid (pn_store st) with
      | Ok msgs _ => set_sb (record_loaded tid msgs (pn_sb st)) st
      | Err _ _ => st                                                (* line 66 *)
      end
  end.

(** [handleSendMessage(selectedTaskId, newMessages[selectedTaskId] || '')]
    up to its [await] (lines 77-88). *)
Definition submit (timestamp : Z) (st : panel) : panel :=
  match sb_selected (pn_sb st) with
  | Some tid =>
      let text := draft st in
      if bool_decide (trim text = "") then st
      else push (PSend (mkMessageInput tid uid (trim text) timestamp)) st
  | None => st
  end.

(** The batch an event makes; [None] when it cannot happen: an entry that
    is not in the list, a window that is not shown, the submit button
    disabled ([!newMessages[selectedTaskId]?.trim()], line 289), no armed
    interval, no such call. *)
Definition handle (st : panel) (e : pevent) : option panel :=
  match e with
  | PSelect tid =>
      if bool_decide (Exists (fun c => ce_taskId c = tid) (sb_activeChats (pn_sb st)))
      then Some (set_sb (select (Some tid) (pn_sb st)) st) else None
  | PBack => if window_shown (pn_sb st) then Some (set_sb (select None (pn_sb st)) st) else None
  | PType s =>
      match sb_selected (pn_sb st) with
      | Some tid => if window_shown (pn_sb st)
                    then Some (set_drafts (<[tid := s]> (pn_drafts st)) st) else None
      | None => None
      end
  | PSubmit ts =>
      if window_shown (pn_sb st) && negb (bool_decide (trim (draft st) = ""))
      then Some (submit ts st) else None
  | PTick =>
      match pn_interval st with
      | Some tid => Some (push (PPoll tid) st)
      | None => None
      end
  | PRespond i now =>
      match pn_pending st !! i with
      | Some r => Some (respond r now (set_pending (delete i (pn_pending st)) st))
      | None => None
      end
  end.

Definition step (st : panel) (e : pevent) : option panel := option_map (render st) (handle st e).

Fixpoint run (st : panel) (es : list pevent) : option panel :=
  match es with
  | [] => Some st
  | e :: es' => match step st e with Some st' => run st' es' | None => None end
  end.

Definition panel_step (st st' : panel) : Prop := ∃ e, step st e = Some st'.

(** ** Frames *)

Ltac pn_cases := repeat (case_match || case_bool_decide); simplify_eq/=.

Lemma panel_render_frame prev st :
  pn_sb (render prev st) = pn_sb st ∧ pn_drafts (render prev st) = pn_drafts st ∧
  pn_store (render prev st) = pn_store st ∧
  (pn_pending (render prev st) = pn_pending st ∨
   ∃ tid, sb_selected (pn_sb st) = Some tid ∧
          pn_pending (render prev st) = pn_pending st ++ [PPoll tid]).
Proof. unfold render, selection_effect. pn_cases; eauto 10. Qed.

Lemma panel_step_render st e st' :
  step st e = Some st' -> ∃ b, handle st e = Some b ∧ st' = render st b.
Proof. unfold step. destruct (handle st e); naive_solver. Qed.

(** A shown window has a truthy selection. *)
Lemma window_shown_selected sb :
  window_shown sb = true -> ∃ tid, sb_selected sb = Some tid ∧ tid ≠ "".
Proof.
  unfold window_shown, truthy_id. destruct (sb_selected sb) as [tid|]; [|done].
  intros [H _]%andb_prop. exists tid. split; [done|]. by apply bool_decide_eq_true in H.
Qed.

(** ** Sending *)

(** A batch that keeps the selection renders to itself. *)
Lemma render_same prev st : sb_selected (pn_sb prev) = sb_selected (pn_sb st) -> render prev st = st.
Proof. intros H. unfold render. by rewrite bool_decide_true. Qed.

(** Nothing disables the form while a message is on its way (the
    button only checks the draft, which is cleared when the call returns):
    a second press sends the same text again, as a second message. *)
Theorem submit_twice st ts1 ts2 st1 :
  step st (PSubmit ts1) = Some st1 ->
  ∃ st2 d1 d2, step st1 (PSubmit ts2) = Some st2 ∧
    pn_pending st2 = pn_pending st ++ [PSend d1; PSend d2] ∧
    mi_taskId d1 = mi_taskId d2 ∧ mi_text d1 = mi_text d2.
Proof.
  unfold step. cbn [handle]. destruct (window_shown (pn_sb st)) eqn:Hw; [|done].
  destruct (window_shown_selected _ Hw) as (tid & Hsel & _).
  destruct (bool_decide (trim (draft st) = "")) eqn:Ht; [done|]. cbn. intros [= <-].
  unfold submit. rewrite Hsel, Ht. rewrite render_same by done. cbn.
  rewrite Hw, Hsel. change (draft (push _ st)) with (draft st). rewrite Ht. cbn.
  rewrite render_same by done.
  do 3 eexists. split; [reflexivity|]. cbn. rewrite <-app_assoc. by split.
Qed.

(** When a send returns, the draft of its task is emptied, whatever
    was typed into it while the message was on its way. *)
Theorem send_answer_clears_draft st i d now :
  pn_pending st !! i = Some (PSend d) ->
  ∃ st', step st (PRespond i now) = Some st' ∧ pn_drafts st' !! mi_taskId d = Some "".
Proof.
  intros Hi. unfold step. cbn [handle]. rewrite Hi. cbn [option_map respond].
  rewrite sendChatMessage_run. eexists. split; [reflexivity|].
  rewrite render_same by done. cbn. apply lookup_insert_eq.
Qed.

(** ** The cache and the server *)

Definition cached (st : panel) (tid : string) : Prop := is_Some (sb_messages (pn_sb st) !! tid).

(** Every send in flight is for a task whose chat is cached, or whose
    poll is in flight before it. *)
Fixpoint sends_loaded (c : string -> Prop) (l : list preq) : Prop :=
  match l with
  | [] => True
  | PPoll t :: l' => sends_loaded (fun x => c x ∨ x = t) l'
  | PSend d :: l' => c (mi_taskId d) ∧ sends_loaded c l'
  end.

Definition stamp (m : message) : string * Z := (m_taskId m, m_timestamp m).

(** No stamp of the task [tid] is later than [ts]. *)
Definition no_later (stamps : list (string * Z)) (tid : string) (ts : Z) : Prop :=
  Forall (fun p => p.1 = tid -> (p.2 <= ts)%Z) stamps.

(** Every send in flight is no older than the messages of its task stored
    before it, those of the sends in flight before it included. *)
Fixpoint sends_timed (stamps : list (string * Z)) (l : list preq) : Prop :=
  match l with
  | [] => True
  | PPoll _ :: l' => sends_timed stamps l'
  | PSend d :: l' => no_later stamps (mi_taskId d) (mi_timestamp d) ∧
                     sends_timed (stamps ++ [(mi_taskId d, mi_timestamp d)]) l'
  end.

Fixpoint send_stamps (l : list preq) : list (string * Z) :=
  match l with
  | [] => []
  | PSend d :: l' => (mi_taskId d, mi_timestamp d) :: send_stamps l'
  | PPoll _ :: l' => send_stamps l'
  end.

(** The selected chat is cached or its poll is in flight. *)
Definition sel_ok (st : panel) : Prop :=
  ∀ tid, sb_selected (pn_sb st) = Some tid -> tid ≠ "" ->
         cached st tid ∨ PPoll tid ∈ pn_pending st.

Definition inv_core (st : panel) : Prop :=
  sidebar_coherent (pn_store st) (pn_sb st) ∧
  sends_loaded (cached st) (pn_pending st) ∧
  sends_timed (map stamp (st_messages (pn_store st))) (pn_pending st).

Definition inv (st : panel) : Prop := inv_core st ∧ sel_ok st.

(** The scheduling of the mock API, whose calls all wait 200 ms: calls
    return in the order they were made; and the browser's clock, when a
    message is sent, is not behind any stored message or message on its way. *)
Definition clock_ok (st : panel) (e : pevent) : Prop :=
  match e with
  | PSubmit ts =>
      Forall (fun p => (p.2 <= ts)%Z) (map stamp (st_messages (pn_store st)) ++ send_stamps (pn_pending st))
  | PRespond i _ => i = 0%nat
  | _ => True
  end.

Definition clocked_step (st st' : panel) : Prop := ∃ e, clock_ok st e ∧ step st e = Some st'.

(** The panel once [loadChats] has built the list: nothing cached or selected. *)
Definition start (chats : list chat_entry) (s : store) : panel :=
  mkPanel (mkSidebar chats ∅ None) ∅ None [] s.

Lemma sends_loaded_mono (c c' : string -> Prop) l :
  (∀ x, c x -> c' x) -> sends_loaded c l -> sends_loaded c' l.
Proof.
  revert c c'. induction l as [|[d|t] l IH]; intros c c' Hc; cbn; [done| |].
  - intros [Hd Hl]. split; [by apply Hc|exact (IH c c' Hc Hl)].
  - apply IH. intros x [Hx|Hx]; [left; by apply Hc|by right].
Qed.

Lemma sends_loaded_snoc_poll c l t : sends_loaded c l -> sends_loaded c (l ++ [PPoll t]).
Proof.
  revert c. induction l as [|[d|t'] l IH]; intros c; cbn; [done| |apply IH].
  intros [Hd Hl]. split; [done|by apply IH].
Qed.

Lemma sends_loaded_snoc_send c l d :
  sends_loaded c l -> c (mi_taskId d) ∨ PPoll (mi_taskId d) ∈ l -> sends_loaded c (l ++ [PSend d]).
Proof.
  revert c. induction l as [|[d'|t] l IH]; intros c Hl Hd; cbn in *.
  - split; [|done]. destruct Hd as [Hd|Hd]; [done|inversion Hd].
  - destruct Hl as [Hd' Hl]. split; [done|]. apply IH; [done|].
    destruct Hd as [Hd|Hd]; [by left|]. apply elem_of_cons in Hd as [Hd|Hd]; [done|by right].
  - apply IH; [done|]. destruct Hd as [Hd|Hd]; [left; by left|].
    apply elem_of_cons in Hd as [[= ->]|Hd]; [left; by right|by right].
Qed.

Lemma sends_timed_snoc_poll s l t : sends_timed s l -> sends_timed s (l ++ [PPoll t]).
Proof.
  revert s. induction l as [|[d|t'] l IH]; intros s; cbn; [done| |apply IH].
  intros [Hd Hl]. split; [done|by apply IH].
Qed.

Lemma sends_timed_snoc_send s l d :
  sends_timed s l -> Forall (fun p => (p.2 <= mi_timestamp d)%Z) (s ++ send_stamps l) ->
  sends_timed s (l ++ [PSend d]).
Proof.
  revert s. induction l as [|[d'|t] l IH]; intros s Hl Hts; cbn in *.
  - rewrite app_nil_r in Hts. split; [|done]. eapply Forall_impl; [exact Hts|]. by intros p Hp _.
  - destruct Hl as [Hd Hl]. split; [done|]. apply IH; [done|]. by rewrite <-app_assoc.
  - by apply IH.
Qed.

(** The render after a batch establishes the selection's part of the
    invariant when the selection changed. *)
Lemma render_inv prev b :
  inv_core b -> (sb_selected (pn_sb prev) = sb_selected (pn_sb b) -> sel_ok b) ->
  inv (render prev b).
Proof.
  intros (Hc & Hl & Ht) Hs. unfold render. case_bool_decide as Hsel.
  { split; [done|by apply Hs]. }
  unfold selection_effect. cbn [pn_sb set_interval]. destruct (sb_selected (pn_sb b)) as [tid|] eqn:E.
  - destruct (truthy_id (Some tid)) eqn:Htr.
    + split; [split; [|split]|].
      * exact Hc.
      * exact (sends_loaded_snoc_poll _ _ tid Hl).
      * exact (sends_timed_snoc_poll _ _ tid Ht).
      * intros tid' Htid' _. right. cbn in Htid'. rewrite E in Htid'. injection Htid' as <-.
        cbn. apply elem_of_app. right. by constructor.
    + split; [done|]. intros tid' Htid' Hne. cbn in Htid'. rewrite E in Htid'.
      injection Htid' as <-. cbn in Htr. by rewrite bool_decide_true in Htr.
  - split; [done|]. intros tid' Htid'. cbn in Htid'. by rewrite E in Htid'.
Qed.

Lemma no_later_stamps l tid ts :
  no_later (map stamp l) tid ts <-> Forall (fun m => m_taskId m = tid -> (m_timestamp m <= ts)%Z) l.
Proof. unfold no_later. apply List.Forall_map. Qed.

(** Caching a chat only adds to what is cached. *)
Lemma cached_record_loaded st t msgs x :
  cached (set_sb (record_loaded t msgs (pn_sb st)) st) x <-> cached st x ∨ x = t.
Proof. unfold cached. cbn. rewrite lookup_insert_is_Some'. split; [intros [->|H]|intros [H| ->]]; auto. Qed.

Lemma cached_record_sent st sb' t m x :
  cached st x -> cached (set_sb (record_sent t m (pn_sb st)) sb') x.
Proof. unfold cached. cbn. rewrite lookup_insert_is_Some'. by right. Qed.

(** The answer to the oldest call keeps the invariant. *)
Lemma respond_inv st r rest now :
  inv st -> pn_pending st = r :: rest -> inv (respond r now (set_pending rest st)).
Proof.
  intros [(Hc & Hl & Ht) Hs] Hp. rewrite Hp in Hl, Ht. destruct r as [d|t]; cbn [respond].
  - rewrite sendChatMessage_run. cbn in Hl, Ht. destruct Hl as [Hd Hl], Ht as [Hn Ht].
    split; [split; [|split]|].
    + apply (record_sent_coherent (pn_store st) (pn_sb st) d now Hc Hd);
        [by apply no_later_stamps|apply sendChatMessage_run].
    + cbn. eapply sends_loaded_mono; [|exact Hl]. intros x Hx. by apply cached_record_sent.
    + cbn. rewrite map_app. exact Ht.
    + intros tid Hsel Hne. destruct (Hs tid Hsel Hne) as [Hx|Hx]; [left; by apply cached_record_sent|].
      rewrite Hp in Hx. apply elem_of_cons in Hx as [?|Hx]; [done|by right].
  - rewrite getChatMessages_run. cbn in Hl, Ht. split; [split; [|split]|].
    + intros tid msgs Hlook. cbn in Hlook. destruct (decide (tid = t)) as [->|Hne].
      * rewrite lookup_insert_eq in Hlook. injection Hlook as <-. apply getChatMessages_run.
      * rewrite lookup_insert_ne in Hlook by congruence. by apply Hc.
    + eapply sends_loaded_mono; [|exact Hl]. intros x Hx. by apply cached_record_loaded.
    + exact Ht.
    + intros tid Hsel Hne. destruct (Hs tid Hsel Hne) as [Hx|Hx].
      * left. apply cached_record_loaded. by left.
      * rewrite Hp in Hx. apply elem_of_cons in Hx as [[= ->]|Hx]; [|by right].
        left. apply cached_record_loaded. by right.
Qed.

Lemma sel_ok_push st r : sel_ok st -> sel_ok (push r st).
Proof.
  intros Hs tid Hsel Hne. destruct (Hs tid Hsel Hne) as [?|Hx]; [by left|].
  right. cbn. apply elem_of_app. by left.
Qed.

Lemma handle_inv st e b :
  inv st -> clock_ok st e -> handle st e = Some b ->
  inv_core b ∧ (sb_selected (pn_sb st) = sb_selected (pn_sb b) -> sel_ok b).
Proof.
  intros [Hcore Hs] Hclk H. destruct e as [tid| |s|ts| |i now]; cbn [handle clock_ok] in *.
  - case_bool_decide; simplify_eq/=. split; [exact Hcore|]. intros Hsel tid' Hb. apply Hs.
    by rewrite Hsel.
  - destruct (window_shown (pn_sb st)); simplify_eq/=. split; [exact Hcore|]. by intros _ ? ?.
  - destruct (sb_selected (pn_sb st)); [destruct (window_shown (pn_sb st))|]; simplify_eq/=.
    by split.
  - destruct (window_shown (pn_sb st)) eqn:Hw; [|done].
    destruct (window_shown_selected _ Hw) as (tid & Hsel & Hne).
    destruct (bool_decide (trim (draft st) = "")) eqn:Ht; simplify_eq/=.
    unfold submit. rewrite Hsel, Ht. destruct Hcore as (Hc & Hl & Hti).
    split; [split; [|split]|].
    + exact Hc.
    + apply sends_loaded_snoc_send; [exact Hl|exact (Hs tid Hsel Hne)].
    + by apply sends_timed_snoc_send.
    + intros _. by apply sel_ok_push.
  - destruct (pn_interval st) as [tid|]; simplify_eq/=. destruct Hcore as (Hc & Hl & Hti).
    split; [split; [|split]|].
    + exact Hc.
    + exact (sends_loaded_snoc_poll _ _ tid Hl).
    + exact (sends_timed_snoc_poll _ _ tid Hti).
    + intros _. by apply sel_ok_push.
  - subst i. destruct (pn_pending st) as [|r rest] eqn:Hp; simplify_eq/=.
    destruct (respond_inv st r rest now (conj Hcore Hs) Hp) as [Hc' Hs']. by split.
Qed.

Lemma step_inv st e st' : inv st -> clock_ok st e -> step st e = Some st' -> inv st'.
Proof.
  intros Hi Hclk (b & Hb & ->)%panel_step_render.
  destruct (handle_inv st e b Hi Hclk Hb) as [Hcore Hs]. by apply render_inv.
Qed.

(** C33: when the mock API's calls return in the order they were made (all
    wait 200 ms) and the clock is not behind the stored messages when a
    message is sent, the messages the sidebar keeps for every chat it has
    opened are, in every state, exactly what [getChatMessages] returns for
    that chat: polling, sending, switching chats and typing in any order. *)
Theorem panel_coherent chats s st :
  star clocked_step (start chats s) st -> sidebar_coherent (pn_store st) (pn_sb st).
Proof.
  intros Hrun. assert (Hi : inv st).
  { apply (star_invariant clocked_step inv (start chats s) st); [|split; [split; [|split]|]|exact Hrun].
    - intros x y Hx (e & Hclk & He). exact (step_inv x e y Hx Hclk He).
    - intros tid msgs Hlook. cbn in Hlook. by rewrite lookup_empty in Hlook.
    - done.
    - done.
    - by intros tid Hsel. }
  apply Hi.
Qed.

(** ** The list entries *)

(** The second line of a list entry is the last message itself when it
    has at most [n] characters, and otherwise its first [n] characters and
    an ellipsis: never more than [n + 3] characters. *)
Theorem preview_bounded n text :
  (String.length (preview n text) <= n + 3)%nat ∧
  ((String.length text <= n)%nat -> preview n text = text).
Proof.
  unfold preview. case_bool_decide as H.
  - rewrite str_length_app, str_length_prefix by lia. cbn. split; [lia|]. lia.
  - split; [lia|done].
Qed.

(** ** Checked runs *)

#[local] Instance clock_ok_dec st e : Decision (clock_ok st e).
Proof. destruct e; cbn; apply _. Defined.

(** A run whose every event satisfies [clock_ok]. *)
Fixpoint clocked_run (st : panel) (es : list pevent) : option panel :=
  match es with
  | [] => Some st
  | e :: es' =>
      if bool_decide (clock_ok st e) then
        match step st e with Some st' => clocked_run st' es' | None => None end
      else None
  end.

Lemma clocked_run_star st es st' : clocked_run st es = Some st' -> star clocked_step st st'.
Proof.
  revert st. induction es as [|e es IH]; intros st H; cbn in H; [simplify_eq; constructor|].
  case_bool_decide as Hc; [|done]. destruct (step st e) as [st1|] eqn:E; [|done].
  eapply star_cons; [by exists e|exact (IH _ H)].
Qed.

End User.
End Panel.

(** * Concrete runs of the chat window *)

Module PanelExamples.
Import Chat.Chat Panel.

Import ModelExamples.

(** The creator ("3") of task "2" has its chat in the list; the store holds
    the messages of [ChatExamples.chat_store]. *)
Definition chats : list chat_entry := [mkChatEntry "2" (mk_task "2" IN_PROGRESS "3" (Some "2") 30) None].
Definition p0 : panel := start chats ChatExamples.chat_store.

(** Open the chat, let its first poll return, type a reply. *)
Definition opened : list pevent := [PSelect "2"; PRespond 0 250; PType "Thanks"].
Definition p_typed : panel := default p0 (run "3" p0 opened).
Definition p_sending : panel := default p0 (run "3" p0 (opened ++ [PSubmit 2000])).

Lemma submit_twice_witness :
  ∃ st2 d1 d2, step "3" p_sending (PSubmit 2001) = Some st2 ∧
    pn_pending st2 = pn_pending p_typed ++ [PSend d1; PSend d2] ∧
    mi_taskId d1 = mi_taskId d2 ∧ mi_text d1 = mi_text d2.
Proof.
  apply (submit_twice "3" p_typed 2000 2001 p_sending). vm_compute. reflexivity.
Defined.

Lemma send_answer_clears_draft_witness :
  ∃ st', step "3" p_sending (PRespond 0 2100) = Some st' ∧
         pn_drafts st' !! mi_taskId (mkMessageInput "2" "3" "Thanks" 2000) = Some "".
Proof.
  apply (send_answer_clears_draft "3" p_sending 0 (mkMessageInput "2" "3" "Thanks" 2000) 2100).
  vm_compute. reflexivity.
Defined.

(** A run that polls, switches away and back, sends two messages and
    answers everything in order. *)
Definition busy : list pevent :=
  opened ++ [PSubmit 2000; PTick; PBack; PSelect "2"; PType "More"; PSubmit 2001;
             PRespond 0 2100; PRespond 0 2150; PRespond 0 2200; PRespond 0 2250]%Z.
Definition p_busy : panel := default p0 (clocked_run "3" p0 busy).

Lemma panel_coherent_witness : sidebar_coherent (pn_store p_busy) (pn_sb p_busy).
Proof.
  apply (panel_coherent "3" chats ChatExamples.chat_store p_busy).
  apply clocked_run_star with busy. vm_compute. reflexivity.
Defined.

Lemma preview_bounded_witness :
  (String.length (preview 5 "abc") <= 5 + 3)%nat ∧
  ((String.length "abc" <= 5)%nat -> preview 5 "abc" = "abc").
Proof. apply (preview_bounded 5 "abc"). Defined.

(** Two presses before the first message is stored: the chat holds the
    reply twice. *)
Example double_send_stores_twice :
  match run "3" p0 (opened ++ [PSubmit 2000; PSubmit 2001; PRespond 0 2100; PRespond 0 2101]) with
  | Some st => length (filter (fun m => m_text m = "Thanks") (st_messages (pn_store st))) = 2%nat
  | None => False
  end.
Proof. vm_compute. reflexivity. Qed.

(** What is typed while a message is on its way is lost when it arrives. *)
Example typing_lost_on_send :
  match run "3" p0 (opened ++ [PSubmit 2000; PType "Thanks, and"; PRespond 0 2100]) with
  | Some st => draft st = ""
  | None => False
  end.
Proof. vm_compute. reflexivity. Qed.

End PanelExamples.
