(* ===== verification/ProfilePage.v ===== *)
(** * ProfilePage: the profile page and its save in flight

    [Profile.jsx] (src/src/pages) shows the signed-in user and, in edit
    mode, a form of four fields whose [handleSubmit] awaits the context's
    [updateUser] (the mock API waits 300 ms before writing).  While the
    save is on its way the page stays usable: the fields can be typed in
    and "Отмена" leaves the edit mode.  The page is a transition system
    over the form's state ([Forms.profile_form]), the world of the
    contexts ([Client.world]) and the save in flight.  The context's
    [setUser] always stores a new object, so the effect of lines 20-29
    fills the form again after every successful save. *)

From S2P Require Import Prelude Model Accounts Client Forms.
Local Open Scope api_scope.

Module ProfilePage.
Import Forms.

(** ** State and view *)

Inductive field := FName | FEmail | FPhone | FContact.

(** [setFormData({ ...formData, k: e.target.value })] (lines 84-123). *)
Definition set_field (k : field) (s : string) (f : profile_form) : profile_form :=
  match k with
  | FName => mkProfileForm s (pf_email f) (pf_phone f) (pf_contactInfo f) (pf_editing f) (pf_error f) (pf_loading f)
  | FEmail => mkProfileForm (pf_name f) s (pf_phone f) (pf_contactInfo f) (pf_editing f) (pf_error f) (pf_loading f)
  | FPhone => mkProfileForm (pf_name f) (pf_email f) s (pf_contactInfo f) (pf_editing f) (pf_error f) (pf_loading f)
  | FContact => mkProfileForm (pf_name f) (pf_email f) (pf_phone f) s (pf_editing f) (pf_error f) (pf_loading f)
  end.

Definition set_flags (editing : bool) (error : string) (loading : bool) (f : profile_form) : profile_form :=
  mkProfileForm (pf_name f) (pf_email f) (pf_phone f) (pf_contactInfo f) editing error loading.

(** The page: the form, the world, and the save in flight with the id
    and the [formData] it was called with. *)
Record page := mkPage {
  pg_form : profile_form;
  pg_world : world;
  pg_saving : option (string * user_patch)
}.

(** What the page shows out of the edit mode (lines 156-196). *)
Record profile_view := mkView {
  pv_name : string; pv_email : option string; pv_role : string; pv_points : Z;
  pv_phone : option string; pv_contactInfo : option string
}.

(** [{x && (...)}] on an optional text. *)
Definition shown (o : option string) : option string := if truthy_id o then o else None.

Definition view (u : public_user) : profile_view :=
  mkView (pu_name u) (pu_email u)
    (match pu_role u with ADMIN => "Администратор" | USER => "Волонтер" end)
    (or_zero (pu_points u)) (shown (pu_phone u)) (shown (pu_contactInfo u)).

(** The page once mounted: the effect has filled the form from the user. *)
Definition mount (w : world) : page :=
  let f := mkProfileForm "" "" "" "" false "" false in
  mkPage (match c_user (w_client w) with Some u => profile_fill u f | None => f end) w None.

(** ** Events *)

Inductive pevent :=
| PEdit                      (** "Редактировать" (line 61) *)
| PType (k : field) (s : string) (** a field's [onChange] *)
| PSave                      (** the form's [onSubmit] (line 76) *)
| PCancel                    (** "Отмена" (lines 139-148) *)
| PAnswer.                   (** the context's [updateUser] returns or throws *)

(** [handleSubmit] up to its [await] (lines 31-38). *)
Definition save_start (p : page) : page :=
  match c_user (w_client (pg_world p)) with
  | Some u => mkPage (set_flags (pf_editing (pg_form p)) "" true (pg_form p)) (pg_world p)
                (Some (pu_id u, profile_patch (pg_form p)))
  | None => p
  end.

(** The rest of [handleSubmit] (lines 42-47), and on success the effect of
    lines 20-29 for the new user object. *)
Definition save_finish (id : string) (pa : user_patch) (p : page) : page :=
  match Client.updateUser id pa (pg_world p) with
  | Ok u w' => mkPage (profile_fill u (set_flags false (pf_error (pg_form p)) false (pg_form p))) w' None
  | Err e w' =>
      mkPage (set_flags (pf_editing (pg_form p)) (message_or e "Ошибка обновления профиля") false
                (pg_form p)) w' None
  end.

(** The batch an event makes; [None] when it cannot happen: the edit
    button is shown only out of the edit mode, the form only in it, the
    save button is disabled while loading (line 132) and the browser does
    not submit an empty required field (lines 85 and 98). *)
Definition step (p : page) (e : pevent) : option page :=
  let f := pg_form p in
  match e with
  | PEdit => if pf_editing f then None else Some (mkPage (set_flags true (pf_error f) (pf_loading f) f) (pg_world p) (pg_saving p))
  | PType k s => if pf_editing f then Some (mkPage (set_field k s f) (pg_world p) (pg_saving p)) else None
  | PSave =>
      if pf_editing f && negb (pf_loading f) && bool_decide (pf_name f ≠ "" ∧ pf_email f ≠ "")
      then Some (save_start p) else None
  | PCancel =>
      if pf_editing f then
        let f' := set_flags false "" (pf_loading f) f in
        Some (mkPage (match c_user (w_client (pg_world p)) with
                      | Some u => profile_fill u f' | None => f' end) (pg_world p) (pg_saving p))
      else None
  | PAnswer =>
      match pg_saving p with
      | Some (id, pa) => Some (save_finish id pa p)
      | None => None
      end
  end.

Definition page_step (p p' : page) : Prop := ∃ e, step p e = Some p'.

(** The steps that can happen while a save is on its way: all but its answer. *)
Definition waiting_step (p p' : page) : Prop := ∃ e, e ≠ PAnswer ∧ step p e = Some p'.

Fixpoint run (p : page) (es : list pevent) : option page :=
  match es with
  | [] => Some p
  | e :: es' => match step p e with Some p' => run p' es' | None => None end
  end.

(** ** The save *)

Definition form_fields (f : profile_form) : string * string * string * string :=
  (pf_name f, pf_email f, pf_phone f, pf_contactInfo f).

(** The context's [updateUser] with the form's four fields, for a stored
    user: the session and the store get exactly those fields. *)
Lemma updateUser_profile w cu i v f :
  c_user (w_client w) = Some cu -> find_user (pu_id cu) (st_users (w_store w)) = Some (i, v) ->
  ∃ u w', Client.updateUser (pu_id cu) (profile_patch f) w = Ok u w' ∧
    c_user (w_client w') = Some u ∧
    (pu_name u, pu_email u, pu_phone u, pu_contactInfo u) =
      (pf_name f, Some (pf_email f), Some (pf_phone f), Some (pf_contactInfo f)) ∧
    find_user (pu_id cu) (st_users (w_store w')) = Some (i, Accounts.apply_patch (profile_patch f) v).
Proof.
  intros Hcu Hf. pose proof Hf as Hid. apply find_user_some in Hid as [_ Hid].
  unfold Client.updateUser, Client.lift_api, Client.set_user, Client.set_currentUser. api_unfold.
  rewrite Hcu. unfold Accounts.updateUser. store_unfold. rewrite Hf.
  eexists _, _. split; [reflexivity|]. cbn. split_and!; [done|done|].
  unfold find_user in *. eapply list_find_insert_same; [exact Hf|]. cbn. by rewrite Hid.
Qed.

(** The events that may come while a save is on its way leave the save
    and the world alone, and the save button disabled. *)
Lemma waiting_step_saving p p' x :
  pg_saving p = Some x -> pf_loading (pg_form p) = true -> waiting_step p p' ->
  pg_saving p' = Some x ∧ pg_world p' = pg_world p ∧ pf_loading (pg_form p') = true.
Proof.
  intros Hs Hl (e & Hne & He). destruct e as [| k s | | |]; cbn in He.
  - destruct (pf_editing _); simplify_eq/=. done.
  - destruct (pf_editing _); simplify_eq/=. destruct k; done.
  - rewrite Hl, andb_false_r in He. done.
  - destruct (pf_editing _); simplify_eq/=. destruct (c_user _); done.
  - done.
Qed.

Lemma waiting_star_saving p p' x :
  pg_saving p = Some x -> pf_loading (pg_form p) = true -> star waiting_step p p' ->
  pg_saving p' = Some x ∧ pg_world p' = pg_world p.
Proof.
  intros Hs Hl Hrun. cut (pg_saving p' = Some x ∧ pg_world p' = pg_world p ∧ pf_loading (pg_form p') = true);
    [tauto|].
  apply (star_invariant waiting_step
           (fun q => pg_saving q = Some x ∧ pg_world q = pg_world p ∧ pf_loading (pg_form q) = true) p p');
    [|done|exact Hrun].
  intros q q' (Hq & Hw & Hlq) Hstep. destruct (waiting_step_saving q q' x Hq Hlq Hstep) as (? & Hw' & ?).
  split_and!; [done|by rewrite Hw'|done].
Qed.

(** C34: whatever is typed, cancelled or opened again while the profile is
    being saved, once the save returns the page leaves the edit mode and
    the form, the signed-in user and the stored user all hold the four
    values that were submitted: "Отмена" does not cancel a save. *)
Theorem save_roundtrip p p1 p2 cu :
  c_user (w_client (pg_world p)) = Some cu ->
  is_Some (find_user (pu_id cu) (st_users (w_store (pg_world p)))) ->
  step p PSave = Some p1 -> star waiting_step p1 p2 ->
  ∃ p3 u i v, step p2 PAnswer = Some p3 ∧
    pf_editing (pg_form p3) = false ∧ pf_loading (pg_form p3) = false ∧ pg_saving p3 = None ∧
    form_fields (pg_form p3) = form_fields (pg_form p) ∧
    c_user (w_client (pg_world p3)) = Some u ∧
    (pu_name u, pu_email u, pu_phone u, pu_contactInfo u) =
      (pf_name (pg_form p), Some (pf_email (pg_form p)), Some (pf_phone (pg_form p)),
       Some (pf_contactInfo (pg_form p))) ∧
    find_user (pu_id cu) (st_users (w_store (pg_world p3))) = Some (i, v) ∧
    (u_name v, u_email v, u_phone v, u_contactInfo v) =
      (pf_name (pg_form p), Some (pf_email (pg_form p)), Some (pf_phone (pg_form p)),
       Some (pf_contactInfo (pg_form p))).
Proof.
  intros Hcu [[i v] Hf] Hsave Hwait. cbn in Hsave.
  destruct (_ && _ && _); [|done]. injection Hsave as <-. unfold save_start in Hwait |- *.
  rewrite Hcu in Hwait.
  apply (waiting_star_saving _ p2 (pu_id cu, profile_patch (pg_form p))) in Hwait
    as [Hs2 Hw2]; [|done|done]. cbn in Hw2.
  destruct (updateUser_profile (pg_world p) cu i v (pg_form p) Hcu Hf)
    as (u & w' & Hup & Hu & Hfields & Hst).
  cbn. rewrite Hs2. unfold save_finish. rewrite Hw2, Hup.
  injection Hfields as Hn He Hph Hc.
  eexists _, u, i, _. split_and!; try reflexivity; try done.
  - unfold form_fields. cbn. by rewrite Hn, He, Hph, Hc.
  - cbn. by rewrite Hn, He, Hph, Hc.
Qed.

(** When the signed-in user is no longer in the store, the save
    returns with the API's message "Пользователь не найден", re-enables the
    button and changes neither the store nor the session. *)
Theorem save_error_shown p p1 p2 cu :
  c_user (w_client (pg_world p)) = Some cu ->
  find_user (pu_id cu) (st_users (w_store (pg_world p))) = None ->
  step p PSave = Some p1 -> star waiting_step p1 p2 ->
  ∃ p3, step p2 PAnswer = Some p3 ∧ pf_error (pg_form p3) = "Пользователь не найден" ∧
    pf_loading (pg_form p3) = false ∧ pg_saving p3 = None ∧ pg_world p3 = pg_world p.
Proof.
  intros Hcu Hf Hsave Hwait. cbn in Hsave.
  destruct (_ && _ && _); [|done]. injection Hsave as <-. unfold save_start in Hwait.
  rewrite Hcu in Hwait.
  apply (waiting_star_saving _ p2 (pu_id cu, profile_patch (pg_form p))) in Hwait
    as [Hs2 Hw2]; [|done|done]. cbn in Hw2.
  cbn. rewrite Hs2. unfold save_finish. rewrite Hw2.
  unfold Client.updateUser, Client.lift_api. api_unfold. rewrite Hcu.
  unfold Accounts.updateUser. store_unfold. rewrite Hf. eexists. split; [reflexivity|].
  cbn. split_and!; [done|done|done|]. by destruct (pg_world p).
Qed.

End ProfilePage.

(** * Concrete runs of the profile page *)

Module ProfilePageExamples.
Import Forms ProfilePage ClientExamples.

(** User "2" edits the name and e-mail and saves. *)
Definition edited : list pevent := [PEdit; PType FName "Aigerim"; PType FEmail "a@kz"].
Definition p_edited : page := default (mount w_user) (run (mount w_user) edited).
Definition p_saving : page := default (mount w_user) (run (mount w_user) (edited ++ [PSave])).
Definition p_cancelled : page := default (mount w_user) (run (mount w_user) (edited ++ [PSave; PCancel])).

Lemma save_roundtrip_witness :
  ∃ p3 u i v, step p_cancelled PAnswer = Some p3 ∧
    pf_editing (pg_form p3) = false ∧ pf_loading (pg_form p3) = false ∧ pg_saving p3 = None ∧
    form_fields (pg_form p3) = form_fields (pg_form p_edited) ∧
    c_user (w_client (pg_world p3)) = Some u ∧
    (pu_name u, pu_email u, pu_phone u, pu_contactInfo u) =
      (pf_name (pg_form p_edited), Some (pf_email (pg_form p_edited)),
       Some (pf_phone (pg_form p_edited)), Some (pf_contactInfo (pg_form p_edited))) ∧
    find_user "2" (st_users (w_store (pg_world p3))) = Some (i, v) ∧
    (u_name v, u_email v, u_phone v, u_contactInfo v) =
      (pf_name (pg_form p_edited), Some (pf_email (pg_form p_edited)),
       Some (pf_phone (pg_form p_edited)), Some (pf_contactInfo (pg_form p_edited))).
Proof.
  apply (save_roundtrip p_edited p_saving p_cancelled
           (strip_password (ModelExamples.mk_user "2" "user1" USER (Some 10%Z)))).
  - reflexivity.
  - vm_compute. by eexists.
  - vm_compute. reflexivity.
  - apply star_one. exists PCancel. split; [discriminate|]. vm_compute. reflexivity.
Defined.

(** The same session against a store without user "2". *)
Definition w_gone : world :=
  mkWorld (mkStore [] (st_tasks ModelExamples.demo) []) (w_client w_user).
Definition g_edited : page := default (mount w_gone) (run (mount w_gone) edited).
Definition g_saving : page := default (mount w_gone) (run (mount w_gone) (edited ++ [PSave])).

Lemma save_error_shown_witness :
  ∃ p3, step g_saving PAnswer = Some p3 ∧ pf_error (pg_form p3) = "Пользователь не найден" ∧
    pf_loading (pg_form p3) = false ∧ pg_saving p3 = None ∧ pg_world p3 = pg_world g_edited.
Proof.
  apply (save_error_shown g_edited g_saving g_saving
           (strip_password (ModelExamples.mk_user "2" "user1" USER (Some 10%Z)))).
  - reflexivity.
  - reflexivity.
  - vm_compute. reflexivity.
  - apply star_refl.
Defined.

(** "Отмена" pressed during the save: the page leaves the edit mode with
    the old name, and the answer then stores and shows the new one. *)
Example cancel_then_saved :
  pf_name (pg_form p_cancelled) = "user1" ∧
  match step p_cancelled PAnswer with
  | Some p3 => pf_name (pg_form p3) = "Aigerim" ∧ pf_editing (pg_form p3) = false
  | None => False
  end.
Proof. vm_compute. auto. Qed.

End ProfilePageExamples.
