(* ===== verification/TaskChat.v ===== *)
(** * TaskChat: the chat of a task page (Chat.jsx) as a transition system

    [Chat.jsx] (src/src/components), shown by the route [/chat/:taskId]
    of App.jsx, loads the other party and the task's messages when it
    mounts ([loadChat], two awaited calls of the mock API) and sends the
    typed text ([handleSendMessage]).  Its state is the four [useState]s,
    the calls in flight and the store; the signed-in user's id, the route's
    task id and the task TaskContext holds are fixed for a run.  [Chat]
    models [loadChat] as one call; [load_refines] shows the step-by-step
    model computes the same result.  Dates, avatars and the scrolling
    effect (lines 48-50) are not modelled. *)

From S2P Require Import Prelude Model Accounts Chat.

Module TaskChat.
Import Chat.Chat.

(** What the page shows (lines 73-88): no task or no user, a task nobody
    has taken, or the chat with its form. *)
Inductive screen := NotFound | NotTaken | ChatShown.

#[export] Instance screen_eq_dec : EqDecision screen.
Proof. solve_decision. Defined.

Definition chat_screen (uid : string) (t : option task) : screen :=
  match t with
  | None => NotFound
  | Some t =>
      let other := if bool_decide (uid = t_createdBy t) then t_assignedTo t
                   else Some (t_createdBy t) in
      if truthy_id other then ChatShown else NotTaken
  end.

(** A call of the mock API in flight. *)
Inductive treq :=
| TUsers (otherId : option string) (** [await mockApi.getUsers()] (line 30) *)
| TMessages                        (** [await mockApi.getChatMessages(taskId)] (line 36) *)
| TSend (d : message_input).       (** [await mockApi.sendChatMessage(messageData)] (line 64) *)

Record tchat := mkTChat {
  tc_messages : list message; tc_newMessage : string; tc_loading : bool;
  tc_other : option public_user; tc_pending : list treq; tc_store : store
}.

Definition set_messages (l : list message) (st : tchat) : tchat :=
  mkTChat l (tc_newMessage st) (tc_loading st) (tc_other st) (tc_pending st) (tc_store st).
Definition set_newMessage (s : string) (st : tchat) : tchat :=
  mkTChat (tc_messages st) s (tc_loading st) (tc_other st) (tc_pending st) (tc_store st).
Definition set_loading (b : bool) (st : tchat) : tchat :=
  mkTChat (tc_messages st) (tc_newMessage st) b (tc_other st) (tc_pending st) (tc_store st).
Definition set_other (o : option public_user) (st : tchat) : tchat :=
  mkTChat (tc_messages st) (tc_newMessage st) (tc_loading st) o (tc_pending st) (tc_store st).
Definition set_pending (l : list treq) (st : tchat) : tchat :=
  mkTChat (tc_messages st) (tc_newMessage st) (tc_loading st) (tc_other st) l (tc_store st).
Definition set_store (s : store) (st : tchat) : tchat :=
  mkTChat (tc_messages st) (tc_newMessage st) (tc_loading st) (tc_other st) (tc_pending st) s.
Definition push (r : treq) (st : tchat) : tchat := set_pending (tc_pending st ++ [r]) st.

Inductive tevent :=
| TType (s : string)           (** the input's [onChange] (line 156) *)
| TSubmit (timestamp : Z)      (** the form's [onSubmit] at that clock *)
| TRespond (i : nat) (now : Z). (** the [i]-th call in flight returns, at [now] *)

Section Page.

Variable uid taskId : string.
Variable t : task.

(** The first render and the effect of lines 13-46: for a participant,
    [setLoading(true)] and the first call; for anybody else an early
    [return], whose [finally] clears the flag again. *)
Definition mount (s : store) : tchat :=
  let st := mkTChat [] "" false None [] s in
  match otherUserId uid t with
  | None => st
  | Some o => set_loading true (push (if truthy_id o then TUsers o else TMessages) st)
  end.

(** What the answer to a call does. *)
Definition respond (r : treq) (now : Z) (st : tchat) : tchat :=
  match r with
  | TUsers o =>
      match Accounts.getUsers (tc_store st) with
      | Ok users _ =>                                                (* lines 31-32 *)
          push TMessages (set_other (option_map snd (list_find (fun u => Some (pu_id u) = o) users)) st)
      | Err _ _ => set_loading false st
      end
  | TMessages =>
      match getChatMessages taskId (tc_store st) with
      | Ok msgs _ => set_loading false (set_messages msgs st)        (* lines 37, 41 *)
      | Err _ _ => set_loading false st
      end
  | TSend d =>
      match sendChatMessage d now (tc_store st) with
      | Ok m s' => set_newMessage "" (set_messages (tc_messages st ++ [m]) (set_store s' st))
      | Err _ _ => st                                                (* lines 67-69 *)
      end
  end.

(** [handleSendMessage] up to its [await] (lines 52-64). *)
Definition submit (timestamp : Z) (st : tchat) : tchat :=
  if bool_decide (trim (tc_newMessage st) = "") then st
  else push (TSend (mkMessageInput taskId uid (trim (tc_newMessage st)) timestamp)) st.

(** One event; the form exists only on the chat screen and its button is
    disabled for a blank text (line 163). *)
Definition step (st : tchat) (e : tevent) : option tchat :=
  match e with
  | TType s => if bool_decide (chat_screen uid (Some t) = ChatShown)
               then Some (set_newMessage s st) else None
  | TSubmit ts =>
      if bool_decide (chat_screen uid (Some t) = ChatShown) && negb (bool_decide (trim (tc_newMessage st) = ""))
      then Some (submit ts st) else None
  | TRespond i now =>
      match tc_pending st !! i with
      | Some r => Some (respond r now (set_pending (delete i (tc_pending st)) st))
      | None => None
      end
  end.

Fixpoint run (st : tchat) (es : list tevent) : option tchat :=
  match es with
  | [] => Some st
  | e :: es' => match step st e with Some st' => run st' es' | None => None end
  end.

(** Answer the oldest call, [n] times. *)
Fixpoint settle (n : nat) (st : tchat) : tchat :=
  match n with
  | O => st
  | S n' => match tc_pending st with
            | r :: rest => settle n' (respond r 0 (set_pending rest st))
            | [] => st
            end
  end.


(** ** What the chat screen shows (lines 90-169) *)

(** The list's content: the loading text, the empty-chat text, or the
    bubbles, each with its text, whether it is the user's own (the side
    and colour of lines 119-130) and its time. *)
Inductive body := BLoading | BEmpty | BMessages (l : list (string * bool * Z)).

Record chat_view := mkChatView {
  cv_name : string;          (** [otherUser?.name || 'Пользователь'] (line 100) *)
  cv_title : string;         (** [task.title] (line 103) *)
  cv_body : body;            (** lines 111-147 *)
  cv_send_enabled : bool     (** [disabled={!newMessage.trim()}] (line 163) *)
}.

Definition bubble (m : message) : string * bool * Z :=
  (m_text m, bool_decide (m_senderId m = uid), m_timestamp m).

Definition view (st : tchat) : chat_view :=
  mkChatView
    (match tc_other st with
     | Some u => if bool_decide (pu_name u = "") then "Пользователь" else pu_name u
     | None => "Пользователь"
     end)
    (c_title (t_content t))
    (if tc_loading st then BLoading
     else match tc_messages st with [] => BEmpty | ms => BMessages (map bubble ms) end)
    (negb (bool_decide (trim (tc_newMessage st) = ""))).

(** ** Properties *)

(** The page's loading, answered call by call in order, computes what
    [Chat.loadChat] computes in one call: the other party, looked up when
    its id is truthy, and the task's messages; the flag is down and the
    store unchanged at the end. *)
Theorem load_refines s :
  let st := settle 2 (mount s) in
  tc_pending st = [] ∧ tc_loading st = false ∧ tc_store st = s ∧
  match loadChat uid taskId t s with
  | Ok (Some (o, msgs)) _ => tc_other st = o ∧ tc_messages st = msgs
  | Ok None _ => tc_other st = None ∧ tc_messages st = []
  | Err _ _ => False
  end.
Proof.
  unfold mount, loadChat. destruct (otherUserId uid t) as [o|]; [|done].
  destruct (truthy_id o); cbn; done.
Qed.

(** C36: a signed-in user who takes no part in a task, opening its chat
    page, is shown the chat form ([otherUserId] on line 81 falls back to
    the creator), and a message typed there is stored in the task's chat
    under that user's id: only the loading (line 26) checks participation. *)
Theorem outsider_posts s text ts now :
  otherUserId uid t = None -> t_createdBy t ≠ "" -> trim text ≠ "" ->
  chat_screen uid (Some t) = ChatShown ∧
  ∃ st, run (mount s) [TType text; TSubmit ts; TRespond 0 now] = Some st ∧
        ∃ m, m ∈ st_messages (tc_store st) ∧ m_taskId m = taskId ∧ m_senderId m = uid ∧
             m_text m = trim text.
Proof.
  intros Hout Hc Ht. unfold otherUserId in Hout.
  assert (Hne : uid ≠ t_createdBy t) by (intros He; rewrite bool_decide_true in Hout by done; done).
  assert (Hscreen : chat_screen uid (Some t) = ChatShown).
  { cbn. rewrite bool_decide_false by done. cbn. by rewrite bool_decide_true. }
  split; [done|]. unfold mount. unfold otherUserId. rewrite Hout.
  cbn [run step]. rewrite Hscreen, !(bool_decide_true (ChatShown = ChatShown)) by done.
  cbn [set_newMessage tc_newMessage andb negb].
  rewrite (bool_decide_false (trim text = "")) by done. cbn [negb].
  unfold submit. cbn [tc_newMessage set_newMessage].
  rewrite (bool_decide_false (trim text = "")) by done.
  cbn.
  eexists. split; [reflexivity|]. eexists. split; [cbn; apply elem_of_app; right; by constructor|].
  done.
Qed.

(** C35: on the chat screen, once nothing is loading or in flight, a text
    typed and sent comes back, when the call returns, as the last bubble of
    the list: the trimmed text, on the user's own side, with the time of
    the submission; the input is emptied, so the send button is disabled
    again. *)
Theorem sent_shown st0 text ts now :
  chat_screen uid (Some t) = ChatShown -> trim text ≠ "" ->
  tc_loading st0 = false -> tc_pending st0 = [] ->
  ∃ st, run st0 [TType text; TSubmit ts; TRespond 0 now] = Some st ∧
        cv_body (view st) = BMessages (map bubble (tc_messages st0) ++ [(trim text, true, ts)]) ∧
        cv_send_enabled (view st) = false.
Proof.
  intros Hscreen Ht Hl Hp. cbn [run step]. rewrite Hscreen, bool_decide_true by done.
  cbn [set_newMessage tc_newMessage andb negb]. rewrite (bool_decide_false (trim text = "")) by done.
  unfold submit. cbn [tc_newMessage set_newMessage negb].
  rewrite (bool_decide_false (trim text = "")) by done.
  unfold push. destruct st0 as [ms nm lo ot pe sto]; simpl in Hl, Hp |- *. subst lo pe. simpl.
  eexists. split; [reflexivity|]. unfold view. simpl. split.
  - assert (Hb : ∀ m, m_senderId m = uid -> bubble m = (m_text m, true, m_timestamp m)).
    { intros m Hm. unfold bubble. by rewrite bool_decide_true. }
    destruct ms as [|m0 ms]; simpl; rewrite ?map_app; simpl; erewrite (Hb (mkMessage _ _ _ _ _)); done.
  - done.
Qed.

End Page.
End TaskChat.

(** * Concrete runs of the task chat *)

Module TaskChatExamples.
Import Chat.Chat TaskChat ModelExamples.

(** Task "1" is OPEN, created by "3" and taken by nobody; user "2" opens
    [/chat/1]. *)
Definition t1 : task := mk_task "1" OPEN "3" None 50.

Lemma outsider_posts_witness :
  chat_screen "2" (Some t1) = ChatShown ∧
  ∃ st, run "2" "1" t1 (mount "2" t1 ChatExamples.chat_store)
          [TType " hello "; TSubmit 3000; TRespond 0 3100] = Some st ∧
        ∃ m, m ∈ st_messages (tc_store st) ∧ m_taskId m = "1" ∧ m_senderId m = "2" ∧
             m_text m = trim " hello ".
Proof.
  apply (outsider_posts "2" "1" t1 ChatExamples.chat_store " hello " 3000 3100).
  - reflexivity.
  - discriminate.
  - vm_compute. discriminate.
Defined.

(** The creator "3" of task "2" (taken by "2") loads the chat: user "2"
    and the three messages of the task, in time order. *)
Example creator_loads_chat :
  let st := settle "2" 2
              (mount "3" (mk_task "2" IN_PROGRESS "3" (Some "2") 30) ChatExamples.chat_store) in
  option_map pu_id (tc_other st) = Some "2" ∧ length (tc_messages st) = 3%nat ∧ tc_loading st = false.
Proof. vm_compute. auto. Qed.

(** The creator "3" of task "2" (taken by "2"), once the chat is loaded,
    sends " hi ". *)
Definition t2 : task := mk_task "2" IN_PROGRESS "3" (Some "2") 30.
Definition loaded : tchat := settle "2" 2 (mount "3" t2 ChatExamples.chat_store).

Lemma sent_shown_witness :
  chat_screen "3" (Some t2) = ChatShown ∧ trim " hi " ≠ "" ∧
  tc_loading loaded = false ∧ tc_pending loaded = [] ∧
  ∃ st, run "3" "2" t2 loaded [TType " hi "; TSubmit 5000; TRespond 0 5100] = Some st ∧
        cv_body (view "3" t2 st) =
          BMessages (map (bubble "3") (tc_messages loaded) ++ [(trim " hi ", true, 5000%Z)]) ∧
        cv_send_enabled (view "3" t2 st) = false.
Proof.
  assert (H1 : chat_screen "3" (Some t2) = ChatShown) by reflexivity.
  assert (H2 : trim " hi " ≠ "") by (vm_compute; discriminate).
  assert (H3 : tc_loading loaded = false) by reflexivity.
  assert (H4 : tc_pending loaded = []) by reflexivity.
  split; [exact H1|]. split; [exact H2|]. split; [exact H3|]. split; [exact H4|].
  exact (sent_shown "3" "2" t2 loaded " hi " 5000 5100 H1 H2 H3 H4).
Defined.

(** While the messages load, the list shows the loading text; a chat
    without messages shows the invitation to start. *)
Example loading_then_empty :
  cv_body (view "3" t2 (mount "3" t2 ChatExamples.chat_store)) = BLoading ∧
  cv_body (view "2" t1 (settle "1" 2 (mount "2" t1 ChatExamples.chat_store))) = BEmpty.
Proof. vm_compute. auto. Qed.

End TaskChatExamples.
